(* ===== verification/_CoqProject ===== *)
-Q . S2P
Prelude.v
Strconv.v
WeChat.v
Utils.v
Redis.v
Models.v
Durable.v
World.v
Scan.v
Articles.v
Likes.v
ArticleFlows.v
Rank.v
Reservation.v
Items.v
Consumer.v
CodeStore.v
Login.v
Profile.v
Records.v
Middleware.v
Controllers.v
TxTyping.v
Tokens.v
App.v
