(* ===== verification/Prelude.v ===== *)
(** * A verification development for the hcl community-service backend

    The Go program under [src/] is a gin web backend over three stores:
    Redis (through go-redis), MySQL (through GORM) and RabbitMQ.  Its
    core is a cache-backed counter engine for article likes
    ([internal/article]) and an inventory reservation engine for
    limited-capacity items with a queue consumer ([internal/user]).
    Handlers are methods of repositories (one per store) composed by
    services; goroutines repopulate the cache and reconcile counters.

    ** How the program is modelled (shallow embedding)

    - [Prelude] (this file): [res] for Go's [(value, err)], a
      state-and-error monad [stM] with the notations [x <- m ;; k] and
      [m ;; k] (scope [hcl_scope]), [catch] for Go's [if err != nil]
      recovery paths, [attempt] for one request among many, the hint
      databases [hcl] and [hcl_run], the tactic [mstep] that steps a
      run with an equation about its first computation, [preserves] (a
      state invariant kept by a computation, with its combinators), and
      list lemmas.
    - [Strconv]: [strconv.Itoa]/[Atoi] (64-bit range check), Redis's
      strict integer reader, [strings.Split]; round trips
      [Atoi_Itoa], [redis_int_Itoa].
    - [WeChat]: [GetAccessToken] and [CheckContentSecurity] of
      common/utils/utils.go, with HTTP, [io.ReadAll] and
      [encoding/json] as the interface [WeChatHttp].
    - [Utils]: [Substring] of [common/utils] with Go's UTF-8 decoding
      ([runes], invalid bytes become U+FFFD) and encoding written with
      [Z.land], [Z.lor] and shifts, the phone helpers, and the bit-level
      lemmas ([lor_add]) that turn the masks and shifts into arithmetic.
    - [Redis]: the Redis server as a typed keyspace ([gmap string
      rvalue]) with the TTL set; one [cmd] per command the code issues
      (HSET, HINCRBY, SADD, SREM, SCAN, EXPIRE, ZINTERSTORE, ...); empty
      collections are deleted as Redis does, so every command keeps the
      keyspace well formed ([redis_wf], typeclass [PreservesWf]), which
      the like theorems assume of the initial keyspace.
    - [Models]: one Module per Go struct with its field names; the class
      [TimeCodec] for the RFC 3339 encoding go-redis uses for times.
    - [Durable]: the MySQL tables and the statements GORM issues
      (Create with auto-increment, UPDATE reporting changed rows).
    - [World]: what a handler runs against (cache, tables, open
      transaction, queue, clock, spawned goroutines) and the monad [M].
      Every external call takes the next entry of a fault oracle
      ([NoFault], [FailBefore] = request lost, [FailAfter] = reply lost),
      so quantifying over the oracle covers every infrastructure
      failure; [Strict] handlers are those on which any fault is an
      error, so that an Ok reply is a fault-free run.
    - [Scan]: the cursor loop of [GetAllItems] and
      [GetAllArticlesFromHash] ([scan_loop]): one [SCAN cursor MATCH p
      COUNT 0] per page of 10 keys ([SCAN_cursor] in [Redis]), the body
      on the page, the next cursor, with fuel.
    - [Articles]: [ArticleCacheRepository], [ArticleRepository],
      [ArticleService] of [internal/article], method by method.
    - [Likes]: the like contract of spec §4.1 as an abstract counter
      ([like_step]) and the refinement of AddLikes/RemoveLikes against it.
    - [ArticleFlows]: the reconciliation tick, the update flow with its
      double delete, and the behaviour after the full projection expires.
    - [Rank]: the follow and fan sets, the user like counter and
      [GetLikesRank] of [internal/user] ([UserCacheRepository],
      [UserRepository], [UserService], one Module each), with the
      abstract rank of spec §4.2 ([rank_map], [rank_spec]) and the
      invariant that the follow and fan sets mirror the [user_follow]
      table ([follow_inv]).
    - [Reservation]: [UserCacheRepository.ChooseItem]'s Lua script as one
      atomic [cmd], its Go reply switch, [UserRepository] and
      [UserService] (AddItem, ChooseItem, ChooseItemPublisher); the
      abstract check-and-decrement [try_reserve] of spec §4.3.
    - [Items]: the item listing [UserCacheRepository.GetAllItems] (SCAN
      of [hcl:user:item:*:info], HGETALL and the field parsing of each
      hash) with its service wrap, and the invariant [items_cached]
      relating the cached hashes to a map of items.
    - [Consumer]: [AddChooseItemConsumer] (window checks, spawn) and its
      goroutine as a step relation [cstep] on an explicit state (phase
      Sleeping / Listening / Stopped / Crashed, the messages the broker
      has pushed, ghost logs of deliveries and handled messages),
      interleaved with clock ticks, producers and any other request that
      keeps clock and queue (the class [KeepsClockQueue]); each message
      is parsed and applied with the durable [ChooseItem].
    - [CodeStore]: [UserMemoryDBRepository] (codeMap, timerMap) with Go's
      timers made explicit (armed with a deadline, fired, stopped, run);
      [AddCode], [ValidateCode] and the timer callbacks as the step
      relation [code_step], and traces of events ([code_run]) that run
      as executions of it.
    - [Login]: [SendCode] and [Login] of user_service.go with the
      registration loop over generated names and the deferred commit.
    - [Profile]: [GetUserByID], [AddAdminByPhoneNumber] and
      [UpdateUserInfo] with GORM's [Updates] of the non-zero fields.
    - [Records]: [AddScore], [AddPhoneRecord] (the latest score record
      of the manager, the rated user, the new phone record),
      [GetPhoneRecordByPhone] and [GetFollows], with the repository and
      service wraps as [ErrWrap] values; the [score_record] and
      [phone_record] tables are part of [Durable].
    - [Middleware]: [HandleUserError] with the order of the Go map
      [range] as an argument, and the JWT guards of user_utils.go over
      any behaviour of the JWT library (a Section variable).
    - [Controllers]: the handlers of user_controller.go and
      article_controller.go composed with the services above, the
      configuration values they read, and the route table of
      router.go: [Router.serve] runs a route's middleware, then its
      handler, on the code store and the world.
    - [TxTyping]: the typing judgement [TxTyped pre ok err] of the
      transaction state (is a MySQL transaction open before, after a
      value, after an error), with one type-class instance per
      primitive and combinator; every service, loop, handler and
      goroutine gets its type by search or induction.
    - [Tokens]: [GenAccessToken] and [GenerateRandomUsername] of
      user_utils.go; golang-jwt as the class [JwtLibrary] (sign, parse
      at a time, and the three behaviours the guards rely on), with a
      toy instance [toy_jwt] for the witnesses.
    - [App]: configs/config.go ([GetConfig] and its structs,
      [ValidateArticleKind]), initial/ ([InitMysql] with its pool
      settings and its panic, [InitRedis]), the constructors that carry
      configuration ([NewUserService], [NewUserController]) and main.go:
      [main]'s fatal and panic paths and the ticker goroutine it
      starts, [server] (the router wired to
      [GetConfig]) and the running process as the step relation
      [app_step] (requests, ticks, article goroutines, consumer
      messages, time) in any interleaving.

    ** What the theorems show

    - Reservation: the script refines [try_reserve]; over any sequence of
      script runs (Redis runs scripts without interleaving) at most N
      users win and each once, and stock is conserved; the reply switch
      on every branch, including that a sold-out item is reported as
      already chosen and an unknown item as a nil reply; the durable
      transaction commits one row and is not idempotent.  The listing
      reads back what [AddItem] cached and, after a reservation, shows
      the item with one unit less.
    - Likes: without faults AddLikes/RemoveLikes refine the abstract
      like/unlike and touch no other key; any sequence of requests keeps
      both counters equal to the number of likers; like then unlike
      restores the world exactly; a double like counts once; under any
      faults an Ok reply means a complete like; and, by exact runs under
      given fault patterns, the compensation, its failure, the divergence
      when a reply is lost, and the double count when the membership
      write is lost.
    - Article flows: a reconciliation tick writes every cached counter to
      its row in one transaction; UpdateArticle panics when the full
      projection has expired; a like after expiry makes the article
      unreadable; after an update the next read fails until the
      re-population goroutine has run, and then returns the stored row.

    - Rank: without faults [GetLikesRank] refines the abstract rank (the
      followed users with a count and the user itself, each once, ranks
      1..n, likes non-increasing); under any faults a returned rank
      lists the user and is numbered 1..n in descending order; a lost
      [ZSCORE] ranks the user at 0 likes.  AddFollows and RemoveFollows
      keep the sets mirroring the table without faults, and a lost fan
      write breaks the mirror for good.  [GetCommonFollows] returns
      follows(u) ∩ fans(o).  The user like counter counts every call and
      keeps a like the database rolled back.
    - Consumer: in every interleaving, each message drained by an
      accepted consumer is drained within [begin, end] and after it was
      published; a published message is applied for exactly its pair;
      a window with begin after end is accepted and drains after end;
      messages pushed but not handled at the stop are lost.
    - Code store: in every interleaving a successful [ValidateCode]
      accepts only the code last sent to the phone; on the explicit
      trace [reuse_trace] the timer [ValidateCode] left running fires
      and deletes the next code, unused and before its own deadline.
    - Login and profile: registration then lookup by phone finds the new
      user; a lost deferred commit still logs the user in; promoting a
      super administrator demotes them, and an unknown phone panics;
      [UpdateUserInfo] writes exactly the non-zero fields; a score
      record filed last decides the next phone record.
    - HTTP edge: the status depends on the map order when a message
      names two codes (every rejected add-item-consumer request); admin
      routes admit only roles
      1 and 2 and never run their handler otherwise; [PUT /user] lets
      any user become a super administrator; an expired token gets 403
      on admin routes; a bad item id still reserves item 0; a failed
      login commit is answered with the non-HTTP status 9999, and so is
      a phone record for a manager without score records; any logged-in
      user can post the score record that decides an administrator's
      next phone record.
    - Typing of the transaction state: every [Begin] is closed by a
      [Commit] or a [Rollback] on every path under every fault, so no
      state the process reaches holds an open transaction.
    - Tokens and configuration: a token [GenAccessToken] signs is
      admitted with its id until it expires, by the admin guards
      exactly for roles 1 and 2 (resp. 2); with the secret [GetConfig]
      hard-codes anyone can forge a role-2 token and promote any phone
      number on the deployed server; [GenerateRandomUsername] returns
      [user_] and [length - 5] charset bytes, and panics on an empty
      charset; the configuration agrees with the constants the
      handlers read.
    - Cursor loops: [scan_loop] terminates with one unit of fuel per
      page under any faults (more fuel changes nothing, the fuel error
      never appears), and without faults both cursor loops equal the
      single [SCAN] of every matching key the other theorems use.
    - Consumer progress: a listening consumer can always push and
      handle every pending message, in order, before its stop.
    - [Substring s n] decodes to exactly the first [n] runes of [s]
      (through the lemmas that every decoded rune is a Unicode scalar
      value and that decoding inverts encoding on scalar values).

    ** Bounds and fuel

    Integers are [Z] with the 64-bit checks written where the code has
    them ([Atoi], [HINCRBY]); sorted-set scores are integers (exact as
    doubles below 2^53).  Loops over lists are structural, and the
    ticker loop [PeriodicUpdateLikes] takes the number of elapsed ticks.
    The SCAN cursor loop, whose Go [for] has no bound, takes fuel: one
    unit per call of [SCAN], and [scan_loop_terminates] shows that
    [max 1 (ceil (keys / 10))] units are enough (each call scans 10 keys
    of the keyspace, which the loop body does not change), so the fuel
    error [LoopFuel] is never the result.  The goroutines that never return (the consumer
    loop, the timers) are step relations, so their properties hold of
    every finite run; the registration loop is bounded by its five
    names.  Times are integers (seconds); timers fire exactly at their
    deadline, the one assumption on scheduling.

    ** Not modelled

    The connections of [InitMysql] and [InitRedis] are the stores of
    [World]; the repositories' constructors only hold them.  [timeAgo]
    (utils.go) has no caller and decides on float64 [Duration.Hours()],
    whose rounding near its thresholds would need IEEE arithmetic;
    [GenRefreshToken] and [RefreshToken] (user_utils.go) are commented
    out in the source; the remaining lines are package headers,
    imports and the constructors of the repositories;
    JWT signing and parsing are the interface [JwtLibrary], JSON binding
    and the texts of strconv, time and driver errors inputs of the
    handlers; GORM, go-redis and amqp themselves are not code of the
    repository (their effect is modelled in [Durable], [Redis] and
    [World]); [configs.CHARACTER_SET] and the DSN constants are not in
    the repository (parameters).  The other theorems about the listings
    use the single [SCAN]; [Scan] relates it to the cursor loop without
    faults, and under faults the loop draws one fault per page where
    the single [SCAN] draws one.  Logging is left out.  The repository wraps
    with [%w] of Articles.v, Rank.v and Reservation.v, which add no
    status code, are not tracked in error values; the services of
    Rank.v and Reservation.v get their service wrap at the handler.

    This file holds what every component shares: the monad, tactics,
    hint databases and generic lemmas. *)

From stdpp Require Export base gmap strings list pretty.
From Stdlib Require Export ZArith Ascii.

Declare Scope hcl_scope.
Delimit Scope hcl_scope with hcl.
Open Scope hcl_scope.

Create HintDb hcl.
Create Rewrite HintDb hcl_run.

(** ** Results of fallible Go calls

    A Go call [(v, err)] either returns a value or an error; [res E A]
    records which one. *)
Inductive res (E A : Type) : Type :=
| Ok (a : A)
| Err (e : E).
Arguments Ok {E A} a.
Arguments Err {E A} e.

Definition is_ok {E A} (r : res E A) : bool :=
  match r with Ok _ => true | Err _ => false end.

(** ** The state-and-error monad

    [stM S E A] threads a state [S] (the world the Go code talks to)
    and may stop with an error [E].  An error leaves the state as it was
    at the point of failure: the effects of the calls that succeeded
    before it stay, as in Go, where nothing is undone unless the code
    undoes it. *)
Definition stM (S E A : Type) : Type := S -> res E A * S.

Section Monad.
Context {S E : Type}.

Definition ret {A} (a : A) : stM S E A := fun s => (Ok a, s).

Definition bind {A B} (m : stM S E A) (k : A -> stM S E B) : stM S E B :=
  fun s => match m s with
           | (Ok a, s') => k a s'
           | (Err e, s') => (Err e, s')
           end.

Definition throw {A} (e : E) : stM S E A := fun s => (Err e, s).

(** [catch m h] runs [h] on the error of [m], in the state [m] left:
    the shape of Go's [if err != nil { ...; return ... }]. *)
Definition catch {A} (m : stM S E A) (h : E -> stM S E A) : stM S E A :=
  fun s => match m s with
           | (Ok a, s') => (Ok a, s')
           | (Err e, s') => h e s'
           end.

Definition get : stM S E S := fun s => (Ok s, s).
Definition put (s : S) : stM S E unit := fun _ => (Ok tt, s).
Definition modify (f : S -> S) : stM S E unit := fun s => (Ok tt, f s).

Definition run_val {A} (m : stM S E A) (s : S) : res E A := fst (m s).
Definition run_st {A} (m : stM S E A) (s : S) : S := snd (m s).

(** The outcome of a computation as a value: one request among many,
    whose error does not stop the next. *)
Definition attempt {A} (m : stM S E A) : stM S E (res E A) := fun s =>
  let '(r, s') := m s in (Ok r, s').
End Monad.

Notation "x <- m ;; k" := (bind m (fun x => k))
  (at level 100, m at next level, right associativity) : hcl_scope.
Notation "m ;; k" := (bind m (fun _ => k))
  (at level 100, right associativity) : hcl_scope.

(** ** Monad laws, pointwise *)
Section MonadLaws.
Context {S E : Type}.

Lemma bind_ret_l {A B} (a : A) (k : A -> stM S E B) s :
  bind (ret a) k s = k a s.
Proof. reflexivity. Qed.

Lemma bind_ret_r {A} (m : stM S E A) s : bind m ret s = m s.
Proof. unfold bind, ret. by destruct (m s) as [[] ?]. Qed.

Lemma bind_assoc {A B C} (m : stM S E A) (k : A -> stM S E B)
      (k' : B -> stM S E C) s :
  bind (bind m k) k' s = bind m (fun a => bind (k a) k') s.
Proof. unfold bind. by destruct (m s) as [[] ?]. Qed.

Lemma bind_throw {A B} (e : E) (k : A -> stM S E B) s :
  bind (throw e) k s = (Err e, s).
Proof. reflexivity. Qed.

Lemma bind_ok {A B} (m : stM S E A) (k : A -> stM S E B) s a s' :
  m s = (Ok a, s') -> bind m k s = k a s'.
Proof. unfold bind. by intros ->. Qed.

Lemma bind_err {A B} (m : stM S E A) (k : A -> stM S E B) s e s' :
  m s = (Err e, s') -> bind m k s = (Err e, s').
Proof. unfold bind. by intros ->. Qed.

Lemma catch_ok {A} (m : stM S E A) h s a s' :
  m s = (Ok a, s') -> catch m h s = (Ok a, s').
Proof. unfold catch. by intros ->. Qed.

Lemma catch_err {A} (m : stM S E A) h s e s' :
  m s = (Err e, s') -> catch m h s = h e s'.
Proof. unfold catch. by intros ->. Qed.

Lemma bind_Ok_inv {A B} (m : stM S E A) (k : A -> stM S E B) s b s' :
  bind m k s = (Ok b, s') -> ∃ a s1, m s = (Ok a, s1) ∧ k a s1 = (Ok b, s').
Proof. unfold bind. destruct (m s) as [[a|e] s1]; [eauto|intros [=]]. Qed.

Lemma attempt_run {A} (m : stM S E A) s r s' :
  m s = (r, s') -> attempt m s = (Ok r, s').
Proof. unfold attempt. by intros ->. Qed.

(** An invariant of the state that a computation keeps, whatever it
    returns: the shape of a table invariant kept by every statement. *)
Definition preserves {A} (P : S -> Prop) (m : stM S E A) : Prop :=
  ∀ s, P s -> P (snd (m s)).

Lemma preserves_ret {A} P (a : A) : preserves P (ret a).
Proof. by intros s. Qed.

Lemma preserves_throw {A} P e : preserves P (throw (A:=A) e).
Proof. by intros s. Qed.

Lemma preserves_bind {A B} P (m : stM S E A) (k : A -> stM S E B) :
  preserves P m -> (∀ a, preserves P (k a)) -> preserves P (bind m k).
Proof.
  intros Hm Hk s Hs. specialize (Hm s Hs). unfold bind.
  destruct (m s) as [[a|e] s']; [by apply Hk|done].
Qed.

Lemma preserves_catch {A} P (m : stM S E A) h :
  preserves P m -> (∀ e, preserves P (h e)) -> preserves P (catch m h).
Proof.
  intros Hm Hh s Hs. specialize (Hm s Hs). unfold catch.
  destruct (m s) as [[a|e] s']; [done|by apply Hh].
Qed.
End MonadLaws.

(** A property that every step keeps holds of every state a run
    reaches: the rule induction of the step relations' invariants. *)
Lemma rtc_invariant {A} (R : relation A) (P : A -> Prop) :
  (∀ x y, R x y -> P x -> P y) -> ∀ x y, rtc R x y -> P x -> P y.
Proof. intros HR x y Hr. induction Hr; eauto. Qed.

#[export] Hint Rewrite @bind_ret_l @bind_assoc @bind_throw : hcl_run.
#[export] Hint Resolve preserves_ret preserves_throw preserves_bind preserves_catch : hcl.

(** ** Tactics

    [mstep H] rewrites the first [bind] or [catch] of the goal with an
    equation [H : m s = (r, s')] about the computation it runs. *)
Ltac mstep H :=
  first [ rewrite (bind_ok _ _ _ _ _ H)
        | rewrite (bind_err _ _ _ _ _ H)
        | rewrite (catch_ok _ _ _ _ _ H)
        | rewrite (catch_err _ _ _ _ _ H) ].

(** [inv_run] turns an equation between two runs into equations on
    their parts. *)
Ltac inv_run :=
  repeat match goal with
         | H : (_, _) = (_, _) |- _ => injection H as H; subst
         | H : Ok _ = Ok _ |- _ => injection H as H; subst
         | H : Err _ = Err _ |- _ => injection H as H; subst
         | H : Ok _ = Err _ |- _ => discriminate H
         | H : Err _ = Ok _ |- _ => discriminate H
         end.

(** ** Generic lemmas on options and lists *)

Lemma default_Some {A} (d a : A) : default d (Some a) = a.
Proof. reflexivity. Qed.

Lemma filter_length_le {A} (P : A -> Prop) `{!∀ x, Decision (P x)} (l : list A) :
  length (filter P l) <= length l.
Proof.
  induction l as [|x l IH]; [done|].
  rewrite filter_cons. case_decide; simpl; lia.
Qed.

Lemma NoDup_filter_elements `{Countable A} (P : A -> Prop)
      `{!∀ x, Decision (P x)} (X : gset A) :
  NoDup (filter P (elements X)).
Proof. apply NoDup_filter, NoDup_elements. Qed.

#[export] Hint Resolve NoDup_filter_elements : hcl.

(** [List.find] is the head of the [List.filter]; so two orders of the
    same entries find the same entry when at most one entry matches (the
    shape of a [range] over a Go map that stops at the first match). *)
Lemma find_head_filter {A} (f : A -> bool) (l : list A) :
  List.find f l = head (List.filter f l).
Proof. induction l as [|x l IH]; [done|]. simpl. by destruct (f x). Qed.

Lemma List_filter_perm {A} (f : A -> bool) (l1 l2 : list A) :
  l1 ≡ₚ l2 -> List.filter f l1 ≡ₚ List.filter f l2.
Proof.
  induction 1; simpl; repeat case_match; by econstructor.
Qed.

Lemma find_perm_at_most_one {A} (f : A -> bool) (l1 l2 : list A) :
  l1 ≡ₚ l2 -> (length (List.filter f l1) <= 1)%nat ->
  List.find f l1 = List.find f l2.
Proof.
  intros Hp Hl. rewrite !find_head_filter.
  pose proof (List_filter_perm f _ _ Hp) as Hf.
  destruct (List.filter f l1) as [|x [|y r]] eqn:E; simpl in Hl; [| |lia].
  - by rewrite (Permutation_nil Hf).
  - by rewrite (Permutation_length_1_inv Hf).
Qed.
