(* ===== verification/Strconv.v ===== *)
(** * Decimal integers as strings: Go's [strconv] and Redis's integer replies

    The Go code stores every counter of the cache as a decimal string
    (go-redis formats an [int] argument with [strconv.AppendInt]) and
    reads it back with [strconv.Atoi]; Redis's [HINCRBY] parses the
    stored field with its strict [string2ll].  This file models the three
    conversions on [string] (lists of bytes) and proves the round trips
    the cache code relies on, with the 64-bit bounds of Go's [int] and of
    Redis's [long long]. *)

From S2P Require Import Prelude.
From Stdlib Require Import Ascii.

Open Scope Z_scope.

(** ** Machine integers: Go's [int] and Redis's [long long] are 64 bits *)
Definition int64_min : Z := - 2 ^ 63.
Definition int64_max : Z := 2 ^ 63 - 1.

Definition in_int64 (z : Z) : bool := (int64_min <=? z) && (z <=? int64_max).

Lemma in_int64_spec z : in_int64 z = true <-> int64_min <= z <= int64_max.
Proof. unfold in_int64. rewrite andb_true_iff, !Z.leb_le. done. Qed.

(** ** [strconv.Itoa]: decimal with a leading ['-'] for negatives

    stdpp's [pretty] prints exactly this format ("0", "42", "-7"). *)
Definition Itoa (z : Z) : string := pretty z.

(** ** [strconv.Atoi]

    An optional sign, then one or more ASCII digits; the value must fit
    in 64 bits, otherwise Go returns [ErrRange].  Leading zeros are
    accepted, blanks and underscores are not. *)
Definition digit_val (c : ascii) : option N :=
  let n := nat_of_ascii c in
  if (48 <=? n)%nat && (n <=? 57)%nat then Some (N.of_nat (n - 48)) else None.

Fixpoint dec_go (s : string) (acc : N) : option N :=
  match s with
  | EmptyString => Some acc
  | String c s' =>
      match digit_val c with
      | Some d => dec_go s' (acc * 10 + d)%N
      | None => None
      end
  end.

Definition parse_digits (s : string) : option N :=
  match s with
  | EmptyString => None
  | _ => dec_go s 0
  end.

Definition range_check (z : Z) : option Z :=
  if in_int64 z then Some z else None.

(** The sign and digits, unbounded; [Atoi] adds the 64-bit range check. *)
Definition Atoz (s : string) : option Z :=
  match s with
  | String c r =>
      if decide (c = "-"%char) then Z.opp ∘ Z.of_N <$> parse_digits r
      else if decide (c = "+"%char) then Z.of_N <$> parse_digits r
      else Z.of_N <$> parse_digits s
  | EmptyString => None
  end.

Definition Atoi (s : string) : option Z := Atoz s ≫= range_check.

(** ** Redis's [string2ll]: only the canonical decimal form is an
    integer ("007", "+7" and "-0" are not), within 64 bits. *)
Definition redis_int (s : string) : option Z :=
  match Atoi s with
  | Some z => if String.eqb (Itoa z) s then Some z else None
  | None => None
  end.

(** ** [strings.Split(s, sep)] for a one-byte separator *)
Fixpoint Split (sep : ascii) (s : string) : list string :=
  match s with
  | EmptyString => [EmptyString]
  | String c r =>
      if decide (c = sep) then EmptyString :: Split sep r
      else match Split sep r with
           | [] => [String c EmptyString]
           | h :: t => String c h :: t
           end
  end.

(** ** Printing: every character of [pretty] is a digit *)
Fixpoint str_forall (P : ascii -> bool) (s : string) : bool :=
  match s with
  | EmptyString => true
  | String c r => P c && str_forall P r
  end.

Definition is_digit (c : ascii) : bool := bool_decide (is_Some (digit_val c)).

Lemma pretty_N_char_digit d : is_digit (pretty_N_char d) = true.
Proof.
  unfold is_digit. apply bool_decide_eq_true.
  unfold pretty_N_char. by repeat case_match.
Qed.

Lemma pretty_N_char_val d : (d < 10)%N -> digit_val (pretty_N_char d) = Some d.
Proof.
  intros Hd.
  assert (d = 0 ∨ d = 1 ∨ d = 2 ∨ d = 3 ∨ d = 4 ∨ d = 5 ∨ d = 6
          ∨ d = 7 ∨ d = 8 ∨ d = 9)%N as Hc by lia.
  destruct_or! Hc; subst; reflexivity.
Qed.

Lemma pretty_N_go_forall (P : ascii -> bool) x s :
  (∀ d, P (pretty_N_char d) = true) -> str_forall P s = true ->
  str_forall P (pretty_N_go x s) = true.
Proof.
  intros HP. revert s. induction (N.lt_wf_0 x) as [x _ IH]; intros s Hs.
  destruct (decide (x = 0)%N) as [->|Hx]; [by rewrite pretty_N_go_0|].
  rewrite pretty_N_go_step by lia. apply IH; [apply N.div_lt; lia|].
  simpl. by rewrite HP, Hs.
Qed.

(** Reading back what was printed: [dec_go] undoes [pretty_N_go]. *)
Lemma dec_go_pretty x s : dec_go (pretty_N_go x s) 0 = dec_go s x.
Proof.
  revert s. induction (N.lt_wf_0 x) as [x _ IH]; intros s.
  destruct (decide (x = 0)%N) as [->|Hx]; [by rewrite pretty_N_go_0|].
  rewrite pretty_N_go_step by lia.
  destruct (decide (x `div` 10 = 0)%N) as [Hq|Hq].
  - rewrite Hq, pretty_N_go_0. simpl.
    rewrite pretty_N_char_val by (apply N.mod_lt; lia).
    f_equal. pose proof (N.div_mod x 10). lia.
  - rewrite IH by (apply N.div_lt; lia). simpl.
    rewrite pretty_N_char_val by (apply N.mod_lt; lia).
    f_equal. pose proof (N.div_mod x 10). lia.
Qed.

Lemma pretty_N_go_cons x s :
  (0 < x)%N -> ∃ d r, pretty_N_go x s = String (pretty_N_char d) r.
Proof.
  revert s. induction (N.lt_wf_0 x) as [x _ IH]; intros s Hx.
  rewrite pretty_N_go_step by done.
  destruct (decide (x `div` 10 = 0)%N) as [Hq|Hq].
  - rewrite Hq, pretty_N_go_0. eauto.
  - apply IH; [apply N.div_lt; lia | by apply N.neq_0_lt_0].
Qed.

Lemma pretty_pos_shape p :
  ∃ d r, pretty (N.pos p) = String (pretty_N_char d) r
         ∧ parse_digits (pretty (N.pos p)) = Some (N.pos p).
Proof.
  unfold pretty, pretty_N. rewrite decide_False by done.
  destruct (pretty_N_go_cons (N.pos p) "" ltac:(lia)) as (d & r & Heq).
  exists d, r. split; [done|].
  assert (parse_digits (pretty_N_go (N.pos p) "")
          = dec_go (pretty_N_go (N.pos p) "") 0) as -> by by rewrite Heq.
  by rewrite dec_go_pretty.
Qed.

Lemma pretty_N_char_sign d :
  pretty_N_char d ≠ "-"%char ∧ pretty_N_char d ≠ "+"%char.
Proof. unfold pretty_N_char. by repeat case_match. Qed.

Lemma Itoa_pos p : Itoa (Z.pos p) = pretty (N.pos p).
Proof. reflexivity. Qed.

Lemma Itoa_neg p : Itoa (Z.neg p) = String "-" (pretty (N.pos p)).
Proof. reflexivity. Qed.

Lemma Atoz_unsigned c r :
  c ≠ "-"%char -> c ≠ "+"%char ->
  Atoz (String c r) = Z.of_N <$> parse_digits (String c r).
Proof. intros. unfold Atoz. by rewrite !decide_False. Qed.

(** ** Round trips *)

(** [Atoz] reads back what [Itoa] prints. *)
Lemma Atoz_Itoa z : Atoz (Itoa z) = Some z.
Proof.
  destruct z as [|p|p]; [done|..].
  - destruct (pretty_pos_shape p) as (d & r & Hs & Hp).
    rewrite Itoa_pos, Hs. rewrite Hs in Hp.
    destruct (pretty_N_char_sign d) as [H1 H2].
    by rewrite Atoz_unsigned, Hp.
  - destruct (pretty_pos_shape p) as (d & r & Hs & Hp).
    rewrite Itoa_neg. unfold Atoz. by rewrite decide_True, Hp.
Qed.

(** [Atoi] reads back what [Itoa] prints, for every 64-bit value. *)
Lemma Atoi_Itoa z : int64_min <= z <= int64_max -> Atoi (Itoa z) = Some z.
Proof.
  intros Hz. unfold Atoi. rewrite Atoz_Itoa. simpl. unfold range_check.
  assert (in_int64 z = true) as -> by by apply in_int64_spec. done.
Qed.

Lemma redis_int_Itoa z : int64_min <= z <= int64_max -> redis_int (Itoa z) = Some z.
Proof.
  intros Hz. unfold redis_int. rewrite Atoi_Itoa by done.
  by rewrite String.eqb_refl.
Qed.

Lemma Itoa_inj z1 z2 : Itoa z1 = Itoa z2 -> z1 = z2.
Proof. apply pretty_Z_inj. Qed.

Lemma redis_int_Itoa_eq s z : redis_int s = Some z -> s = Itoa z.
Proof.
  unfold redis_int. destruct (Atoi s); [|done].
  destruct (String.eqb_spec (Itoa z0) s); [|done]. by intros [= <-].
Qed.

Lemma Atoi_in_range s z : Atoi s = Some z -> int64_min <= z <= int64_max.
Proof.
  unfold Atoi, range_check. intros H.
  destruct (Atoz s); simplify_eq/=. case_match; simplify_eq. by apply in_int64_spec.
Qed.

(** The characters of [Itoa z] are digits and, for negatives, a dash. *)
Lemma pretty_N_forall (P : ascii -> bool) (x : N) :
  (∀ d, P (pretty_N_char d) = true) -> str_forall P (pretty x) = true.
Proof.
  intros HP. unfold pretty, pretty_N. case_decide.
  - pose proof (HP 0%N) as H0. simpl in *. by rewrite H0.
  - by apply pretty_N_go_forall.
Qed.

Lemma Itoa_chars (P : ascii -> bool) z :
  (∀ d, P (pretty_N_char d) = true) -> P "-"%char = true ->
  str_forall P (Itoa z) = true.
Proof.
  intros HP Hd. destruct z as [|p|p].
  - pose proof (HP 0%N) as H0. simpl in *. by rewrite H0.
  - rewrite Itoa_pos. by apply pretty_N_forall.
  - rewrite Itoa_neg. simpl. rewrite Hd. by apply pretty_N_forall.
Qed.

(** ** [strings.Split] on a string with no separator, and at the first
    separator. *)
Lemma Split_none sep s :
  str_forall (fun c => negb (bool_decide (c = sep))) s = true -> Split sep s = [s].
Proof.
  induction s as [|c s IH]; [done|]. simpl.
  rewrite andb_true_iff, negb_true_iff, bool_decide_eq_false.
  intros [Hc Hs]. rewrite decide_False by done. by rewrite IH.
Qed.

Lemma Split_app sep s1 s2 :
  str_forall (fun c => negb (bool_decide (c = sep))) s1 = true ->
  Split sep (s1 +:+ String sep s2) = s1 :: Split sep s2.
Proof.
  induction s1 as [|c s1 IH]; simpl.
  - intros _. by rewrite decide_True.
  - rewrite andb_true_iff, negb_true_iff, bool_decide_eq_false.
    intros [Hc Hs]. rewrite decide_False by done. by rewrite IH.
Qed.

(** ** Keys built as [a +:+ ":" +:+ b]: with no [':'] in [a], the
    separator splits them back. *)
Definition no_colon (s : string) : bool :=
  str_forall (fun c => negb (bool_decide (c = ":"%char))) s.

Lemma app_sep_inj s1 s2 t1 t2 :
  no_colon s1 = true -> no_colon s2 = true ->
  s1 +:+ String ":" t1 = s2 +:+ String ":" t2 -> s1 = s2 ∧ t1 = t2.
Proof.
  unfold no_colon. revert s2. induction s1 as [|c s1 IH]; intros [|c' s2]; simpl;
    rewrite ?andb_true_iff, ?negb_true_iff, ?bool_decide_eq_false.
  - intros _ _ H. by injection H as ->.
  - intros _ [Hc _] H. injection H as Hc' _. by subst.
  - intros [Hc _] _ H. injection H as Hc' _. by subst.
  - intros [_ H1] [_ H2] H. injection H as -> H.
    destruct (IH s2 H1 H2 H) as [-> ->]. done.
Qed.

Lemma Itoa_no_colon z : no_colon (Itoa z) = true.
Proof.
  apply Itoa_chars; [|done].
  intros d. apply negb_true_iff, bool_decide_eq_false.
  unfold pretty_N_char. by repeat case_match.
Qed.

(** [Atoi] of a printed integer gives that integer or nothing. *)
Lemma Atoi_Itoa_inv z y : Atoi (Itoa z) = Some y -> y = z.
Proof.
  unfold Atoi. rewrite Atoz_Itoa. simpl. unfold range_check.
  case_match; congruence.
Qed.

Lemma substring_full (s : string) : String.substring 0 (String.length s) s = s.
Proof. induction s as [|c s IH]; cbn; congruence. Qed.

(** [key[len(p):]] of [p + s] is [s]. *)
Lemma substring_after_prefix (p s : string) :
  String.substring (String.length p) (String.length (p +:+ s) - String.length p) (p +:+ s) = s.
Proof.
  induction p as [|c p IH]; cbn [String.append String.length String.substring].
  - rewrite Nat.sub_0_r. apply substring_full.
  - exact IH.
Qed.

Lemma prefix_app (p s : string) : String.prefix p (p +:+ s) = true.
Proof.
  induction p as [|c p IH]; simpl; [by destruct s|].
  destruct (ascii_dec c c); [exact IH|done].
Qed.

Lemma string_app_assoc (a b c : string) : (a +:+ b) +:+ c = a +:+ (b +:+ c).
Proof. induction a as [|x a IH]; [reflexivity|exact (f_equal (String x) IH)]. Qed.

(** Strings with a common prefix are equal when their rests are. *)

Lemma string_length_app (a b : string) :
  String.length (a +:+ b) = (String.length a + String.length b)%nat.
Proof. induction a as [|c a IH]; simpl; [done|by rewrite IH]. Qed.

Lemma append_inj_l (p x y : string) : p +:+ x = p +:+ y -> x = y.
Proof. induction p as [|c p IH]; simpl; [done|]. intros [= H]. by apply IH. Qed.

(** A decimal id is in a set of decimal ids exactly when the id is. *)
Lemma Itoa_in_set_map u (L : gset Z) : Itoa u ∈ set_map (D:=gset string) Itoa L ↔ u ∈ L.
Proof.
  rewrite elem_of_map. split; [|eauto].
  intros (u' & Heq & Hu'). by rewrite (Itoa_inj _ _ Heq).
Qed.
