(* ===== verification/WeChat.v ===== *)
(** * The WeChat content check (common/utils/utils.go)

    [CheckContentSecurity] asks WeChat's [msg_sec_check] whether a text
    may be published: it fetches an access token with [GetAccessToken]
    (a GET of [cgi-bin/token] with the application's id and secret),
    posts the request as JSON and decides on the reply's [errcode] and
    [result.label].  Every failure on the way is logged and answers
    [false].

    HTTP, [io.ReadAll] and [encoding/json] are the interface
    [WeChatHttp]: a request either fails or gives a body whose reading
    may fail, and the JSON codec may fail.  The file holds the model
    only: the decision is a chain of matches on the library's results;
    the reply's [detail] is parsed and never read. *)

From S2P Require Import Prelude Strconv.
Open Scope hcl_scope.
Open Scope Z_scope.

Module SecurityCheckResult.
Record t : Type := mk { Suggest : string; Label : Z }.
End SecurityCheckResult.

Module SecurityCheckDetail.
Record t : Type := mk {
  Strategy : string; Errcode : Z; Suggest : string; Label : Z; Prob : Z; Keyword : string
}.
End SecurityCheckDetail.

Module SecurityCheckResponse.
Record t : Type := mk {
  Errcode : Z;
  Errmsg : string;
  Result : option SecurityCheckResult.t;
  Detail : list SecurityCheckDetail.t;
  TraceID : string
}.
End SecurityCheckResponse.

Module SecurityCheckRequest.
Record t : Type := mk {
  AccessToken : string; Content : string; Scene : Z; Version : Z;
  OpenID : string; Title : string; Nickname : string; Signature : string
}.
End SecurityCheckRequest.

(** What the code calls of [net/http], [io] and [encoding/json]: the
    outer result is the request's error, the inner one that of
    [io.ReadAll]. *)
Class WeChatHttp : Type := {
  http_get : string -> res string (res string string);
  http_post : string -> string -> string -> res string (res string string);
  marshal_request : SecurityCheckRequest.t -> res string string;
  (** [access_token] and [expires_in] of the token reply. *)
  unmarshal_token : string -> res string (string * Z);
  unmarshal_response : string -> res string SecurityCheckResponse.t
}.

Section Check.
Context `{WeChatHttp}.

Definition appID : string := "wx312c36de9d0cd635".
Definition appSecret : string := "521da6d7784073fbd7ae457f501e5a56".

Definition token_url : string :=
  "https://api.weixin.qq.com/cgi-bin/token?grant_type=client_credential&appid=" +:+ appID
  +:+ "&secret=" +:+ appSecret.

(** [GetAccessToken]: the error texts of its [fmt.Errorf]s. *)
Definition GetAccessToken : res string string :=
  match http_get token_url with
  | Err e => Err ("请求微信接口失败: " +:+ e)
  | Ok (Err e) => Err ("读取响应内容失败: " +:+ e)
  | Ok (Ok body) =>
      match unmarshal_token body with
      | Err e => Err ("解析响应内容失败: " +:+ e)
      | Ok (AccessToken, _) =>
          if String.eqb AccessToken "" then Err "微信接口返回的access_token为空" else Ok AccessToken
      end
  end.

(** [CheckContentSecurity]: version 2 of the API; the token goes in the
    URL (its field is [json:"-"]). *)
Definition CheckContentSecurity (content openid : string) (scene : Z) (title : string) : bool :=
  match GetAccessToken with
  | Err _ => false
  | Ok accessToken =>
      let requestBody := SecurityCheckRequest.mk accessToken content scene 2 openid title "" "" in
      match marshal_request requestBody with
      | Err _ => false
      | Ok jsonData =>
          let url := "https://api.weixin.qq.com/wxa/msg_sec_check?access_token=" +:+ accessToken in
          match http_post url "application/json" jsonData with
          | Err _ | Ok (Err _) => false
          | Ok (Ok respBody) =>
              match unmarshal_response respBody with
              | Err _ => false
              | Ok response =>
                  if negb (SecurityCheckResponse.Errcode response =? 0) then false
                  else match SecurityCheckResponse.Result response with
                       | Some r => SecurityCheckResult.Label r =? 100
                       | None => true
                       end
              end
          end
      end
  end.

End Check.
