(* ===== verification/Utils.v ===== *)
(** * Helpers of [common/utils]: UTF-8 runes, [Substring], phone numbers

    [Substring] (article_utils.go) cuts an article's content to its first
    [n] runes for the basic projection.  Go converts a string to
    [[]rune] by decoding UTF-8 ([unicode/utf8.DecodeRune]): a byte that
    does not start a valid sequence decodes to [U+FFFD] and consumes one
    byte; [string(runes)] encodes each rune back ([utf8.EncodeRune]).
    Both are written out here on byte strings, with Go's accept ranges
    for the second byte.  [ValidatePhoneNumber] and [MaskPhoneNumber]
    (user_utils.go) are the phone-number helpers of the login flow.
    The theorems: every decoded rune is a scalar value (the bit
    arithmetic of the masks and shifts through [lor_add] and
    [bits_arith]), decoding inverts encoding, and [Substring] keeps
    exactly the first [n] runes. *)

From S2P Require Import Prelude Strconv.
Open Scope hcl_scope.
Open Scope Z_scope.

(** ** UTF-8 *)
Definition RuneError : Z := 65533.
Definition MaxRune : Z := 1114111.

Definition bval (c : ascii) : Z := Z.of_N (N_of_ascii c).
Definition byte_of (z : Z) : ascii := ascii_of_N (Z.to_N (Z.land z 255)).

Definition in_rng (lo hi : Z) (c : ascii) : bool := (lo <=? bval c) && (bval c <=? hi).
Definition cont (c : ascii) : bool := in_rng 128 191 c.

(** The accept range of the second byte of a multi-byte sequence. *)
Definition accept2 (b0 : Z) : Z * Z :=
  if b0 =? 224 then (160, 191)
  else if b0 =? 237 then (128, 159)
  else if b0 =? 240 then (144, 191)
  else if b0 =? 244 then (128, 143)
  else (128, 191).

Definition low6 (c : ascii) : Z := Z.land (bval c) 63.

(** [[]rune(s)]: decode the whole string. *)
Fixpoint runes (s : string) : list Z :=
  match s with
  | EmptyString => []
  | String c0 s1 =>
      let b0 := bval c0 in
      if b0 <? 128 then b0 :: runes s1 else
      match s1 with
      | EmptyString => [RuneError]
      | String c1 s2 =>
          let '(lo, hi) := accept2 b0 in
          if (194 <=? b0) && (b0 <=? 223) && in_rng lo hi c1 then
            (Z.lor (Z.shiftl (Z.land b0 31) 6) (low6 c1)) :: runes s2
          else if (224 <=? b0) && (b0 <=? 239) && in_rng lo hi c1 then
            match s2 with
            | String c2 s3 =>
                if cont c2 then
                  (Z.lor (Z.lor (Z.shiftl (Z.land b0 15) 12) (Z.shiftl (low6 c1) 6)) (low6 c2))
                    :: runes s3
                else RuneError :: runes s1
            | EmptyString => RuneError :: runes s1
            end
          else if (240 <=? b0) && (b0 <=? 244) && in_rng lo hi c1 then
            match s2 with
            | String c2 (String c3 s4) =>
                if cont c2 && cont c3 then
                  (Z.lor (Z.lor (Z.lor (Z.shiftl (Z.land b0 7) 18) (Z.shiftl (low6 c1) 12))
                                (Z.shiftl (low6 c2) 6)) (low6 c3)) :: runes s4
                else RuneError :: runes s1
            | _ => RuneError :: runes s1
            end
          else RuneError :: runes s1
      end
  end.

(** [utf8.EncodeRune]: a surrogate or a value beyond [MaxRune] (a
    negative rune, as a [uint32], is beyond it) is written as [U+FFFD]. *)
Definition encode_rune (r : Z) : string :=
  if (0 <=? r) && (r <=? 127) then String (byte_of r) EmptyString
  else if (0 <=? r) && (r <=? 2047) then
    String (byte_of (Z.lor 192 (Z.shiftr r 6)))
      (String (byte_of (Z.lor 128 (Z.land r 63))) EmptyString)
  else
    let r := if (r <? 0) || (MaxRune <? r) || ((55296 <=? r) && (r <=? 57343))
             then RuneError else r in
    if r <=? 65535 then
      String (byte_of (Z.lor 224 (Z.shiftr r 12)))
        (String (byte_of (Z.lor 128 (Z.land (Z.shiftr r 6) 63)))
          (String (byte_of (Z.lor 128 (Z.land r 63))) EmptyString))
    else
      String (byte_of (Z.lor 240 (Z.shiftr r 18)))
        (String (byte_of (Z.lor 128 (Z.land (Z.shiftr r 12) 63)))
          (String (byte_of (Z.lor 128 (Z.land (Z.shiftr r 6) 63)))
            (String (byte_of (Z.lor 128 (Z.land r 63))) EmptyString))).

(** [string(rs)] *)
Fixpoint encode (rs : list Z) : string :=
  match rs with
  | [] => EmptyString
  | r :: rs' => encode_rune r +:+ encode rs'
  end.

(** [Substring(s, n)]: the first [n] runes; the string itself when it
    has at most [n].  The callers pass the constant 5, so [n] is a
    [nat] (a negative [n] would make [runes[:n]] panic). *)
Definition Substring (s : string) (n : nat) : string :=
  let rs := runes s in
  if decide (length rs <= n)%nat then s else encode (take n rs).

(** ** Phone numbers *)

(** [ValidatePhoneNumber]: the regular expression [^1[3-9]\d{9}$]; in
    Go's RE2 [\d] is an ASCII digit and [$] the end of the text. *)
Definition ValidatePhoneNumber (s : string) : bool :=
  match s with
  | String c0 (String c1 rest) =>
      bool_decide (c0 = "1"%char) && in_rng 51 57 c1
      && str_forall is_digit rest && (String.length rest =? 9)%nat
  | _ => false
  end.

(** [MaskPhoneNumber]: [phoneNumber[:3] + "****" + phoneNumber[7:]];
    the slice expressions panic on a string shorter than 7 bytes
    ([None]). *)
Definition MaskPhoneNumber (s : string) : option string :=
  if (String.length s <? 7)%nat then None
  else Some (String.substring 0 3 s +:+ "****" +:+ String.substring 7 (String.length s - 7) s).

(** ** Lemmas *)

(** A Unicode scalar value: what [utf8.ValidRune] accepts. *)
Definition scalar (r : Z) : Prop := 0 <= r <= MaxRune ∧ ¬ (55296 <= r <= 57343).

(** Decide the comparisons of the goal, closing the impossible branches. *)
Ltac zbool_with simp :=
  repeat match goal with
         | |- context [?a <? ?b] => destruct (Z.ltb_spec a b); simp; try (exfalso; lia)
         | |- context [?a <=? ?b] => destruct (Z.leb_spec a b); simp; try (exfalso; lia)
         | |- context [?a =? ?b] => destruct (Z.eqb_spec a b); simp; try (exfalso; lia)
         end.
Ltac zbool := zbool_with ltac:(cbn beta iota zeta delta [andb orb]).
(** The same, when the guards of the code also land in the context. *)
Ltac zbool_all := zbool_with ltac:(simpl in *).

(** [lia] after naming the quotients and remainders by constants. *)
Ltac zlia := Z.to_euclidean_division_equations; lia.

(** Bits below [2^k] and a multiple of [2^k] do not overlap. *)
Lemma lor_add a b k : 0 <= k -> a mod 2 ^ k = 0 -> 0 <= b < 2 ^ k -> Z.lor a b = a + b.
Proof.
  intros Hk Ha Hb.
  assert (Hl : Z.land a b = 0).
  { apply Z.bits_inj'. intros i Hi. rewrite Z.land_spec, Z.bits_0.
    destruct (Z.lt_ge_cases i k).
    - assert (Ha' : a = a / 2 ^ k * 2 ^ k).
      { rewrite Z.mul_comm. apply Z.div_exact; [lia|done]. }
      rewrite Ha', Z.mul_pow2_bits_low by lia. done.
    - rewrite <-(Z.mod_small b (2 ^ k)) by lia. rewrite Z.mod_pow2_bits_high by lia. apply andb_false_r. }
  by rewrite <-Z.lxor_lor, Z.add_nocarry_lxor.
Qed.

Lemma shiftl_mul a k : 0 <= k -> Z.shiftl a k = a * 2 ^ k.
Proof. apply Z.shiftl_mul_pow2. Qed.

Lemma land_mod a k : 0 <= k -> Z.land a (Z.ones k) = a mod 2 ^ k.
Proof. apply Z.land_ones. Qed.

Lemma bval_range c : 0 <= bval c <= 255.
Proof. unfold bval. pose proof (N_ascii_bounded c). lia. Qed.

Lemma bval_byte_of z : 0 <= z <= 255 -> bval (byte_of z) = z.
Proof.
  intros Hz. unfold bval, byte_of. change 255 with (Z.ones 8). rewrite (Z.land_ones z 8) by lia. rewrite Z.mod_small by (simpl; lia).
  rewrite N_ascii_embedding by lia. lia.
Qed.

(** The arithmetic of the masks and shifts [runes] and [encode_rune] use. *)
Lemma bits_arith a : 0 <= a ->
  Z.land a 31 = a mod 32 ∧ Z.land a 15 = a mod 16 ∧ Z.land a 7 = a mod 8 ∧ Z.land a 63 = a mod 64 ∧
  Z.shiftr a 6 = a / 64 ∧ Z.shiftr a 12 = a / 4096 ∧ Z.shiftr a 18 = a / 262144.
Proof.
  intros Ha. rewrite !Z.shiftr_div_pow2 by lia.
  split_and!; [apply (land_mod a 5)|apply (land_mod a 4)|apply (land_mod a 3)|apply (land_mod a 6)|done..]; lia.
Qed.

(** The sums the decoder builds, one per sequence length. *)
Lemma lor2 A B : 0 <= B < 64 -> Z.lor (Z.shiftl A 6) B = A * 64 + B.
Proof. intros HB. rewrite shiftl_mul, (lor_add _ _ 6); change (2 ^ 6) with 64; zlia. Qed.

Lemma lor3 A B C : 0 <= B < 64 -> 0 <= C < 64 ->
  Z.lor (Z.lor (Z.shiftl A 12) (Z.shiftl B 6)) C = A * 4096 + B * 64 + C.
Proof.
  intros HB HC. rewrite !shiftl_mul by lia. change (2 ^ 12) with 4096; change (2 ^ 6) with 64.
  rewrite (lor_add (A * 4096) (B * 64) 12); change (2 ^ 12) with 4096; try zlia.
  rewrite (lor_add _ C 6); change (2 ^ 6) with 64; zlia.
Qed.

Lemma lor4 A B C D : 0 <= B < 64 -> 0 <= C < 64 -> 0 <= D < 64 ->
  Z.lor (Z.lor (Z.lor (Z.shiftl A 18) (Z.shiftl B 12)) (Z.shiftl C 6)) D
  = A * 262144 + B * 4096 + C * 64 + D.
Proof.
  intros HB HC HD. rewrite !shiftl_mul by lia.
  change (2 ^ 18) with 262144; change (2 ^ 12) with 4096; change (2 ^ 6) with 64.
  rewrite (lor_add (A * 262144) (B * 4096) 18); change (2 ^ 18) with 262144; try zlia.
  rewrite (lor_add _ (C * 64) 12); change (2 ^ 12) with 4096; try zlia.
  rewrite (lor_add _ D 6); change (2 ^ 6) with 64; zlia.
Qed.

Lemma accept2_spec b0 lo hi :
  accept2 b0 = (lo, hi) ->
  (b0 = 224 ∧ lo = 160 ∧ hi = 191) ∨ (b0 = 237 ∧ lo = 128 ∧ hi = 159) ∨
  (b0 = 240 ∧ lo = 144 ∧ hi = 191) ∨ (b0 = 244 ∧ lo = 128 ∧ hi = 143) ∨
  (b0 ≠ 224 ∧ b0 ≠ 237 ∧ b0 ≠ 240 ∧ b0 ≠ 244 ∧ lo = 128 ∧ hi = 191).
Proof. unfold accept2. zbool; intros H; inv_run; lia. Qed.

(** The facts a decoding branch was taken under. *)
Ltac bool_facts :=
  repeat match goal with
         | H : _ && _ = true |- _ => apply andb_true_iff in H as [? ?]
         | H : (_ <=? _) = true |- _ => apply Z.leb_le in H
         | H : (_ <? _) = true |- _ => apply Z.ltb_lt in H
         | H : in_rng _ _ _ = true |- _ => unfold in_rng in H
         | H : cont _ = true |- _ => unfold cont, in_rng in H
         end.

Lemma RuneError_scalar : scalar RuneError.
Proof. unfold scalar, RuneError, MaxRune. lia. Qed.

Lemma two_byte_scalar b0 lo hi c1 :
  accept2 b0 = (lo, hi) -> 194 <= b0 <= 223 -> lo <= bval c1 <= hi ->
  scalar (Z.lor (Z.shiftl (Z.land b0 31) 6) (low6 c1)).
Proof.
  intros Ha%accept2_spec Hb Hc. assert (128 <= bval c1 <= 191) by lia. unfold low6. destruct (bits_arith b0) as (-> & _); [lia|].
  destruct (bits_arith (bval c1)) as (_ & _ & _ & -> & _); [lia|].
  rewrite lor2 by zlia. unfold scalar, MaxRune. zlia.
Qed.

Lemma three_byte_scalar b0 lo hi c1 c2 :
  accept2 b0 = (lo, hi) -> 224 <= b0 <= 239 -> lo <= bval c1 <= hi -> 128 <= bval c2 <= 191 ->
  scalar (Z.lor (Z.lor (Z.shiftl (Z.land b0 15) 12) (Z.shiftl (low6 c1) 6)) (low6 c2)).
Proof.
  intros Ha%accept2_spec Hb Hc1 Hc2. pose proof (bval_range c1). unfold low6.
  destruct (bits_arith b0) as (_ & -> & _); [lia|].
  destruct (bits_arith (bval c1)) as (_ & _ & _ & -> & _); [lia|].
  destruct (bits_arith (bval c2)) as (_ & _ & _ & -> & _); [lia|].
  rewrite lor3 by zlia. unfold scalar, MaxRune. zlia.
Qed.

Lemma four_byte_scalar b0 lo hi c1 c2 c3 :
  accept2 b0 = (lo, hi) -> 240 <= b0 <= 244 -> lo <= bval c1 <= hi ->
  128 <= bval c2 <= 191 -> 128 <= bval c3 <= 191 ->
  scalar (Z.lor (Z.lor (Z.lor (Z.shiftl (Z.land b0 7) 18) (Z.shiftl (low6 c1) 12))
                       (Z.shiftl (low6 c2) 6)) (low6 c3)).
Proof.
  intros Ha%accept2_spec Hb Hc1 Hc2 Hc3. pose proof (bval_range c1). unfold low6.
  destruct (bits_arith b0) as (_ & _ & -> & _); [lia|].
  destruct (bits_arith (bval c1)) as (_ & _ & _ & -> & _); [lia|].
  destruct (bits_arith (bval c2)) as (_ & _ & _ & -> & _); [lia|].
  destruct (bits_arith (bval c3)) as (_ & _ & _ & -> & _); [lia|].
  rewrite lor4 by zlia. unfold scalar, MaxRune. zlia.
Qed.

Lemma runes_scalar_all s : Forall scalar (runes s).
Proof.
  induction s as [s IH] using (induction_ltof1 _ String.length). unfold ltof in IH.
  destruct s as [|c0 s1]; [constructor|]. simpl.
  pose proof (bval_range c0).
  repeat case_match; bool_facts; repeat (apply List.Forall_cons || apply List.Forall_nil);
    lazymatch goal with
    | |- Forall scalar (runes _) => apply IH; simpl; lia
    | |- scalar RuneError => apply RuneError_scalar
    | |- scalar (Z.lor (Z.shiftl (Z.land _ 31) _) _) => eapply two_byte_scalar; [eassumption|lia..]
    | |- scalar (Z.lor (Z.lor (Z.shiftl _ _) _) _) => eapply three_byte_scalar; [eassumption|lia..]
    | |- scalar (Z.lor (Z.lor (Z.lor _ _) _) _) => eapply four_byte_scalar; [eassumption|lia..]
    | |- scalar _ => unfold scalar, MaxRune; lia
    end.
Qed.

(** A lead or continuation byte of [encode_rune]: a tag and the bits below it. *)
Lemma byte_lor c x k :
  0 <= k -> 0 <= c -> c mod 2 ^ k = 0 -> 0 <= x < 2 ^ k -> c + 2 ^ k <= 256 ->
  bval (byte_of (Z.lor c x)) = c + x.
Proof. intros. rewrite (lor_add c x k) by done. apply bval_byte_of. lia. Qed.

Lemma str_cons_app c s t : String c s +:+ t = String c (s +:+ t).
Proof. reflexivity. Qed.

Lemma str_nil_app t : "" +:+ t = t.
Proof. reflexivity. Qed.

Lemma runes_enc1 r t : 0 <= r <= 127 -> runes (encode_rune r +:+ t) = r :: runes t.
Proof.
  intros Hr. assert (Henc : encode_rune r = String (byte_of r) "")
    by (unfold encode_rune; zbool; reflexivity).
  rewrite Henc. rewrite !str_cons_app, str_nil_app. cbn [runes]. rewrite bval_byte_of by lia. zbool. done.
Qed.

Lemma runes_enc2 r t : 128 <= r <= 2047 -> runes (encode_rune r +:+ t) = r :: runes t.
Proof.
  intros Hr. destruct (bits_arith r) as (_ & _ & _ & H63 & H6 & _); [lia|].
  assert (Henc : encode_rune r = String (byte_of (Z.lor 192 (r / 64))) (String (byte_of (Z.lor 128 (r mod 64))) ""))
    by (unfold encode_rune; rewrite <-H63, <-H6; zbool; reflexivity).
  rewrite Henc, !str_cons_app, str_nil_app. cbn [runes]. unfold accept2, in_rng, low6.
  rewrite (byte_lor 192 (r / 64) 5), (byte_lor 128 (r mod 64) 6) by (change (2 ^ 5) with 32; change (2 ^ 6) with 64; zlia).
  assert (2 <= r / 64 <= 31) by zlia. assert (0 <= r mod 64 < 64) by zlia.
  zbool. f_equal.
  destruct (bits_arith (192 + r / 64)) as (-> & _); [lia|].
  destruct (bits_arith (128 + r mod 64)) as (_ & _ & _ & -> & _); [lia|].
  rewrite lor2 by zlia. zlia.
Qed.

Lemma runes_enc3 r t : 2048 <= r <= 65535 -> ¬ (55296 <= r <= 57343) ->
  runes (encode_rune r +:+ t) = r :: runes t.
Proof.
  intros Hr Hs. destruct (bits_arith r) as (_ & _ & _ & H63 & H6 & H12 & _); [lia|].
  destruct (bits_arith (r / 64)) as (_ & _ & _ & H63' & _); [zlia|].
  assert (Henc : encode_rune r =
            String (byte_of (Z.lor 224 (r / 4096)))
              (String (byte_of (Z.lor 128 ((r / 64) mod 64)))
                (String (byte_of (Z.lor 128 (r mod 64))) "")))
    by (unfold encode_rune, MaxRune; zbool_all; rewrite H12, H6, H63', H63; reflexivity).
  rewrite Henc, !str_cons_app, str_nil_app. cbn [runes]. unfold accept2, cont, in_rng, low6.
  rewrite (byte_lor 224 (r / 4096) 4), (byte_lor 128 ((r / 64) mod 64) 6), (byte_lor 128 (r mod 64) 6)
    by (change (2 ^ 4) with 16; change (2 ^ 6) with 64; zlia).
  assert (r = r / 4096 * 4096 + (r / 64) mod 64 * 64 + r mod 64) by zlia.
  assert (0 <= r / 4096 <= 15) by zlia. assert (0 <= (r / 64) mod 64 < 64) by zlia.
  assert (0 <= r mod 64 < 64) by zlia.
  clear Henc H63 H6 H12 H63'.
  set (A := r / 4096) in *; set (B := (r / 64) mod 64) in *; set (C := r mod 64) in *; clearbody A B C.
  zbool; f_equal;
    (destruct (bits_arith (224 + A)) as (_ & -> & _); [lia|]);
    (destruct (bits_arith (128 + B)) as (_ & _ & _ & -> & _); [lia|]);
    (destruct (bits_arith (128 + C)) as (_ & _ & _ & -> & _); [lia|]);
    rewrite lor3 by zlia; zlia.
Qed.

Lemma runes_enc4 r t : 65536 <= r <= MaxRune -> runes (encode_rune r +:+ t) = r :: runes t.
Proof.
  unfold MaxRune. intros Hr. destruct (bits_arith r) as (_ & _ & _ & H63 & H6 & H12 & H18); [lia|].
  destruct (bits_arith (r / 64)) as (_ & _ & _ & H63' & _); [zlia|].
  destruct (bits_arith (r / 4096)) as (_ & _ & _ & H63'' & _); [zlia|].
  assert (Henc : encode_rune r =
            String (byte_of (Z.lor 240 (r / 262144)))
              (String (byte_of (Z.lor 128 ((r / 4096) mod 64)))
                (String (byte_of (Z.lor 128 ((r / 64) mod 64)))
                  (String (byte_of (Z.lor 128 (r mod 64))) ""))))
    by (unfold encode_rune, MaxRune; zbool_all; rewrite H18, H12, H6, H63'', H63', H63; reflexivity).
  rewrite Henc, !str_cons_app, str_nil_app. cbn [runes]. unfold accept2, cont, in_rng, low6.
  rewrite (byte_lor 240 (r / 262144) 3), (byte_lor 128 ((r / 4096) mod 64) 6),
    (byte_lor 128 ((r / 64) mod 64) 6), (byte_lor 128 (r mod 64) 6)
    by (change (2 ^ 3) with 8; change (2 ^ 6) with 64; zlia).
  assert (r = r / 262144 * 262144 + (r / 4096) mod 64 * 4096 + (r / 64) mod 64 * 64 + r mod 64) by zlia.
  assert (0 <= r / 262144 <= 4) by zlia. assert (0 <= (r / 4096) mod 64 < 64) by zlia.
  assert (0 <= (r / 64) mod 64 < 64) by zlia. assert (0 <= r mod 64 < 64) by zlia.
  clear Henc H63 H6 H12 H18 H63' H63''.
  set (A := r / 262144) in *; set (B := (r / 4096) mod 64) in *; set (C := (r / 64) mod 64) in *;
    set (D := r mod 64) in *; clearbody A B C D.
  zbool; f_equal;
    (destruct (bits_arith (240 + A)) as (_ & _ & -> & _); [lia|]);
    (destruct (bits_arith (128 + B)) as (_ & _ & _ & -> & _); [lia|]);
    (destruct (bits_arith (128 + C)) as (_ & _ & _ & -> & _); [lia|]);
    (destruct (bits_arith (128 + D)) as (_ & _ & _ & -> & _); [lia|]);
    rewrite lor4 by zlia; zlia.
Qed.

Lemma runes_encode_rune r t : scalar r -> runes (encode_rune r +:+ t) = r :: runes t.
Proof.
  intros [Hr Hs]. unfold MaxRune in Hr.
  destruct (Z.le_gt_cases r 127); [apply runes_enc1; lia|].
  destruct (Z.le_gt_cases r 2047); [apply runes_enc2; lia|].
  destruct (Z.le_gt_cases r 65535); [apply runes_enc3; lia|].
  apply runes_enc4. unfold MaxRune. lia.
Qed.

(** Round trip of UTF-8: [string(rs)] followed by [[]rune(...)] gives
    back the runes [rs] when each is a Unicode scalar value. *)
Lemma runes_encode rs : Forall scalar rs -> runes (encode rs) = rs.
Proof.
  induction rs as [|r rs IH]; intros Hrs; [done|].
  apply Forall_cons in Hrs as [Hr Hrs]. simpl. rewrite runes_encode_rune by done. by rewrite IH.
Qed.

(** ** Claims *)

(** C17: [Substring s n] keeps the first [n] characters of [s], as its
    comment says: decoding its result gives exactly the first [n] runes
    of [s], on both branches of the code (the string itself when it has
    at most [n] runes, the re-encoded prefix [string(runes[:n])]
    otherwise); a multi-byte character is never cut. *)
Theorem Substring_runes s n : runes (Substring s n) = take n (runes s).
Proof.
  unfold Substring. case_decide.
  - by rewrite take_ge.
  - apply runes_encode, Forall_take, runes_scalar_all.
Qed.
