(* ===== verification/Redis.v ===== *)
(** * The Fast Cache Store: a model of the Redis server the code talks to

    Redis is an external collaborator (spec §2, component 2): this file
    models the commands the Go code issues through go-redis, with the
    semantics of the Redis server, not code of the repository.  The
    keyspace maps key strings to typed values; a command on a key of the
    wrong type fails with [WrongType]; collections that become empty are
    deleted, as Redis does; [volatile] is the set of keys that carry a
    time to live ([EXPIRE]), and [expire_key] is the event of that time
    running out.  Members and hash values are strings: go-redis formats
    an [int] argument with [strconv], so the code's integers appear here
    as [Itoa] strings, and [HINCRBY] parses them with Redis's strict
    integer reader [redis_int]. *)

From S2P Require Import Prelude Strconv.
From stdpp Require Import sorting.
Open Scope hcl_scope.

Open Scope Z_scope.

Inductive rvalue : Type :=
| RStr (s : string)
| RHash (h : gmap string string)
| RSet (m : gset string)
| RZSet (z : gmap string Z)
| RList (l : list string).

Record redis : Type := mkRedis {
  kv : gmap string rvalue;
  volatile : gset string
}.

(** Replies that are errors on the client side: a Redis error reply, the
    [redis.Nil] of go-redis for an absent value, or a failed
    connection. *)
Inductive rerr : Type :=
| WrongType
| NotInteger
| Overflow
| NilReply
| ScriptError
| NetError.

Abbreviation cmd := (stM redis rerr).

Definition redis_empty : redis := mkRedis ∅ ∅.

Definition set_key (k : string) (v : rvalue) (r : redis) : redis :=
  mkRedis (<[k := v]> (kv r)) (volatile r).

Definition del_key (k : string) (r : redis) : redis :=
  mkRedis (delete k (kv r)) (volatile r ∖ {[k]}).

Definition is_empty_value (v : rvalue) : bool :=
  match v with
  | RStr _ => false
  | RHash h => bool_decide (h = ∅)
  | RSet m => bool_decide (m = ∅)
  | RZSet z => bool_decide (z = ∅)
  | RList l => bool_decide (l = [])
  end.

(** Writing a collection back: an empty one deletes the key. *)
Definition store (k : string) (v : rvalue) : cmd unit :=
  modify (fun r => if is_empty_value v then del_key k r else set_key k v r).

(** ** Typed reads: an absent key reads as the empty collection *)
Definition get_hash (k : string) : cmd (gmap string string) := fun r =>
  match kv r !! k with
  | None => (Ok ∅, r)
  | Some (RHash h) => (Ok h, r)
  | Some _ => (Err WrongType, r)
  end.

Definition get_set (k : string) : cmd (gset string) := fun r =>
  match kv r !! k with
  | None => (Ok ∅, r)
  | Some (RSet m) => (Ok m, r)
  | Some _ => (Err WrongType, r)
  end.

Definition get_zset (k : string) : cmd (gmap string Z) := fun r =>
  match kv r !! k with
  | None => (Ok ∅, r)
  | Some (RZSet z) => (Ok z, r)
  | Some _ => (Err WrongType, r)
  end.

Definition get_list (k : string) : cmd (list string) := fun r =>
  match kv r !! k with
  | None => (Ok [], r)
  | Some (RList l) => (Ok l, r)
  | Some _ => (Err WrongType, r)
  end.

(** ** Hashes *)
Definition HSET (k : string) (fvs : list (string * string)) : cmd unit :=
  h <- get_hash k ;;
  store k (RHash (foldl (fun acc fv => <[fv.1 := fv.2]> acc) h fvs)).

Definition HGETALL (k : string) : cmd (gmap string string) := get_hash k.

Definition HGET (k f : string) : cmd string :=
  h <- get_hash k ;;
  match h !! f with
  | Some v => ret v
  | None => throw NilReply
  end.

(** [HINCRBY]: an absent field counts as 0; a field that is not a
    canonical 64-bit integer, or a result out of 64 bits, is an error
    and changes nothing. *)
Definition HINCRBY (k f : string) (incr : Z) : cmd Z :=
  h <- get_hash k ;;
  cur <- (match h !! f with
          | None => ret 0
          | Some s => match redis_int s with
                      | Some z => ret z
                      | None => throw NotInteger
                      end
          end) ;;
  if in_int64 (cur + incr)
  then store k (RHash (<[f := Itoa (cur + incr)]> h)) ;; ret (cur + incr)
  else throw Overflow.

(** ** Keys *)
Definition DEL (k : string) : cmd unit := modify (del_key k).

Definition EXPIRE (k : string) : cmd bool := fun r =>
  match kv r !! k with
  | Some _ => (Ok true, mkRedis (kv r) ({[k]} ∪ volatile r))
  | None => (Ok false, r)
  end.

(** [SCAN] with a pattern [prefix*], run to the end of the cursor: the
    keys with that prefix, each once, in the server's order. *)
Definition SCAN (prefix : string) : cmd (list string) := fun r =>
  (Ok (filter (fun k => String.prefix prefix k = true) (elements (dom (kv r)))), r).

(** [SCAN] with a pattern [prefix*suffix] ([*] matches any run of
    characters), run to the end of the cursor. *)
Definition glob_match (pre suf k : string) : bool :=
  String.prefix pre k
  && String.eqb (String.substring (String.length k - String.length suf) (String.length suf) k) suf
  && (String.length pre + String.length suf <=? String.length k)%nat.

Definition SCAN_glob (pre suf : string) : cmd (list string) := fun r =>
  (Ok (filter (fun k => glob_match pre suf k = true) (elements (dom (kv r)))), r).

(** One call [SCAN cursor MATCH pattern COUNT 0], as the cursor loops
    send it: go-redis omits a COUNT of 0 and the server scans its
    default of 10 keys per call.  The server's order is
    [elements (dom (kv r))] and the cursor a position in it; the reply
    is the keys of the page that match and the next cursor, 0 once the
    page reaches the end. *)
Definition scan_default_count : nat := 10.

Definition SCAN_cursor (pat : string -> bool) (cursor : Z) : cmd (list string * Z) := fun r =>
  let ks := elements (dom (kv r)) in
  let next := (Z.to_nat cursor + scan_default_count)%nat in
  (Ok (filter (fun k => pat k = true) (take scan_default_count (drop (Z.to_nat cursor) ks)),
       if (next <? length ks)%nat then Z.of_nat next else 0), r).

(** The time to live of a volatile key runs out. *)
Definition expire_key (k : string) (r : redis) : redis :=
  if decide (k ∈ volatile r) then del_key k r else r.

(** ** Lists and sets *)
Definition LPUSH (k v : string) : cmd unit :=
  l <- get_list k ;; store k (RList (v :: l)).

Definition LRANGE_all (k : string) : cmd (list string) := get_list k.

Definition SADD (k m : string) : cmd unit :=
  s <- get_set k ;; store k (RSet ({[m]} ∪ s)).

Definition SREM (k m : string) : cmd unit :=
  s <- get_set k ;; store k (RSet (s ∖ {[m]})).

Definition SISMEMBER (k m : string) : cmd bool :=
  s <- get_set k ;; ret (bool_decide (m ∈ s)).

Definition SINTER (k1 k2 : string) : cmd (list string) :=
  s1 <- get_set k1 ;; s2 <- get_set k2 ;; ret (elements (s1 ∩ s2)).

(** ** Observations used by the theorems *)
Definition hash_at (r : redis) (k : string) : option (gmap string string) :=
  match kv r !! k with Some (RHash h) => Some h | _ => None end.

Definition set_at (r : redis) (k : string) : gset string :=
  match kv r !! k with Some (RSet m) => m | _ => ∅ end.

(** The field [f] of the hash at [k], read as an integer. *)
Definition hint (r : redis) (k f : string) : option Z :=
  (hash_at r k ≫= (fun h => h !! f)) ≫= redis_int.

(** ** Sorted sets

    Scores are doubles in Redis; the code only adds integers to them, so
    they are modelled as [Z] (exact below 2^53, where a double holds
    every integer). *)

(** A key read as a sorted set: a plain set counts each member with
    score 1, as in [ZINTERSTORE]. *)
Definition get_zset_or_set (k : string) : cmd (gmap string Z) := fun r =>
  match kv r !! k with
  | None => (Ok ∅, r)
  | Some (RZSet z) => (Ok z, r)
  | Some (RSet m) => (Ok (set_to_map (fun x => (x, 1)) m), r)
  | Some _ => (Err WrongType, r)
  end.

Definition ZADD (k : string) (score : Z) (m : string) : cmd unit :=
  z <- get_zset k ;; store k (RZSet (<[m := score]> z)).

Definition ZINCRBY (k : string) (incr : Z) (m : string) : cmd Z :=
  z <- get_zset k ;;
  let n := default 0 (z !! m) + incr in
  store k (RZSet (<[m := n]> z)) ;; ret n.

Definition ZSCORE (k m : string) : cmd Z :=
  z <- get_zset k ;;
  match z !! m with Some s => ret s | None => throw NilReply end.

(** [ZINTERSTORE dest 2 k1 k2 WEIGHTS w1 w2 AGGREGATE SUM]: the members
    of both, scored [w1*s1 + w2*s2], replacing [dest]. *)
Definition ZINTERSTORE2 (dest k1 k2 : string) (w1 w2 : Z) : cmd unit :=
  z1 <- get_zset_or_set k1 ;;
  z2 <- get_zset_or_set k2 ;;
  DEL dest ;;
  store dest (RZSet (map_zip_with (fun s1 s2 => w1 * s1 + w2 * s2) z1 z2)).

(** The order of [ZREVRANGE]: higher score first, and among equal
    scores the lexicographically greater member first. *)
Definition zrev_le (a b : string * Z) : Prop :=
  b.2 < a.2 ∨ (a.2 = b.2 ∧ (b.1 ?= a.1)%string ≠ Gt).

#[export] Instance zrev_le_dec : RelDecision zrev_le.
Proof. intros a b. unfold zrev_le. solve_decision. Defined.

#[export] Instance zrev_le_total : Total zrev_le.
Proof.
  intros [m1 s1] [m2 s2]. unfold zrev_le; simpl.
  destruct (Z.lt_trichotomy s1 s2) as [?|[->|?]]; [right; lia| |left; lia].
  rewrite (String.compare_antisym m1 m2).
  destruct (m2 ?= m1)%string; simpl; [left|left|right]; right; split; done.
Qed.

Definition ZREVRANGE_all (k : string) : cmd (list (string * Z)) :=
  z <- get_zset k ;; ret (merge_sort zrev_le (map_to_list z)).

Definition zset_at (r : redis) (k : string) : gmap string Z :=
  match kv r !! k with Some (RZSet z) => z | _ => ∅ end.

(** ** Lemmas on the commands *)

Lemma store_nonempty k v r :
  is_empty_value v = false -> store k v r = (Ok tt, set_key k v r).
Proof. unfold store, modify. by intros ->. Qed.

Lemma insert_hash_nonempty (h : gmap string string) f s :
  is_empty_value (RHash (<[f := s]> h)) = false.
Proof. simpl. apply bool_decide_eq_false, insert_non_empty. Qed.

Lemma union_set_nonempty (m : gset string) x :
  is_empty_value (RSet ({[x]} ∪ m)) = false.
Proof. simpl. apply bool_decide_eq_false. set_solver. Qed.

(** The hash at [k] is [h]: it holds [h], or it is absent and [h] is
    empty. *)
Definition hash_is (r : redis) (k : string) (h : gmap string string) : Prop :=
  kv r !! k = Some (RHash h) ∨ (kv r !! k = None ∧ h = ∅).

Lemma get_hash_is r k h : hash_is r k h -> get_hash k r = (Ok h, r).
Proof. unfold get_hash. by intros [-> | [-> ->]]. Qed.

(** The integer a field holds, as [HINCRBY] reads it. *)
Definition field_int (h : gmap string string) (f : string) (v : Z) : Prop :=
  (h !! f = None ∧ v = 0) ∨ (∃ s, h !! f = Some s ∧ redis_int s = Some v).

Lemma HINCRBY_ok r k f h v i :
  hash_is r k h -> field_int h f v -> in_int64 (v + i) = true ->
  HINCRBY k f i r = (Ok (v + i), set_key k (RHash (<[f := Itoa (v + i)]> h)) r).
Proof.
  intros Hh Hf Hin. unfold HINCRBY. mstep (get_hash_is r k h Hh).
  destruct Hf as [[Hf ->] | (s & Hf & Hs)]; rewrite Hf; [|rewrite Hs];
    unfold bind at 1, ret at 1; rewrite Hin;
    unfold bind; rewrite store_nonempty by apply insert_hash_nonempty; done.
Qed.

Lemma HINCRBY_overflow r k f h v i :
  hash_is r k h -> field_int h f v -> in_int64 (v + i) = false ->
  HINCRBY k f i r = (Err Overflow, r).
Proof.
  intros Hh Hf Hin. unfold HINCRBY. mstep (get_hash_is r k h Hh).
  destruct Hf as [[Hf ->] | (s & Hf & Hs)]; rewrite Hf; [|rewrite Hs];
    unfold bind at 1, ret at 1; by rewrite Hin.
Qed.

(** A failed [HINCRBY] changes nothing. *)
Lemma HINCRBY_err_state k f i r e r' :
  HINCRBY k f i r = (Err e, r') -> r' = r.
Proof.
  unfold HINCRBY, get_hash, bind, ret, throw.
  repeat case_match; intros; simplify_eq; done.
Qed.

Lemma field_int_insert h f v :
  in_int64 v = true -> field_int (<[f := Itoa v]> h) f v.
Proof.
  intros Hv. right. exists (Itoa v). rewrite lookup_insert_eq.
  split; [done|]. apply redis_int_Itoa, in_int64_spec, Hv.
Qed.

Lemma hash_is_set_key r k h : hash_is (set_key k (RHash h) r) k h.
Proof. left. simpl. apply lookup_insert_eq. Qed.

Lemma hash_is_set_key_ne r k k' v h :
  k ≠ k' -> hash_is r k' h -> hash_is (set_key k v r) k' h.
Proof. unfold hash_is, set_key; simpl. intros Hne. by rewrite lookup_insert_ne. Qed.

(** The set at [k] is [m]: it holds [m], or it is absent and [m] is
    empty. *)
Definition set_is (r : redis) (k : string) (m : gset string) : Prop :=
  kv r !! k = Some (RSet m) ∨ (kv r !! k = None ∧ m = ∅).

Lemma get_set_is r k m : set_is r k m -> get_set k r = (Ok m, r).
Proof. unfold get_set. by intros [-> | [-> ->]]. Qed.

Lemma SISMEMBER_is r k m x :
  set_is r k m -> SISMEMBER k x r = (Ok (bool_decide (x ∈ m)), r).
Proof. intros Hm. unfold SISMEMBER. by mstep (get_set_is r k m Hm). Qed.

Lemma SADD_is r k m x :
  set_is r k m -> SADD k x r = (Ok tt, set_key k (RSet ({[x]} ∪ m)) r).
Proof.
  intros Hm. unfold SADD. mstep (get_set_is r k m Hm).
  apply store_nonempty, union_set_nonempty.
Qed.

Lemma SREM_is r k m x :
  set_is r k m ->
  SREM k x r = (Ok tt, if bool_decide (m ∖ {[x]} = ∅) then del_key k r
                       else set_key k (RSet (m ∖ {[x]})) r).
Proof.
  intros Hm. unfold SREM. mstep (get_set_is r k m Hm).
  unfold store, modify; simpl. by case_bool_decide.
Qed.

Lemma SINTER_is r k1 k2 m1 m2 :
  set_is r k1 m1 -> set_is r k2 m2 -> SINTER k1 k2 r = (Ok (elements (m1 ∩ m2)), r).
Proof.
  intros H1 H2. unfold SINTER. mstep (get_set_is r k1 m1 H1). by mstep (get_set_is r k2 m2 H2).
Qed.

Lemma set_is_set_key r k m : set_is (set_key k (RSet m) r) k m.
Proof. left. simpl. apply lookup_insert_eq. Qed.

Lemma set_is_set_key_ne r k k' v m :
  k ≠ k' -> set_is r k' m -> set_is (set_key k v r) k' m.
Proof. unfold set_is, set_key; simpl. intros Hne. by rewrite lookup_insert_ne. Qed.

(** The sorted set at [k] is [z]: it holds [z], or it is absent and
    [z] is empty. *)
Definition zset_is (r : redis) (k : string) (z : gmap string Z) : Prop :=
  kv r !! k = Some (RZSet z) ∨ (kv r !! k = None ∧ z = ∅).

Lemma get_zset_is r k z : zset_is r k z -> get_zset k r = (Ok z, r).
Proof. unfold get_zset. by intros [-> | [-> ->]]. Qed.

Lemma get_zset_or_set_zset r k z : zset_is r k z -> get_zset_or_set k r = (Ok z, r).
Proof. unfold get_zset_or_set. by intros [-> | [-> ->]]. Qed.

Lemma get_zset_or_set_set r k m :
  set_is r k m -> get_zset_or_set k r = (Ok (set_to_map (fun x => (x, 1)) m), r).
Proof. unfold get_zset_or_set. by intros [-> | [-> ->]]. Qed.

Lemma zset_is_store k z r : zset_is (snd (store k (RZSet z) r)) k z.
Proof.
  unfold store, modify; simpl. case_bool_decide as Hz.
  - right. split; [apply lookup_delete_eq|done].
  - left. apply lookup_insert_eq.
Qed.

Lemma ZADD_is r k z s m :
  zset_is r k z -> ZADD k s m r = (Ok tt, set_key k (RZSet (<[m := s]> z)) r).
Proof.
  intros Hz. unfold ZADD. mstep (get_zset_is r k z Hz).
  apply store_nonempty. simpl. apply bool_decide_eq_false, insert_non_empty.
Qed.

Lemma ZINCRBY_is r k z i m :
  zset_is r k z ->
  ZINCRBY k i m r = (Ok (default 0 (z !! m) + i),
                     set_key k (RZSet (<[m := default 0 (z !! m) + i]> z)) r).
Proof.
  intros Hz. unfold ZINCRBY. mstep (get_zset_is r k z Hz).
  unfold bind. rewrite store_nonempty; [done|].
  simpl. apply bool_decide_eq_false, insert_non_empty.
Qed.

Lemma ZSCORE_is r k z m :
  zset_is r k z ->
  ZSCORE k m r = (match z !! m with Some s => Ok s | None => Err NilReply end, r).
Proof. intros Hz. unfold ZSCORE. mstep (get_zset_is r k z Hz). by destruct (z !! m). Qed.

Lemma ZINTERSTORE2_is r dest k1 k2 z1 z2 w1 w2 :
  get_zset_or_set k1 r = (Ok z1, r) -> get_zset_or_set k2 r = (Ok z2, r) ->
  ZINTERSTORE2 dest k1 k2 w1 w2 r
  = (Ok tt, snd (store dest (RZSet (map_zip_with (fun s1 s2 => w1 * s1 + w2 * s2) z1 z2))
                       (del_key dest r))).
Proof.
  intros H1 H2. unfold ZINTERSTORE2. mstep H1. mstep H2. unfold bind, DEL, modify.
  unfold store, modify. by case_match.
Qed.

Lemma ZREVRANGE_all_is r k z :
  zset_is r k z -> ZREVRANGE_all k r = (Ok (merge_sort zrev_le (map_to_list z)), r).
Proof. intros Hz. unfold ZREVRANGE_all. by mstep (get_zset_is r k z Hz). Qed.

Lemma zset_is_set_key r k z : zset_is (set_key k (RZSet z) r) k z.
Proof. left. simpl. apply lookup_insert_eq. Qed.

Lemma zset_is_set_key_ne r k k' v z :
  k ≠ k' -> zset_is r k' z -> zset_is (set_key k v r) k' z.
Proof. unfold zset_is, set_key; simpl. intros Hne. by rewrite lookup_insert_ne. Qed.

#[export] Hint Resolve zset_is_set_key zset_is_set_key_ne : hcl.

Lemma get_hash_some r k h : kv r !! k = Some (RHash h) -> get_hash k r = (Ok h, r).
Proof. unfold get_hash. by intros ->. Qed.

#[export] Hint Resolve hash_is_set_key hash_is_set_key_ne field_int_insert
  set_is_set_key set_is_set_key_ne : hcl.

Lemma foldl_insert_nonempty (h : gmap string string) (fvs : list (string * string)) f v :
  foldl (fun acc fv => <[fv.1 := fv.2]> acc) (<[f := v]> h) fvs ≠ ∅.
Proof.
  revert f v h. induction fvs as [|[f' v'] fvs IH]; intros f v h; simpl.
  - apply insert_non_empty.
  - apply IH.
Qed.

(** [HSET] of at least one field writes the merged hash. *)
Lemma HSET_is r k h fv fvs :
  hash_is r k h ->
  HSET k (fv :: fvs) r
  = (Ok tt, set_key k (RHash (foldl (fun acc fv => <[fv.1 := fv.2]> acc) h (fv :: fvs))) r).
Proof.
  intros Hh. unfold HSET. mstep (get_hash_is r k h Hh).
  apply store_nonempty. simpl. apply bool_decide_eq_false, foldl_insert_nonempty.
Qed.

Lemma redis_eq r1 r2 : kv r1 = kv r2 -> volatile r1 = volatile r2 -> r1 = r2.
Proof. destruct r1, r2; simpl. by intros -> ->. Qed.

Lemma set_key_set_key k v v' r : set_key k v (set_key k v' r) = set_key k v r.
Proof. unfold set_key; simpl. by rewrite insert_insert_eq. Qed.

Lemma set_key_same k v r : kv r !! k = Some v -> set_key k v r = r.
Proof. intros H. apply redis_eq; simpl; [by apply insert_id|done]. Qed.

(** ** Well-formed keyspaces

    Redis never stores an empty collection, and a time to live belongs
    to a key that exists.  Every command keeps these two facts. *)
Definition redis_wf (r : redis) : Prop :=
  map_Forall (fun _ v => is_empty_value v = false) (kv r) ∧ volatile r ⊆ dom (kv r).

Class PreservesWf {A} (c : cmd A) : Prop :=
  preserves_wf : ∀ r, redis_wf r -> redis_wf (snd (c r)).

Section Wf.
Context {A B : Type}.

#[export] Instance ret_wf (a : A) : PreservesWf (ret (S:=redis) (E:=rerr) a).
Proof. by intros r. Qed.

#[export] Instance throw_wf (e : rerr) : PreservesWf (throw (S:=redis) (A:=A) e).
Proof. by intros r. Qed.

#[export] Instance bind_wf (m : cmd A) (k : A -> cmd B) :
  PreservesWf m -> (∀ a, PreservesWf (k a)) -> PreservesWf (bind m k).
Proof.
  intros Hm Hk r Hr. unfold bind. specialize (Hm r Hr).
  destruct (m r) as [[a|e] r'] eqn:E; simpl in *; [by apply Hk|done].
Qed.

(** A read leaves the keyspace as it is. *)
Lemma read_wf (c : cmd A) : (∀ r, snd (c r) = r) -> PreservesWf c.
Proof. intros Hc r. by rewrite Hc. Qed.
End Wf.

Lemma set_key_wf k v r :
  is_empty_value v = false -> redis_wf r -> redis_wf (set_key k v r).
Proof.
  intros Hv [Hne Hvol]. split; simpl.
  - by apply map_Forall_insert_2.
  - rewrite dom_insert_L. set_solver.
Qed.

Lemma del_key_wf k r : redis_wf r -> redis_wf (del_key k r).
Proof.
  intros [Hne Hvol]. split; simpl.
  - by apply map_Forall_delete.
  - rewrite dom_delete_L. set_solver.
Qed.

#[export] Hint Resolve set_key_wf del_key_wf : hcl.

#[export] Instance store_wf k v : PreservesWf (store k v).
Proof.
  intros r Hr. unfold store, modify; simpl.
  destruct (is_empty_value v) eqn:E; eauto with hcl.
Qed.

#[export] Instance get_hash_wf k : PreservesWf (get_hash k).
Proof. apply read_wf. intros r. unfold get_hash. by repeat case_match. Qed.
#[export] Instance get_set_wf k : PreservesWf (get_set k).
Proof. apply read_wf. intros r. unfold get_set. by repeat case_match. Qed.
#[export] Instance get_zset_wf k : PreservesWf (get_zset k).
Proof. apply read_wf. intros r. unfold get_zset. by repeat case_match. Qed.
#[export] Instance get_list_wf k : PreservesWf (get_list k).
Proof. apply read_wf. intros r. unfold get_list. by repeat case_match. Qed.
#[export] Instance get_zset_or_set_wf k : PreservesWf (get_zset_or_set k).
Proof. apply read_wf. intros r. unfold get_zset_or_set. by repeat case_match. Qed.
#[export] Instance SCAN_wf p : PreservesWf (SCAN p).
Proof. by apply read_wf. Qed.
#[export] Instance SCAN_glob_wf p q : PreservesWf (SCAN_glob p q).
Proof. by apply read_wf. Qed.
#[export] Instance SCAN_cursor_wf p c : PreservesWf (SCAN_cursor p c).
Proof. by apply read_wf. Qed.

#[export] Instance DEL_wf k : PreservesWf (DEL k).
Proof. intros r. apply del_key_wf. Qed.

#[export] Instance EXPIRE_wf k : PreservesWf (EXPIRE k).
Proof.
  intros r [Hne Hvol]. unfold EXPIRE.
  destruct (kv r !! k) eqn:E; simpl; [|done].
  split; [done|]. apply elem_of_dom_2 in E. set_solver.
Qed.

(** The case analyses inside commands. *)
#[export] Hint Extern 1 (PreservesWf (match ?x with _ => _ end)) =>
  destruct x : typeclass_instances.

#[export] Instance HSET_wf k fvs : PreservesWf (HSET k fvs).
Proof. unfold HSET. apply _. Qed.
#[export] Instance HGET_wf k f : PreservesWf (HGET k f).
Proof. unfold HGET. apply _. Qed.
#[export] Instance HINCRBY_wf k f i : PreservesWf (HINCRBY k f i).
Proof. unfold HINCRBY. apply _. Qed.
#[export] Instance LPUSH_wf k v : PreservesWf (LPUSH k v).
Proof. unfold LPUSH. apply _. Qed.
#[export] Instance SADD_wf k m : PreservesWf (SADD k m).
Proof. unfold SADD. apply _. Qed.
#[export] Instance SREM_wf k m : PreservesWf (SREM k m).
Proof. unfold SREM. apply _. Qed.
#[export] Instance SISMEMBER_wf k m : PreservesWf (SISMEMBER k m).
Proof. unfold SISMEMBER. apply _. Qed.
#[export] Instance SINTER_wf k1 k2 : PreservesWf (SINTER k1 k2).
Proof. unfold SINTER. apply _. Qed.
#[export] Instance ZADD_wf k s m : PreservesWf (ZADD k s m).
Proof. unfold ZADD. apply _. Qed.
#[export] Instance ZINCRBY_wf k i m : PreservesWf (ZINCRBY k i m).
Proof. unfold ZINCRBY. apply _. Qed.
#[export] Instance ZSCORE_wf k m : PreservesWf (ZSCORE k m).
Proof. unfold ZSCORE. apply _. Qed.
#[export] Instance ZINTERSTORE2_wf d k1 k2 w1 w2 : PreservesWf (ZINTERSTORE2 d k1 k2 w1 w2).
Proof. unfold ZINTERSTORE2. apply _. Qed.
#[export] Instance ZREVRANGE_all_wf k : PreservesWf (ZREVRANGE_all k).
Proof. unfold ZREVRANGE_all. apply _. Qed.

Lemma expire_key_wf k r : redis_wf r -> redis_wf (expire_key k r).
Proof. unfold expire_key. case_decide; auto with hcl. Qed.

(** In a well-formed keyspace, a set that reads as empty is absent. *)
Lemma set_is_wf_lookup r k m :
  redis_wf r -> set_is r k m -> kv r !! k = if bool_decide (m = ∅) then None else Some (RSet m).
Proof.
  intros [Hne _] [Hk | [Hk ->]]; case_bool_decide; subst; try done.
  specialize (Hne _ _ Hk). simpl in Hne. by rewrite bool_decide_true in Hne.
Qed.
