(* ===== verification/Models.v ===== *)
(** * The data model: the structs of [user_model] and [article_model]

    One Module per Go struct, so that each field keeps its Go name
    ([Article.Like], [CommunityItem.Remain], ...).  Go's [int] is a [Z]
    kept within 64 bits where it matters; a [time.Time] is a [Z] (an
    instant in nanoseconds).  The cache stores times as RFC 3339 strings;
    the class [TimeCodec] states what the code needs of that encoding. *)

From S2P Require Import Prelude Strconv.
Open Scope hcl_scope.

(** [article_model.Article] (article.go) *)
Module Article.
Record t : Type := mk {
  ID : Z;
  Title : string;
  Content : string;
  ManagerID : Z;
  CreateAt : Z;
  Kind : string;
  Like : Z
}.
Definition with_like (a : t) (l : Z) : t :=
  mk (ID a) (Title a) (Content a) (ManagerID a) (CreateAt a) (Kind a) l.
#[global] Instance eq_dec : EqDecision t.
Proof. solve_decision. Defined.
End Article.

(** [article_model.BasicArticle] (basicArticle.go) *)
Module BasicArticle.
Record t : Type := mk {
  ID : Z;
  Title : string;
  Content : string;
  Kind : string;
  Like : Z;
  ManagerID : Z
}.
#[global] Instance eq_dec : EqDecision t.
Proof. solve_decision. Defined.
End BasicArticle.

(** [article_model.ArticleWithNoLike] (articleWithNoLike.go) *)
Module ArticleWithNoLike.
Record t : Type := mk {
  ID : Z;
  Title : string;
  Content : string;
  ManagerID : Z;
  CreateAt : Z;
  Kind : string
}.
#[global] Instance eq_dec : EqDecision t.
Proof. solve_decision. Defined.
End ArticleWithNoLike.

(** [user_model.CommunityItem] (community_item.go) *)
Module CommunityItem.
Record t : Type := mk {
  ID : Z;
  Name : string;
  Capacity : Z;
  Remain : Z;
  Price : Z;
  Begin : Z
}.
#[global] Instance eq_dec : EqDecision t.
Proof. solve_decision. Defined.
End CommunityItem.

(** [user_model.UserItem] (user_item.go) *)
Module UserItem.
Record t : Type := mk {
  ID : Z;
  UserID : Z;
  ItemID : Z;
  CreateAt : Z
}.
#[global] Instance eq_dec : EqDecision t.
Proof. solve_decision. Defined.
End UserItem.

(** [user_model.UserFollow] (user_follow.go) *)
Module UserFollow.
Record t : Type := mk {
  ID : Z;
  UserID : Z;
  FollowID : Z;
  CreateAt : Z
}.
#[global] Instance eq_dec : EqDecision t.
Proof. solve_decision. Defined.
End UserFollow.

(** [user_model.User] (user.go) *)
Module User.
Record t : Type := mk {
  ID : Z;
  UserName : string;
  PhoneNumber : string;
  IsManager : Z;
  CreatedAt : Z;
  AvatarUrl : string;
  Biography : string;
  Likes : Z
}.
#[global] Instance eq_dec : EqDecision t.
Proof. solve_decision. Defined.
End User.

(** [user_model.ScoreRecord] (score_record.go) *)
Module ScoreRecord.
Record t : Type := mk {
  ID : Z;
  UserID : Z;
  ManagerID : Z;
  Score : Z;
  CreatedAt : Z
}.
#[global] Instance eq_dec : EqDecision t.
Proof. solve_decision. Defined.
End ScoreRecord.

(** [user_model.PhoneRecord] (phone_record.go) *)
Module PhoneRecord.
Record t : Type := mk {
  ID : Z;
  UserID : Z;
  ManagerID : Z;
  Content : string;
  CreatedAt : Z;
  Satisfaction : Z;
  UserPhone : string
}.
#[global] Instance eq_dec : EqDecision t.
Proof. solve_decision. Defined.
End PhoneRecord.

(** [user_model.UserLikeRank]: the type is not under [src/]; its fields
    are those [GetLikesRank] fills. *)
Module UserLikeRank.
Record t : Type := mk {
  UserID : Z;
  Likes : Z;
  Rank : Z
}.
#[global] Instance eq_dec : EqDecision t.
Proof. solve_decision. Defined.
End UserLikeRank.

(** [user_model.UserCode]: not under [src/]; the two fields the code
    reads. *)
Module UserCode.
Record t : Type := mk {
  Code : string;
  PhoneNumber : string
}.
#[global] Instance eq_dec : EqDecision t.
Proof. solve_decision. Defined.
End UserCode.

(** ** The time encoding of the cache

    go-redis writes a [time.Time] with [RFC3339Nano] and the code reads it
    back with [time.Parse(time.RFC3339Nano, ...)].  What the code relies
    on is that reading back what was written gives the same instant, and
    that an absent field (read as [""]) does not parse. *)
Class TimeCodec : Type := {
  format_time : Z -> string;
  parse_time : string -> option Z;
  parse_format : ∀ t, parse_time (format_time t) = Some t;
  parse_empty : parse_time "" = None
}.

(** A codec to run the models on concrete inputs: decimal nanoseconds. *)
#[export] Instance decimal_time : TimeCodec := {|
  format_time := Itoa;
  parse_time := Atoz;
  parse_format := Atoz_Itoa;
  parse_empty := eq_refl
|}.
