(* ===== verification/Durable.v ===== *)
(** * The Durable Store: the MySQL tables behind GORM

    An external collaborator (spec §2, component 1): the tables the
    repositories read and write, and the effect of each SQL statement
    GORM issues for them.  A table is a map from primary key to row;
    [Create] takes the next auto-increment key when the struct's [ID] is
    0 and the given key otherwise, and fails on a duplicate key.  An
    [UPDATE] reports the rows it changed, as go-sql-driver/mysql does by
    default (without [clientFoundRows]).  Rows of [user_item] and
    [user_follow] have no key the code uses: they are lists.  The schema
    is not in the repository: the only column constraint assumed besides
    the primary keys is the unique [username] that [Login]'s retry loop
    relies on. *)

From S2P Require Import Prelude Strconv Models.
Open Scope hcl_scope.
Open Scope Z_scope.

Inductive dberr : Type :=
| DbNetError
| DbDuplicateKey
| DbRecordNotFound.

Record db : Type := mkDb {
  article_t : gmap Z Article.t;
  article_seq : Z;
  user_t : gmap Z User.t;
  follow_t : list UserFollow.t;
  item_t : gmap Z CommunityItem.t;
  item_seq : Z;
  user_item_t : list UserItem.t;
  user_item_seq : Z;
  user_seq : Z;
  score_t : list ScoreRecord.t;
  score_seq : Z;
  phone_t : list PhoneRecord.t;
  phone_seq : Z
}.

Definition db_empty : db := mkDb ∅ 1 ∅ [] ∅ 1 [] 1 1 [] 1 [] 1.

(** ** Table [article] *)
Definition set_articles (t : gmap Z Article.t) (seq : Z) (d : db) : db :=
  mkDb t seq (user_t d) (follow_t d) (item_t d) (item_seq d) (user_item_t d) (user_item_seq d) (user_seq d) (score_t d) (score_seq d) (phone_t d) (phone_seq d).

(** [tx.Create(article)]: the row with its key; GORM writes the key back
    into the struct. *)
Definition sql_create_article (a : Article.t) (d : db) : res dberr (Article.t * db) :=
  let id := if decide (Article.ID a = 0) then article_seq d else Article.ID a in
  let a' := Article.mk id (Article.Title a) (Article.Content a) (Article.ManagerID a)
              (Article.CreateAt a) (Article.Kind a) (Article.Like a) in
  match article_t d !! id with
  | Some _ => Err DbDuplicateKey
  | None => Ok (a', set_articles (<[id := a']> (article_t d)) (Z.max (article_seq d) (id + 1)) d)
  end.

(** [UPDATE article SET like = ? WHERE id = ?] *)
Definition sql_set_article_like (id like : Z) (d : db) : db :=
  match article_t d !! id with
  | Some a => set_articles (<[id := Article.with_like a like]> (article_t d)) (article_seq d) d
  | None => d
  end.

(** [UPDATE article SET title = ?, content = ?, like = ? WHERE id = ?],
    with the number of rows it changed. *)
Definition sql_update_article (id : Z) (title content : string) (like : Z) (d : db) : Z * db :=
  match article_t d !! id with
  | Some a =>
      let a' := Article.mk id title content (Article.ManagerID a) (Article.CreateAt a)
                  (Article.Kind a) like in
      if decide (a' = a) then (0, d)
      else (1, set_articles (<[id := a']> (article_t d)) (article_seq d) d)
  | None => (0, d)
  end.

(** ** Tables [community_item] and [user_item] *)
Definition set_items (t : gmap Z CommunityItem.t) (seq : Z) (d : db) : db :=
  mkDb (article_t d) (article_seq d) (user_t d) (follow_t d) t seq (user_item_t d) (user_item_seq d) (user_seq d) (score_t d) (score_seq d) (phone_t d) (phone_seq d).

Definition sql_create_item (it : CommunityItem.t) (d : db) : res dberr (CommunityItem.t * db) :=
  let id := if decide (CommunityItem.ID it = 0) then item_seq d else CommunityItem.ID it in
  let it' := CommunityItem.mk id (CommunityItem.Name it) (CommunityItem.Capacity it)
               (CommunityItem.Remain it) (CommunityItem.Price it) (CommunityItem.Begin it) in
  match item_t d !! id with
  | Some _ => Err DbDuplicateKey
  | None => Ok (it', set_items (<[id := it']> (item_t d)) (Z.max (item_seq d) (id + 1)) d)
  end.

(** [UPDATE community_item SET remain = remain-1 WHERE id = ?]: no lower
    bound in the statement. *)
Definition sql_dec_remain (id : Z) (d : db) : db :=
  match item_t d !! id with
  | Some it =>
      set_items (<[id := CommunityItem.mk id (CommunityItem.Name it) (CommunityItem.Capacity it)
                          (CommunityItem.Remain it - 1) (CommunityItem.Price it)
                          (CommunityItem.Begin it)]> (item_t d)) (item_seq d) d
  | None => d
  end.

Definition sql_create_user_item (ui : UserItem.t) (d : db) : UserItem.t * db :=
  let ui' := UserItem.mk (user_item_seq d) (UserItem.UserID ui) (UserItem.ItemID ui)
               (UserItem.CreateAt ui) in
  (ui', mkDb (article_t d) (article_seq d) (user_t d) (follow_t d) (item_t d) (item_seq d)
          (user_item_t d ++ [ui']) (user_item_seq d + 1) (user_seq d) (score_t d) (score_seq d) (phone_t d) (phone_seq d)).

(** ** Tables [user] and [user_follow] *)
Definition set_users (t : gmap Z User.t) (d : db) : db :=
  mkDb (article_t d) (article_seq d) t (follow_t d) (item_t d) (item_seq d)
       (user_item_t d) (user_item_seq d) (user_seq d) (score_t d) (score_seq d) (phone_t d) (phone_seq d).

Definition set_users_seq (t : gmap Z User.t) (seq : Z) (d : db) : db :=
  mkDb (article_t d) (article_seq d) t (follow_t d) (item_t d) (item_seq d)
       (user_item_t d) (user_item_seq d) seq (score_t d) (score_seq d) (phone_t d) (phone_seq d).

(** [tx.Create(&user)] at time [now] with [ID] 0: the next key, and
    GORM sets a zero [CreatedAt] to [now].  [UserService.Login] retries
    on MySQL error 1062 for the generated user name, so the [username]
    column is taken to carry a unique index. *)
Definition sql_create_user (now : Z) (u : User.t) (d : db) : res dberr (User.t * db) :=
  let id := user_seq d in
  let u' := User.mk id (User.UserName u) (User.PhoneNumber u) (User.IsManager u)
              (if Z.eqb (User.CreatedAt u) 0 then now else User.CreatedAt u)
              (User.AvatarUrl u) (User.Biography u) (User.Likes u) in
  if existsb (fun kv => String.eqb (User.UserName kv.2) (User.UserName u)) (map_to_list (user_t d))
  then Err DbDuplicateKey
  else Ok (u', set_users_seq (<[id := u']> (user_t d)) (id + 1) d).

(** [Take(&user, "phone_number = ?")]: a row with that phone number,
    or none.  [Take] has no [ORDER BY], so with several such rows MySQL
    may return any of them; the model takes the first in key order.
    [Login] inserts a phone only after this lookup found no row, so the
    rows it creates have distinct phone numbers. *)
Definition sql_user_by_phone (p : string) (d : db) : option User.t :=
  head (filter (fun u => User.PhoneNumber u = p) (map snd (map_to_list (user_t d)))).

(** [UPDATE user SET likes = likes + 1 WHERE id = ?] *)
Definition sql_inc_user_likes (id : Z) (d : db) : db :=
  match user_t d !! id with
  | Some u =>
      set_users (<[id := User.mk (User.ID u) (User.UserName u) (User.PhoneNumber u)
                           (User.IsManager u) (User.CreatedAt u) (User.AvatarUrl u)
                           (User.Biography u) (User.Likes u + 1)]> (user_t d)) d
  | None => d
  end.

(** [UPDATE user SET is_manager = 1 WHERE phone_number = ?]: every row
    with that phone number. *)
Definition set_manager (u : User.t) : User.t :=
  User.mk (User.ID u) (User.UserName u) (User.PhoneNumber u) 1 (User.CreatedAt u)
          (User.AvatarUrl u) (User.Biography u) (User.Likes u).

Definition sql_set_manager_by_phone (p : string) (d : db) : db :=
  set_users ((fun u => if String.eqb (User.PhoneNumber u) p then set_manager u else u) <$> user_t d) d.

(** GORM's [Updates] with a struct writes the fields that are not the
    zero value of their type; the primary key is not written. *)
Definition nz_str (new old : string) : string := if String.eqb new "" then old else new.
Definition nz_int (new old : Z) : Z := if Z.eqb new 0 then old else new.

Definition gorm_updates_user (body cur : User.t) : User.t :=
  User.mk (User.ID cur) (nz_str (User.UserName body) (User.UserName cur))
          (nz_str (User.PhoneNumber body) (User.PhoneNumber cur))
          (nz_int (User.IsManager body) (User.IsManager cur))
          (nz_int (User.CreatedAt body) (User.CreatedAt cur))
          (nz_str (User.AvatarUrl body) (User.AvatarUrl cur))
          (nz_str (User.Biography body) (User.Biography cur))
          (nz_int (User.Likes body) (User.Likes cur)).

(** [Model(&User{}).Where("id = ?", id).Updates(user)]: a non-zero [ID]
    in the body is added to the condition by GORM, so a body naming
    another id updates no row; a new user name held by another row
    breaks the unique index. *)
Definition sql_update_user_info (id : Z) (body : User.t) (d : db) : res dberr db :=
  if negb (Z.eqb (User.ID body) 0) && negb (Z.eqb (User.ID body) id) then Ok d
  else match user_t d !! id with
       | None => Ok d
       | Some cur =>
           if negb (String.eqb (User.UserName body) "")
              && existsb (fun kv => negb (Z.eqb kv.1 id) && String.eqb (User.UserName kv.2) (User.UserName body))
                         (map_to_list (user_t d))
           then Err DbDuplicateKey
           else Ok (set_users (<[id := gorm_updates_user body cur]> (user_t d)) d)
       end.

Definition set_follows (t : list UserFollow.t) (d : db) : db :=
  mkDb (article_t d) (article_seq d) (user_t d) t (item_t d) (item_seq d)
       (user_item_t d) (user_item_seq d) (user_seq d) (score_t d) (score_seq d) (phone_t d) (phone_seq d).

Definition sql_create_follow (f : UserFollow.t) (d : db) : db :=
  set_follows (follow_t d ++ [f]) d.

(** [DELETE FROM user_follow WHERE user_id = ? AND follow_id = ?] *)
Definition sql_delete_follow (uid fid : Z) (d : db) : db :=
  set_follows (filter (fun f => ¬ (UserFollow.UserID f = uid ∧ UserFollow.FollowID f = fid))
                      (follow_t d)) d.

(** ** Reads *)
Definition user_items_of (d : db) (uid iid : Z) : list UserItem.t :=
  filter (fun ui => UserItem.UserID ui = uid ∧ UserItem.ItemID ui = iid) (user_item_t d).

(** ** Tables [score_record] and [phone_record] *)
Definition set_scores (t : list ScoreRecord.t) (seq : Z) (d : db) : db :=
  mkDb (article_t d) (article_seq d) (user_t d) (follow_t d) (item_t d) (item_seq d)
       (user_item_t d) (user_item_seq d) (user_seq d) t seq (phone_t d) (phone_seq d).

Definition set_phones (t : list PhoneRecord.t) (seq : Z) (d : db) : db :=
  mkDb (article_t d) (article_seq d) (user_t d) (follow_t d) (item_t d) (item_seq d)
       (user_item_t d) (user_item_seq d) (user_seq d) (score_t d) (score_seq d) t seq.

(** [Create(&scoreRecord)]: a zero [ID] takes the next auto-increment
    key; an [ID] given in the JSON body is inserted as it is (a taken key
    is a duplicate-key error) and moves the counter past it. *)
Definition sql_create_score (sr : ScoreRecord.t) (d : db) : res dberr (ScoreRecord.t * db) :=
  if ScoreRecord.ID sr =? 0 then
    let sr' := ScoreRecord.mk (score_seq d) (ScoreRecord.UserID sr) (ScoreRecord.ManagerID sr)
                 (ScoreRecord.Score sr) (ScoreRecord.CreatedAt sr) in
    Ok (sr', set_scores (score_t d ++ [sr']) (score_seq d + 1) d)
  else if existsb (fun r => ScoreRecord.ID r =? ScoreRecord.ID sr) (score_t d) then Err DbDuplicateKey
  else Ok (sr, set_scores (score_t d ++ [sr]) (Z.max (score_seq d) (ScoreRecord.ID sr + 1)) d).

(** [Where("manager_id = ?").Order("created_at desc").First(&r)]: GORM's
    [First] adds the primary key as the last ordering column, so the
    latest record, the smallest id among equal times. *)
Definition later (a b : ScoreRecord.t) : bool :=
  (ScoreRecord.CreatedAt b <? ScoreRecord.CreatedAt a)
  || ((ScoreRecord.CreatedAt a =? ScoreRecord.CreatedAt b) && (ScoreRecord.ID a <? ScoreRecord.ID b)).

Fixpoint latest_of (best : ScoreRecord.t) (rs : list ScoreRecord.t) : ScoreRecord.t :=
  match rs with
  | [] => best
  | r :: rest => latest_of (if later r best then r else best) rest
  end.

Definition sql_latest_score (managerID : Z) (d : db) : option ScoreRecord.t :=
  match List.filter (fun r => ScoreRecord.ManagerID r =? managerID) (score_t d) with
  | [] => None
  | r :: rest => Some (latest_of r rest)
  end.

Definition sql_create_phone (pr : PhoneRecord.t) (d : db) : PhoneRecord.t * db :=
  let pr' := PhoneRecord.mk (phone_seq d) (PhoneRecord.UserID pr) (PhoneRecord.ManagerID pr)
               (PhoneRecord.Content pr) (PhoneRecord.CreatedAt pr) (PhoneRecord.Satisfaction pr)
               (PhoneRecord.UserPhone pr) in
  (pr', set_phones (phone_t d ++ [pr']) (phone_seq d + 1) d).

(** [Where("user_phone = ?").Find(&phoneRecords)] *)
Definition sql_phones_by_phone (phone : string) (d : db) : list PhoneRecord.t :=
  List.filter (fun r => String.eqb (PhoneRecord.UserPhone r) phone) (phone_t d).

(** [select * from user where id in (select follow_id from user_follow
    where user_id = ?)]: each followed user once, in key order. *)
Definition sql_follows_of (userID : Z) (d : db) : list User.t :=
  List.filter (fun u => existsb (fun f => (UserFollow.UserID f =? userID) && (UserFollow.FollowID f =? User.ID u))
                                (follow_t d))
              (map snd (map_to_list (user_t d))).

(** [Find(&items)] on [community_item]. *)
Definition sql_all_items (d : db) : list CommunityItem.t := map snd (map_to_list (item_t d)).
