(* ===== verification/World.v ===== *)
(** * The world a request handler runs against

    A handler of the Go code talks to Redis, to MySQL (through a GORM
    transaction or directly), to RabbitMQ, reads the clock, and starts
    goroutines.  [World] gathers these: the Redis server, the committed
    tables, the working copy of the open transaction, the queue, the
    clock, the goroutines started and not yet run, and a fault oracle.

    Every call to an external store takes the next entry of [faults]:
    [NoFault] runs it, [FailBefore] loses the request (nothing happens,
    the call returns an error), [FailAfter] loses the reply (the command
    takes effect, the call still returns an error).  An empty oracle
    means no more failures.  Quantifying over the oracle covers every
    pattern of infrastructure failure (spec §7 [CacheUnavailable],
    [StoreUnavailable]).

    A handler runs as one computation of the monad [M]; its spawned
    goroutines ([go func()]) are recorded as [task]s, which the system
    runs later, in any interleaving with other requests. *)

From S2P Require Import Prelude Strconv Redis Models Durable.
Open Scope hcl_scope.
Open Scope Z_scope.

Inductive fault : Type :=
| NoFault
| FailBefore
| FailAfter.

(** The goroutines the handlers and [main] start. *)
Inductive task : Type :=
| TaskCacheArticle (a : Article.t)
| TaskAddBasicArticleWithoutAddList (a : Article.t)
| TaskConsumer (begin end_ : Z)
| TaskPeriodicUpdateLikes (interval : Z).

(** The errors of the code.  [ErrApp] are the errors the code builds
    with [fmt.Errorf] or [errors.New].  Wrapping with [%w] keeps the
    error; [ErrWrap msg e] records the text a wrap prepends, which the
    HTTP layer reads for the status code.  The components modelled with
    their handlers (login, profile, records) keep their wraps; in the
    older ones, whose wraps add no code, a wrap is the error itself. *)
Inductive app_err : Type :=
| AlreadyLiked
| NotLiked
| BadLikeOption
| ParseFailed (field : string)
| BasicArticleMissing
| ArticleMissing
| ArticleNotUpdated
| AlreadyChosen
| OutOfStock
| UnknownReply (z : Z)
| ReplyNotInt
| EndBeforeNow
| BeginEqualsEnd
| UserMissing
| CodeWrong
| CodeMissing
| UsernameRetries
| LoginTxBegin
| AlreadyManager
| NoScoreRecord
| NoSuchUser
(* not an error of the code: the fuel of a modelled [for] loop ran out *)
| LoopFuel.

Inductive err : Type :=
| ErrRedis (e : rerr)
| ErrDb (e : dberr)
| ErrMq
| ErrApp (e : app_err)
| ErrRollback (orig rollback : err)
| ErrWrap (msg : string) (e : err)
| ErrPanic.

Record World : Type := mkWorld {
  cache : redis;
  store_db : db;
  tx : option db;
  queue : list string;
  clock : Z;
  spawned : list task;
  faults : list fault
}.

Definition set_cache (c : redis) (w : World) : World :=
  mkWorld c (store_db w) (tx w) (queue w) (clock w) (spawned w) (faults w).
Definition set_db (d : db) (w : World) : World :=
  mkWorld (cache w) d (tx w) (queue w) (clock w) (spawned w) (faults w).
Definition set_tx (t : option db) (w : World) : World :=
  mkWorld (cache w) (store_db w) t (queue w) (clock w) (spawned w) (faults w).
Definition set_queue (q : list string) (w : World) : World :=
  mkWorld (cache w) (store_db w) (tx w) q (clock w) (spawned w) (faults w).
Definition set_spawned (ts : list task) (w : World) : World :=
  mkWorld (cache w) (store_db w) (tx w) (queue w) (clock w) ts (faults w).
Definition set_clock (t : Z) (w : World) : World :=
  mkWorld (cache w) (store_db w) (tx w) (queue w) t (spawned w) (faults w).
Definition set_faults (fs : list fault) (w : World) : World :=
  mkWorld (cache w) (store_db w) (tx w) (queue w) (clock w) (spawned w) fs.

Abbreviation M := (stM World err).

Definition next_fault (w : World) : fault * World :=
  match faults w with
  | [] => (NoFault, w)
  | f :: fs => (f, set_faults fs w)
  end.

Definition lift_redis {A} (r : res rerr A) : res err A :=
  match r with Ok a => Ok a | Err e => Err (ErrRedis e) end.

(** ** One Redis command (or one [EVAL] script) through the network *)
Definition rcall {A} (c : cmd A) : M A := fun w =>
  let '(f, w1) := next_fault w in
  let '(r, rs) := c (cache w1) in
  match f with
  | FailBefore => (Err (ErrRedis NetError), w1)
  | NoFault => (lift_redis r, set_cache rs w1)
  | FailAfter => (Err (ErrRedis NetError), set_cache rs w1)
  end.

(** ** MySQL statements

    [sql_tx] runs a statement on the working copy of the open
    transaction, [sql_direct] on the committed tables (GORM's [a.DB]). *)
Definition sql_tx {A} (s : db -> res dberr (A * db)) : M A := fun w =>
  let '(f, w1) := next_fault w in
  match tx w1 with
  | None => (Err (ErrDb DbNetError), w1)
  | Some d =>
      match f, s d with
      | FailBefore, _ => (Err (ErrDb DbNetError), w1)
      | _, Err e => (Err (ErrDb e), w1)
      | NoFault, Ok (a, d') => (Ok a, set_tx (Some d') w1)
      | FailAfter, Ok (_, d') => (Err (ErrDb DbNetError), set_tx (Some d') w1)
      end
  end.

Definition sql_direct {A} (s : db -> res dberr (A * db)) : M A := fun w =>
  let '(f, w1) := next_fault w in
  match f, s (store_db w1) with
  | FailBefore, _ => (Err (ErrDb DbNetError), w1)
  | _, Err e => (Err (ErrDb e), w1)
  | NoFault, Ok (a, d') => (Ok a, set_db d' w1)
  | FailAfter, Ok (_, d') => (Err (ErrDb DbNetError), set_db d' w1)
  end.

(** A statement that always succeeds on the server. *)
Definition total {A} (s : db -> A * db) : db -> res dberr (A * db) := fun d => Ok (s d).

(** [DB.Begin()]: a working copy of the tables. *)
Definition tx_begin : M unit := fun w =>
  let '(f, w1) := next_fault w in
  match f with
  | NoFault => (Ok tt, set_tx (Some (store_db w1)) w1)
  | _ => (Err (ErrDb DbNetError), w1)
  end.

(** [tx.Commit()]: the working copy becomes the tables.  A lost reply
    commits and still reports an error. *)
Definition tx_commit : M unit := fun w =>
  let '(f, w1) := next_fault w in
  match tx w1, f with
  | None, _ => (Err (ErrDb DbNetError), w1)
  | Some _, FailBefore => (Err (ErrDb DbNetError), set_tx None w1)
  | Some d, NoFault => (Ok tt, set_tx None (set_db d w1))
  | Some d, FailAfter => (Err (ErrDb DbNetError), set_tx None (set_db d w1))
  end.

(** [tx.Rollback()]: the working copy is dropped (its error, if any, is
    ignored by the code). *)
Definition tx_rollback : M unit := modify (set_tx None).

(** ** RabbitMQ: one call of the client (dial, channel, declare, publish) *)
Definition mq_call : M unit := fun w =>
  let '(f, w1) := next_fault w in
  match f with
  | NoFault => (Ok tt, w1)
  | _ => (Err ErrMq, w1)
  end.

Definition mq_publish (body : string) : M unit := fun w =>
  let '(f, w1) := next_fault w in
  match f with
  | NoFault => (Ok tt, set_queue (queue w1 ++ [body]) w1)
  | FailBefore => (Err ErrMq, w1)
  | FailAfter => (Err ErrMq, set_queue (queue w1 ++ [body]) w1)
  end.

(** [strconv.Atoi] on a value read from a store, its error wrapped
    with the name of what was read. *)
Definition parse_int (name s : string) : M Z :=
  match Atoi s with
  | Some z => ret z
  | None => throw (ErrApp (ParseFailed name))
  end.

(** ** The clock and goroutines *)
Definition time_now : M Z := fun w => (Ok (clock w), w).

Definition go (t : task) : M unit := modify (fun w => set_spawned (spawned w ++ [t]) w).

(** ** Running without failures *)
Definition no_faults (w : World) : Prop := faults w = [].

Lemma rcall_nf {A} (c : cmd A) w r rs :
  no_faults w -> c (cache w) = (r, rs) -> rcall c w = (lift_redis r, set_cache rs w).
Proof. unfold rcall, next_fault, no_faults. intros -> ->. done. Qed.

Lemma no_faults_set_cache c w : no_faults w -> no_faults (set_cache c w).
Proof. done. Qed.

#[export] Hint Resolve no_faults_set_cache : hcl.

Lemma tx_begin_nf w :
  no_faults w -> tx_begin w = (Ok tt, set_tx (Some (store_db w)) w).
Proof. unfold tx_begin, next_fault, no_faults. by intros ->. Qed.

Lemma sql_tx_nf {A} (s : db -> res dberr (A * db)) w d a d' :
  no_faults w -> tx w = Some d -> s d = Ok (a, d') ->
  sql_tx s w = (Ok a, set_tx (Some d') w).
Proof. unfold sql_tx, next_fault, no_faults. intros -> -> ->. done. Qed.

Lemma sql_direct_nf {A} (s : db -> res dberr (A * db)) w a d' :
  no_faults w -> s (store_db w) = Ok (a, d') ->
  sql_direct s w = (Ok a, set_db d' w).
Proof. unfold sql_direct, next_fault, no_faults. intros -> ->. done. Qed.

Lemma sql_direct_err_nf {A} (s : db -> res dberr (A * db)) w e :
  no_faults w -> s (store_db w) = Err e -> sql_direct s w = (Err (ErrDb e), w).
Proof. unfold sql_direct, next_fault, no_faults. intros -> ->. done. Qed.

(** A statement on [DB] keeps a table invariant that its successful
    runs keep: a lost reply still applies it, a refused one does not. *)
Lemma sql_direct_preserves {A} (P : db -> Prop) (s : db -> res dberr (A * db)) :
  (∀ d a d', P d -> s d = Ok (a, d') -> P d') ->
  preserves (fun w => P (store_db w)) (sql_direct s).
Proof.
  intros Hs w Hw. unfold sql_direct. destruct (next_fault w) as [f w1] eqn:Hf.
  assert (Hd : store_db w1 = store_db w) by (unfold next_fault in Hf; destruct (faults w); by inv_run).
  rewrite <-Hd in Hw. destruct f, (s (store_db w1)) as [[a d']|e] eqn:He; simpl; eauto.
Qed.

Lemma time_now_preserves P : preserves P time_now.
Proof. by intros w. Qed.

#[export] Hint Resolve sql_direct_preserves time_now_preserves : hcl.

(** ** Computations that keep the keyspace well formed

    [KeepsWf m]: whatever the faults, [m] leaves a well-formed keyspace
    well formed.  The Redis commands the code sends are [PreservesWf];
    the other effects do not touch the cache. *)
Class KeepsWf {A} (m : M A) : Prop :=
  keeps_wf : preserves (fun w => redis_wf (cache w)) m.

Lemma cache_same_wf {A} (m : M A) : (∀ w, cache (snd (m w)) = cache w) -> KeepsWf m.
Proof. intros Hc w Hw. by rewrite Hc. Qed.

(** Split the fault and the outcomes of a primitive. *)
Ltac prim_cases := unfold next_fault; repeat (case_match; simplify_eq/=).

Section KeepsWfInstances.
Context {A B : Type}.

#[export] Instance ret_keeps_wf (a : A) : KeepsWf (ret (S:=World) (E:=err) a).
Proof. apply preserves_ret. Qed.
#[export] Instance throw_keeps_wf e : KeepsWf (throw (S:=World) (A:=A) e).
Proof. apply preserves_throw. Qed.
#[export] Instance bind_keeps_wf (m : M A) (k : A -> M B) :
  KeepsWf m -> (∀ a, KeepsWf (k a)) -> KeepsWf (bind m k).
Proof. apply preserves_bind. Qed.
#[export] Instance catch_keeps_wf (m : M A) (h : err -> M A) :
  KeepsWf m -> (∀ e, KeepsWf (h e)) -> KeepsWf (catch m h).
Proof. apply preserves_catch. Qed.
#[export] Instance attempt_keeps_wf (m : M A) : KeepsWf m -> KeepsWf (attempt m).
Proof. intros Hm w Hw. specialize (Hm w Hw). unfold attempt. by destruct (m w). Qed.
#[export] Instance rcall_keeps_wf (c : cmd A) : PreservesWf c -> KeepsWf (rcall c).
Proof.
  intros Hc w Hw. unfold rcall, next_fault. specialize (Hc (cache w) Hw).
  destruct (faults w) as [|f fs]; simpl; destruct (c (cache w)) as [r rs]; simpl in Hc; [done|].
  by destruct f.
Qed.
#[export] Instance sql_tx_keeps_wf (s : db -> res dberr (A * db)) : KeepsWf (sql_tx s).
Proof. apply cache_same_wf. intros w. unfold sql_tx. prim_cases; done. Qed.
#[export] Instance sql_direct_keeps_wf (s : db -> res dberr (A * db)) : KeepsWf (sql_direct s).
Proof. apply cache_same_wf. intros w. unfold sql_direct. prim_cases; done. Qed.
End KeepsWfInstances.

#[export] Instance tx_begin_keeps_wf : KeepsWf tx_begin.
Proof. apply cache_same_wf. intros w. unfold tx_begin. prim_cases; done. Qed.
#[export] Instance tx_commit_keeps_wf : KeepsWf tx_commit.
Proof. apply cache_same_wf. intros w. unfold tx_commit. prim_cases; done. Qed.
#[export] Instance tx_rollback_keeps_wf : KeepsWf tx_rollback.
Proof. by apply cache_same_wf. Qed.
#[export] Instance mq_call_keeps_wf : KeepsWf mq_call.
Proof. apply cache_same_wf. intros w. unfold mq_call. prim_cases; done. Qed.
#[export] Instance mq_publish_keeps_wf b : KeepsWf (mq_publish b).
Proof. apply cache_same_wf. intros w. unfold mq_publish. prim_cases; done. Qed.
#[export] Instance time_now_keeps_wf : KeepsWf time_now.
Proof. by apply cache_same_wf. Qed.
#[export] Instance go_keeps_wf t : KeepsWf (go t).
Proof. by apply cache_same_wf. Qed.
#[export] Instance parse_int_keeps_wf n s : KeepsWf (parse_int n s).
Proof. unfold parse_int. destruct (Atoi s); apply _. Qed.

#[export] Hint Extern 1 (KeepsWf (match ?x with _ => _ end)) =>
  destruct x : typeclass_instances.

Lemma tx_commit_nf w d :
  no_faults w -> tx w = Some d -> tx_commit w = (Ok tt, set_tx None (set_db d w)).
Proof. unfold tx_commit, next_fault, no_faults. intros -> ->. done. Qed.

Lemma mq_call_nf w : no_faults w -> mq_call w = (Ok tt, w).
Proof. unfold mq_call, next_fault, no_faults. by intros ->. Qed.

Lemma mq_publish_nf w b :
  no_faults w -> mq_publish b w = (Ok tt, set_queue (queue w ++ [b]) w).
Proof. unfold mq_publish, next_fault, no_faults. by intros ->. Qed.

Lemma no_faults_set_tx t w : no_faults w -> no_faults (set_tx t w).
Proof. done. Qed.
Lemma no_faults_set_db d w : no_faults w -> no_faults (set_db d w).
Proof. done. Qed.
Lemma no_faults_set_queue q w : no_faults w -> no_faults (set_queue q w).
Proof. done. Qed.
Lemma no_faults_set_spawned ts w : no_faults w -> no_faults (set_spawned ts w).
Proof. done. Qed.

#[export] Hint Resolve no_faults_set_tx no_faults_set_db no_faults_set_queue
  no_faults_set_spawned : hcl.

(** ** Runs at the head of the fault oracle *)
Lemma next_fault_nf w : no_faults w -> next_fault w = (NoFault, w).
Proof. unfold next_fault, no_faults. by intros ->. Qed.

Lemma next_fault_cache w f w0 : next_fault w = (f, w0) -> cache w0 = cache w.
Proof. unfold next_fault. destruct (faults w); by intros [= <- <-]. Qed.

Lemma rcall_ok {A} (c : cmd A) w w0 r rs :
  next_fault w = (NoFault, w0) -> c (cache w) = (r, rs) ->
  rcall c w = (lift_redis r, set_cache rs w0).
Proof.
  intros Hf Hc. unfold rcall. rewrite Hf.
  rewrite (next_fault_cache _ _ _ Hf), Hc. done.
Qed.

Lemma mq_call_ok w w0 : next_fault w = (NoFault, w0) -> mq_call w = (Ok tt, w0).
Proof. unfold mq_call. by intros ->. Qed.

Lemma mq_publish_lost w w0 b : next_fault w = (FailBefore, w0) -> mq_publish b w = (Err ErrMq, w0).
Proof. unfold mq_publish. by intros ->. Qed.

Lemma next_fault_cons w f fs : faults w = f :: fs -> next_fault w = (f, set_faults fs w).
Proof. unfold next_fault. by intros ->. Qed.

(** ** The record of the world *)
Lemma set_cache_cache w : set_cache (cache w) w = w.
Proof. by destruct w. Qed.

Lemma set_cache_set_cache c1 c2 w : set_cache c2 (set_cache c1 w) = set_cache c2 w.
Proof. done. Qed.

Lemma no_faults_rcall {A} (c : cmd A) w :
  no_faults w -> rcall c w = (lift_redis (fst (c (cache w))), set_cache (snd (c (cache w))) w).
Proof. intros Hw. destruct (c (cache w)) eqn:E. by apply rcall_nf. Qed.

(** A call that returns [Ok] met no fault. *)
Lemma rcall_Ok_inv {A} (c : cmd A) w a w' :
  rcall c w = (Ok a, w') ->
  ∃ w0 r', next_fault w = (NoFault, w0) ∧ c (cache w) = (Ok a, r') ∧ w' = set_cache r' w0.
Proof.
  unfold rcall. destruct (next_fault w) as [f w0] eqn:Hf.
  rewrite <- (next_fault_cache _ _ _ Hf).
  destruct (c (cache w0)) as [[a'|e] r'] eqn:Hc; destruct f; intros [=]; subst; eauto.
Qed.

Lemma faults_set_cache c w : faults (set_cache c w) = faults w.
Proof. done. Qed.

Lemma rcall_nf_ok {A} (c : cmd A) w a r' :
  no_faults w -> c (cache w) = (Ok a, r') -> rcall c w = (Ok a, set_cache r' w).
Proof. intros Hw Hc. by rewrite (rcall_nf c w _ r' Hw Hc). Qed.

Lemma rcall_nf_err {A} (c : cmd A) w e r' :
  no_faults w -> c (cache w) = (Err e, r') -> rcall c w = (Err (ErrRedis e), set_cache r' w).
Proof. intros Hw Hc. by rewrite (rcall_nf c w _ r' Hw Hc). Qed.

(** ** Successful runs

    A handler is [Strict] when every fault it meets makes it fail: a
    run that returns [Ok] under some fault pattern is then the run
    without faults.  A computation is [NeverOk] when it always fails
    (an error path).  Handlers are shown strict by instance search. *)
Class Strict {A} (m : M A) : Prop :=
  strict : ∀ w a w', m w = (Ok a, w') -> m (set_faults [] w) = (Ok a, set_faults [] w').

Class NeverOk {A} (m : M A) : Prop :=
  never_ok : ∀ w a w', m w ≠ (Ok a, w').

Section Strict.
Context {A B : Type}.

#[export] Instance ret_strict (a : A) : Strict (ret (S:=World) (E:=err) a).
Proof. intros w a' w' [= -> <-]. done. Qed.

#[export] Instance throw_strict e : Strict (throw (S:=World) (A:=A) e).
Proof. by intros w a w'. Qed.

#[export] Instance throw_never_ok e : NeverOk (throw (S:=World) (A:=A) e).
Proof. by intros w a w'. Qed.

#[export] Instance bind_strict (m : M A) (k : A -> M B) :
  Strict m -> (∀ a, Strict (k a)) -> Strict (bind m k).
Proof.
  intros Hm Hk w b w'. unfold bind.
  destruct (m w) as [[a|e] w1] eqn:E; [|done]. intros Hb.
  rewrite (Hm _ _ _ E). by apply Hk.
Qed.

#[export] Instance bind_never_ok (m : M A) (k : A -> M B) :
  (∀ a, NeverOk (k a)) -> NeverOk (bind m k).
Proof.
  intros Hk w b w'. unfold bind.
  destruct (m w) as [[a|e] w1]; [apply Hk|done].
Qed.

#[export] Instance catch_strict (m : M A) (h : err -> M A) :
  Strict m -> (∀ e, NeverOk (h e)) -> Strict (catch m h).
Proof.
  intros Hm Hh w a w'. unfold catch.
  destruct (m w) as [[a'|e] w1] eqn:E.
  - intros [= -> ->]. by rewrite (Hm _ _ _ E).
  - intros Ha. by destruct (Hh e w1 a w').
Qed.

#[export] Instance catch_never_ok (m : M A) (h : err -> M A) :
  NeverOk m -> (∀ e, NeverOk (h e)) -> NeverOk (catch m h).
Proof.
  intros Hm Hh w a w'. unfold catch.
  destruct (m w) as [[a'|e] w1] eqn:E; [by destruct (Hm w a' w1)|apply Hh].
Qed.
End Strict.

#[export] Instance rcall_strict {A} (c : cmd A) : Strict (rcall c).
Proof.
  intros w a w' H. apply rcall_Ok_inv in H as (w0 & r' & Hf & Hc & ->).
  unfold rcall, next_fault at 1; simpl. rewrite Hc.
  unfold next_fault in Hf. destruct (faults w); [|]; by inversion Hf.
Qed.

#[export] Hint Extern 1 (Strict (match ?x with _ => _ end)) => destruct x : typeclass_instances.
#[export] Hint Extern 1 (NeverOk (match ?x with _ => _ end)) => destruct x : typeclass_instances.

(** ** Runs under a given fault pattern *)
Lemma set_faults_set_faults fs1 fs2 w : set_faults fs2 (set_faults fs1 w) = set_faults fs2 w.
Proof. done. Qed.

Lemma no_faults_set_faults_nil w : no_faults (set_faults [] w).
Proof. done. Qed.

Lemma rcall_fault_ok {A} (c : cmd A) fs w r a r' :
  c r = (Ok a, r') ->
  rcall c (set_faults (NoFault :: fs) (set_cache r w)) = (Ok a, set_faults fs (set_cache r' w)).
Proof. intros Hc. unfold rcall; simpl. by rewrite Hc. Qed.

Lemma rcall_fault_err {A} (c : cmd A) fs w r e r' :
  c r = (Err e, r') ->
  rcall c (set_faults (NoFault :: fs) (set_cache r w))
  = (Err (ErrRedis e), set_faults fs (set_cache r' w)).
Proof. intros Hc. unfold rcall; simpl. by rewrite Hc. Qed.

Lemma rcall_fault_lost {A} (c : cmd A) fs w r :
  rcall c (set_faults (FailBefore :: fs) (set_cache r w))
  = (Err (ErrRedis NetError), set_faults fs (set_cache r w)).
Proof. unfold rcall; simpl. by destruct (c r). Qed.

Lemma rcall_fault_noreply {A} (c : cmd A) fs w r x r' :
  c r = (x, r') ->
  rcall c (set_faults (FailAfter :: fs) (set_cache r w))
  = (Err (ErrRedis NetError), set_faults fs (set_cache r' w)).
Proof. intros Hc. unfold rcall; simpl. by rewrite Hc. Qed.

(** A world written with its cache explicit. *)
Lemma set_faults_norm fs w : set_faults fs w = set_faults fs (set_cache (cache w) w).
Proof. by rewrite set_cache_cache. Qed.

Lemma set_db_id w : set_db (store_db w) w = w.
Proof. by destruct w. Qed.

(** A query: the database is left as it is. *)
Lemma sql_direct_read_nf {A} (s : db -> res dberr (A * db)) w a :
  no_faults w -> s (store_db w) = Ok (a, store_db w) -> sql_direct s w = (Ok a, w).
Proof. intros Hw Hs. by rewrite (sql_direct_nf s w a (store_db w) Hw Hs), set_db_id. Qed.

(** ** Runs at the head of a given fault list *)
Lemma tx_begin_cons w fs :
  faults w = NoFault :: fs -> tx_begin w = (Ok tt, set_tx (Some (store_db w)) (set_faults fs w)).
Proof. unfold tx_begin. intros Hf. by rewrite (next_fault_cons _ _ _ Hf). Qed.

Lemma sql_tx_cons {A} (s : db -> res dberr (A * db)) w fs d a d' :
  faults w = NoFault :: fs -> tx w = Some d -> s d = Ok (a, d') ->
  sql_tx s w = (Ok a, set_tx (Some d') (set_faults fs w)).
Proof. unfold sql_tx. intros Hf Ht Hs. rewrite (next_fault_cons _ _ _ Hf). simpl. by rewrite Ht, Hs. Qed.

Lemma sql_tx_cons_lost {A} (s : db -> res dberr (A * db)) w fs :
  faults w = FailBefore :: fs -> sql_tx s w = (Err (ErrDb DbNetError), set_faults fs w).
Proof. unfold sql_tx. intros Hf. rewrite (next_fault_cons _ _ _ Hf). simpl. by destruct (tx w). Qed.

Lemma rcall_cons_ok {A} (c : cmd A) w fs a r' :
  faults w = NoFault :: fs -> c (cache w) = (Ok a, r') ->
  rcall c w = (Ok a, set_cache r' (set_faults fs w)).
Proof. unfold rcall. intros Hf Hc. rewrite (next_fault_cons _ _ _ Hf). simpl. by rewrite Hc. Qed.

Lemma rcall_cons_lost {A} (c : cmd A) w fs :
  faults w = FailBefore :: fs -> rcall c w = (Err (ErrRedis NetError), set_faults fs w).
Proof. unfold rcall. intros Hf. rewrite (next_fault_cons _ _ _ Hf). simpl. by destruct (c _). Qed.

Lemma tx_rollback_run w : tx_rollback w = (Ok tt, set_tx None w).
Proof. done. Qed.

Lemma sql_direct_cons {A} (s : db -> res dberr (A * db)) w fs a d' :
  faults w = NoFault :: fs -> s (store_db w) = Ok (a, d') ->
  sql_direct s w = (Ok a, set_db d' (set_faults fs w)).
Proof. unfold sql_direct. intros Hf Hs. rewrite (next_fault_cons _ _ _ Hf). simpl. by rewrite Hs. Qed.

Lemma tx_commit_cons w fs d :
  faults w = NoFault :: fs -> tx w = Some d ->
  tx_commit w = (Ok tt, set_tx None (set_db d (set_faults fs w))).
Proof. unfold tx_commit. intros Hf Ht. rewrite (next_fault_cons _ _ _ Hf). simpl. by rewrite Ht. Qed.

Lemma tx_commit_cons_lost w fs d :
  faults w = FailBefore :: fs -> tx w = Some d ->
  tx_commit w = (Err (ErrDb DbNetError), set_tx None (set_faults fs w)).
Proof. unfold tx_commit. intros Hf Ht. rewrite (next_fault_cons _ _ _ Hf). simpl. by rewrite Ht. Qed.
