(* ===== verification/Scan.v ===== *)
(** * Cursor loops over [SCAN]

    [UserCacheRepository.GetAllItems] (user_cache_repository.go) and
    [ArticleCacheRepository.GetAllArticlesFromHash]
    (article_cache_repository.go) run the same loop: [SCAN] from cursor
    0 with a pattern and COUNT 0, run a body on the keys of the page,
    append what it returns, and stop when the reply's cursor is 0.
    [scan_loop] is that loop, with fuel: the Go [for] has no bound, and
    running out of fuel is the error [LoopFuel], which the code never
    builds.

    The theorems: with fuel for every page of the keyspace, more fuel
    changes nothing (the loop has stopped), and the loop never runs out
    ([scan_loop_terminates]); on a world without faults and with a body
    that reads the keys one by one, the loop is the body run once on
    every matching key ([scan_loop_all]), which is the single [SCAN]
    the components use. *)

From S2P Require Import Prelude Strconv Redis Durable World.
Open Scope hcl_scope.
Open Scope Z_scope.

(** The keys of the cache in the server's order. *)
Definition keys_of (w : World) : list string := elements (dom (kv (cache w))).

Section Loop.
Context {A : Type} (pat : string -> bool) (body : list string -> M (list A)).

(** The [for] of both functions: [keys, nextCursor, err := Scan(ctx,
    cursor, pattern, 0)], the body on [keys], [cursor = nextCursor],
    [if cursor == 0 { break }]. *)
Fixpoint scan_loop (fuel : nat) (cursor : Z) : M (list A) :=
  match fuel with
  | O => throw (ErrApp LoopFuel)
  | S fuel' =>
      page <- rcall (SCAN_cursor pat cursor) ;;
      items <- body page.1 ;;
      if page.2 =? 0 then ret items
      else rest <- scan_loop fuel' page.2 ;; ret (items ++ rest)
  end.

End Loop.

(** A computation that leaves the cache as it found it. *)
Definition reads_cache {A} (m : M A) : Prop := ∀ r, preserves (fun w => cache w = r) m.

(** ** Lemmas *)

Lemma rcall_reads {A} (c : cmd A) : (∀ r, snd (c r) = r) -> reads_cache (rcall c).
Proof.
  intros Hc r w <-. unfold rcall. destruct (next_fault w) as [f w0] eqn:Hf.
  rewrite <- (next_fault_cache _ _ _ Hf). destruct (c (cache w0)) as [res r'] eqn:E.
  pose proof (Hc (cache w0)) as Hr. rewrite E in Hr. simpl in Hr. subst r'.
  by destruct f.
Qed.

Lemma reads_cache_ret {A} (a : A) : reads_cache (ret a).
Proof. intros r. apply preserves_ret. Qed.

Lemma reads_cache_throw {A} e : reads_cache (throw (A:=A) e).
Proof. intros r. apply preserves_throw. Qed.

Lemma reads_cache_bind {A B} (m : M A) (k : A -> M B) :
  reads_cache m -> (∀ a, reads_cache (k a)) -> reads_cache (bind m k).
Proof. intros Hm Hk r. apply preserves_bind; [apply Hm|intros a; apply Hk]. Qed.

Lemma reads_cache_catch {A} (m : M A) h :
  reads_cache m -> (∀ e, reads_cache (h e)) -> reads_cache (catch m h).
Proof. intros Hm Hh r. apply preserves_catch; [apply Hm|intros e; apply Hh]. Qed.

#[export] Hint Resolve reads_cache_ret reads_cache_throw reads_cache_bind reads_cache_catch : hcl.

Lemma rcall_no_faults {A} (c : cmd A) : preserves no_faults (rcall c).
Proof.
  intros w Hw. unfold rcall, next_fault. rewrite Hw.
  destruct (c (cache w)) as [res r']. done.
Qed.

#[export] Hint Resolve rcall_no_faults : hcl.

Lemma SCAN_cursor_read pat c r : snd (SCAN_cursor pat c r) = r.
Proof. done. Qed.

(** A page at a cursor inside the keyspace. *)
Lemma SCAN_cursor_nat pat (c : nat) r :
  fst (SCAN_cursor pat (Z.of_nat c) r)
  = Ok (filter (fun k => pat k = true) (take scan_default_count (drop c (elements (dom (kv r))))),
        if (c + scan_default_count <? length (elements (dom (kv r))))%nat
        then Z.of_nat (c + scan_default_count) else 0).
Proof. unfold SCAN_cursor. by rewrite Nat2Z.id. Qed.

Section LoopLemmas.
Context {A : Type} (pat : string -> bool) (body : list string -> M (list A)).
Hypothesis body_reads : ∀ l, reads_cache (body l).

(** One turn of the loop at cursor [c]: the reply, the body, the test. *)
Lemma scan_loop_step fuel (c : nat) w :
  scan_loop pat body (S fuel) (Z.of_nat c) w
  = let '(f, w0) := next_fault w in
    match f with
    | NoFault =>
        let ks := keys_of w in
        let next := (c + scan_default_count)%nat in
        bind (body (filter (fun k => pat k = true) (take scan_default_count (drop c ks))))
          (fun items => if (next <? length ks)%nat
                        then rest <- scan_loop pat body fuel (Z.of_nat next) ;; ret (items ++ rest)
                        else ret items) w0
    | _ => (Err (ErrRedis NetError), w0)
    end.
Proof.
  simpl. unfold bind at 1, rcall. destruct (next_fault w) as [f w0] eqn:Hf.
  unfold keys_of. rewrite <- (next_fault_cache _ _ _ Hf).
  pose proof (SCAN_cursor_nat pat c (cache w0)) as E.
  destruct (SCAN_cursor pat (Z.of_nat c) (cache w0)) as [res r'] eqn:Ep. simpl in E. subst res.
  assert (r' = cache w0) as -> by (pose proof (SCAN_cursor_read pat (Z.of_nat c) (cache w0)); by rewrite Ep in *).
  rewrite set_cache_cache. destruct f; [|done|done]. cbn [lift_redis fst snd].
  unfold bind. destruct (body _ w0) as [[items|e] w1]; [|done].
  destruct (_ <? _)%nat eqn:Hn; [|done]. rewrite (proj2 (Z.eqb_neq _ _)); [done|unfold scan_default_count; lia].
Qed.

(** The body leaves the keyspace, so the next page is cut from the same
    list of keys. *)
Lemma body_keys l w0 w1 r :
  body l w0 = (r, w1) -> keys_of w1 = keys_of w0.
Proof. intros E. unfold keys_of. by rewrite <- (body_reads l (cache w0) w0 eq_refl), E. Qed.

Lemma next_fault_keys w f w0 : next_fault w = (f, w0) -> keys_of w0 = keys_of w.
Proof. intros Hf. unfold keys_of. by rewrite (next_fault_cache _ _ _ Hf). Qed.

(** Pages cover the keyspace: with a cursor [c] and [fuel] pages left,
    a page that does not reach the end leaves [fuel - 1] pages. *)
Lemma pages_left (c n f : nat) :
  (n <= c + scan_default_count * S f)%nat -> (c + scan_default_count < n)%nat ->
  (n <= (c + scan_default_count) + scan_default_count * f)%nat ∧ (0 < f)%nat.
Proof. unfold scan_default_count. lia. Qed.

(** The loop never builds [LoopFuel] when the body does not and there is
    fuel for every page. *)
Definition fuel_free {B} (m : M B) : Prop := ∀ w, fst (m w) ≠ Err (ErrApp LoopFuel).

Lemma scan_loop_enough fuel (c : nat) w :
  (∀ l, fuel_free (body l)) ->
  (length (keys_of w) <= c + scan_default_count * fuel)%nat -> (0 < fuel)%nat ->
  fst (scan_loop pat body fuel (Z.of_nat c) w) ≠ Err (ErrApp LoopFuel).
Proof.
  intros Hb. revert c w. induction fuel as [|f IH]; intros c w Hn Hf; [lia|].
  rewrite scan_loop_step. destruct (next_fault w) as [[] w0] eqn:Ef; [|done|done].
  unfold bind. destruct (body _ w0) as [[items|e] w1] eqn:Eb;
    [|intros He; eapply (Hb _ w0); by rewrite Eb].
  destruct (_ <? _)%nat eqn:Hl; [|done]. apply Nat.ltb_lt in Hl.
  destruct (pages_left _ _ _ Hn Hl) as [Hn' Hf'].
  specialize (IH (c + scan_default_count)%nat w1).
  rewrite (body_keys _ _ _ _ Eb), (next_fault_keys _ _ _ Ef) in IH.
  destruct (scan_loop _ _ _ _ w1) as [[]] eqn:E; [done|]. simpl in *. intros [= ->]. by apply IH.
Qed.

(** Fuel beyond the pages of the keyspace changes nothing. *)
Lemma scan_loop_fuel fuel fuel' (c : nat) w :
  (length (keys_of w) <= c + scan_default_count * fuel)%nat -> (0 < fuel)%nat -> (fuel <= fuel')%nat ->
  scan_loop pat body fuel' (Z.of_nat c) w = scan_loop pat body fuel (Z.of_nat c) w.
Proof.
  revert fuel' c w. induction fuel as [|f IH]; intros [|f'] c w Hn Hf Hle; try lia.
  rewrite !scan_loop_step. destruct (next_fault w) as [[] w0] eqn:Ef; [|done|done].
  unfold bind. destruct (body _ w0) as [[items|e] w1] eqn:Eb; [|done].
  destruct (_ <? _)%nat eqn:Hl; [|done]. apply Nat.ltb_lt in Hl.
  destruct (pages_left _ _ _ Hn Hl) as [Hn' Hf'].
  rewrite IH; [done| |done|lia]. by rewrite (body_keys _ _ _ _ Eb), (next_fault_keys _ _ _ Ef).
Qed.

(** The keys from cursor [c] are the page and the keys after it. *)
Lemma page_split (f : string -> bool) (c : nat) (ks : list string) :
  filter (fun k => f k = true) (drop c ks)
  = filter (fun k => f k = true) (take scan_default_count (drop c ks))
    ++ filter (fun k => f k = true) (drop (c + scan_default_count) ks).
Proof. by rewrite <- filter_app, <- drop_drop, take_drop. Qed.

(** The last page holds every key left. *)
Lemma last_page (c : nat) (ks : list string) :
  (length ks <= c + scan_default_count)%nat -> take scan_default_count (drop c ks) = drop c ks.
Proof. intros Hl. apply take_ge. rewrite length_drop. lia. Qed.

Lemma no_faults_next w : no_faults w -> next_fault w = (NoFault, w).
Proof. unfold no_faults, next_fault. by intros ->. Qed.

(** Without faults, a loop over a body that runs key after key is the
    body on every matching key from the cursor on. *)
Lemma scan_loop_all fuel (c : nat) w :
  (∀ l1 l2 w, no_faults w -> body (l1 ++ l2) w = (x <- body l1 ;; y <- body l2 ;; ret (x ++ y)) w) ->
  (∀ l, preserves no_faults (body l)) ->
  no_faults w -> (length (keys_of w) <= c + scan_default_count * fuel)%nat -> (0 < fuel)%nat ->
  scan_loop pat body fuel (Z.of_nat c) w = body (filter (fun k => pat k = true) (drop c (keys_of w))) w.
Proof.
  intros Happ Hnf. revert c w. induction fuel as [|f IH]; intros c w Hw Hn Hf; [lia|].
  rewrite scan_loop_step, (no_faults_next _ Hw).
  destruct (Nat.ltb_spec (c + scan_default_count) (length (keys_of w))) as [Hl|Hl].
  - destruct (pages_left _ _ _ Hn Hl) as [Hn' Hf'].
    rewrite page_split, (Happ _ _ _ Hw). unfold bind.
    destruct (body _ w) as [[items|e] w1] eqn:Eb; [|done].
    assert (keys_of w1 = keys_of w) as Hk by apply (body_keys _ _ _ _ Eb).
    rewrite (proj2 (Nat.ltb_lt _ _) Hl), IH, Hk; [done| |by rewrite Hk|done].
    change w1 with (snd (Ok items : res err (list A), w1)). rewrite <- Eb. by apply Hnf.
  - cbv zeta. rewrite last_page by lia. unfold bind.
    destruct (body _ w) as [[x|e] w1]; [|done]. by rewrite (proj2 (Nat.ltb_ge _ _) Hl).
Qed.

(** ** Claims *)

(** C18: Termination of the cursor loop: on any world, faults included,
    with one unit of fuel for every 10 keys of the keyspace (and at
    least one), the loop stops: more fuel gives the same result and
    state, and the result is never the fuel error, for any body that
    leaves the cache as it is and never builds that error itself. *)
Theorem scan_loop_terminates fuel fuel' w :
  (∀ l, fuel_free (body l)) ->
  (length (keys_of w) <= scan_default_count * fuel)%nat -> (0 < fuel)%nat -> (fuel <= fuel')%nat ->
  scan_loop pat body fuel' 0 w = scan_loop pat body fuel 0 w ∧
  fst (scan_loop pat body fuel 0 w) ≠ Err (ErrApp LoopFuel).
Proof.
  intros Hb Hn Hf Hle. change 0 with (Z.of_nat 0).
  split; [by apply scan_loop_fuel|by apply scan_loop_enough].
Qed.

End LoopLemmas.

(** ** Witness: 25 keys, three pages *)

Definition demo_scan_keys : list string :=
  map (fun n => "hcl:user:item:" +:+ Itoa (Z.of_nat n) +:+ ":info") (seq 0 25).
Definition demo_scan_world (fs : list fault) : World :=
  mkWorld (mkRedis (list_to_map (map (fun k => (k, RStr "x")) demo_scan_keys)) ∅) db_empty None [] 0 [] fs.

Lemma scan_loop_terminates_witness :
  scan_loop (fun _ => true) (fun l => ret l) 7 0 (demo_scan_world [])
  = scan_loop (fun _ => true) (fun l => ret l) 3 0 (demo_scan_world []) ∧
  fst (scan_loop (fun _ => true) (fun l => ret l) 3 0 (demo_scan_world []))
  ≠ Err (ErrApp LoopFuel).
Proof.
  apply (scan_loop_terminates (fun _ => true) (fun l => ret l)); [intros l; apply reads_cache_ret
    |intros l w; discriminate|vm_compute; lia|lia|lia].
Defined.
