(* ===== verification/Articles.v ===== *)
(** * The Counter Cache Engine: articles and their like counters (spec §4.1)

    The code: [ArticleCacheRepository] (article_cache_repository.go)
    keeps two projections of an article in Redis, the basic hash
    [hcl:article:basic:map:<id>] (listed per kind) and the full hash
    [hcl:article:full:<id>] (with a two-hour TTL), and the set of likers
    [hcl:article:like:<id>].  [AddLikes] and [RemoveLikes] check the set,
    increment [like] in the basic then in the full hash, undo the basic
    increment if the full one fails, and record the liker last
    ([UseLikeSort]).  [ArticleRepository] (article_repository.go) is the
    MySQL side; [ArticleService] (article_service.go) composes them:
    [AddArticle] in a transaction, [GetArticle] with its cache-aside
    read, [UpdateArticle] with its double delete, and the periodic task
    that writes the cached counters back to MySQL.

    Every Redis command goes through [rcall], so it meets the fault
    oracle of [World]; the goroutines the handlers start are recorded as
    [task]s. *)

From S2P Require Import Prelude Strconv Utils Redis Models Durable World Scan.
Open Scope hcl_scope.
Open Scope Z_scope.

(** [prefix] (article_cache_repository.go) and the keys built from it
    with [fmt.Sprintf]. *)
Definition prefix : string := "hcl:article".

Definition basic_map_prefix : string := prefix +:+ ":basic:map:".
Definition basic_map_key (id : Z) : string := basic_map_prefix +:+ Itoa id.
Definition basic_list_key (kind : string) : string := prefix +:+ ":basic:list:" +:+ kind.
Definition full_key (id : Z) : string := prefix +:+ ":full:" +:+ Itoa id.
Definition like_key (id : Z) : string := prefix +:+ ":like:" +:+ Itoa id.

(** Indexing a Go [map[string]string] with an absent key gives [""]. *)
Definition field (h : gmap string string) (f : string) : string := default "" (h !! f).

Module ArticleCacheRepository.
Section WithTime.
Context `{TimeCodec}.

(** The hash fields of the basic projection, as go-redis formats them. *)
Definition basic_fields (a : BasicArticle.t) : list (string * string) :=
  [("id", Itoa (BasicArticle.ID a)); ("title", BasicArticle.Title a);
   ("content", BasicArticle.Content a); ("kind", BasicArticle.Kind a);
   ("like", Itoa (BasicArticle.Like a)); ("manager_id", Itoa (BasicArticle.ManagerID a))].

Definition full_fields (a : Article.t) : list (string * string) :=
  [("id", Itoa (Article.ID a)); ("title", Article.Title a);
   ("content", Article.Content a); ("kind", Article.Kind a);
   ("like", Itoa (Article.Like a)); ("manager_id", Itoa (Article.ManagerID a));
   ("create_at", format_time (Article.CreateAt a))].

(** [AddBasicArticle]: the basic hash, then the id pushed on the list of
    its kind. *)
Definition AddBasicArticle (a : BasicArticle.t) : M unit :=
  rcall (HSET (basic_map_key (BasicArticle.ID a)) (basic_fields a)) ;;
  rcall (LPUSH (basic_list_key (BasicArticle.Kind a)) (Itoa (BasicArticle.ID a))).

(** [AddArticle]: the full hash, then its two-hour TTL. *)
Definition AddArticle (a : Article.t) : M unit :=
  rcall (HSET (full_key (Article.ID a)) (full_fields a)) ;;
  _ <- rcall (EXPIRE (full_key (Article.ID a))) ;;
  ret tt.

(** The loop of [GetAllArticleByKind] over the listed ids: an id that
    does not parse stops the loop, an id whose hash is gone is
    skipped. *)
Fixpoint collect_basic (ids : list string) : M (list BasicArticle.t) :=
  match ids with
  | [] => ret []
  | idStr :: rest =>
      id <- parse_int "id" idStr ;;
      h <- rcall (HGETALL (basic_map_key id)) ;;
      if decide (h = ∅) then collect_basic rest else
      like <- parse_int "like" (field h "like") ;;
      managerID <- parse_int "manager_id" (field h "manager_id") ;;
      tl <- collect_basic rest ;;
      ret (BasicArticle.mk id (field h "title") (field h "content") (field h "kind")
             like managerID :: tl)
  end.

Definition GetAllArticleByKind (kind : string) : M (list BasicArticle.t) :=
  ids <- rcall (LRANGE_all (basic_list_key kind)) ;;
  collect_basic ids.

(** [GetArticleByID]: [nil, nil] (here [None]) when the full hash is
    absent; a field that does not parse is an error. *)
Definition GetArticleByID (id : Z) : M (option Article.t) :=
  h <- rcall (HGETALL (full_key id)) ;;
  if decide (h = ∅) then ret None else
  like <- parse_int "like" (field h "like") ;;
  managerID <- parse_int "manager_id" (field h "manager_id") ;;
  createAt <- (match parse_time (field h "create_at") with
               | Some t => ret t
               | None => throw (ErrApp (ParseFailed "create_at"))
               end) ;;
  ret (Some (Article.mk id (field h "title") (field h "content") managerID createAt
               (field h "kind") like)).

(** [GetBasicArticleByID]: an absent basic hash is an error. *)
Definition GetBasicArticleByID (id : Z) : M BasicArticle.t :=
  h <- rcall (HGETALL (basic_map_key id)) ;;
  if decide (h = ∅) then throw (ErrApp BasicArticleMissing) else
  like <- parse_int "like" (field h "like") ;;
  managerID <- parse_int "manager_id" (field h "manager_id") ;;
  ret (BasicArticle.mk id (field h "title") (field h "content") (field h "kind")
         like managerID).

(** [UseLikeSort]: the option is checked, then the liker is added to or
    removed from the set. *)
Definition UseLikeSort (articleID userID : Z) (option : string) : M unit :=
  if bool_decide (option ≠ "addLike" ∧ option ≠ "removeLike")
  then throw (ErrApp BadLikeOption) else
  if bool_decide (option = "addLike")
  then rcall (SADD (like_key articleID) (Itoa userID))
  else rcall (SREM (like_key articleID) (Itoa userID)).

(** The increment of the full hash with its compensation: when it
    fails, the basic increment is undone; a failed undo is reported
    with both errors. *)
Definition incr_full_or_undo (articleID i : Z) : M Z :=
  catch (rcall (HINCRBY (full_key articleID) "like" i))
        (fun e => catch (rcall (HINCRBY (basic_map_key articleID) "like" (- i)))
                        (fun rollbackErr => throw (ErrRollback e rollbackErr)) ;;
                  throw e).

Definition AddLikes (articleID userID i : Z) : M unit :=
  exists_ <- rcall (SISMEMBER (like_key articleID) (Itoa userID)) ;;
  if exists_ then throw (ErrApp AlreadyLiked) else
  rcall (HINCRBY (basic_map_key articleID) "like" i) ;;
  incr_full_or_undo articleID i ;;
  UseLikeSort articleID userID "addLike".

Definition RemoveLikes (articleID userID i : Z) : M unit :=
  exists_ <- rcall (SISMEMBER (like_key articleID) (Itoa userID)) ;;
  if negb exists_ then throw (ErrApp NotLiked) else
  rcall (HINCRBY (basic_map_key articleID) "like" i) ;;
  incr_full_or_undo articleID i ;;
  UseLikeSort articleID userID "removeLike".

(** The loop of [GetAllArticlesFromHash] over the scanned keys: the id
    is the key after the prefix; a key whose id or [like] cannot be
    read is skipped (the code logs it and continues). *)
Fixpoint collect_likes (keys : list string) : M (list (Z * Z)) :=
  match keys with
  | [] => ret []
  | key :: rest =>
      let idStr := String.substring (String.length basic_map_prefix)
                     (String.length key - String.length basic_map_prefix) key in
      match Atoi idStr with
      | None => collect_likes rest
      | Some id =>
          likeStr <- catch (s <- rcall (HGET key "like") ;; ret (Some s)) (fun _ => ret None) ;;
          match likeStr ≫= Atoi with
          | None => collect_likes rest
          | Some like => tl <- collect_likes rest ;; ret ((id, like) :: tl)
          end
      end
  end.

(** [GetAllArticlesFromHash]: the [SCAN] of [hcl:article:basic:map:*]
    run to the end of its cursor, then the loop.  The Go result is a
    [[][]int] of pairs [{id, like}]; it is a list of pairs here. *)
Definition GetAllArticlesFromHash : M (list (Z * Z)) :=
  keys <- rcall (SCAN basic_map_prefix) ;;
  collect_likes keys.

(** The same function with its [for] over the cursor as the code writes
    it: one [SCAN] per page, the loop over the page's keys, the next
    cursor. *)
Definition GetAllArticlesFromHash_scan (fuel : nat) : M (list (Z * Z)) :=
  scan_loop (String.prefix basic_map_prefix) collect_likes fuel 0.

(** [DeleteArticleForUpdate]: the full hash, then the basic hash. *)
Definition DeleteArticleForUpdate (id : Z) : M unit :=
  rcall (DEL (full_key id)) ;;
  rcall (DEL (basic_map_key id)).

(** [AddBasicArticleWithoutAddList]: the basic hash of an article, its
    content cut to five runes, without touching the kind list. *)
Definition AddBasicArticleWithoutAddList (a : Article.t) : M unit :=
  rcall (HSET (basic_map_key (Article.ID a))
              [("id", Itoa (Article.ID a)); ("title", Article.Title a);
               ("content", Substring (Article.Content a) 5); ("kind", Article.Kind a);
               ("like", Itoa (Article.Like a)); ("manager_id", Itoa (Article.ManagerID a))]).

End WithTime.
End ArticleCacheRepository.

(** [ArticleRepository] (article_repository.go): the MySQL side. *)
Module ArticleRepository.

(** [AddArticle]: [tx.Create(article)], which writes the key back. *)
Definition AddArticle (a : Article.t) : M Article.t :=
  sql_tx (sql_create_article a).

(** [DB.First(&article, id)]: no row is [gorm.ErrRecordNotFound]. *)
Definition first_article (id : Z) (d : db) : res dberr (Article.t * db) :=
  match article_t d !! id with
  | Some a => Ok (a, d)
  | None => Err DbRecordNotFound
  end.

(** [GetArticleByID]: the row without its counter; no row is
    [nil, nil]. *)
Definition GetArticleByID (id : Z) : M (option ArticleWithNoLike.t) :=
  catch (a <- sql_direct (first_article id) ;;
         ret (Some (ArticleWithNoLike.mk (Article.ID a) (Article.Title a) (Article.Content a)
                      (Article.ManagerID a) (Article.CreateAt a) (Article.Kind a))))
        (fun e => match e with
                  | ErrDb DbRecordNotFound => ret None
                  | _ => throw e
                  end).

(** [WriteLikesToMySQL]: [UPDATE article SET like = slice[1] WHERE id =
    slice[0]] in the transaction. *)
Definition WriteLikesToMySQL (slice : Z * Z) : M unit :=
  sql_tx (total (fun d => (tt, sql_set_article_like slice.1 slice.2 d))).

(** [UpdateArticle]: the [UPDATE] of title, content and like; no row
    changed is an error; then the row is read back. *)
Definition UpdateArticle (a : Article.t) : M Article.t :=
  n <- sql_direct (total (sql_update_article (Article.ID a) (Article.Title a)
                                             (Article.Content a) (Article.Like a))) ;;
  if decide (n = 0) then throw (ErrApp ArticleNotUpdated) else
  sql_direct (first_article (Article.ID a)).

End ArticleRepository.

(** [ArticleService] (article_service.go). *)
Module ArticleService.
Module ACR := ArticleCacheRepository.
Module AR := ArticleRepository.
Section WithTime.
Context `{TimeCodec}.

(** [AddArticle]: the manager, the time and a zero counter are set; in
    one transaction the row is created and the basic projection cached
    (a failure of either rolls back); the full projection is cached by
    a goroutine; then the transaction commits. *)
Definition AddArticle (article : Article.t) (managerID : Z) : M unit :=
  now <- time_now ;;
  let a0 := Article.mk (Article.ID article) (Article.Title article) (Article.Content article)
              managerID now (Article.Kind article) 0 in
  tx_begin ;;
  a1 <- catch (AR.AddArticle a0) (fun e => tx_rollback ;; throw e) ;;
  catch (ACR.AddBasicArticle
           (BasicArticle.mk (Article.ID a1) (Article.Title a1) (Substring (Article.Content a1) 5)
                            (Article.Kind a1) 0 managerID))
        (fun e => tx_rollback ;; throw e) ;;
  go (TaskCacheArticle a1) ;;
  tx_commit.

Definition GetAllArticleByKind (kind : string) : M (list BasicArticle.t) :=
  ACR.GetAllArticleByKind kind.

(** [GetArticle]: the full projection; on a miss, the row with the
    basic projection's counter, cached again by a goroutine. *)
Definition GetArticle (id : Z) : M Article.t :=
  cached <- ACR.GetArticleByID id ;;
  match cached with
  | Some a => ret a
  | None =>
      nl <- AR.GetArticleByID id ;;
      match nl with
      | None => throw (ErrApp ArticleMissing)
      | Some n =>
          b <- ACR.GetBasicArticleByID id ;;
          let a := Article.mk (ArticleWithNoLike.ID n) (ArticleWithNoLike.Title n)
                     (ArticleWithNoLike.Content n) (ArticleWithNoLike.ManagerID n)
                     (ArticleWithNoLike.CreateAt n) (ArticleWithNoLike.Kind n)
                     (BasicArticle.Like b) in
          go (TaskCacheArticle a) ;;
          ret a
      end
  end.

(** The loop of [updateLikesInTransaction]: a failed write rolls the
    transaction back and stops. *)
Fixpoint write_likes (results : list (Z * Z)) : M unit :=
  match results with
  | [] => ret tt
  | r :: rs =>
      catch (AR.WriteLikesToMySQL r) (fun e => tx_rollback ;; throw e) ;;
      write_likes rs
  end.

Definition updateLikesInTransaction (results : list (Z * Z)) : M unit :=
  tx_begin ;;
  write_likes results ;;
  catch tx_commit (fun e => tx_rollback ;; throw e).

(** One tick of [PeriodicUpdateLikes]: the counters read from the basic
    projections are written to MySQL in one transaction; an error, or
    no counter at all, skips the tick (the code logs and continues). *)
Definition PeriodicUpdateLikes_tick : M unit :=
  results <- catch (rs <- ACR.GetAllArticlesFromHash ;; ret (Some rs)) (fun _ => ret None) ;;
  match results with
  | None | Some [] => ret tt
  | Some rs => catch (updateLikesInTransaction rs) (fun _ => ret tt)
  end.

(** [PeriodicUpdateLikes]: the ticker loop, run for the number of ticks
    that have elapsed (the loop itself never returns). *)
Fixpoint PeriodicUpdateLikes (ticks : nat) : M unit :=
  match ticks with
  | O => ret tt
  | S n => PeriodicUpdateLikes_tick ;; PeriodicUpdateLikes n
  end.

Definition AddLikes (articleID userID : Z) : M unit := ACR.AddLikes articleID userID 1.

Definition RemoveLikes (articleID userID : Z) : M unit := ACR.RemoveLikes articleID userID (-1).

(** [UpdateArticle]: the counter is taken from the full projection (a
    miss dereferences a nil pointer: a panic); the cache is deleted, the
    row updated, the cache deleted again, and the basic projection
    re-added by a goroutine. *)
Definition UpdateArticle (article : Article.t) : M unit :=
  like <- ACR.GetArticleByID (Article.ID article) ;;
  match like with
  | None => throw ErrPanic
  | Some l =>
      let article' := Article.with_like article (Article.Like l) in
      ACR.DeleteArticleForUpdate (Article.ID article) ;;
      newArticle <- AR.UpdateArticle article' ;;
      ACR.DeleteArticleForUpdate (Article.ID article) ;;
      go (TaskAddBasicArticleWithoutAddList newArticle)
  end.

(** The goroutines of this component, run later: their errors are only
    logged. *)
Definition run_article_task (t : task) : option (M unit) :=
  match t with
  | TaskCacheArticle a => Some (catch (ACR.AddArticle a) (fun _ => ret tt))
  | TaskAddBasicArticleWithoutAddList a =>
      Some (catch (ACR.AddBasicArticleWithoutAddList a) (fun _ => ret tt))
  | _ => None
  end.

End WithTime.
End ArticleService.
