(* ===== verification/Likes.v ===== *)
(** * The like counters: refinement, round trip, failures

    The contract of spec §4.1 as an abstract state per article, the set
    of likers and one counter, with [like_step] for [AddLike] and
    [RemoveLike].  [like_repr] relates it to the cache: the set at
    [like_key], and the [like] field of both projections.  Without
    faults, [ArticleCacheRepository.AddLikes] and [RemoveLikes] refine
    [like_step] and touch no other key; this gives the round trip and
    the double like of spec §8, and the counter over any sequence of
    requests.  With faults, a successful reply still means the whole
    like happened; a failed one may leave the counters moved without the
    membership, or the two projections apart. *)

From S2P Require Import Prelude Strconv Utils Redis Models Durable World Articles.
Open Scope hcl_scope.
Open Scope Z_scope.

Module ACR := ArticleCacheRepository.

(** ** The keys of an article *)
Lemma basic_map_key_inj a b : basic_map_key a = basic_map_key b -> a = b.
Proof. intros H. by apply Itoa_inj, (append_inj_l basic_map_prefix). Qed.

Lemma full_key_inj a b : full_key a = full_key b -> a = b.
Proof. intros H. by apply Itoa_inj, (append_inj_l (prefix +:+ ":full:")). Qed.

Lemma like_key_inj a b : like_key a = like_key b -> a = b.
Proof. intros H. by apply Itoa_inj, (append_inj_l (prefix +:+ ":like:")). Qed.

(** Keys of different kinds differ in their fixed part. *)
Ltac keys_differ :=
  unfold like_key, full_key, basic_map_key, basic_map_prefix, prefix;
  let H := fresh in intros H; injection H; intros; discriminate.

Lemma like_basic_ne a b : like_key a ≠ basic_map_key b.
Proof. keys_differ. Qed.
Lemma like_full_ne a b : like_key a ≠ full_key b.
Proof. keys_differ. Qed.
Lemma basic_full_ne a b : basic_map_key a ≠ full_key b.
Proof. keys_differ. Qed.

Lemma ne_sym_string (a b : string) : a ≠ b -> b ≠ a.
Proof. congruence. Qed.

#[export] Hint Resolve like_basic_ne like_full_ne basic_full_ne : hcl.
#[export] Hint Extern 2 (_ ≠ _) => apply ne_sym_string : hcl.

(** The keys of one article. *)
Definition article_keys (id : Z) : gset string :=
  {[like_key id; basic_map_key id; full_key id]}.

(** Two caches agree outside a set of keys. *)
Definition agree_off (K : gset string) (r r' : redis) : Prop :=
  ∀ k, k ∉ K -> kv r' !! k = kv r !! k ∧ (k ∈ volatile r' ↔ k ∈ volatile r).

Lemma agree_off_refl K r : agree_off K r r.
Proof. done. Qed.

Lemma agree_off_trans K r1 r2 r3 : agree_off K r1 r2 -> agree_off K r2 r3 -> agree_off K r1 r3.
Proof. intros H12 H23 k Hk. destruct (H12 k Hk), (H23 k Hk). split; [congruence|tauto]. Qed.

Lemma agree_off_set_key K k v r : k ∈ K -> agree_off K r (set_key k v r).
Proof.
  intros Hk k' Hk'. simpl. rewrite lookup_insert_ne; [done|]. set_solver.
Qed.

Lemma agree_off_del_key K k r : k ∈ K -> agree_off K r (del_key k r).
Proof.
  intros Hk k' Hk'. simpl. rewrite lookup_delete_ne by set_solver. set_solver.
Qed.

#[export] Hint Resolve agree_off_refl agree_off_set_key agree_off_del_key : hcl.

(** ** The abstract counter of spec §4.1 *)
Record like_state : Type := LikeState {
  likers : gset Z;
  counter : Z
}.

Inductive like_op : Type :=
| Like (u : Z)
| Unlike (u : Z).

(** One request on the abstract state: the membership check, then the
    counter moved by one within 64 bits (the cache refuses to leave
    them) and the membership changed. *)
Definition like_step (o : like_op) (s : like_state) : res err unit * like_state :=
  match o with
  | Like u =>
      if decide (u ∈ likers s) then (Err (ErrApp AlreadyLiked), s)
      else if in_int64 (counter s + 1)
      then (Ok tt, LikeState ({[u]} ∪ likers s) (counter s + 1))
      else (Err (ErrRedis Overflow), s)
  | Unlike u =>
      if decide (u ∈ likers s) then
        if in_int64 (counter s + -1)
        then (Ok tt, LikeState (likers s ∖ {[u]}) (counter s + -1))
        else (Err (ErrRedis Overflow), s)
      else (Err (ErrApp NotLiked), s)
  end.

(** The [like] field of the hash at [k] holds [c] (an absent hash or
    field reads as 0, as [HINCRBY] reads it). *)
Definition counter_is (r : redis) (k : string) (c : Z) : Prop :=
  ∃ h, hash_is r k h ∧ field_int h "like" c.

Definition like_repr (r : redis) (id : Z) (s : like_state) : Prop :=
  set_is r (like_key id) (set_map Itoa (likers s)) ∧
  counter_is r (basic_map_key id) (counter s) ∧
  counter_is r (full_key id) (counter s).

Lemma agree_off_mono K K' r r' : K ⊆ K' -> agree_off K r r' -> agree_off K' r r'.
Proof. intros HK H k Hk. apply H. set_solver. Qed.

(** ** The commands on the observed keys *)
Lemma set_map_Itoa_union u (L : gset Z) :
  set_map (D:=gset string) Itoa ({[u]} ∪ L) = {[Itoa u]} ∪ set_map Itoa L.
Proof. by rewrite set_map_union_L, set_map_singleton_L. Qed.

Lemma set_map_Itoa_diff u (L : gset Z) :
  set_map (D:=gset string) Itoa (L ∖ {[u]}) = set_map Itoa L ∖ {[Itoa u]}.
Proof.
  apply set_eq. intros x. rewrite elem_of_difference, !elem_of_map, elem_of_singleton. split.
  - intros (y & -> & Hy). apply elem_of_difference in Hy as [Hy Hny].
    split; [eauto|]. intros Heq. apply Hny, elem_of_singleton. by apply Itoa_inj.
  - intros [(y & -> & Hy) Hne]. exists y. split; [done|].
    apply elem_of_difference. split; [done|]. rewrite elem_of_singleton. intros ->. by apply Hne.
Qed.

Lemma set_is_agree r r' k m : kv r' !! k = kv r !! k -> set_is r k m -> set_is r' k m.
Proof. unfold set_is. by intros ->. Qed.

Lemma counter_is_agree r r' k c : kv r' !! k = kv r !! k -> counter_is r k c -> counter_is r' k c.
Proof. unfold counter_is, hash_is. by intros ->. Qed.

Lemma counter_HINCRBY r k c i :
  counter_is r k c -> in_int64 (c + i) = true ->
  ∃ r', HINCRBY k "like" i r = (Ok (c + i), r') ∧ counter_is r' k (c + i) ∧ agree_off {[k]} r r'.
Proof.
  intros (h & Hh & Hf) Hin. eexists. split; [by apply (HINCRBY_ok r k "like" h c i)|].
  split; [|apply agree_off_set_key; set_solver].
  exists (<[ "like" := Itoa (c + i)]> h). auto with hcl.
Qed.

Lemma counter_HINCRBY_overflow r k c i :
  counter_is r k c -> in_int64 (c + i) = false -> HINCRBY k "like" i r = (Err Overflow, r).
Proof. intros (h & Hh & Hf) Hin. by apply (HINCRBY_overflow r k "like" h c i). Qed.

Lemma set_SADD r k m x :
  set_is r k m -> ∃ r', SADD k x r = (Ok tt, r') ∧ set_is r' k ({[x]} ∪ m) ∧ agree_off {[k]} r r'.
Proof.
  intros Hm. eexists. split; [by apply SADD_is|]. split; [auto with hcl|].
  apply agree_off_set_key. set_solver.
Qed.

Lemma set_SREM r k m x :
  set_is r k m -> ∃ r', SREM k x r = (Ok tt, r') ∧ set_is r' k (m ∖ {[x]}) ∧ agree_off {[k]} r r'.
Proof.
  intros Hm. unfold SREM. rewrite (bind_ok _ _ _ _ _ (get_set_is r k m Hm)).
  unfold store, modify; simpl. case_bool_decide as E.
  - eexists. split; [done|]. split; [|apply agree_off_del_key; set_solver].
    right. simpl. by rewrite lookup_delete_eq.
  - eexists. split; [done|]. split; [auto with hcl|]. apply agree_off_set_key. set_solver.
Qed.

Lemma agree_off_counter r r' K k c :
  agree_off K r r' -> k ∉ K -> counter_is r k c -> counter_is r' k c.
Proof. intros HA Hk. apply counter_is_agree. apply (HA k Hk). Qed.

Lemma agree_off_set r r' K k m :
  agree_off K r r' -> k ∉ K -> set_is r k m -> set_is r' k m.
Proof. intros HA Hk. apply set_is_agree. apply (HA k Hk). Qed.

(** ** The steps of [AddLikes] and [RemoveLikes] without faults *)
Section NoFaults.
Context (w : World) (Hw : no_faults w).

Lemma like_member_nf {B} id u (L : gset Z) (k : bool -> M B) :
  set_is (cache w) (like_key id) (set_map Itoa L) ->
  bind (rcall (SISMEMBER (like_key id) (Itoa u))) k w = k (bool_decide (u ∈ L)) w.
Proof.
  intros Hs. rewrite (bind_ok _ _ _ _ _ (rcall_nf_ok _ _ _ _ Hw (SISMEMBER_is _ _ _ (Itoa u) Hs))).
  rewrite set_cache_cache. f_equal. apply bool_decide_ext, Itoa_in_set_map.
Qed.

(** Both projections moved by [i], the full one with its compensation
    (which does not run). *)
Lemma incr_both_nf {B} id c i (k : M B) :
  counter_is (cache w) (basic_map_key id) c -> counter_is (cache w) (full_key id) c ->
  in_int64 (c + i) = true ->
  ∃ r', bind (rcall (HINCRBY (basic_map_key id) "like" i))
             (fun _ => bind (ACR.incr_full_or_undo id i) (fun _ => k)) w = k (set_cache r' w) ∧
        counter_is r' (basic_map_key id) (c + i) ∧ counter_is r' (full_key id) (c + i) ∧
        agree_off {[basic_map_key id; full_key id]} (cache w) r'.
Proof.
  intros Hb Hf Hin.
  destruct (counter_HINCRBY _ _ _ _ Hb Hin) as (r1 & E1 & Hb1 & A1).
  rewrite (bind_ok _ _ _ _ _ (rcall_nf_ok _ _ _ _ Hw E1)).
  assert (Hf1 : counter_is r1 (full_key id) c)
    by (apply (agree_off_counter _ _ _ _ _ A1); [set_solver by auto with hcl|done]).
  destruct (counter_HINCRBY _ _ _ _ Hf1 Hin) as (r2 & E2 & Hf2 & A2).
  unfold ACR.incr_full_or_undo.
  rewrite (bind_ok _ _ _ _ _ (catch_ok _ _ _ _ _
             (rcall_nf_ok _ (set_cache r1 w) _ _ (no_faults_set_cache _ _ Hw) E2))).
  exists r2. split; [done|]. split; [|split; [done|]].
  - apply (agree_off_counter _ _ _ _ _ A2); [set_solver by auto with hcl|done].
  - eapply agree_off_trans; (eapply agree_off_mono; [|eassumption]); set_solver.
Qed.

Lemma incr_both_overflow_nf {B} id c i (k : M B) :
  counter_is (cache w) (basic_map_key id) c -> in_int64 (c + i) = false ->
  bind (rcall (HINCRBY (basic_map_key id) "like" i))
       (fun _ => bind (ACR.incr_full_or_undo id i) (fun _ => k)) w = (Err (ErrRedis Overflow), w).
Proof.
  intros Hb Hin. rewrite (bind_err _ _ _ _ _ (rcall_nf_err _ _ _ _ Hw
                            (counter_HINCRBY_overflow _ _ _ _ Hb Hin))).
  by rewrite set_cache_cache.
Qed.
End NoFaults.

Lemma UseLikeSort_add id u : ACR.UseLikeSort id u "addLike" = rcall (SADD (like_key id) (Itoa u)).
Proof. reflexivity. Qed.

Lemma UseLikeSort_remove id u :
  ACR.UseLikeSort id u "removeLike" = rcall (SREM (like_key id) (Itoa u)).
Proof. reflexivity. Qed.

(** ** Refinement without faults *)

(** The cache the two handlers leave: the abstract step, and nothing
    outside the article's keys. *)
Definition refines_step (m : M unit) (id : Z) (o : like_op) : Prop :=
  ∀ w s, no_faults w -> like_repr (cache w) id s ->
  ∃ r', m w = ((like_step o s).1, set_cache r' w) ∧
        like_repr r' id (like_step o s).2 ∧ agree_off (article_keys id) (cache w) r'.

Lemma unchanged_step (w : World) id s (res : res err unit) :
  like_repr (cache w) id s ->
  ∃ r', (res, w) = (res, set_cache r' w) ∧ like_repr r' id s ∧
        agree_off (article_keys id) (cache w) r'.
Proof. intros H. exists (cache w). by rewrite set_cache_cache. Qed.

(** The membership change at the end of a successful request. *)
Lemma finish_step w id r2 c L' (m : gset string) (c2 : cmd unit) :
  no_faults w -> c2 r2 = (Ok tt, snd (c2 r2)) ->
  set_is (snd (c2 r2)) (like_key id) m -> m = set_map Itoa L' ->
  agree_off {[like_key id]} r2 (snd (c2 r2)) ->
  counter_is r2 (basic_map_key id) c -> counter_is r2 (full_key id) c ->
  agree_off {[basic_map_key id; full_key id]} (cache w) r2 ->
  ∃ r', rcall c2 (set_cache r2 w) = (Ok tt, set_cache r' w) ∧
        like_repr r' id (LikeState L' c) ∧ agree_off (article_keys id) (cache w) r'.
Proof.
  intros Hw E Hs -> A3 Hb Hf A2. exists (snd (c2 r2)).
  split; [by rewrite (rcall_nf_ok _ _ _ _ (no_faults_set_cache _ _ Hw) E)|].
  split; [split; [done|split]|].
  - apply (agree_off_counter _ _ _ _ _ A3); [set_solver by auto with hcl|done].
  - apply (agree_off_counter _ _ _ _ _ A3); [set_solver by auto with hcl|done].
  - unfold article_keys. eapply agree_off_trans; (eapply agree_off_mono; [|eassumption]); set_solver.
Qed.

Lemma AddLikes_step id u : refines_step (ACR.AddLikes id u 1) id (Like u).
Proof.
  intros w s Hw (Hs & Hb & Hf). unfold ACR.AddLikes, like_step.
  rewrite (like_member_nf w Hw _ _ _ _ Hs).
  destruct (decide (u ∈ likers s)) as [Hu|Hu].
  { rewrite bool_decide_true by done. by apply unchanged_step. }
  rewrite bool_decide_false by done.
  destruct (in_int64 (counter s + 1)) eqn:Hin.
  2: { rewrite (incr_both_overflow_nf w Hw _ _ _ _ Hb Hin). by apply unchanged_step. }
  destruct (incr_both_nf w Hw id _ _ (ACR.UseLikeSort id u "addLike") Hb Hf Hin)
    as (r2 & -> & Hb2 & Hf2 & A2).
  assert (Hs2 : set_is r2 (like_key id) (set_map Itoa (likers s)))
    by (apply (agree_off_set _ _ _ _ _ A2); [set_solver by auto with hcl|done]).
  destruct (set_SADD _ _ _ (Itoa u) Hs2) as (r3 & E3 & Hs3 & A3).
  rewrite UseLikeSort_add.
  eapply (finish_step w id r2 _ _ _ (SADD (like_key id) (Itoa u))); rewrite ?E3; eauto.
  by rewrite set_map_Itoa_union.
Qed.

Lemma RemoveLikes_step id u : refines_step (ACR.RemoveLikes id u (-1)) id (Unlike u).
Proof.
  intros w s Hw (Hs & Hb & Hf). unfold ACR.RemoveLikes, like_step.
  rewrite (like_member_nf w Hw _ _ _ _ Hs).
  destruct (decide (u ∈ likers s)) as [Hu|Hu].
  2: { rewrite bool_decide_false by done. by apply unchanged_step. }
  rewrite bool_decide_true by done. cbn [negb].
  destruct (in_int64 (counter s + -1)) eqn:Hin.
  2: { rewrite (incr_both_overflow_nf w Hw _ _ _ _ Hb Hin). by apply unchanged_step. }
  destruct (incr_both_nf w Hw id _ _ (ACR.UseLikeSort id u "removeLike") Hb Hf Hin)
    as (r2 & -> & Hb2 & Hf2 & A2).
  assert (Hs2 : set_is r2 (like_key id) (set_map Itoa (likers s)))
    by (apply (agree_off_set _ _ _ _ _ A2); [set_solver by auto with hcl|done]).
  destruct (set_SREM _ _ _ (Itoa u) Hs2) as (r3 & E3 & Hs3 & A3).
  rewrite UseLikeSort_remove.
  eapply (finish_step w id r2 _ _ _ (SREM (like_key id) (Itoa u))); rewrite ?E3; eauto.
  by rewrite set_map_Itoa_diff.
Qed.

(** Other articles are not touched. *)
Lemma like_repr_frame r r' id id' s :
  id ≠ id' -> agree_off (article_keys id) r r' -> like_repr r id' s -> like_repr r' id' s.
Proof.
  intros Hne A (Hs & Hb & Hf).
  assert (Hk : ∀ k, k ∈ article_keys id' -> k ∉ article_keys id).
  { unfold article_keys. intros k Hk Hk'. apply Hne.
    rewrite !elem_of_union, !elem_of_singleton in Hk, Hk'.
    destruct Hk as [[->| ->]| ->], Hk' as [[Hk'|Hk']|Hk'];
      first [ by apply like_key_inj | by apply basic_map_key_inj | by apply full_key_inj
            | exfalso; by eapply like_basic_ne | exfalso; by eapply like_full_ne
            | exfalso; by eapply basic_full_ne | exfalso; by eapply like_basic_ne, eq_sym
            | exfalso; by eapply like_full_ne, eq_sym | exfalso; by eapply basic_full_ne, eq_sym ]. }
  unfold article_keys in Hk.
  split; [|split]; [eapply agree_off_set|eapply agree_off_counter|eapply agree_off_counter];
    eauto; apply Hk; set_solver.
Qed.

(** ** Successful replies under faults *)
#[export] Instance AddLikes_strict id u i : Strict (ACR.AddLikes id u i).
Proof. unfold ACR.AddLikes, ACR.incr_full_or_undo, ACR.UseLikeSort. apply _. Qed.

#[export] Instance RemoveLikes_strict id u i : Strict (ACR.RemoveLikes id u i).
Proof. unfold ACR.RemoveLikes, ACR.incr_full_or_undo, ACR.UseLikeSort. apply _. Qed.

(** A handler that refines a step and is strict: an [Ok] reply under any
    faults is the abstract step's [Ok]. *)
Lemma strict_refines_ok (m : M unit) id o w w' s :
  Strict m -> refines_step m id o -> like_repr (cache w) id s -> m w = (Ok tt, w') ->
  (like_step o s).1 = Ok tt ∧ like_repr (cache w') id (like_step o s).2.
Proof.
  intros Hst Href Hr Hm. apply Hst in Hm.
  destruct (Href (set_faults [] w) s eq_refl Hr) as (r' & Hm' & Hr' & _).
  rewrite Hm in Hm'. injection Hm' as Hres Hc.
  split; [done|]. by rewrite Hc.
Qed.

(** ** Sequences of requests *)

(** One request of the HTTP layer: [POST] or [DELETE] on the like. *)
Definition serve (id : Z) (o : like_op) : M unit :=
  match o with
  | Like u => ArticleService.AddLikes id u
  | Unlike u => ArticleService.RemoveLikes id u
  end.

(** Requests served one after the other, each with its own reply. *)
Fixpoint serve_all (id : Z) (os : list like_op) : M (list (res err unit)) :=
  match os with
  | [] => ret []
  | o :: os' => r <- attempt (serve id o) ;; rs <- serve_all id os' ;; ret (r :: rs)
  end.

Fixpoint like_run (os : list like_op) (s : like_state) : list (res err unit) * like_state :=
  match os with
  | [] => ([], s)
  | o :: os' =>
      let '(r, s1) := like_step o s in
      let '(rs, s2) := like_run os' s1 in (r :: rs, s2)
  end.

Lemma serve_step id o : refines_step (serve id o) id o.
Proof.
  destruct o; unfold serve, ArticleService.AddLikes, ArticleService.RemoveLikes;
    [exact (AddLikes_step id u)|exact (RemoveLikes_step id u)].
Qed.

Lemma serve_all_refines os : ∀ id w s,
  no_faults w -> like_repr (cache w) id s ->
  ∃ r', serve_all id os w = (Ok (like_run os s).1, set_cache r' w) ∧
        like_repr r' id (like_run os s).2 ∧ agree_off (article_keys id) (cache w) r'.
Proof.
  induction os as [|o os IH]; intros id w s Hw Hr; simpl.
  { exists (cache w). rewrite set_cache_cache. split; [done|]. split; [done|apply agree_off_refl]. }
  destruct (serve_step id o w s Hw Hr) as (r1 & E1 & Hr1 & A1).
  rewrite (bind_ok _ _ _ _ _ (attempt_run _ _ _ _ E1)).
  destruct (like_step o s) as [r s1] eqn:Es; simpl in *.
  destruct (IH id (set_cache r1 w) s1 (no_faults_set_cache _ _ Hw) Hr1) as (r2 & E2 & Hr2 & A2).
  rewrite (bind_ok _ _ _ _ _ E2). destruct (like_run os s1) as [rs s2]; simpl in *.
  exists r2. split; [done|]. split; [done|]. by eapply agree_off_trans.
Qed.

(** The abstract counter moves with the set of likers. *)
Lemma like_step_balance o s :
  counter (like_step o s).2 - Z.of_nat (size (likers (like_step o s).2))
  = counter s - Z.of_nat (size (likers s)).
Proof.
  destruct o as [u|u]; simpl; destruct (decide (u ∈ likers s)); try done;
    destruct (in_int64 _); simpl; try done.
  - rewrite size_union by set_solver. rewrite size_singleton. lia.
  - rewrite size_difference by set_solver. rewrite size_singleton.
    assert (size {[u]} <= size (likers s))%nat as Hle
      by (apply subseteq_size; set_solver). rewrite size_singleton in Hle. lia.
Qed.

Lemma like_run_balance os : ∀ s,
  counter (like_run os s).2 - Z.of_nat (size (likers (like_run os s).2))
  = counter s - Z.of_nat (size (likers s)).
Proof.
  induction os as [|o os IH]; intros s; simpl; [done|].
  pose proof (like_step_balance o s) as Hb.
  destruct (like_step o s) as [r s1]. specialize (IH s1).
  destruct (like_run os s1) as [rs s2]. simpl in *. lia.
Qed.

(** ** Exact runs on a cached article *)

(** A projection in the cache: a hash whose [like] is [c], as the code
    writes it. *)
Definition projection_is (r : redis) (k : string) (h : gmap string string) (c : Z) : Prop :=
  kv r !! k = Some (RHash h) ∧ h !! "like" = Some (Itoa c) ∧ in_int64 c = true.

Lemma HINCRBY_present r k h c i :
  projection_is r k h c -> in_int64 (c + i) = true ->
  HINCRBY k "like" i r = (Ok (c + i), set_key k (RHash (<[ "like" := Itoa (c + i)]> h)) r).
Proof.
  intros (Hk & Hl & Hc) Hin. apply (HINCRBY_ok r k "like" h c i); [by left|right|done].
  exists (Itoa c). split; [done|]. by apply redis_int_Itoa, in_int64_spec.
Qed.

Lemma projection_is_set_key_ne r k k' v h c :
  k ≠ k' -> projection_is r k' h c -> projection_is (set_key k v r) k' h c.
Proof. intros Hne (H1 & H2 & H3). split; [|done]. simpl. by rewrite lookup_insert_ne. Qed.

Lemma projection_is_incr r k h c i :
  in_int64 (c + i) = true ->
  projection_is (set_key k (RHash (<[ "like" := Itoa (c + i)]> h)) r) k
                (<[ "like" := Itoa (c + i)]> h) (c + i).
Proof. intros Hin. split; [apply lookup_insert_eq|]. split; [apply lookup_insert_eq|done]. Qed.

#[export] Hint Resolve projection_is_set_key_ne projection_is_incr : hcl.

(** The cache after both projections moved by [i]. *)
Definition moved (id c i : Z) (hb hf : gmap string string) (r : redis) : redis :=
  set_key (full_key id) (RHash (<[ "like" := Itoa (c + i)]> hf))
    (set_key (basic_map_key id) (RHash (<[ "like" := Itoa (c + i)]> hb)) r).

Lemma incr_both_exact {B} w id c i hb hf (k : M B) :
  no_faults w -> projection_is (cache w) (basic_map_key id) hb c ->
  projection_is (cache w) (full_key id) hf c -> in_int64 (c + i) = true ->
  bind (rcall (HINCRBY (basic_map_key id) "like" i))
       (fun _ => bind (ACR.incr_full_or_undo id i) (fun _ => k)) w
  = k (set_cache (moved id c i hb hf (cache w)) w).
Proof.
  intros Hw Hb Hf Hin.
  rewrite (bind_ok _ _ _ _ _ (rcall_nf_ok _ _ _ _ Hw (HINCRBY_present _ _ _ _ _ Hb Hin))).
  unfold ACR.incr_full_or_undo.
  rewrite (bind_ok _ _ _ _ _ (catch_ok _ _ _ _ _ (rcall_nf_ok _ _ _ _
             (no_faults_set_cache _ _ Hw)
             (HINCRBY_present _ (full_key id) hf c i
                (projection_is_set_key_ne _ _ _ _ _ _ (basic_full_ne id id) Hf) Hin)))).
  done.
Qed.

Lemma AddLikes_exact w id u m hb hf c :
  no_faults w -> set_is (cache w) (like_key id) m -> Itoa u ∉ m ->
  projection_is (cache w) (basic_map_key id) hb c -> projection_is (cache w) (full_key id) hf c ->
  in_int64 (c + 1) = true ->
  ACR.AddLikes id u 1 w
  = (Ok tt, set_cache (set_key (like_key id) (RSet ({[Itoa u]} ∪ m))
                               (moved id c 1 hb hf (cache w))) w).
Proof.
  intros Hw Hs Hu Hb Hf Hin. unfold ACR.AddLikes.
  rewrite (bind_ok _ _ _ _ _ (rcall_nf_ok _ _ _ _ Hw (SISMEMBER_is _ _ _ (Itoa u) Hs))).
  rewrite set_cache_cache, bool_decide_false by done.
  rewrite (incr_both_exact w id c 1 hb hf _ Hw Hb Hf Hin), UseLikeSort_add.
  apply (rcall_nf_ok _ _ _ _ (no_faults_set_cache _ _ Hw)), SADD_is.
  unfold moved. simpl. auto with hcl.
Qed.

Lemma RemoveLikes_exact w id u m hb hf c :
  no_faults w -> set_is (cache w) (like_key id) m -> Itoa u ∈ m ->
  projection_is (cache w) (basic_map_key id) hb c -> projection_is (cache w) (full_key id) hf c ->
  in_int64 (c + -1) = true ->
  ACR.RemoveLikes id u (-1) w
  = (Ok tt, set_cache (let r := moved id c (-1) hb hf (cache w) in
                       if bool_decide (m ∖ {[Itoa u]} = ∅) then del_key (like_key id) r
                       else set_key (like_key id) (RSet (m ∖ {[Itoa u]})) r) w).
Proof.
  intros Hw Hs Hu Hb Hf Hin. unfold ACR.RemoveLikes.
  rewrite (bind_ok _ _ _ _ _ (rcall_nf_ok _ _ _ _ Hw (SISMEMBER_is _ _ _ (Itoa u) Hs))).
  rewrite set_cache_cache, bool_decide_true by done. cbn [negb].
  rewrite (incr_both_exact w id c (-1) hb hf _ Hw Hb Hf Hin), UseLikeSort_remove.
  apply (rcall_nf_ok _ _ _ _ (no_faults_set_cache _ _ Hw)), SREM_is.
  unfold moved. simpl. auto with hcl.
Qed.

Lemma like_field_restore (h : gmap string string) c :
  h !! "like" = Some (Itoa c) -> <[ "like" := Itoa (c + 1 + -1)]> (<[ "like" := Itoa (c + 1)]> h) = h.
Proof. intros H. replace (c + 1 + -1) with c by lia. by rewrite insert_insert_eq, insert_id. Qed.

(** The like then the unlike of one user leave the world as it was. *)
Lemma like_unlike_restores w id u m hb hf c :
  no_faults w -> redis_wf (cache w) -> set_is (cache w) (like_key id) m -> Itoa u ∉ m ->
  projection_is (cache w) (basic_map_key id) hb c -> projection_is (cache w) (full_key id) hf c ->
  in_int64 (c + 1) = true ->
  (ACR.AddLikes id u 1 ;; ACR.RemoveLikes id u (-1)) w = (Ok tt, w).
Proof.
  intros Hw Hwf Hs Hu Hb Hf Hin.
  rewrite (bind_ok _ _ _ _ _ (AddLikes_exact w id u m hb hf c Hw Hs Hu Hb Hf Hin)).
  rewrite RemoveLikes_exact with (m := {[Itoa u]} ∪ m) (hb := <[ "like" := Itoa (c + 1)]> hb)
    (hf := <[ "like" := Itoa (c + 1)]> hf) (c := c + 1);
    [|done|apply set_is_set_key|set_solver
     |exact (projection_is_set_key_ne _ _ _ _ _ _ (like_basic_ne id id)
               (projection_is_set_key_ne _ _ _ _ _ _ (ne_sym_string _ _ (basic_full_ne id id))
                  (projection_is_incr _ _ _ _ _ Hin)))
     |exact (projection_is_set_key_ne _ _ _ _ _ _ (like_full_ne id id)
               (projection_is_incr _ _ _ _ _ Hin))
     |replace (c + 1 + -1) with c by lia; apply Hb].
  rewrite set_cache_set_cache. f_equal.
  transitivity (set_cache (cache w) w); [f_equal|apply set_cache_cache]. cbn [cache set_cache].
  replace (({[Itoa u]} ∪ m) ∖ {[Itoa u]}) with m by set_solver.
  destruct Hb as (Hb & Hbl & _), Hf as (Hf & Hfl & _). unfold moved.
  rewrite (like_field_restore hb c Hbl), (like_field_restore hf c Hfl).
  pose proof (set_is_wf_lookup _ _ _ Hwf Hs) as Hl.
  pose proof (like_basic_ne id id). pose proof (like_full_ne id id). pose proof (basic_full_ne id id).
  apply redis_eq; case_bool_decide; simpl in *.
  - apply map_eq. intros k.
    destruct (decide (k = like_key id)); [subst; by simplify_map_eq|].
    destruct (decide (k = full_key id)); [subst; by simplify_map_eq|].
    destruct (decide (k = basic_map_key id)); [subst; by simplify_map_eq|]. by simplify_map_eq.
  - apply map_eq. intros k.
    destruct (decide (k = like_key id)); [subst; by simplify_map_eq|].
    destruct (decide (k = full_key id)); [subst; by simplify_map_eq|].
    destruct (decide (k = basic_map_key id)); [subst; by simplify_map_eq|]. by simplify_map_eq.
  - destruct Hwf as [_ Hvol]. apply set_eq. intros k. rewrite elem_of_difference, elem_of_singleton.
    split; [tauto|]. intros Hk. split; [done|]. intros ->.
    apply Hvol, elem_of_dom in Hk as [? Hv]. congruence.
  - done.
Qed.

(** [AddLikes] without faults on any hashes: each projection gets its
    own counter plus one, whatever it held. *)
Lemma AddLikes_general w id u m hb hf cb cf :
  no_faults w -> set_is (cache w) (like_key id) m -> Itoa u ∉ m ->
  hash_is (cache w) (basic_map_key id) hb -> field_int hb "like" cb ->
  hash_is (cache w) (full_key id) hf -> field_int hf "like" cf ->
  in_int64 (cb + 1) = true -> in_int64 (cf + 1) = true ->
  ACR.AddLikes id u 1 w
  = (Ok tt, set_cache (set_key (like_key id) (RSet ({[Itoa u]} ∪ m))
               (set_key (full_key id) (RHash (<[ "like" := Itoa (cf + 1)]> hf))
                  (set_key (basic_map_key id) (RHash (<[ "like" := Itoa (cb + 1)]> hb)) (cache w)))) w).
Proof.
  intros Hw Hs Hu Hb Hbf Hf Hff Hinb Hinf. unfold ACR.AddLikes.
  rewrite (bind_ok _ _ _ _ _ (rcall_nf_ok _ _ _ _ Hw (SISMEMBER_is _ _ _ (Itoa u) Hs))).
  rewrite set_cache_cache, bool_decide_false by done.
  rewrite (bind_ok _ _ _ _ _ (rcall_nf_ok _ _ _ _ Hw (HINCRBY_ok _ _ _ _ _ _ Hb Hbf Hinb))).
  unfold ACR.incr_full_or_undo.
  rewrite (bind_ok _ _ _ _ _ (catch_ok _ _ _ _ _ (rcall_nf_ok _ _ _ _ (no_faults_set_cache _ _ Hw)
             (HINCRBY_ok _ _ _ _ _ _ (hash_is_set_key_ne _ _ _ _ _ (basic_full_ne id id) Hf) Hff Hinf)))).
  rewrite UseLikeSort_add.
  apply (rcall_nf_ok _ _ _ _ (no_faults_set_cache _ _ Hw)), SADD_is.
  simpl. auto with hcl.
Qed.

(** ** Runs under faults

    The calls of [AddLikes] in order: [SISMEMBER], the basic
    [HINCRBY], the full [HINCRBY], then either the undo [HINCRBY] (when
    the full one failed) or the [SADD]. *)
Lemma in_int64_between a b c : in_int64 a = true -> in_int64 c = true -> a <= b <= c -> in_int64 b = true.
Proof. rewrite !in_int64_spec. lia. Qed.

Ltac add_likes_prefix Hs Hb Hin :=
  unfold ACR.AddLikes; rewrite set_faults_norm;
  rewrite (bind_ok _ _ _ _ _ (rcall_fault_ok _ _ _ _ _ _ (SISMEMBER_is _ _ _ _ Hs)));
  rewrite bool_decide_false by done;
  rewrite (bind_ok _ _ _ _ _ (rcall_fault_ok _ _ _ _ _ _ (HINCRBY_present _ _ _ _ _ Hb Hin)));
  unfold ACR.incr_full_or_undo.

Section Faults.
Context (w : World) (id u : Z) (m : gset string) (hb hf : gmap string string) (c : Z).
Context (Hs : set_is (cache w) (like_key id) m) (Hu : Itoa u ∉ m).
Context (Hb : projection_is (cache w) (basic_map_key id) hb c).
Context (Hf : projection_is (cache w) (full_key id) hf c).
Context (Hin : in_int64 (c + 1) = true).

Let Hf1 := projection_is_set_key_ne _ _ _ (RHash (<[ "like" := Itoa (c + 1)]> hb)) _ _
             (basic_full_ne id id) Hf.

(** The [SADD] is lost: both counters moved, the user not recorded. *)
Lemma AddLikes_sadd_lost :
  ACR.AddLikes id u 1 (set_faults [NoFault; NoFault; NoFault; FailBefore] w)
  = (Err (ErrRedis NetError), set_faults [] (set_cache (moved id c 1 hb hf (cache w)) w)).
Proof.
  add_likes_prefix Hs Hb Hin.
  rewrite (bind_ok _ _ _ _ _ (catch_ok _ _ _ _ _
             (rcall_fault_ok _ _ _ _ _ _ (HINCRBY_present _ _ _ _ _ Hf1 Hin)))).
  by rewrite UseLikeSort_add, rcall_fault_lost.
Qed.

(** The full increment is lost before Redis runs it: the undo restores
    the basic counter. *)
Lemma AddLikes_full_lost_undone :
  ACR.AddLikes id u 1 (set_faults [NoFault; NoFault; FailBefore; NoFault] w)
  = (Err (ErrRedis NetError),
     set_faults [] (set_cache (set_key (basic_map_key id)
                     (RHash (<[ "like" := Itoa (c + 1 + -1)]> (<[ "like" := Itoa (c + 1)]> hb)))
                     (set_key (basic_map_key id) (RHash (<[ "like" := Itoa (c + 1)]> hb)) (cache w))) w)).
Proof.
  add_likes_prefix Hs Hb Hin.
  unfold bind at 1. rewrite (catch_err _ _ _ _ _ (rcall_fault_lost _ _ _ _)). cbv beta.
  rewrite (bind_ok _ _ _ _ _ (catch_ok _ _ _ _ _ (rcall_fault_ok _ _ _ _ _ _
             (HINCRBY_present _ _ _ _ (-1) (projection_is_incr _ _ _ _ _ Hin)
                (in_int64_between c (c + 1 + -1) (c + 1) ltac:(apply Hb) Hin ltac:(lia)))))).
  done.
Qed.

(** The reply of the full increment is lost after Redis ran it: the
    undo still runs on the basic counter. *)
Lemma AddLikes_full_noreply :
  ACR.AddLikes id u 1 (set_faults [NoFault; NoFault; FailAfter; NoFault] w)
  = (Err (ErrRedis NetError),
     set_faults [] (set_cache (set_key (basic_map_key id)
                     (RHash (<[ "like" := Itoa (c + 1 + -1)]> (<[ "like" := Itoa (c + 1)]> hb)))
                     (moved id c 1 hb hf (cache w))) w)).
Proof.
  add_likes_prefix Hs Hb Hin.
  unfold bind at 1.
  rewrite (catch_err _ _ _ _ _ (rcall_fault_noreply _ _ _ _ _ _ (HINCRBY_present _ _ _ _ _ Hf1 Hin))).
  cbv beta.
  rewrite (bind_ok _ _ _ _ _ (catch_ok _ _ _ _ _ (rcall_fault_ok _ _ _ _ _ _
             (HINCRBY_present _ _ _ _ (-1)
                (projection_is_set_key_ne _ _ _ _ _ _ (ne_sym_string _ _ (basic_full_ne id id))
                   (projection_is_incr _ _ _ _ _ Hin))
                (in_int64_between c (c + 1 + -1) (c + 1) ltac:(apply Hb) Hin ltac:(lia)))))).
  done.
Qed.

(** The full increment and its undo are both lost: both errors are
    reported, the basic counter stays moved. *)
Lemma AddLikes_undo_lost :
  ACR.AddLikes id u 1 (set_faults [NoFault; NoFault; FailBefore; FailBefore] w)
  = (Err (ErrRollback (ErrRedis NetError) (ErrRedis NetError)),
     set_faults [] (set_cache (set_key (basic_map_key id) (RHash (<[ "like" := Itoa (c + 1)]> hb))
                                       (cache w)) w)).
Proof.
  add_likes_prefix Hs Hb Hin.
  unfold bind at 1. rewrite (catch_err _ _ _ _ _ (rcall_fault_lost _ _ _ _)). cbv beta.
  rewrite (bind_err _ _ _ _ _ (catch_err _ _ _ _ _ (rcall_fault_lost _ _ _ _))).
  done.
Qed.
End Faults.

(** What the runs under faults leave. *)
Lemma moved_projections r id c i hb hf :
  projection_is r (basic_map_key id) hb c -> projection_is r (full_key id) hf c ->
  in_int64 (c + i) = true ->
  projection_is (moved id c i hb hf r) (basic_map_key id) (<[ "like" := Itoa (c + i)]> hb) (c + i) ∧
  projection_is (moved id c i hb hf r) (full_key id) (<[ "like" := Itoa (c + i)]> hf) (c + i).
Proof.
  intros Hb Hf Hin. unfold moved. split; [|apply projection_is_incr, Hin].
  apply projection_is_set_key_ne; [apply ne_sym_string, basic_full_ne|]. by apply projection_is_incr.
Qed.

Lemma moved_set_is r id c i hb hf m :
  set_is r (like_key id) m -> set_is (moved id c i hb hf r) (like_key id) m.
Proof. intros Hs. unfold moved. apply set_is_set_key_ne; [|apply set_is_set_key_ne]; auto with hcl. Qed.

Lemma projection_is_restored r r0 k h c :
  projection_is r0 k h c ->
  projection_is (set_key k (RHash (<[ "like" := Itoa (c + 1 + -1)]> (<[ "like" := Itoa (c + 1)]> h))) r) k h c.
Proof.
  intros (Hk & Hl & Hc). rewrite (like_field_restore h c Hl). split; [apply lookup_insert_eq|done].
Qed.

(** ** Concrete inputs for the witnesses *)

(** Article 1, liked by user 5, both projections cached with
    [like = 1]. *)
Definition demo_likes : redis :=
  mkRedis (<[like_key 1 := RSet {["5"]}]> (<[basic_map_key 1 := RHash {["like" := "1"]}]>
          (<[full_key 1 := RHash {["like" := "1"]}]> ∅))) ∅.

Definition demo_likes_world (fs : list fault) : World :=
  mkWorld demo_likes db_empty None [] 0 [] fs.

Definition demo_like_state : like_state := LikeState {[5]} 1.

Lemma demo_likes_repr : like_repr demo_likes 1 demo_like_state.
Proof.
  split; [left; reflexivity|].
  split; eexists; (split; [left; reflexivity|right; eexists; split; reflexivity]).
Qed.

(** ** The properties of the like counters *)

(** C5: Without faults, [AddLikes] implements the abstract like of spec
    §4.1: its reply is the abstract reply (AlreadyLiked for a liker,
    the overflow error at the 64-bit bound), the cache represents the
    abstract state after the step, and no key of another article
    changes. *)
Theorem AddLikes_refines w id u s :
  no_faults w -> like_repr (cache w) id s ->
  ∃ r', ArticleService.AddLikes id u w = ((like_step (Like u) s).1, set_cache r' w) ∧
        like_repr r' id (like_step (Like u) s).2 ∧ agree_off (article_keys id) (cache w) r'.
Proof. exact (AddLikes_step id u w s). Qed.

Lemma AddLikes_refines_witness :
  no_faults (demo_likes_world []) ∧ like_repr demo_likes 1 demo_like_state ∧
  ∃ r', ArticleService.AddLikes 1 6 (demo_likes_world [])
        = ((like_step (Like 6) demo_like_state).1, set_cache r' (demo_likes_world [])) ∧
        like_repr r' 1 (like_step (Like 6) demo_like_state).2 ∧
        agree_off (article_keys 1) demo_likes r'.
Proof.
  split; [reflexivity|]. split; [exact demo_likes_repr|].
  exact (AddLikes_refines (demo_likes_world []) 1 6 demo_like_state eq_refl demo_likes_repr).
Defined.

(** Without faults, [RemoveLikes] implements the abstract unlike:
    NotLiked for a user who has not liked, otherwise the user leaves
    the set and both counters go down by one; nothing else changes. *)
Theorem RemoveLikes_refines w id u s :
  no_faults w -> like_repr (cache w) id s ->
  ∃ r', ArticleService.RemoveLikes id u w = ((like_step (Unlike u) s).1, set_cache r' w) ∧
        like_repr r' id (like_step (Unlike u) s).2 ∧ agree_off (article_keys id) (cache w) r'.
Proof. exact (RemoveLikes_step id u w s). Qed.

Lemma RemoveLikes_refines_witness :
  no_faults (demo_likes_world []) ∧ like_repr demo_likes 1 demo_like_state ∧
  ∃ r', ArticleService.RemoveLikes 1 5 (demo_likes_world [])
        = ((like_step (Unlike 5) demo_like_state).1, set_cache r' (demo_likes_world [])) ∧
        like_repr r' 1 (like_step (Unlike 5) demo_like_state).2 ∧
        agree_off (article_keys 1) demo_likes r'.
Proof.
  split; [reflexivity|]. split; [exact demo_likes_repr|].
  exact (RemoveLikes_refines (demo_likes_world []) 1 5 demo_like_state eq_refl demo_likes_repr).
Defined.

(** C6: Over any sequence of like and unlike requests on an article,
    from any users, served one after the other without faults, the
    replies are those of the abstract contract and both cached
    counters equal the number of distinct likers, if they did at the
    start: a like is never counted twice and the counter is never
    negative. *)
Theorem like_requests_count_likers w id s os :
  no_faults w -> like_repr (cache w) id s -> counter s = Z.of_nat (size (likers s)) ->
  ∃ s', run_val (serve_all id os) w = Ok (like_run os s).1 ∧
        like_repr (cache (run_st (serve_all id os) w)) id s' ∧
        counter s' = Z.of_nat (size (likers s')) ∧ 0 <= counter s'.
Proof.
  intros Hw Hr Hc. destruct (serve_all_refines os id w s Hw Hr) as (r' & E & Hr' & _).
  exists (like_run os s).2. unfold run_val, run_st. rewrite E. simpl.
  pose proof (like_run_balance os s) as Hb. split; [done|]. split; [done|]. lia.
Qed.

Lemma like_requests_count_likers_witness :
  no_faults (demo_likes_world []) ∧ like_repr (cache (demo_likes_world [])) 1 demo_like_state ∧
  counter demo_like_state = Z.of_nat (size (likers demo_like_state)) ∧
  ∃ s', run_val (serve_all 1 [Like 6; Like 6; Unlike 5; Unlike 7]) (demo_likes_world [])
        = Ok (like_run [Like 6; Like 6; Unlike 5; Unlike 7] demo_like_state).1 ∧
        like_repr (cache (run_st (serve_all 1 [Like 6; Like 6; Unlike 5; Unlike 7])
                                 (demo_likes_world []))) 1 s' ∧
        counter s' = Z.of_nat (size (likers s')) ∧ 0 <= counter s'.
Proof.
  assert (Hc : counter demo_like_state = Z.of_nat (size (likers demo_like_state)))
    by reflexivity.
  split; [reflexivity|]. split; [exact demo_likes_repr|]. split; [exact Hc|].
  exact (like_requests_count_likers (demo_likes_world []) 1 demo_like_state _ eq_refl
           demo_likes_repr Hc).
Defined.

(** C7: Spec §8 round trip: on a cached article, a like followed by the
    unlike of the same user, without faults, succeeds twice and leaves
    the world exactly as it was (counters, likers, every key and TTL). *)
Theorem like_then_unlike_restores w id u m hb hf c :
  no_faults w -> redis_wf (cache w) -> set_is (cache w) (like_key id) m -> Itoa u ∉ m ->
  projection_is (cache w) (basic_map_key id) hb c -> projection_is (cache w) (full_key id) hf c ->
  in_int64 (c + 1) = true ->
  (ArticleService.AddLikes id u ;; ArticleService.RemoveLikes id u) w = (Ok tt, w).
Proof. exact (like_unlike_restores w id u m hb hf c). Qed.

Lemma demo_likes_wf : redis_wf demo_likes.
Proof. split; [apply (bool_decide_unpack _); vm_compute; reflexivity|set_solver]. Qed.

Lemma like_then_unlike_restores_witness :
  (ArticleService.AddLikes 1 6 ;; ArticleService.RemoveLikes 1 6) (demo_likes_world [])
  = (Ok tt, demo_likes_world []).
Proof.
  apply (like_then_unlike_restores (demo_likes_world []) 1 6 {["5"]}
           {["like" := "1"]} {["like" := "1"]} 1); try reflexivity.
  - exact demo_likes_wf.
  - left. reflexivity.
  - vm_compute. set_solver.
  - split; [reflexivity|]. split; reflexivity.
  - split; [reflexivity|]. split; reflexivity.
Defined.

(** C8: Spec §8: two likes in a row by the same user, without faults,
    give one increment: the first succeeds, the second fails with
    AlreadyLiked, and the cache represents one more liker and a
    counter one higher. *)
Theorem AddLikes_twice_counts_once w id u s :
  no_faults w -> like_repr (cache w) id s -> u ∉ likers s -> in_int64 (counter s + 1) = true ->
  let '(r1, w1) := ArticleService.AddLikes id u w in
  let '(r2, w2) := ArticleService.AddLikes id u w1 in
  r1 = Ok tt ∧ r2 = Err (ErrApp AlreadyLiked) ∧
  like_repr (cache w2) id (LikeState ({[u]} ∪ likers s) (counter s + 1)).
Proof.
  intros Hw Hr Hu Hin.
  destruct (AddLikes_step id u w s Hw Hr) as (r1 & E1 & Hr1 & _).
  unfold ArticleService.AddLikes. rewrite E1. simpl in Hr1 |- *.
  rewrite decide_False, Hin in Hr1 |- * by done. simpl in Hr1 |- *.
  destruct (AddLikes_step id u (set_cache r1 w) _ Hw Hr1) as (r2 & E2 & Hr2 & _).
  rewrite E2. simpl in Hr2 |- *. rewrite decide_True in Hr2 |- * by set_solver.
  done.
Qed.

Lemma AddLikes_twice_counts_once_witness :
  let '(r1, w1) := ArticleService.AddLikes 1 6 (demo_likes_world []) in
  let '(r2, w2) := ArticleService.AddLikes 1 6 w1 in
  r1 = Ok tt ∧ r2 = Err (ErrApp AlreadyLiked) ∧
  like_repr (cache w2) 1 (LikeState ({[6]} ∪ likers demo_like_state) (counter demo_like_state + 1)).
Proof.
  apply (AddLikes_twice_counts_once (demo_likes_world []) 1 6 demo_like_state eq_refl
           demo_likes_repr); vm_compute; [set_solver|reflexivity].
Defined.

(** Whatever the infrastructure failures, an Ok reply of [AddLikes]
    means the whole like happened: the user was not a liker, is one
    now, and both counters moved by one. *)
Theorem AddLikes_ok_is_complete w w' id u s :
  like_repr (cache w) id s -> ArticleService.AddLikes id u w = (Ok tt, w') ->
  u ∉ likers s ∧ like_repr (cache w') id (LikeState ({[u]} ∪ likers s) (counter s + 1)).
Proof.
  intros Hr Hm.
  destruct (strict_refines_ok _ id (Like u) w w' s _ (AddLikes_step id u) Hr Hm) as [Hok Hr'].
  revert Hok Hr'. simpl. destruct (decide (u ∈ likers s)); [done|].
  destruct (in_int64 (counter s + 1)); [|done]. done.
Qed.

Lemma AddLikes_ok_is_complete_witness :
  like_repr (cache (demo_likes_world [NoFault])) 1 demo_like_state ∧
  ArticleService.AddLikes 1 6 (demo_likes_world [NoFault])
  = (Ok tt, snd (ArticleService.AddLikes 1 6 (demo_likes_world [NoFault]))) ∧
  6 ∉ likers demo_like_state ∧
  like_repr (cache (snd (ArticleService.AddLikes 1 6 (demo_likes_world [NoFault])))) 1
            (LikeState ({[6]} ∪ likers demo_like_state) (counter demo_like_state + 1)).
Proof.
  assert (E : ArticleService.AddLikes 1 6 (demo_likes_world [NoFault])
              = (Ok tt, snd (ArticleService.AddLikes 1 6 (demo_likes_world [NoFault]))))
    by (vm_compute; reflexivity).
  split; [exact demo_likes_repr|]. split; [exact E|].
  exact (AddLikes_ok_is_complete (demo_likes_world [NoFault]) _ 1 6 demo_like_state
           demo_likes_repr E).
Defined.

(** The membership is recorded last and nothing undoes the counters
    when that write fails: if the [SADD] of [AddLikes] is lost, the
    request fails with both counters already moved and the user not
    recorded, so the retry succeeds and counts the same user a second
    time (spec §4.1 requires the like to be atomic). *)
Theorem AddLikes_lost_membership_counts_twice w id u m hb hf c :
  set_is (cache w) (like_key id) m -> Itoa u ∉ m ->
  projection_is (cache w) (basic_map_key id) hb c -> projection_is (cache w) (full_key id) hf c ->
  in_int64 (c + 2) = true ->
  let '(r1, w1) := ArticleService.AddLikes id u (set_faults [NoFault; NoFault; NoFault; FailBefore] w) in
  let '(r2, w2) := ArticleService.AddLikes id u w1 in
  r1 = Err (ErrRedis NetError) ∧ r2 = Ok tt ∧ set_is (cache w2) (like_key id) ({[Itoa u]} ∪ m) ∧
  ∃ hb2 hf2, projection_is (cache w2) (basic_map_key id) hb2 (c + 2) ∧
             projection_is (cache w2) (full_key id) hf2 (c + 2).
Proof.
  intros Hs Hu Hb Hf Hin2.
  assert (Hin : in_int64 (c + 1) = true) by (apply (in_int64_between c _ (c + 2)); [apply Hb|done|lia]).
  unfold ArticleService.AddLikes. rewrite (AddLikes_sadd_lost w id u m hb hf c Hs Hu Hb Hf Hin).
  destruct (moved_projections _ _ _ _ _ _ Hb Hf Hin) as [Hb1 Hf1].
  replace (c + 2) with (c + 1 + 1) in * by lia.
  rewrite (AddLikes_exact (set_faults [] (set_cache (moved id c 1 hb hf (cache w)) w))
             id u m _ _ (c + 1) (no_faults_set_faults_nil _)
             (moved_set_is _ _ _ _ _ _ _ Hs) Hu Hb1 Hf1 Hin2).
  destruct (moved_projections _ _ _ _ _ _ Hb1 Hf1 Hin2) as [Hb2 Hf2].
  split; [done|]. split; [done|]. split; [apply set_is_set_key|].
  do 2 eexists. split; apply projection_is_set_key_ne; eauto with hcl.
Qed.

Lemma AddLikes_lost_membership_counts_twice_witness :
  let '(r1, w1) := ArticleService.AddLikes 1 6 (set_faults [NoFault; NoFault; NoFault; FailBefore]
                                                           (demo_likes_world [])) in
  let '(r2, w2) := ArticleService.AddLikes 1 6 w1 in
  r1 = Err (ErrRedis NetError) ∧ r2 = Ok tt ∧ set_is (cache w2) (like_key 1) ({[Itoa 6]} ∪ {["5"]}) ∧
  ∃ hb2 hf2, projection_is (cache w2) (basic_map_key 1) hb2 (1 + 2) ∧
             projection_is (cache w2) (full_key 1) hf2 (1 + 2).
Proof.
  apply (AddLikes_lost_membership_counts_twice (demo_likes_world []) 1 6 {["5"]}
           {["like" := "1"]} {["like" := "1"]} 1).
  - left. reflexivity.
  - vm_compute. set_solver.
  - split; [reflexivity|]. split; reflexivity.
  - split; [reflexivity|]. split; reflexivity.
  - reflexivity.
Defined.

(** When the reply of the full increment is lost after Redis ran it,
    [AddLikes] still undoes the basic increment: the request fails with
    the basic counter back at [c] and the full counter at [c + 1], so
    the two projections diverge (spec §4.1: they must never diverge). *)
Theorem AddLikes_full_noreply_diverges w id u m hb hf c :
  set_is (cache w) (like_key id) m -> Itoa u ∉ m ->
  projection_is (cache w) (basic_map_key id) hb c -> projection_is (cache w) (full_key id) hf c ->
  in_int64 (c + 1) = true ->
  let '(r, w') := ArticleService.AddLikes id u (set_faults [NoFault; NoFault; FailAfter; NoFault] w) in
  r = Err (ErrRedis NetError) ∧ set_is (cache w') (like_key id) m ∧
  projection_is (cache w') (basic_map_key id) hb c ∧
  projection_is (cache w') (full_key id) (<[ "like" := Itoa (c + 1)]> hf) (c + 1).
Proof.
  intros Hs Hu Hb Hf Hin. unfold ArticleService.AddLikes.
  rewrite (AddLikes_full_noreply w id u m hb hf c Hs Hu Hb Hf Hin). simpl.
  destruct (moved_projections _ _ _ _ _ _ Hb Hf Hin) as [Hb1 Hf1].
  split; [done|]. split; [apply set_is_set_key_ne, moved_set_is; auto with hcl|].
  split; [apply (projection_is_restored _ _ _ _ _ Hb)|].
  apply projection_is_set_key_ne; [apply basic_full_ne|done].
Qed.

Lemma AddLikes_full_noreply_diverges_witness :
  let '(r, w') := ArticleService.AddLikes 1 6 (set_faults [NoFault; NoFault; FailAfter; NoFault]
                                                          (demo_likes_world [])) in
  r = Err (ErrRedis NetError) ∧ set_is (cache w') (like_key 1) {["5"]} ∧
  projection_is (cache w') (basic_map_key 1) {["like" := "1"]} 1 ∧
  projection_is (cache w') (full_key 1) (<[ "like" := Itoa (1 + 1)]> {["like" := "1"]}) (1 + 1).
Proof.
  apply (AddLikes_full_noreply_diverges (demo_likes_world []) 1 6 {["5"]}
           {["like" := "1"]} {["like" := "1"]} 1).
  - left. reflexivity.
  - vm_compute. set_solver.
  - split; [reflexivity|]. split; reflexivity.
  - split; [reflexivity|]. split; reflexivity.
  - reflexivity.
Defined.

(** The compensation of spec §4.1: when the full increment is lost
    before Redis runs it, [AddLikes] undoes the basic increment and
    reports the failure; the cache is exactly as before the request. *)
Theorem AddLikes_full_lost_compensated w id u m hb hf c :
  set_is (cache w) (like_key id) m -> Itoa u ∉ m ->
  projection_is (cache w) (basic_map_key id) hb c -> projection_is (cache w) (full_key id) hf c ->
  in_int64 (c + 1) = true ->
  ArticleService.AddLikes id u (set_faults [NoFault; NoFault; FailBefore; NoFault] w)
  = (Err (ErrRedis NetError), set_faults [] w).
Proof.
  intros Hs Hu Hb Hf Hin. unfold ArticleService.AddLikes.
  erewrite AddLikes_full_lost_undone; [|eassumption..].
  destruct Hb as (Hbk & Hbl & _).
  rewrite set_key_set_key, (like_field_restore hb c Hbl), (set_key_same _ _ _ Hbk).
  by rewrite set_cache_cache.
Qed.

Lemma AddLikes_full_lost_compensated_witness :
  ArticleService.AddLikes 1 6 (set_faults [NoFault; NoFault; FailBefore; NoFault] (demo_likes_world []))
  = (Err (ErrRedis NetError), set_faults [] (demo_likes_world [])).
Proof.
  apply (AddLikes_full_lost_compensated (demo_likes_world []) 1 6 {["5"]}
           {["like" := "1"]} {["like" := "1"]} 1).
  - left. reflexivity.
  - vm_compute. set_solver.
  - split; [reflexivity|]. split; reflexivity.
  - split; [reflexivity|]. split; reflexivity.
  - reflexivity.
Defined.

(** Spec §7: when the undo itself fails, [AddLikes] reports both
    the original and the undo error; the basic counter is left one
    ahead of the full one. *)
Theorem AddLikes_undo_lost_reports_both w id u m hb hf c :
  set_is (cache w) (like_key id) m -> Itoa u ∉ m ->
  projection_is (cache w) (basic_map_key id) hb c -> projection_is (cache w) (full_key id) hf c ->
  in_int64 (c + 1) = true ->
  let '(r, w') := ArticleService.AddLikes id u (set_faults [NoFault; NoFault; FailBefore; FailBefore] w) in
  r = Err (ErrRollback (ErrRedis NetError) (ErrRedis NetError)) ∧
  projection_is (cache w') (basic_map_key id) (<[ "like" := Itoa (c + 1)]> hb) (c + 1) ∧
  projection_is (cache w') (full_key id) hf c ∧ set_is (cache w') (like_key id) m.
Proof.
  intros Hs Hu Hb Hf Hin. unfold ArticleService.AddLikes.
  erewrite AddLikes_undo_lost; [simpl|eassumption..].
  split; [done|]. split; [by apply projection_is_incr|].
  split; [apply projection_is_set_key_ne; [apply basic_full_ne|done]|].
  apply set_is_set_key_ne; auto with hcl.
Qed.

Lemma AddLikes_undo_lost_reports_both_witness :
  let '(r, w') := ArticleService.AddLikes 1 6 (set_faults [NoFault; NoFault; FailBefore; FailBefore]
                                                          (demo_likes_world [])) in
  r = Err (ErrRollback (ErrRedis NetError) (ErrRedis NetError)) ∧
  projection_is (cache w') (basic_map_key 1) (<[ "like" := Itoa (1 + 1)]> {["like" := "1"]}) (1 + 1) ∧
  projection_is (cache w') (full_key 1) {["like" := "1"]} 1 ∧ set_is (cache w') (like_key 1) {["5"]}.
Proof.
  apply (AddLikes_undo_lost_reports_both (demo_likes_world []) 1 6 {["5"]}
           {["like" := "1"]} {["like" := "1"]} 1).
  - left. reflexivity.
  - vm_compute. set_solver.
  - split; [reflexivity|]. split; reflexivity.
  - split; [reflexivity|]. split; reflexivity.
  - reflexivity.
Defined.
