(* ===== verification/ArticleFlows.v ===== *)
(** * The article flows of [ArticleService]

    The handlers above the counters: [GetArticle]'s cache-aside read,
    [UpdateArticle] with its double delete, [AddArticle]'s transaction
    and the reconciliation tick of [PeriodicUpdateLikes].  The
    theorems: what the tick writes to MySQL; what happens when the full
    projection has expired (its TTL is two hours), where [UpdateArticle]
    dereferences a nil article and a like leaves a partial hash that
    makes the article unreadable; and the state an update leaves for
    the next read. *)

From S2P Require Import Prelude Strconv Utils Redis Models Durable World Scan Articles Likes.
Open Scope hcl_scope.
Open Scope Z_scope.

Module AS := ArticleService.
Module AR := ArticleRepository.

Section WithTime.
Context `{TimeCodec}.

(** ** Reading the full projection *)

(** An absent full projection reads as [None]. *)
Lemma GetArticleByID_absent w id :
  no_faults w -> kv (cache w) !! full_key id = None ->
  ACR.GetArticleByID id w = (Ok None, w).
Proof.
  intros Hw Hk. unfold ACR.GetArticleByID.
  rewrite (bind_ok _ _ _ _ _ (rcall_nf_ok _ _ _ _ Hw (get_hash_is _ _ ∅ (or_intror (conj Hk eq_refl))))).
  rewrite set_cache_cache. done.
Qed.

(** A full projection that holds only a counter fails to parse:
    [manager_id] reads as [""]. *)
Lemma GetArticleByID_partial w id v :
  no_faults w -> kv (cache w) !! full_key id = Some (RHash {[ "like" := Itoa v ]}) ->
  in_int64 v = true ->
  ACR.GetArticleByID id w = (Err (ErrApp (ParseFailed "manager_id")), w).
Proof.
  intros Hw Hk Hv. unfold ACR.GetArticleByID.
  rewrite (bind_ok _ _ _ _ _ (rcall_nf_ok _ _ _ _ Hw (get_hash_some _ _ _ Hk))).
  rewrite set_cache_cache. rewrite decide_False by apply map_non_empty_singleton.
  unfold parse_int at 1, field at 1. rewrite lookup_singleton_eq. simpl.
  rewrite (Atoi_Itoa v) by (by apply in_int64_spec). done.
Qed.

(** The full projection of an article is absent from the cache: its
    two-hour TTL ran out, or it was never cached. *)
Definition full_expired (r : redis) (id : Z) : Prop := kv r !! full_key id = None.

(** The like of an article whose full projection has expired: [HINCRBY]
    creates a full hash that holds only the counter, with no TTL. *)
Lemma AddLikes_after_expiry w id u m hb c :
  no_faults w -> set_is (cache w) (like_key id) m -> Itoa u ∉ m ->
  projection_is (cache w) (basic_map_key id) hb c -> full_expired (cache w) id ->
  in_int64 (c + 1) = true ->
  ∃ r', AS.AddLikes id u w = (Ok tt, set_cache r' w) ∧
        kv r' !! full_key id = Some (RHash {[ "like" := Itoa 1 ]}) ∧ volatile r' = volatile (cache w).
Proof.
  intros Hw Hs Hu (Hbk & Hbl & Hbc) Hf Hin. unfold AS.AddLikes.
  rewrite (AddLikes_general w id u m hb ∅ c 0 Hw Hs Hu (or_introl Hbk)); try done.
  - eexists. split; [done|]. split; [|done]. simpl.
    rewrite lookup_insert_ne by apply like_full_ne. by rewrite lookup_insert_eq, insert_empty.
  - right. exists (Itoa c). split; [done|]. by apply redis_int_Itoa, in_int64_spec.
  - by right.
  - by left.
Qed.

(** After that like, the article cannot be read or updated. *)
Lemma partial_full_blocks w id :
  no_faults w -> kv (cache w) !! full_key id = Some (RHash {[ "like" := Itoa 1 ]}) ->
  AS.GetArticle id w = (Err (ErrApp (ParseFailed "manager_id")), w) ∧
  ∀ a, Article.ID a = id -> AS.UpdateArticle a w = (Err (ErrApp (ParseFailed "manager_id")), w).
Proof.
  intros Hw Hk. pose proof (GetArticleByID_partial w id 1 Hw Hk eq_refl) as E.
  split; [unfold AS.GetArticle; by rewrite (bind_err _ _ _ _ _ E)|].
  intros a <-. unfold AS.UpdateArticle. by rewrite (bind_err _ _ _ _ _ E).
Qed.

(** [UpdateArticle] on an article whose full projection is absent:
    [like] is a nil pointer and [like.Like] panics. *)
Lemma UpdateArticle_absent_panics w a :
  no_faults w -> kv (cache w) !! full_key (Article.ID a) = None ->
  AS.UpdateArticle a w = (Err ErrPanic, w).
Proof.
  intros Hw Hk. unfold AS.UpdateArticle.
  by rewrite (bind_ok _ _ _ _ _ (GetArticleByID_absent w _ Hw Hk)).
Qed.

End WithTime.

(** ** The reconciliation tick *)

(** What the loop of [GetAllArticlesFromHash] makes of one scanned key:
    the id after the prefix and the [like] field, when both parse. *)
Definition like_of_key (r : redis) (key : string) : option (Z * Z) :=
  Atoi (String.substring (String.length basic_map_prefix)
          (String.length key - String.length basic_map_prefix) key) ≫= fun id =>
  match fst (HGET key "like" r) with Ok s => Some s | Err _ => None end ≫= fun s =>
  Atoi s ≫= fun like => Some (id, like).

Definition scan_keys (r : redis) : list string :=
  filter (fun k => String.prefix basic_map_prefix k = true) (elements (dom (kv r))).

(** The writes of one batch, in order. *)
Definition write_all (d : db) (results : list (Z * Z)) : db :=
  foldl (fun d p => sql_set_article_like p.1 p.2 d) d results.

Lemma HGET_state k f r : snd (HGET k f r) = r.
Proof.
  unfold HGET, get_hash, bind, ret, throw.
  destruct (kv r !! k) as [[]|]; simpl; try done; by destruct (_ !! f).
Qed.

Lemma collect_likes_nf keys : ∀ w,
  no_faults w -> ACR.collect_likes keys w = (Ok (omap (like_of_key (cache w)) keys), w).
Proof.
  induction keys as [|key keys IH]; intros w Hw; [done|].
  change (omap (like_of_key (cache w)) (key :: keys)) with
    (match like_of_key (cache w) key with
     | Some y => y :: omap (like_of_key (cache w)) keys
     | None => omap (like_of_key (cache w)) keys end).
  cbn [ACR.collect_likes]. cbv zeta. unfold like_of_key at 1.
  destruct (Atoi (String.substring (String.length basic_map_prefix)
                   (String.length key - String.length basic_map_prefix) key)) as [id|];
    cbn [mbind option_bind]; [|by apply IH].
  pose proof (HGET_state key "like" (cache w)) as Hst.
  destruct (HGET key "like" (cache w)) as [[s|e] r'] eqn:EH; simpl in Hst; subst r'.
  - rewrite (bind_ok _ _ _ _ _ (catch_ok _ _ _ _ _
               (bind_ok _ _ _ _ _ (rcall_nf_ok _ _ _ _ Hw EH)))).
    rewrite set_cache_cache. cbn [fst mbind option_bind].
    destruct (Atoi s); cbn [mbind option_bind]; [|by apply IH].
    rewrite (bind_ok _ _ _ _ _ (IH w Hw)). done.
  - rewrite (bind_ok _ _ _ _ _ (catch_err _ _ _ _ _
               (bind_err _ _ _ _ _ (rcall_nf_err _ _ _ _ Hw EH)))).
    rewrite set_cache_cache. by apply IH.
Qed.

Lemma GetAllArticlesFromHash_nf w :
  no_faults w ->
  ACR.GetAllArticlesFromHash w = (Ok (omap (like_of_key (cache w)) (scan_keys (cache w))), w).
Proof.
  intros Hw. unfold ACR.GetAllArticlesFromHash.
  rewrite (bind_ok _ _ _ _ _ (rcall_nf_ok _ _ _ _ Hw (eq_refl : SCAN basic_map_prefix (cache w)
                                                              = (Ok (scan_keys (cache w)), cache w)))).
  rewrite set_cache_cache. by apply collect_likes_nf.
Qed.

Lemma collect_likes_reads keys : reads_cache (ACR.collect_likes keys).
Proof.
  induction keys as [|key keys IH]; simpl; [auto with hcl|]. case_match; [|done].
  apply reads_cache_bind; [apply reads_cache_catch; [|auto with hcl]|intros ls; case_match; auto with hcl].
  apply reads_cache_bind; [apply rcall_reads, HGET_state|auto with hcl].
Qed.

Lemma collect_likes_no_faults keys : preserves no_faults (ACR.collect_likes keys).
Proof.
  intros w Hw. by rewrite (collect_likes_nf keys w Hw).
Qed.

(** Without faults, the loop over keys runs over a concatenation as
    over its parts. *)
Lemma collect_likes_app l1 l2 w :
  no_faults w ->
  ACR.collect_likes (l1 ++ l2) w
  = (x <- ACR.collect_likes l1 ;; y <- ACR.collect_likes l2 ;; ret (x ++ y)) w.
Proof.
  intros Hw. rewrite (collect_likes_nf _ w Hw), (bind_ok _ _ _ _ _ (collect_likes_nf l1 w Hw)).
  by rewrite (bind_ok _ _ _ _ _ (collect_likes_nf l2 w Hw)), omap_app.
Qed.

(** The cursor loop of [GetAllArticlesFromHash], on a world without
    faults and with fuel for every page, is the single [SCAN]. *)
Lemma GetAllArticlesFromHash_scan_refines w fuel :
  no_faults w -> (length (keys_of w) <= scan_default_count * fuel)%nat -> (0 < fuel)%nat ->
  ACR.GetAllArticlesFromHash_scan fuel w = ACR.GetAllArticlesFromHash w.
Proof.
  intros Hw Hn Hf. unfold ACR.GetAllArticlesFromHash_scan. change 0 with (Z.of_nat 0).
  rewrite (scan_loop_all _ _ collect_likes_reads fuel 0 w collect_likes_app collect_likes_no_faults Hw)
    by lia.
  by rewrite GetAllArticlesFromHash_nf, collect_likes_nf.
Qed.

Lemma write_likes_nf results : ∀ w d,
  no_faults w -> tx w = Some d ->
  AS.write_likes results w = (Ok tt, set_tx (Some (write_all d results)) w).
Proof.
  induction results as [|p results IH]; intros w d Hw Ht; simpl.
  - rewrite <- Ht. by destruct w.
  - unfold ArticleRepository.WriteLikesToMySQL.
    rewrite (bind_ok _ _ _ _ _ (catch_ok _ _ _ _ _
               (sql_tx_nf _ w d tt (sql_set_article_like p.1 p.2 d) Hw Ht eq_refl))).
    by rewrite (IH (set_tx (Some (sql_set_article_like p.1 p.2 d)) w) _ Hw eq_refl).
Qed.

Lemma updateLikesInTransaction_nf results w :
  no_faults w ->
  AS.updateLikesInTransaction results w
  = (Ok tt, set_tx None (set_db (write_all (store_db w) results) w)).
Proof.
  intros Hw. unfold AS.updateLikesInTransaction.
  rewrite (bind_ok _ _ _ _ _ (tx_begin_nf w Hw)).
  rewrite (bind_ok _ _ _ _ _ (write_likes_nf results (set_tx (Some (store_db w)) w) _ Hw eq_refl)).
  rewrite (catch_ok _ _ _ _ _ (tx_commit_nf (set_tx (Some (write_all (store_db w) results))
                                               (set_tx (Some (store_db w)) w)) _ Hw eq_refl)).
  done.
Qed.

(** One tick without faults writes the scanned counters, in scan order,
    and leaves the cache as it is. *)
Lemma tick_nf w :
  no_faults w ->
  ∃ w', AS.PeriodicUpdateLikes_tick w = (Ok tt, w') ∧ cache w' = cache w ∧
        store_db w' = write_all (store_db w)
                        (omap (like_of_key (cache w)) (scan_keys (cache w))).
Proof.
  intros Hw. unfold AS.PeriodicUpdateLikes_tick.
  rewrite (bind_ok _ _ _ _ _ (catch_ok _ _ _ _ _
             (bind_ok _ _ _ _ _ (GetAllArticlesFromHash_nf w Hw)))).
  destruct (omap _ _) as [|p ps] eqn:E; [by eexists|].
  rewrite (catch_ok _ _ _ _ _ (updateLikesInTransaction_nf _ w Hw)). by eexists.
Qed.

(** Every scanned key is the basic key of some article, as the code
    writes them. *)
Definition keys_canonical (r : redis) : Prop :=
  ∀ k, k ∈ scan_keys r -> ∃ id, k = basic_map_key id.

Lemma like_of_basic_key r i :
  like_of_key r (basic_map_key i)
  = Atoi (Itoa i) ≫= fun id =>
    match fst (HGET (basic_map_key i) "like" r) with Ok s => Some s | Err _ => None end ≫= fun s =>
    Atoi s ≫= fun like => Some (id, like).
Proof. unfold like_of_key, basic_map_key. by rewrite substring_after_prefix. Qed.

Lemma like_of_key_entry r id v :
  keys_canonical r -> (id, v) ∈ omap (like_of_key r) (scan_keys r) ->
  like_of_key r (basic_map_key id) = Some (id, v).
Proof.
  intros Hc Hin. apply list_elem_of_omap in Hin as (k & Hk & Hl).
  destruct (Hc k Hk) as [i ->].
  assert (Hi : i = id).
  { rewrite like_of_basic_key in Hl. destruct (Atoi (Itoa i)) as [i'|] eqn:E; simpl in Hl; [|done].
    apply Atoi_Itoa_inv in E as ->.
    destruct (fst (HGET (basic_map_key i) "like" r)) as [s|e]; simpl in Hl; [|done].
    destruct (Atoi s); simpl in Hl; [|done]. by injection Hl. }
  by subst i.
Qed.

Lemma like_of_key_cached r id h s v :
  kv r !! basic_map_key id = Some (RHash h) -> h !! "like" = Some s -> Atoi s = Some v ->
  in_int64 id = true -> (id, v) ∈ omap (like_of_key r) (scan_keys r).
Proof.
  intros Hk Hs Hv Hid. apply list_elem_of_omap. exists (basic_map_key id). split.
  - apply list_elem_of_filter. split; [apply prefix_app|].
    apply elem_of_elements, elem_of_dom. by eexists.
  - rewrite like_of_basic_key, Atoi_Itoa by (by apply in_int64_spec). simpl.
    unfold HGET. rewrite (bind_ok _ _ _ _ _ (get_hash_some _ _ _ Hk)), Hs. simpl. by rewrite Hv.
Qed.

(** ** What a batch writes *)
Lemma set_like_other i j v d :
  i ≠ j -> article_t (sql_set_article_like i v d) !! j = article_t d !! j.
Proof. intros Hne. unfold sql_set_article_like. case_match; [|done]. simpl. by simplify_map_eq. Qed.

Lemma set_like_same i v d a :
  article_t d !! i = Some a -> article_t (sql_set_article_like i v d) !! i = Some (Article.with_like a v).
Proof. intros Ha. unfold sql_set_article_like. rewrite Ha. simpl. by simplify_map_eq. Qed.

Lemma with_like_twice a x v : Article.with_like (Article.with_like a x) v = Article.with_like a v.
Proof. done. Qed.

Lemma write_all_other results : ∀ d id,
  id ∉ results.*1 -> article_t (write_all d results) !! id = article_t d !! id.
Proof.
  induction results as [|[i v] results IH]; intros d id Hid; [done|].
  simpl in *. rewrite not_elem_of_cons in Hid. destruct Hid as [Hne Hid].
  unfold write_all in IH. rewrite IH by done. by apply set_like_other.
Qed.

Lemma write_all_same results : ∀ d id a v,
  article_t d !! id = Some (Article.with_like a v) -> (∀ v', (id, v') ∈ results -> v' = v) ->
  article_t (write_all d results) !! id = Some (Article.with_like a v).
Proof.
  induction results as [|[i x] results IH]; intros d id a v Hd Hv; [done|]. simpl.
  apply IH; [|intros v' Hv'; apply Hv; by right].
  destruct (decide (i = id)) as [->|Hne].
  - rewrite (Hv x) by by left. by rewrite (set_like_same _ _ _ _ Hd).
  - by rewrite set_like_other.
Qed.

(** A batch in which [id] only ever comes with [v] sets the row's
    counter to [v]. *)
Lemma write_all_row results d id a v :
  article_t d !! id = Some a -> (id, v) ∈ results -> (∀ v', (id, v') ∈ results -> v' = v) ->
  article_t (write_all d results) !! id = Some (Article.with_like a v).
Proof.
  intros Ha Hin Hv. apply list_elem_of_split_l in Hin as (l1 & l2 & -> & Hl1).
  assert (Hid : id ∉ l1.*1).
  { intros (p & Hp & Hp1)%list_elem_of_fmap. destruct p as [i x]. simpl in Hp. subst i.
    assert (x = v) as -> by (apply Hv, elem_of_app; by left). done. }
  unfold write_all. rewrite foldl_app. simpl.
  apply write_all_same; [|intros v' ?; apply Hv, elem_of_app; right; by right].
  apply set_like_same. unfold write_all in *. by rewrite write_all_other.
Qed.

Lemma like_of_key_absent r id :
  kv r !! basic_map_key id = None -> like_of_key r (basic_map_key id) = None.
Proof.
  intros Hk. rewrite like_of_basic_key. destruct (Atoi (Itoa id)); simpl; [|done].
  unfold HGET. by rewrite (bind_ok _ _ _ _ _ (get_hash_is r _ ∅ (or_intror (conj Hk eq_refl)))).
Qed.

(** The tick without faults: each article with a cached counter gets it
    in its row, rows without a cached counter keep theirs, the cache is
    not touched. *)
Lemma tick_rows w :
  no_faults w -> keys_canonical (cache w) ->
  ∃ w', AS.PeriodicUpdateLikes_tick w = (Ok tt, w') ∧ cache w' = cache w ∧
    (∀ id a h s v, article_t (store_db w) !! id = Some a ->
       kv (cache w) !! basic_map_key id = Some (RHash h) -> h !! "like" = Some s ->
       Atoi s = Some v -> in_int64 id = true ->
       article_t (store_db w') !! id = Some (Article.with_like a v)) ∧
    (∀ id, kv (cache w) !! basic_map_key id = None ->
       article_t (store_db w') !! id = article_t (store_db w) !! id).
Proof.
  intros Hw Hc. destruct (tick_nf w Hw) as (w' & E & Hcache & Hdb).
  exists w'. split; [done|]. split; [done|]. rewrite Hdb. split.
  - intros id a h s v Ha Hk Hs Hv Hid. apply write_all_row; [done| |].
    + by apply (like_of_key_cached _ _ h s).
    + intros v' Hv'. apply like_of_key_entry in Hv'; [|done].
      pose proof (like_of_key_entry _ _ _ Hc (like_of_key_cached _ _ h s v Hk Hs Hv Hid)).
      congruence.
  - intros id Hk. apply write_all_other.
    intros ([i x] & Hp & Hin)%list_elem_of_fmap. simpl in Hp. subst i.
    apply like_of_key_entry in Hin; [|done]. by rewrite like_of_key_absent in Hin.
Qed.

(** ** Concrete inputs for the witnesses *)

(** Article 1 in MySQL with [like = 0], its basic projection cached with
    [like = 3]. *)
Definition demo_flow_db : db :=
  set_articles {[1 := Article.mk 1 "t" "hello" 9 100 "k" 0]} 2 db_empty.

Definition demo_flow_cache : redis :=
  mkRedis {[basic_map_key 1 := RHash {["like" := "3"]}]} ∅.

(** Article 1 liked by user 5, its full projection expired. *)
Definition demo_expired_cache : redis :=
  mkRedis (<[like_key 1 := RSet {["5"]}]> {[basic_map_key 1 := RHash {["like" := "1"]}]}) ∅.

Definition demo_flow_world (r : redis) : World := mkWorld r demo_flow_db None [] 0 [] [].

Lemma demo_flow_canonical : keys_canonical demo_flow_cache.
Proof.
  intros k Hk. exists 1. vm_compute in Hk. apply list_elem_of_singleton in Hk. subst k.
  reflexivity.
Qed.

Lemma demo_expired_wf : redis_wf demo_expired_cache.
Proof. split; [apply (bool_decide_unpack _); vm_compute; reflexivity|set_solver]. Qed.

(** ** The properties of the article flows *)

(** C32: Spec §4.1 [Reconcile]: one tick of [PeriodicUpdateLikes]
    without faults writes, in one transaction, the counter of every
    cached basic projection into its article's row, leaves the rows of
    articles without a cached counter as they were, and does not touch
    the cache. *)
Theorem reconcile_tick_writes_cached_likes w :
  no_faults w -> keys_canonical (cache w) ->
  ∃ w', AS.PeriodicUpdateLikes_tick w = (Ok tt, w') ∧ cache w' = cache w ∧
    (∀ id a h s v, article_t (store_db w) !! id = Some a ->
       kv (cache w) !! basic_map_key id = Some (RHash h) -> h !! "like" = Some s ->
       Atoi s = Some v -> in_int64 id = true ->
       article_t (store_db w') !! id = Some (Article.with_like a v)) ∧
    (∀ id, kv (cache w) !! basic_map_key id = None ->
       article_t (store_db w') !! id = article_t (store_db w) !! id).
Proof. exact (tick_rows w). Qed.

Lemma reconcile_tick_writes_cached_likes_witness :
  no_faults (demo_flow_world demo_flow_cache) ∧ keys_canonical demo_flow_cache ∧
  ∃ w', AS.PeriodicUpdateLikes_tick (demo_flow_world demo_flow_cache) = (Ok tt, w') ∧
    cache w' = demo_flow_cache ∧
    (∀ id a h s v, article_t demo_flow_db !! id = Some a ->
       kv demo_flow_cache !! basic_map_key id = Some (RHash h) -> h !! "like" = Some s ->
       Atoi s = Some v -> in_int64 id = true ->
       article_t (store_db w') !! id = Some (Article.with_like a v)) ∧
    (∀ id, kv demo_flow_cache !! basic_map_key id = None ->
       article_t (store_db w') !! id = article_t demo_flow_db !! id).
Proof.
  split; [reflexivity|]. split; [exact demo_flow_canonical|].
  exact (reconcile_tick_writes_cached_likes (demo_flow_world demo_flow_cache) eq_refl
           demo_flow_canonical).
Defined.

Section ExpiryClaims.
Context `{TimeCodec}.

(** The full projection expires after two hours, but a like does not
    check for it: [HINCRBY] on the expired key creates a full hash that
    holds only [like], with no TTL.  From then on [GetArticle] fails to
    parse [manager_id] and [UpdateArticle] fails the same way, and the
    hash never expires: the article stays unreadable. *)
Theorem like_after_expiry_blocks_article w id u m hb c :
  no_faults w -> redis_wf (cache w) -> set_is (cache w) (like_key id) m -> Itoa u ∉ m ->
  projection_is (cache w) (basic_map_key id) hb c -> full_expired (cache w) id ->
  in_int64 (c + 1) = true ->
  let '(r, w') := AS.AddLikes id u w in
  r = Ok tt ∧ full_key id ∉ volatile (cache w') ∧
  AS.GetArticle id w' = (Err (ErrApp (ParseFailed "manager_id")), w') ∧
  ∀ a, Article.ID a = id -> AS.UpdateArticle a w' = (Err (ErrApp (ParseFailed "manager_id")), w').
Proof.
  intros Hw [_ Hvol] Hs Hu Hb Hf Hin.
  destruct (AddLikes_after_expiry w id u m hb c Hw Hs Hu Hb Hf Hin) as (r' & -> & Hk & Hv).
  split; [done|]. split.
  - simpl. rewrite Hv. intros Hin'. apply Hvol, elem_of_dom in Hin' as [? ?]. congruence.
  - exact (partial_full_blocks (set_cache r' w) id Hw Hk).
Qed.

(** [UpdateArticle] reads the counter from the full projection and
    dereferences the result without a nil check: for every article whose
    full projection has expired (or was never cached), the update
    panics, before anything is written. *)
Theorem UpdateArticle_expired_panics w a :
  no_faults w -> full_expired (cache w) (Article.ID a) ->
  AS.UpdateArticle a w = (Err ErrPanic, w).
Proof. exact (UpdateArticle_absent_panics w a). Qed.

End ExpiryClaims.

Lemma like_after_expiry_blocks_article_witness :
  let '(r, w') := AS.AddLikes 1 6 (demo_flow_world demo_expired_cache) in
  r = Ok tt ∧ full_key 1 ∉ volatile (cache w') ∧
  AS.GetArticle 1 w' = (Err (ErrApp (ParseFailed "manager_id")), w') ∧
  ∀ a, Article.ID a = 1 -> AS.UpdateArticle a w' = (Err (ErrApp (ParseFailed "manager_id")), w').
Proof.
  apply (like_after_expiry_blocks_article (demo_flow_world demo_expired_cache) 1 6 {["5"]}
           {["like" := "1"]} 1).
  - reflexivity.
  - exact demo_expired_wf.
  - left. reflexivity.
  - vm_compute. set_solver.
  - split; [reflexivity|]. split; reflexivity.
  - reflexivity.
  - reflexivity.
Defined.

Lemma UpdateArticle_expired_panics_witness :
  AS.UpdateArticle (Article.mk 1 "t2" "world" 9 100 "k" 0) (demo_flow_world demo_flow_cache)
  = (Err ErrPanic, demo_flow_world demo_flow_cache).
Proof. apply UpdateArticle_expired_panics; reflexivity. Defined.

(** ** The update flow *)
Section Update.
Context `{TimeCodec}.

Lemma DeleteArticleForUpdate_nf w id :
  no_faults w ->
  ACR.DeleteArticleForUpdate id w
  = (Ok tt, set_cache (del_key (basic_map_key id) (del_key (full_key id) (cache w))) w).
Proof.
  intros Hw. unfold ACR.DeleteArticleForUpdate.
  rewrite (bind_ok _ _ _ _ _ (rcall_nf_ok _ _ _ _ Hw (eq_refl : DEL (full_key id) (cache w)
                                                  = (Ok tt, del_key (full_key id) (cache w))))).
  by rewrite (rcall_nf_ok (DEL (basic_map_key id)) (set_cache (del_key (full_key id) (cache w)) w)
               tt _ (no_faults_set_cache _ _ Hw) eq_refl).
Qed.

(** The row an update leaves: the new title and content, the counter
    given, the rest of the stored row. *)
Definition updated_row (a row : Article.t) (like : Z) : Article.t :=
  Article.mk (Article.ID a) (Article.Title a) (Article.Content a) (Article.ManagerID row)
             (Article.CreateAt row) (Article.Kind row) like.

Lemma AR_UpdateArticle_nf w a row :
  no_faults w -> article_t (store_db w) !! Article.ID a = Some row ->
  updated_row a row (Article.Like a) ≠ row ->
  ∃ d', AR.UpdateArticle a w = (Ok (updated_row a row (Article.Like a)), set_db d' w) ∧
        article_t d' !! Article.ID a = Some (updated_row a row (Article.Like a)) ∧
        (∀ j, j ≠ Article.ID a -> article_t d' !! j = article_t (store_db w) !! j).
Proof.
  intros Hw Hrow Hne. unfold AR.UpdateArticle.
  set (d' := set_articles (<[Article.ID a := updated_row a row (Article.Like a)]> (article_t (store_db w)))
               (article_seq (store_db w)) (store_db w)).
  assert (Hs : sql_update_article (Article.ID a) (Article.Title a) (Article.Content a)
                 (Article.Like a) (store_db w) = (1, d')).
  { unfold sql_update_article. rewrite Hrow. fold (updated_row a row (Article.Like a)).
    by rewrite decide_False. }
  rewrite (bind_ok _ _ _ _ _ (sql_direct_nf _ w 1 d' Hw (f_equal Ok Hs))). simpl.
  exists d'. split; [|split].
  - apply (sql_direct_nf _ (set_db d' w) _ d' Hw). unfold AR.first_article. simpl.
    by rewrite lookup_insert_eq.
  - simpl. apply lookup_insert_eq.
  - intros j Hj. simpl. by rewrite lookup_insert_ne.
Qed.

Lemma UpdateArticle_run w a l row :
  no_faults w -> ACR.GetArticleByID (Article.ID a) w = (Ok (Some l), w) ->
  article_t (store_db w) !! Article.ID a = Some row -> updated_row a row (Article.Like l) ≠ row ->
  ∃ w1, AS.UpdateArticle a w = (Ok tt, w1) ∧ no_faults w1 ∧
    kv (cache w1) !! full_key (Article.ID a) = None ∧
    kv (cache w1) !! basic_map_key (Article.ID a) = None ∧
    article_t (store_db w1) !! Article.ID a = Some (updated_row a row (Article.Like l)) ∧
    spawned w1 = spawned w ++ [TaskAddBasicArticleWithoutAddList (updated_row a row (Article.Like l))].
Proof.
  intros Hw Hget Hrow Hne. unfold AS.UpdateArticle.
  rewrite (bind_ok _ _ _ _ _ Hget). cbv iota beta zeta.
  rewrite (bind_ok _ _ _ _ _ (DeleteArticleForUpdate_nf w (Article.ID a) Hw)).
  destruct (AR_UpdateArticle_nf (set_cache (del_key (basic_map_key (Article.ID a))
              (del_key (full_key (Article.ID a)) (cache w))) w)
              (Article.with_like a (Article.Like l)) row Hw Hrow Hne) as (d' & E & Hd' & _).
  rewrite (bind_ok _ _ _ _ _ E).
  rewrite (bind_ok _ _ _ _ _ (DeleteArticleForUpdate_nf (set_db d' (set_cache (del_key
             (basic_map_key (Article.ID a)) (del_key (full_key (Article.ID a)) (cache w))) w))
             (Article.ID a) Hw)).
  eexists. split; [reflexivity|]. split; [done|]. simpl.
  pose proof (basic_full_ne (Article.ID a) (Article.ID a)).
  split; [by simplify_map_eq|]. split; [by simplify_map_eq|]. split; [exact Hd'|done].
Qed.

(** A read between the update and its goroutine: the full projection
    misses, the row is found, and the basic projection is missing. *)
Lemma GetArticle_before_repopulation w id new :
  no_faults w -> kv (cache w) !! full_key id = None -> kv (cache w) !! basic_map_key id = None ->
  article_t (store_db w) !! id = Some new ->
  AS.GetArticle id w = (Err (ErrApp BasicArticleMissing), w).
Proof.
  intros Hw Hf Hb Hrow. unfold AS.GetArticle.
  rewrite (bind_ok _ _ _ _ _ (GetArticleByID_absent w id Hw Hf)). cbv iota beta.
  unfold AR.GetArticleByID.
  rewrite (bind_ok _ _ _ _ _ (catch_ok _ _ _ _ _ (bind_ok _ _ _ _ _
             (sql_direct_nf (AR.first_article id) w new (store_db w) Hw
               ltac:(unfold AR.first_article; by rewrite Hrow))))).
  cbv iota beta. rewrite set_db_id. unfold ACR.GetBasicArticleByID.
  rewrite bind_assoc, (bind_ok _ _ _ _ _ (rcall_nf_ok (HGETALL (basic_map_key id)) w _ _ Hw
             (get_hash_is _ _ ∅ (or_intror (conj Hb eq_refl))))).
  rewrite set_cache_cache. by rewrite decide_True.
Qed.

(** The goroutine of [UpdateArticle] writes the basic projection back. *)
Lemma AddBasicArticleWithoutAddList_nf w a :
  no_faults w -> kv (cache w) !! basic_map_key (Article.ID a) = None ->
  ∃ h, ACR.AddBasicArticleWithoutAddList a w
       = (Ok tt, set_cache (set_key (basic_map_key (Article.ID a)) (RHash h) (cache w)) w) ∧
       h ≠ ∅ ∧ h !! "like" = Some (Itoa (Article.Like a)) ∧
       h !! "manager_id" = Some (Itoa (Article.ManagerID a)).
Proof.
  intros Hw Hk. unfold ACR.AddBasicArticleWithoutAddList.
  rewrite (rcall_nf_ok _ _ _ _ Hw (HSET_is _ _ ∅ _ _ (or_intror (conj Hk eq_refl)))).
  eexists. split; [reflexivity|]. cbn [foldl fst snd].
  split; [apply insert_non_empty|]. split; by simplify_map_eq.
Qed.

(** A read once the basic projection is back: the row, with the
    counter of the basic projection, and the full projection cached
    again by a goroutine. *)
Lemma GetArticle_repopulated w id row h L :
  no_faults w -> kv (cache w) !! full_key id = None -> kv (cache w) !! basic_map_key id = Some (RHash h) ->
  h ≠ ∅ -> h !! "like" = Some (Itoa L) -> h !! "manager_id" = Some (Itoa (Article.ManagerID row)) ->
  in_int64 L = true -> in_int64 (Article.ManagerID row) = true -> article_t (store_db w) !! id = Some row ->
  AS.GetArticle id w = (Ok (Article.with_like row L),
                        set_spawned (spawned w ++ [TaskCacheArticle (Article.with_like row L)]) w).
Proof.
  intros Hw Hf Hb Hne Hl Hm HL HM Hrow. unfold AS.GetArticle.
  rewrite (bind_ok _ _ _ _ _ (GetArticleByID_absent w id Hw Hf)). cbv iota beta.
  unfold AR.GetArticleByID.
  rewrite (bind_ok _ _ _ _ _ (catch_ok _ _ _ _ _ (bind_ok _ _ _ _ _
             (sql_direct_nf (AR.first_article id) w row (store_db w) Hw
               ltac:(unfold AR.first_article; by rewrite Hrow))))).
  cbv iota beta. rewrite set_db_id. unfold ACR.GetBasicArticleByID.
  rewrite bind_assoc, (bind_ok _ _ _ _ _ (rcall_nf_ok (HGETALL (basic_map_key id)) w _ _ Hw
             (get_hash_some _ _ _ Hb))).
  rewrite set_cache_cache, decide_False by done.
  unfold parse_int, field. rewrite Hl, Hm. simpl.
  rewrite !Atoi_Itoa by (by apply in_int64_spec). done.
Qed.

End Update.

Section UpdateClaims.
Context `{TimeCodec}.

(** Spec §8 invalidation: [UpdateArticle] without faults writes the
    row with the counter taken from the cache and deletes both
    projections; a read before its goroutine has run fails, because the
    basic projection it needs for the counter is gone; once the
    goroutine has written the basic projection back, a read misses the
    full projection and returns the updated row, and caches it again. *)
Theorem UpdateArticle_invalidates_then_repopulates w a l row :
  no_faults w -> ACR.GetArticleByID (Article.ID a) w = (Ok (Some l), w) ->
  article_t (store_db w) !! Article.ID a = Some row ->
  updated_row a row (Article.Like l) ≠ row ->
  in_int64 (Article.Like l) = true -> in_int64 (Article.ManagerID row) = true ->
  ∃ w1, AS.UpdateArticle a w = (Ok tt, w1) ∧
    article_t (store_db w1) !! Article.ID a = Some (updated_row a row (Article.Like l)) ∧
    spawned w1 = spawned w ++ [TaskAddBasicArticleWithoutAddList (updated_row a row (Article.Like l))] ∧
    AS.GetArticle (Article.ID a) w1 = (Err (ErrApp BasicArticleMissing), w1) ∧
    ∃ w2, ACR.AddBasicArticleWithoutAddList (updated_row a row (Article.Like l)) w1 = (Ok tt, w2) ∧
      AS.GetArticle (Article.ID a) w2
      = (Ok (updated_row a row (Article.Like l)),
         set_spawned (spawned w2 ++ [TaskCacheArticle (updated_row a row (Article.Like l))]) w2).
Proof.
  intros Hw Hget Hrow Hne HL HM.
  destruct (UpdateArticle_run w a l row Hw Hget Hrow Hne) as (w1 & E1 & Hw1 & Hf1 & Hb1 & Hd1 & Hs1).
  exists w1. split; [done|]. split; [done|]. split; [done|].
  split; [exact (GetArticle_before_repopulation w1 _ _ Hw1 Hf1 Hb1 Hd1)|].
  destruct (AddBasicArticleWithoutAddList_nf w1 (updated_row a row (Article.Like l)) Hw1 Hb1)
    as (h & E2 & Hne2 & Hl2 & Hm2).
  eexists. split; [exact E2|].
  apply (GetArticle_repopulated _ (Article.ID a) (updated_row a row (Article.Like l)) h
           (Article.Like l)); try assumption.
  - cbn [cache set_cache kv set_key]. rewrite lookup_insert_ne; [done|apply basic_full_ne].
  - cbn [cache set_cache kv set_key]. apply lookup_insert_eq.
Qed.

End UpdateClaims.

(** The article of [demo_flow_db] with both projections cached and
    [like = 3]. *)
Definition demo_full_hash : gmap string string :=
  {["id" := "1"; "title" := "t"; "content" := "hello"; "kind" := "k"; "like" := "3";
    "manager_id" := "9"; "create_at" := "100"]}.

Definition demo_cached_cache : redis :=
  mkRedis (<[full_key 1 := RHash demo_full_hash]>
             {[basic_map_key 1 := RHash {["like" := "3"; "manager_id" := "9"]}]}) {[full_key 1]}.

Lemma UpdateArticle_invalidates_then_repopulates_witness :
  let a := Article.mk 1 "t2" "world" 0 0 "" 0 in
  let l := Article.mk 1 "t" "hello" 9 100 "k" 3 in
  let row := Article.mk 1 "t" "hello" 9 100 "k" 0 in
  ∃ w1, AS.UpdateArticle a (demo_flow_world demo_cached_cache) = (Ok tt, w1) ∧
    article_t (store_db w1) !! Article.ID a = Some (updated_row a row (Article.Like l)) ∧
    spawned w1 = [] ++ [TaskAddBasicArticleWithoutAddList (updated_row a row (Article.Like l))] ∧
    AS.GetArticle (Article.ID a) w1 = (Err (ErrApp BasicArticleMissing), w1) ∧
    ∃ w2, ACR.AddBasicArticleWithoutAddList (updated_row a row (Article.Like l)) w1 = (Ok tt, w2) ∧
      AS.GetArticle (Article.ID a) w2
      = (Ok (updated_row a row (Article.Like l)),
         set_spawned (spawned w2 ++ [TaskCacheArticle (updated_row a row (Article.Like l))]) w2).
Proof.
  apply (UpdateArticle_invalidates_then_repopulates (demo_flow_world demo_cached_cache)); try reflexivity.
  vm_compute. congruence.
Defined.
