(* ===== verification/Rank.v ===== *)
(** * The Rank Engine and the follow sets (spec §4.2)

    The code: [UserCacheRepository] (user_cache_repository.go) keeps,
    per user, the set [hcl:user:follows:<id>] of users followed and the
    set [hcl:user:fans:<id>] of followers, and one sorted set
    [hcl:user:likes] of like counts.  [GetLikesRank] intersects the
    counts with the follow set ([ZINTERSTORE] with weights 1 and 0), adds
    the user's own count, and numbers the members by descending count.
    [UserRepository] (user_repository.go) writes the [user_follow] rows
    and the [likes] column; [UserService] (user_service.go) puts the
    MySQL write and the two cache writes in one transaction.

    The theorems: the rank always lists the user and numbers the entries
    1..n in descending order of likes; the follow and fan sets mirror
    each other and the table when no call fails, and stop doing so when
    the second cache write fails; [GetCommonFollows] returns the users
    one follows who follow the other; and a user's likes grow by one per
    call, with no check of who likes. *)

From stdpp Require Import sorting.
From S2P Require Import Prelude Strconv Redis Models Durable World.
Open Scope hcl_scope.
Open Scope Z_scope.

(** The keys, as [fmt.Sprintf] builds them from [UserCachePrefix]. *)
Definition UserCachePrefix : string := "hcl:user".
Definition follows_key (userID : Z) : string := UserCachePrefix +:+ ":follows:" +:+ Itoa userID.
Definition fans_key (userID : Z) : string := UserCachePrefix +:+ ":fans:" +:+ Itoa userID.
Definition likes_key : string := UserCachePrefix +:+ ":likes".
Definition likes_rank_key (userID : Z) : string := UserCachePrefix +:+ ":likesRank:" +:+ Itoa userID.

(** [FloatCmd.Val()] of go-redis: the value, or 0 when the command
    failed (the code reads the user's own score without checking the
    error). *)
Definition score_val (r : res err Z) : Z :=
  match r with Ok z => z | Err _ => 0 end.

Module UserCacheRepository.

Definition AddFollows (follow : UserFollow.t) : M unit :=
  rcall (SADD (follows_key (UserFollow.UserID follow)) (Itoa (UserFollow.FollowID follow))).

Definition AddFans (follow : UserFollow.t) : M unit :=
  rcall (SADD (fans_key (UserFollow.FollowID follow)) (Itoa (UserFollow.UserID follow))).

Definition RemoveFollows (userID followID : Z) : M unit :=
  rcall (SREM (follows_key userID) (Itoa followID)).

Definition RemoveFans (userID followID : Z) : M unit :=
  rcall (SREM (fans_key followID) (Itoa userID)).

(** The loop of [GetCommonFollows]: a member that does not parse stops
    it with the error. *)
Fixpoint parse_members (ms : list string) : M (list Z) :=
  match ms with
  | [] => ret []
  | m :: rest => x <- parse_int "member" m ;; tl <- parse_members rest ;; ret (x :: tl)
  end.

(** [GetCommonFollows]: [SINTER] of the user's follows and the other
    user's fans. *)
Definition GetCommonFollows (userID otherUserID : Z) : M (list Z) :=
  strs <- rcall (SINTER (follows_key userID) (fans_key otherUserID)) ;;
  parse_members strs.

(** [AddLikes]: [ZINCRBY] of the user's count. *)
Definition AddLikes (id score : Z) : M unit :=
  _ <- rcall (ZINCRBY likes_key score (Itoa id)) ;; ret tt.

(** The loop of [GetLikesRank]: ranks from [r] on, in the order of the
    reply. *)
Fixpoint rank_entries (r : Z) (results : list (string * Z)) : M (list UserLikeRank.t) :=
  match results with
  | [] => ret []
  | (m, score) :: rest =>
      userID <- parse_int "member" m ;;
      tl <- rank_entries (r + 1) rest ;;
      ret (UserLikeRank.mk userID score r :: tl)
  end.

(** [GetLikesRank]: the user's own count (0 when absent), the weighted
    intersection into the per-user key, the user added with that count,
    then the members by descending count. *)
Definition GetLikesRank (userID : Z) : M (list UserLikeRank.t) :=
  userLikeCount <- attempt (rcall (ZSCORE likes_key (Itoa userID))) ;;
  rcall (ZINTERSTORE2 (likes_rank_key userID) likes_key (follows_key userID) 1 0) ;;
  rcall (ZADD (likes_rank_key userID) (score_val userLikeCount) (Itoa userID)) ;;
  descResults <- rcall (ZREVRANGE_all (likes_rank_key userID)) ;;
  rank_entries 1 descResults.

End UserCacheRepository.

(** [UserRepository] (user_repository.go): the follow rows and the likes
    column. *)
Module UserRepository.

(** [GetUserByUserID]: [Take]; no row is [nil, nil]. *)
Definition GetUserByUserID (userID : Z) : M (option User.t) :=
  sql_direct (fun d => Ok (user_t d !! userID, d)).

Definition AddFollows (follow : UserFollow.t) : M unit :=
  sql_tx (total (fun d => (tt, sql_create_follow follow d))).

Definition RemoveFollows (userID followID : Z) : M unit :=
  sql_tx (total (fun d => (tt, sql_delete_follow userID followID d))).

(** [likes = likes + 1] in the transaction. *)
Definition AddLikes (userID : Z) : M unit :=
  sql_tx (total (fun d => (tt, sql_inc_user_likes userID d))).

End UserRepository.

(** [UserService] (user_service.go): the follow and like operations. *)
Module UserService.
Module UCR := UserCacheRepository.
Module UR := UserRepository.

(** Each step that fails rolls the transaction back; a failed commit is
    returned as it is. *)
Definition AddFollows (userFollow : UserFollow.t) : M unit :=
  tx_begin ;;
  catch (UR.AddFollows userFollow) (fun e => tx_rollback ;; throw e) ;;
  catch (UCR.AddFollows userFollow) (fun e => tx_rollback ;; throw e) ;;
  catch (UCR.AddFans userFollow) (fun e => tx_rollback ;; throw e) ;;
  tx_commit.

Definition RemoveFollows (userID followID : Z) : M unit :=
  tx_begin ;;
  catch (UR.RemoveFollows userID followID) (fun e => tx_rollback ;; throw e) ;;
  catch (UCR.RemoveFollows userID followID) (fun e => tx_rollback ;; throw e) ;;
  catch (UCR.RemoveFans userID followID) (fun e => tx_rollback ;; throw e) ;;
  tx_commit.

(** [AddLikes]: the cache count first, then the column, in one
    transaction. *)
Definition AddLikes (userID : Z) : M unit :=
  tx_begin ;;
  catch (UCR.AddLikes userID 1) (fun e => tx_rollback ;; throw e) ;;
  catch (UR.AddLikes userID) (fun e => tx_rollback ;; throw e) ;;
  tx_commit.

(** The loop of [GetCommonFollows]: each id is read from MySQL; a
    missing user stops it. *)
Fixpoint users_of (ids : list Z) : M (list User.t) :=
  match ids with
  | [] => ret []
  | id :: rest =>
      user <- UR.GetUserByUserID id ;;
      match user with
      | None => throw (ErrApp UserMissing)
      | Some u => tl <- users_of rest ;; ret (u :: tl)
      end
  end.

Definition GetCommonFollows (userID otherUserID : Z) : M (list User.t) :=
  userIDs <- UCR.GetCommonFollows userID otherUserID ;;
  users_of userIDs.

Definition GetLikesRank (userID : Z) : M (list UserLikeRank.t) := UCR.GetLikesRank userID.

End UserService.

Module UCR := UserCacheRepository.
Module UR := UserRepository.
Module US := UserService.

(** ** The rank the loop builds

    [rank_of r ps] numbers the pairs (user, likes) from [r] on, as the
    loop of [GetLikesRank] does once every member has parsed. *)
Fixpoint rank_of (r : Z) (ps : list (Z * Z)) : list UserLikeRank.t :=
  match ps with
  | [] => []
  | (id, s) :: ps' => UserLikeRank.mk id s r :: rank_of (r + 1) ps'
  end.

(** The sorted set [GetLikesRank] builds in [likes_rank_key], from the
    counts [zl], the follow set [fs] and the score [s0] it read for the
    user: [ZINTERSTORE] with weights 1 and 0, then [ZADD]. *)
Definition rank_zset (zl : gmap string Z) (fs : gset string) (u s0 : Z) : gmap string Z :=
  <[Itoa u := s0]> (map_zip_with (fun s1 s2 => 1 * s1 + 0 * s2) zl
                                  (set_to_map (fun x => (x, 1)) fs)).

(** ** The rank of spec §4.2, on user ids

    The users ranked are the followed users that have a count, and the
    user, with score [s0]. *)
Definition rank_map (L : gmap Z Z) (F : gset Z) (u s0 : Z) : gmap Z Z :=
  <[u := s0]> (filter (fun p => p.1 ∈ F) L).

(** A list [l] is the rank of the scores [R]: every user of [R] once,
    with its score, ranks 1..n, scores non-increasing. *)
Definition rank_spec (R : gmap Z Z) (l : list UserLikeRank.t) : Prop :=
  (∀ e, e ∈ l -> R !! UserLikeRank.UserID e = Some (UserLikeRank.Likes e)) ∧
  (∀ x s, R !! x = Some s -> ∃ e, e ∈ l ∧ UserLikeRank.UserID e = x) ∧
  NoDup (UserLikeRank.UserID <$> l) ∧
  UserLikeRank.Rank <$> l = seqZ 1 (Z.of_nat (length l)) ∧
  Sorted (fun a b => b <= a) (UserLikeRank.Likes <$> l).

(** ** The follow sets and the [user_follow] table *)

(** A row [user_id = a, follow_id = b] exists. *)
Definition follow_row (d : db) (a b : Z) : bool :=
  existsb (fun f => (UserFollow.UserID f =? a) && (UserFollow.FollowID f =? b)) (follow_t d).

(** The follow and fan keys hold sets (or are absent). *)
Definition sets_typed (r : redis) : Prop :=
  ∀ a, set_is r (follows_key a) (set_at r (follows_key a)) ∧
       set_is r (fans_key a) (set_at r (fans_key a)).

(** The cache mirrors the table: [b] is in [a]'s follows, and [a] in
    [b]'s fans, exactly when the row [a -> b] exists. *)
Definition follows_mirror (r : redis) (d : db) : Prop :=
  ∀ a b, (Itoa b ∈ set_at r (follows_key a) <-> follow_row d a b = true) ∧
         (Itoa a ∈ set_at r (fans_key b) <-> follow_row d a b = true).

Definition follow_inv (r : redis) (d : db) : Prop := sets_typed r ∧ follows_mirror r d.

(** ** The loop of [GetLikesRank] *)

Lemma rank_entries_run r xs w :
  UCR.rank_entries r xs w =
  match mapM Atoi xs.*1 with
  | Some ids => (Ok (rank_of r (zip ids xs.*2)), w)
  | None => (Err (ErrApp (ParseFailed "member")), w)
  end.
Proof.
  revert r. induction xs as [|[m s] xs IH]; intros r; [done|].
  simpl. unfold parse_int.
  destruct (Atoi m) as [x|]; simpl; [|reflexivity]. rewrite bind_ret_l.
  unfold bind at 1. rewrite IH. destruct (mapM Atoi xs.*1) eqn:E; simpl;
    change (list_fmap _ _ fst xs) with (fst <$> xs); by rewrite E.
Qed.

Lemma rank_of_ids r ps : UserLikeRank.UserID <$> rank_of r ps = ps.*1.
Proof. revert r. induction ps as [|[id s] ps IH]; intros r; simpl; [done|]. by rewrite IH. Qed.

Lemma rank_of_likes r ps : UserLikeRank.Likes <$> rank_of r ps = ps.*2.
Proof. revert r. induction ps as [|[id s] ps IH]; intros r; simpl; [done|]. by rewrite IH. Qed.

Lemma rank_of_ranks r ps :
  UserLikeRank.Rank <$> rank_of r ps = seqZ r (Z.of_nat (length ps)).
Proof.
  revert r. induction ps as [|[id s] ps IH]; intros r; simpl; [done|].
  rewrite IH, (seqZ_cons r (Z.of_nat (S (length ps)))) by lia.
  f_equal. f_equal; lia.
Qed.

Lemma mapM_Atoi_Itoa ms ids u : mapM Atoi ms = Some ids -> Itoa u ∈ ms -> u ∈ ids.
Proof.
  intros Hm. apply mapM_Some_1 in Hm. induction Hm as [|m x ms ids Hx _ IH].
  - intros Hin. by apply elem_of_nil in Hin.
  - intros [<-|Hin]%elem_of_cons; [|by right; apply IH].
    apply Atoi_Itoa_inv in Hx as ->. left.
Qed.

Lemma ids_of_zip (ids : list Z) (xs : list (string * Z)) :
  mapM Atoi xs.*1 = Some ids -> (zip ids xs.*2).*1 = ids.
Proof.
  intros Hm. apply mapM_Some_1, Forall2_length in Hm.
  apply fst_zip. rewrite <- Hm, !length_fmap. done.
Qed.

(** ** The sorted-set commands of the rank *)

Lemma ZADD_Ok k s m r r' :
  ZADD k s m r = (Ok tt, r') -> ∃ z, kv r' !! k = Some (RZSet z) ∧ z !! m = Some s.
Proof.
  unfold ZADD, bind, get_zset.
  destruct (kv r !! k) as [[]|] eqn:E; try discriminate;
  rewrite store_nonempty by (apply bool_decide_eq_false, insert_non_empty);
  intros [= <-]; eexists; (split; [apply lookup_insert_eq|apply lookup_insert_eq]).
Qed.

Lemma ZREVRANGE_all_at k z r desc r' :
  kv r !! k = Some (RZSet z) -> ZREVRANGE_all k r = (Ok desc, r') ->
  desc = merge_sort zrev_le (map_to_list z).
Proof. unfold ZREVRANGE_all, bind, get_zset. intros ->. by intros [= <-]. Qed.

Lemma Sorted_fmap_mono {A B} (R : relation A) (R' : relation B) (f : A -> B) l :
  (∀ x y, R x y -> R' (f x) (f y)) -> Sorted R l -> Sorted R' (f <$> l).
Proof.
  intros Hf. induction 1 as [|x l _ IH Hhd]; simpl; constructor; [done|].
  destruct Hhd; simpl; constructor; auto.
Qed.

(** A successful [GetLikesRank] read back a sorted set holding the user
    with the score it added, and numbered its members in [ZREVRANGE]
    order.  This holds under every fault pattern: each call that
    returns [Ok] met no fault. *)
Lemma GetLikesRank_Ok_inv u w l w' :
  UCR.GetLikesRank u w = (Ok l, w') ->
  ∃ z s ids, z !! Itoa u = Some s ∧
    mapM Atoi (merge_sort zrev_le (map_to_list z)).*1 = Some ids ∧
    l = rank_of 1 (zip ids (merge_sort zrev_le (map_to_list z)).*2).
Proof.
  unfold UCR.GetLikesRank. intros H.
  apply bind_Ok_inv in H as (c & w1 & _ & H).
  apply bind_Ok_inv in H as ([] & w2 & _ & H).
  apply bind_Ok_inv in H as ([] & w3 & Hadd & H).
  apply bind_Ok_inv in H as (desc & w4 & Hrange & H).
  apply rcall_Ok_inv in Hadd as (w0 & r3 & _ & (z & Hz & Hs)%ZADD_Ok & ->).
  apply rcall_Ok_inv in Hrange as (w0' & r4 & _ & Hc & ->).
  simpl in Hc. rewrite (ZREVRANGE_all_at _ _ _ _ _ Hz Hc) in H.
  rewrite rank_entries_run in H.
  destruct (mapM Atoi _) as [ids|] eqn:E; inv_run; eauto 10.
Qed.

Lemma zrev_le_likes (a b : string * Z) : zrev_le a b -> b.2 <= a.2.
Proof. unfold zrev_le. lia. Qed.

(** ** The commands of [GetLikesRank], run without faults

    After the user's score has been read (or lost, [score_val]), the
    rank is the loop run on [rank_zset], in [ZREVRANGE] order. *)
Lemma GetLikesRank_run u w c w1 zl fs :
  attempt (rcall (ZSCORE likes_key (Itoa u))) w = (Ok c, w1) -> no_faults w1 ->
  zset_is (cache w1) likes_key zl -> set_is (cache w1) (follows_key u) fs ->
  ∃ r', UCR.GetLikesRank u w =
        UCR.rank_entries 1 (merge_sort zrev_le (map_to_list (rank_zset zl fs u (score_val c))))
                         (set_cache r' w1).
Proof.
  intros Hs Hw Hl Hf. unfold UCR.GetLikesRank. mstep Hs.
  set (zi := map_zip_with (fun s1 s2 => 1 * s1 + 0 * s2) zl (set_to_map (fun x => (x, 1)) fs)).
  set (r2 := snd (store (likes_rank_key u) (RZSet zi) (del_key (likes_rank_key u) (cache w1)))).
  mstep (rcall_nf_ok _ w1 _ r2 Hw (ZINTERSTORE2_is _ (likes_rank_key u) _ _ _ _ 1 0
           (get_zset_or_set_zset _ _ _ Hl) (get_zset_or_set_set _ _ _ Hf))).
  assert (Hz : zset_is r2 (likes_rank_key u) zi) by apply zset_is_store.
  mstep (rcall_nf_ok _ (set_cache r2 w1) _ _ (no_faults_set_cache _ _ Hw)
           (ZADD_is _ _ _ (score_val c) (Itoa u) Hz)).
  set (r3 := set_key (likes_rank_key u) (RZSet (<[Itoa u := score_val c]> zi)) r2).
  mstep (rcall_nf_ok _ (set_cache r3 (set_cache r2 w1)) _ _ (no_faults_set_cache _ _ Hw)
           (ZREVRANGE_all_is _ _ _ (zset_is_set_key r2 (likes_rank_key u) _))).
  eexists. reflexivity.
Qed.

(** ** From the sorted set to the abstract rank *)

#[export] Instance Itoa_inj_eq : Inj eq eq Itoa := Itoa_inj.

Lemma lookup_set_to_map_one (Y : gset string) i :
  (set_to_map (fun x => (x, 1)) Y : gmap string Z) !! i
  = if decide (i ∈ Y) then Some 1 else None.
Proof.
  case_decide as Hi.
  - apply lookup_set_to_map; [by intros ?? _ _ ?|]. eauto.
  - apply eq_None_not_Some. intros [x Hx].
    apply lookup_set_to_map in Hx as (y & Hy & [= -> _]); [done|by intros ?? _ _ ?].
Qed.

(** With the counts and the follow set written by the code (members
    [Itoa id]), [rank_zset] is [rank_map] on ids. *)
Lemma rank_zset_kmap L F u s0 :
  rank_zset (kmap Itoa L) (set_map Itoa F) u s0 = kmap Itoa (rank_map L F u s0).
Proof.
  unfold rank_zset, rank_map. rewrite (kmap_insert Itoa). f_equal.
  apply map_eq. intros i. rewrite map_lookup_zip_with, lookup_set_to_map_one.
  destruct (kmap Itoa L !! i) as [s|] eqn:E; simpl.
  - apply (lookup_kmap_Some Itoa) in E as (x & -> & Hx).
    rewrite (lookup_kmap Itoa), map_lookup_filter, Hx; simpl.
    destruct (decide (Itoa x ∈ _)) as [Hin|Hin]; rewrite Itoa_in_set_map in Hin;
      case_guard; simpl; [f_equal; lia|done..].
  - symmetry. apply (lookup_kmap_None Itoa). intros x ->.
    rewrite map_lookup_filter. rewrite (lookup_kmap Itoa) in E. by rewrite E.
Qed.

Lemma length_rank_of r ps : length (rank_of r ps) = length ps.
Proof. revert r. induction ps as [|[id s] ps IH]; intros r; simpl; [done|]. by rewrite IH. Qed.

Lemma rank_of_elem r ps e : e ∈ rank_of r ps -> (UserLikeRank.UserID e, UserLikeRank.Likes e) ∈ ps.
Proof.
  revert r. induction ps as [|[id s] ps IH]; intros r; simpl; [by intros ?%elem_of_nil|].
  rewrite !elem_of_cons. intros [->|He]; [by left|right; eauto].
Qed.

Lemma zip_Itoa_elem ids (xs : list (string * Z)) x s :
  xs.*1 = Itoa <$> ids -> (x, s) ∈ zip ids xs.*2 -> (Itoa x, s) ∈ xs.
Proof.
  revert ids. induction xs as [|[m t] xs IH]; intros [|y ids]; simpl;
    try by intros _ ?%elem_of_nil.
  intros [= -> Hids]. rewrite !elem_of_cons. intros [[= -> ->]|Hin]; [by left|right; eauto].
Qed.

Lemma mapM_Atoi_canon ms :
  (∀ m, m ∈ ms -> ∃ x, m = Itoa x ∧ int64_min <= x <= int64_max) ->
  ∃ ids, mapM Atoi ms = Some ids ∧ ms = Itoa <$> ids.
Proof.
  induction ms as [|m ms IH]; intros H; [by exists []|].
  destruct (H m) as (x & -> & Hx); [by left|].
  destruct IH as (ids & E & ->); [intros; apply H; by right|].
  exists (x :: ids). simpl. rewrite Atoi_Itoa, E by done. done.
Qed.

(** The numbering of a reply sorted by [ZREVRANGE]: ranks 1..n, likes
    non-increasing. *)
Lemma rank_of_ranked (ids : list Z) (desc : list (string * Z)) :
  (length desc <= length ids)%nat -> Sorted zrev_le desc ->
  UserLikeRank.Rank <$> rank_of 1 (zip ids desc.*2)
    = seqZ 1 (Z.of_nat (length (rank_of 1 (zip ids desc.*2)))) ∧
  Sorted (fun a b => b <= a) (UserLikeRank.Likes <$> rank_of 1 (zip ids desc.*2)).
Proof.
  intros Hlen Hs. split; [by rewrite rank_of_ranks, length_rank_of|].
  rewrite rank_of_likes, snd_zip by (by rewrite length_fmap).
  eapply Sorted_fmap_mono; [apply zrev_le_likes|done].
Qed.

(** The loop on the [ZREVRANGE] reply of [kmap Itoa R] produces the
    abstract rank of [R]. *)
Lemma rank_entries_spec (R : gmap Z Z) w :
  (∀ x, x ∈ dom R -> int64_min <= x <= int64_max) ->
  ∃ l, UCR.rank_entries 1 (merge_sort zrev_le (map_to_list (kmap Itoa R))) w = (Ok l, w) ∧
       rank_spec R l.
Proof.
  intros Hdom. set (desc := merge_sort zrev_le (map_to_list (kmap Itoa R))).
  assert (Hdesc : ∀ m s, (m, s) ∈ desc <-> ∃ x, m = Itoa x ∧ R !! x = Some s).
  { intros m s. unfold desc. rewrite merge_sort_Permutation, elem_of_map_to_list.
    apply (lookup_kmap_Some Itoa). }
  destruct (mapM_Atoi_canon desc.*1) as (ids & E & Hids).
  { intros m ([m' s] & -> & (x & -> & Hx)%Hdesc)%list_elem_of_fmap.
    exists x. split; [done|]. apply Hdom, elem_of_dom. eauto. }
  assert (Hlen : length desc = length ids).
  { by rewrite <- (length_fmap fst desc), Hids, length_fmap. }
  rewrite rank_entries_run, E. eexists. split; [done|].
  assert (Hl : UserLikeRank.UserID <$> rank_of 1 (zip ids desc.*2) = ids).
  { rewrite rank_of_ids. apply fst_zip. rewrite length_fmap. lia. }
  destruct (rank_of_ranked ids desc) as [Hr Hs]; [lia|apply Sorted_merge_sort; apply _|].
  unfold rank_spec. split_and!; [| |rewrite Hl| done | done].
  - intros e (x & Hx & HR)%rank_of_elem%(zip_Itoa_elem _ _ _ _ Hids)%Hdesc.
    by apply Itoa_inj in Hx as ->.
  - intros x s Hx. assert (Hin : Itoa x ∈ Itoa <$> ids).
    { rewrite <- Hids. apply list_elem_of_fmap. exists (Itoa x, s). split; [done|].
      apply Hdesc. eauto. }
    apply list_elem_of_fmap in Hin as (y & ->%Itoa_inj & Hy).
    rewrite <- Hl in Hy. apply list_elem_of_fmap in Hy as (e & -> & He). eauto.
  - apply (NoDup_fmap_1 Itoa). rewrite <- Hids. unfold desc.
    rewrite merge_sort_Permutation. apply NoDup_fst_map_to_list.
Qed.

Lemma rank_map_dom L F u s0 x : x ∈ dom (rank_map L F u s0) -> x = u ∨ x ∈ dom L.
Proof.
  unfold rank_map. rewrite elem_of_dom. destruct (decide (x = u)) as [->|Hne]; [by left|].
  rewrite lookup_insert_ne by done. intros [s (Hs & _)%map_lookup_filter_Some].
  right. apply elem_of_dom. eauto.
Qed.

(** [GetLikesRank] once the user's score has been read as [c]: with the
    counts and follow set the code writes, the result is the abstract
    rank of the followed users' counts and the user's [score_val c]. *)
Lemma GetLikesRank_abstract u w c w1 L F :
  attempt (rcall (ZSCORE likes_key (Itoa u))) w = (Ok c, w1) -> no_faults w1 ->
  zset_is (cache w1) likes_key (kmap Itoa L) ->
  set_is (cache w1) (follows_key u) (set_map Itoa F) ->
  int64_min <= u <= int64_max -> (∀ x, x ∈ dom L -> int64_min <= x <= int64_max) ->
  ∃ l r', UCR.GetLikesRank u w = (Ok l, set_cache r' w1) ∧
          rank_spec (rank_map L F u (score_val c)) l.
Proof.
  intros Ha Hw Hl Hf Hu HL.
  destruct (GetLikesRank_run u w c w1 _ _ Ha Hw Hl Hf) as [r' ->].
  rewrite rank_zset_kmap.
  destruct (rank_entries_spec (rank_map L F u (score_val c)) (set_cache r' w1))
    as (l & -> & Hspec).
  { intros x [->|?]%rank_map_dom; auto. }
  eauto.
Qed.

Lemma ZSCORE_kmap w u L :
  no_faults w -> zset_is (cache w) likes_key (kmap Itoa L) ->
  attempt (rcall (ZSCORE likes_key (Itoa u))) w
  = (Ok (match L !! u with Some s => Ok s | None => Err (ErrRedis NilReply) end), w).
Proof.
  intros Hw Hl. apply attempt_run.
  rewrite (rcall_nf _ _ _ _ Hw (ZSCORE_is _ _ _ (Itoa u) Hl)), set_cache_cache.
  rewrite (lookup_kmap Itoa). by destruct (L !! u).
Qed.

(** ** Demo data: user 1 follows 2, 3 and 9; users 1..4 have counts *)
Definition demo_L : gmap Z Z := {[1 := 5; 2 := 7; 3 := 2; 4 := 9]}.
Definition demo_F : gset Z := {[2; 3; 9]}.

Definition demo_rank_cache : redis :=
  mkRedis (<[likes_key := RZSet (kmap Itoa demo_L)]>
           (<[follows_key 1 := RSet (set_map Itoa demo_F)]> ∅)) ∅.

Definition demo_rank_world (fs : list fault) : World :=
  mkWorld demo_rank_cache db_empty None [] 0 [] fs.

Lemma demo_rank_likes : zset_is (cache (demo_rank_world [])) likes_key (kmap Itoa demo_L).
Proof. left. reflexivity. Qed.

Lemma demo_rank_follows : set_is (cache (demo_rank_world [])) (follows_key 1) (set_map Itoa demo_F).
Proof. left. reflexivity. Qed.

Lemma demo_rank_dom x : x ∈ dom demo_L -> int64_min <= x <= int64_max.
Proof.
  unfold demo_L. rewrite !dom_insert_L, dom_singleton_L.
  unfold int64_min, int64_max. set_unfold. lia.
Qed.

(** The rank of user 1: user 2 (7 likes), the user itself (5), user 3
    (2); user 4 is not followed and user 9 has no count. *)
Lemma GetLikesRank_demo :
  fst (US.GetLikesRank 1 (demo_rank_world []))
  = Ok [UserLikeRank.mk 2 7 1; UserLikeRank.mk 1 5 2; UserLikeRank.mk 3 2 3].
Proof. vm_compute. reflexivity. Qed.

(** ** The rank engine: claims *)

(** C9: Without faults, on the counts and follow set the code writes
    (members are decimal user ids within 64 bits), [GetLikesRank u]
    returns the rank of spec §4.2: the followed users that have a count
    and the user itself with its own count (0 when it has none), each
    exactly once, ranked 1..n by non-increasing likes. *)
Theorem GetLikesRank_refines w u L F :
  no_faults w ->
  zset_is (cache w) likes_key (kmap Itoa L) ->
  set_is (cache w) (follows_key u) (set_map Itoa F) ->
  int64_min <= u <= int64_max -> (∀ x, x ∈ dom L -> int64_min <= x <= int64_max) ->
  ∃ l r', US.GetLikesRank u w = (Ok l, set_cache r' w) ∧
          rank_spec (rank_map L F u (default 0 (L !! u))) l.
Proof.
  intros Hw Hl Hf Hu HL. unfold US.GetLikesRank.
  destruct (GetLikesRank_abstract u w _ w L F (ZSCORE_kmap w u L Hw Hl) Hw Hl Hf Hu HL)
    as (l & r' & Hrun & Hspec).
  exists l, r'. split; [done|]. by destruct (L !! u).
Qed.

Lemma GetLikesRank_refines_witness :
  ∃ l r', US.GetLikesRank 1 (demo_rank_world []) = (Ok l, set_cache r' (demo_rank_world [])) ∧
          rank_spec (rank_map demo_L demo_F 1 (default 0 (demo_L !! 1))) l.
Proof.
  apply (GetLikesRank_refines (demo_rank_world []) 1 demo_L demo_F); try reflexivity.
  - exact demo_rank_likes.
  - exact demo_rank_follows.
  - unfold int64_min, int64_max. lia.
  - exact demo_rank_dom.
Defined.

(** C10: Whatever fails on the way, a [GetLikesRank u] that returns a
    list lists [u] itself (spec §6: the rank always includes the
    actor, even one who follows nobody). *)
Theorem GetLikesRank_lists_self u w l w' :
  US.GetLikesRank u w = (Ok l, w') -> ∃ e, e ∈ l ∧ UserLikeRank.UserID e = u.
Proof.
  intros (z & s & ids & Hs & E & ->)%GetLikesRank_Ok_inv.
  assert (Hin : Itoa u ∈ (merge_sort zrev_le (map_to_list z)).*1).
  { apply list_elem_of_fmap. exists (Itoa u, s). split; [done|].
    rewrite merge_sort_Permutation. by apply elem_of_map_to_list. }
  pose proof (mapM_Atoi_Itoa _ _ _ E Hin) as Hu.
  rewrite <- (ids_of_zip _ _ E), <- (rank_of_ids 1) in Hu.
  apply list_elem_of_fmap in Hu as (e & -> & He). eauto.
Qed.

Lemma GetLikesRank_lists_self_witness :
  ∃ w', US.GetLikesRank 1 (demo_rank_world [])
        = (Ok [UserLikeRank.mk 2 7 1; UserLikeRank.mk 1 5 2; UserLikeRank.mk 3 2 3], w') ∧
        ∃ e, e ∈ [UserLikeRank.mk 2 7 1; UserLikeRank.mk 1 5 2; UserLikeRank.mk 3 2 3] ∧
             UserLikeRank.UserID e = 1.
Proof.
  exists (snd (US.GetLikesRank 1 (demo_rank_world []))).
  assert (H : US.GetLikesRank 1 (demo_rank_world [])
              = (Ok [UserLikeRank.mk 2 7 1; UserLikeRank.mk 1 5 2; UserLikeRank.mk 3 2 3],
                 snd (US.GetLikesRank 1 (demo_rank_world [])))) by (vm_compute; reflexivity).
  split; [exact H|]. exact (GetLikesRank_lists_self _ _ _ _ H).
Defined.

(** Whatever fails on the way, a list [GetLikesRank] returns has
    the ranks 1, 2, ..., n in order and non-increasing likes: ties get
    distinct consecutive ranks. *)
Theorem GetLikesRank_ranked u w l w' :
  US.GetLikesRank u w = (Ok l, w') ->
  UserLikeRank.Rank <$> l = seqZ 1 (Z.of_nat (length l)) ∧
  Sorted (fun a b => b <= a) (UserLikeRank.Likes <$> l).
Proof.
  intros (z & s & ids & _ & E & ->)%GetLikesRank_Ok_inv.
  apply rank_of_ranked; [|apply Sorted_merge_sort; apply _].
  apply mapM_Some_1, Forall2_length in E. rewrite length_fmap in E. lia.
Qed.

Lemma GetLikesRank_ranked_witness :
  ∃ w', US.GetLikesRank 1 (demo_rank_world [])
        = (Ok [UserLikeRank.mk 2 7 1; UserLikeRank.mk 1 5 2; UserLikeRank.mk 3 2 3], w') ∧
        [1; 2; 3] = seqZ 1 3 ∧ Sorted (fun a b => b <= a) [7; 5; 2].
Proof.
  exists (snd (US.GetLikesRank 1 (demo_rank_world []))).
  assert (H : US.GetLikesRank 1 (demo_rank_world [])
              = (Ok [UserLikeRank.mk 2 7 1; UserLikeRank.mk 1 5 2; UserLikeRank.mk 3 2 3],
                 snd (US.GetLikesRank 1 (demo_rank_world [])))) by (vm_compute; reflexivity).
  split; [exact H|]. exact (GetLikesRank_ranked _ _ _ _ H).
Defined.

(** The code reads the user's own count with [ZScore(...).Val()],
    which is 0 when the call fails: when that one call is lost,
    [GetLikesRank] still succeeds and ranks the user with 0 likes,
    whatever its count (the rank of [rank_map L F u 0]). *)
Theorem GetLikesRank_lost_score_ranks_zero w u L F :
  faults w = [FailBefore] ->
  zset_is (cache w) likes_key (kmap Itoa L) ->
  set_is (cache w) (follows_key u) (set_map Itoa F) ->
  int64_min <= u <= int64_max -> (∀ x, x ∈ dom L -> int64_min <= x <= int64_max) ->
  ∃ l r', US.GetLikesRank u w = (Ok l, set_cache r' (set_faults [] w)) ∧
          rank_spec (rank_map L F u 0) l.
Proof.
  intros Hf Hl Hfs Hu HL. unfold US.GetLikesRank.
  assert (Ha : attempt (rcall (ZSCORE likes_key (Itoa u))) w
               = (Ok (Err (ErrRedis NetError)), set_faults [] w)).
  { apply attempt_run. unfold rcall. rewrite (next_fault_cons _ _ _ Hf).
    by destruct (ZSCORE _ _ _). }
  exact (GetLikesRank_abstract u w _ _ L F Ha (no_faults_set_faults_nil w) Hl Hfs Hu HL).
Qed.

Lemma GetLikesRank_lost_score_ranks_zero_witness :
  ∃ l r', US.GetLikesRank 1 (demo_rank_world [FailBefore])
          = (Ok l, set_cache r' (set_faults [] (demo_rank_world [FailBefore]))) ∧
          rank_spec (rank_map demo_L demo_F 1 0) l.
Proof.
  apply (GetLikesRank_lost_score_ranks_zero (demo_rank_world [FailBefore]) 1 demo_L demo_F);
    try reflexivity.
  - exact demo_rank_likes.
  - exact demo_rank_follows.
  - unfold int64_min, int64_max. lia.
  - exact demo_rank_dom.
Defined.

(** User 1 has 5 likes; with its score lost it is ranked last with 0. *)
Lemma GetLikesRank_lost_score_demo :
  fst (US.GetLikesRank 1 (demo_rank_world [FailBefore]))
  = Ok [UserLikeRank.mk 2 7 1; UserLikeRank.mk 3 2 2; UserLikeRank.mk 1 0 3].
Proof. vm_compute. reflexivity. Qed.

(** ** The follow keys *)

Lemma follows_key_inj a b : follows_key a = follows_key b -> a = b.
Proof. intros H. by apply Itoa_inj, (append_inj_l "hcl:user:follows:"). Qed.

Lemma fans_key_inj a b : fans_key a = fans_key b -> a = b.
Proof. intros H. by apply Itoa_inj, (append_inj_l "hcl:user:fans:"). Qed.

Lemma follows_fans_ne a b : follows_key a ≠ fans_key b.
Proof. unfold follows_key, fans_key, UserCachePrefix. intros H. injection H. discriminate. Qed.

Lemma set_at_set_key r k k' m :
  set_at (set_key k (RSet m) r) k' = if decide (k' = k) then m else set_at r k'.
Proof.
  unfold set_at, set_key; simpl. case_decide as Hk;
    [subst; by rewrite lookup_insert_eq|by rewrite lookup_insert_ne by congruence].
Qed.

Lemma set_at_del_key r k k' :
  set_at (del_key k r) k' = if decide (k' = k) then ∅ else set_at r k'.
Proof.
  unfold set_at, del_key; simpl. case_decide as Hk;
    [subst; by rewrite lookup_delete_eq|by rewrite lookup_delete_ne by congruence].
Qed.

Lemma set_is_at r k m : set_is r k m -> set_at r k = m.
Proof. unfold set_is, set_at. by intros [-> | [-> ->]]. Qed.

(** Writing a set at one key keeps every key of the keyspace typed. *)
Lemma set_is_at_set_key r k k' m :
  set_is r k' (set_at r k') -> set_is (set_key k (RSet m) r) k' (set_at (set_key k (RSet m) r) k').
Proof.
  rewrite set_at_set_key. case_decide; subst; [intros _; apply set_is_set_key|].
  intros. by apply set_is_set_key_ne.
Qed.

Lemma set_is_at_del_key r k k' :
  set_is r k' (set_at r k') -> set_is (del_key k r) k' (set_at (del_key k r) k').
Proof.
  rewrite set_at_del_key. unfold set_is, del_key; simpl. case_decide; subst.
  - rewrite lookup_delete_eq. by right.
  - by rewrite lookup_delete_ne by congruence.
Qed.

Lemma sets_typed_set_key r k m : sets_typed r -> sets_typed (set_key k (RSet m) r).
Proof. intros H a. destruct (H a). split; by apply set_is_at_set_key. Qed.

Lemma sets_typed_del_key r k : sets_typed r -> sets_typed (del_key k r).
Proof. intros H a. destruct (H a). split; by apply set_is_at_del_key. Qed.

#[export] Hint Resolve sets_typed_set_key sets_typed_del_key : hcl.

(** ** The follow rows *)

Lemma follow_row_create d f a b :
  follow_row (sql_create_follow f d) a b
  = follow_row d a b || (UserFollow.UserID f =? a) && (UserFollow.FollowID f =? b).
Proof. unfold follow_row, sql_create_follow; simpl. by rewrite existsb_app; simpl; rewrite orb_false_r. Qed.

Lemma follow_row_delete d x y a b :
  follow_row (sql_delete_follow x y d) a b = follow_row d a b && negb ((a =? x) && (b =? y)).
Proof.
  unfold follow_row, sql_delete_follow; simpl. induction (follow_t d) as [|f l IH]; [done|].
  rewrite filter_cons. simpl.
  case_decide as Hf; simpl; rewrite IH;
    destruct (Z.eqb_spec (UserFollow.UserID f) a), (Z.eqb_spec (UserFollow.FollowID f) b),
             (Z.eqb_spec a x), (Z.eqb_spec b y); subst; simpl; try tauto;
    destruct (existsb _ l); naive_solver.
Qed.

Lemma Itoa_eq_iff x y : Itoa x = Itoa y <-> x = y.
Proof. split; [apply Itoa_inj|by intros ->]. Qed.

(** The cache after [SADD follows(a) b] and [SADD fans(b) a]. *)
Definition follow_added (r : redis) (a b : Z) : redis :=
  let r1 := set_key (follows_key a) (RSet ({[Itoa b]} ∪ set_at r (follows_key a))) r in
  set_key (fans_key b) (RSet ({[Itoa a]} ∪ set_at r1 (fans_key b))) r1.

Ltac follow_keys :=
  repeat match goal with
  | H : follows_key _ = follows_key _ |- _ => apply follows_key_inj in H; subst
  | H : fans_key _ = fans_key _ |- _ => apply fans_key_inj in H; subst
  | H : follows_key _ = fans_key _ |- _ => by apply follows_fans_ne in H
  | H : fans_key _ = follows_key _ |- _ => by symmetry in H; apply follows_fans_ne in H
  end.

Lemma follows_mirror_add r d f :
  follows_mirror r d ->
  follows_mirror (follow_added r (UserFollow.UserID f) (UserFollow.FollowID f))
                 (sql_create_follow f d).
Proof.
  intros H x y. destruct (H x y) as [H1 H2]. unfold follow_added.
  rewrite !set_at_set_key, follow_row_create.
  repeat case_decide; follow_keys;
    rewrite ?elem_of_union, ?elem_of_singleton, ?Itoa_eq_iff, ?H1, ?H2,
            ?orb_true_iff, ?andb_true_iff, ?Z.eqb_eq; naive_solver.
Qed.

(** The cache after [SREM k m]: the set without [m], the key deleted
    when that empties it. *)
Definition set_removed (r : redis) (k m : string) : redis :=
  if bool_decide (set_at r k ∖ {[m]} = ∅) then del_key k r
  else set_key k (RSet (set_at r k ∖ {[m]})) r.

Definition follow_removed (r : redis) (a b : Z) : redis :=
  set_removed (set_removed r (follows_key a) (Itoa b)) (fans_key b) (Itoa a).

Lemma set_at_removed r k m k' :
  set_at (set_removed r k m) k' = if decide (k' = k) then set_at r k ∖ {[m]} else set_at r k'.
Proof.
  unfold set_removed. case_bool_decide as He;
    rewrite ?set_at_del_key, ?set_at_set_key; by case_decide; subst.
Qed.

Lemma sets_typed_removed r k m : sets_typed r -> sets_typed (set_removed r k m).
Proof. unfold set_removed. case_bool_decide; auto with hcl. Qed.

Lemma SREM_removed r k m :
  set_is r k (set_at r k) -> SREM k m r = (Ok tt, set_removed r k m).
Proof. intros H. by rewrite (SREM_is r k _ m H). Qed.

Lemma follows_mirror_remove r d x y :
  follows_mirror r d -> follows_mirror (follow_removed r x y) (sql_delete_follow x y d).
Proof.
  intros H a b. destruct (H a b) as [H1 H2]. unfold follow_removed.
  rewrite !set_at_removed, follow_row_delete.
  repeat case_decide; follow_keys;
    rewrite ?elem_of_difference, ?elem_of_singleton, ?Itoa_eq_iff, ?H1, ?H2,
            ?andb_true_iff, ?negb_true_iff, ?andb_false_iff, ?Z.eqb_eq, ?Z.eqb_neq; naive_solver.
Qed.

(** ** The follow handlers, run without faults *)

Lemma AddFollows_nf w f :
  no_faults w -> sets_typed (cache w) ->
  US.AddFollows f w
  = (Ok tt, set_tx None (set_db (sql_create_follow f (store_db w))
              (set_cache (follow_added (cache w) (UserFollow.UserID f) (UserFollow.FollowID f)) w))).
Proof.
  intros Hw Ht. unfold US.AddFollows. mstep (tx_begin_nf w Hw).
  set (w1 := set_tx (Some (store_db w)) w).
  assert (H1 : UR.AddFollows f w1 = (Ok tt, set_tx (Some (sql_create_follow f (store_db w))) w1))
    by (by apply (sql_tx_nf _ w1 (store_db w))).
  mstep (catch_ok _ (fun e => tx_rollback ;; throw e) _ _ _ H1).
  set (w2 := set_tx (Some (sql_create_follow f (store_db w))) w1).
  destruct (Ht (UserFollow.UserID f)) as [Hfo _].
  assert (H2 : UCR.AddFollows f w2
               = (Ok tt, set_cache (set_key (follows_key (UserFollow.UserID f))
                   (RSet ({[Itoa (UserFollow.FollowID f)]} ∪ set_at (cache w) (follows_key (UserFollow.UserID f))))
                   (cache w)) w2))
    by (apply rcall_nf_ok; [done|by apply SADD_is]).
  mstep (catch_ok _ (fun e => tx_rollback ;; throw e) _ _ _ H2).
  destruct (sets_typed_set_key _ (follows_key (UserFollow.UserID f))
              ({[Itoa (UserFollow.FollowID f)]} ∪ set_at (cache w) (follows_key (UserFollow.UserID f)))
              Ht (UserFollow.FollowID f)) as [_ Hfa].
  assert (H3 := rcall_nf_ok _ _ _ _ (no_faults_set_cache _ w2 Hw) (SADD_is _ _ _ (Itoa (UserFollow.UserID f)) Hfa)).
  mstep (catch_ok _ (fun e => tx_rollback ;; throw e) _ _ _ H3).
  rewrite (tx_commit_nf _ (sql_create_follow f (store_db w))); done.
Qed.

Lemma RemoveFollows_nf w a b :
  no_faults w -> sets_typed (cache w) ->
  US.RemoveFollows a b w
  = (Ok tt, set_tx None (set_db (sql_delete_follow a b (store_db w))
              (set_cache (follow_removed (cache w) a b) w))).
Proof.
  intros Hw Ht. unfold US.RemoveFollows. mstep (tx_begin_nf w Hw).
  set (w1 := set_tx (Some (store_db w)) w).
  assert (H1 : UR.RemoveFollows a b w1 = (Ok tt, set_tx (Some (sql_delete_follow a b (store_db w))) w1))
    by (by apply (sql_tx_nf _ w1 (store_db w))).
  mstep (catch_ok _ (fun e => tx_rollback ;; throw e) _ _ _ H1).
  set (w2 := set_tx (Some (sql_delete_follow a b (store_db w))) w1).
  destruct (Ht a) as [Hfo _].
  assert (H2 := rcall_nf_ok _ w2 _ _ Hw (SREM_removed _ _ (Itoa b) Hfo)).
  mstep (catch_ok _ (fun e => tx_rollback ;; throw e) _ _ _ H2).
  destruct (sets_typed_removed _ (follows_key a) (Itoa b) Ht b) as [_ Hfa].
  assert (H3 := rcall_nf_ok _ _ _ _ (no_faults_set_cache _ w2 Hw) (SREM_removed _ _ (Itoa a) Hfa)).
  mstep (catch_ok _ (fun e => tx_rollback ;; throw e) _ _ _ H3).
  rewrite (tx_commit_nf _ (sql_delete_follow a b (store_db w))); done.
Qed.

(** ** The follow sets: claims *)

(** C20: Without faults, [AddFollows] succeeds, writes the row, and keeps
    the follow and fan sets typed and mirroring the [user_follow]
    table: after it, [b] follows-of-[a] and [a] fans-of-[b] exactly for
    the rows [a -> b], the new one included. *)
Theorem AddFollows_keeps_mirror w f :
  no_faults w -> follow_inv (cache w) (store_db w) ->
  ∃ w', US.AddFollows f w = (Ok tt, w') ∧ follow_inv (cache w') (store_db w') ∧
        follow_row (store_db w') (UserFollow.UserID f) (UserFollow.FollowID f) = true.
Proof.
  intros Hw [Ht Hm]. rewrite (AddFollows_nf w f Hw Ht). eexists. split; [done|]. simpl.
  split; [split; [unfold follow_added; auto with hcl|by apply follows_mirror_add]|].
  rewrite follow_row_create, !Z.eqb_refl. apply orb_true_r.
Qed.

(** C21: Without faults, [RemoveFollows a b] succeeds, deletes every row
    [a -> b], and keeps the follow and fan sets typed and mirroring the
    table. *)
Theorem RemoveFollows_keeps_mirror w a b :
  no_faults w -> follow_inv (cache w) (store_db w) ->
  ∃ w', US.RemoveFollows a b w = (Ok tt, w') ∧ follow_inv (cache w') (store_db w') ∧
        follow_row (store_db w') a b = false.
Proof.
  intros Hw [Ht Hm]. rewrite (RemoveFollows_nf w a b Hw Ht). eexists. split; [done|]. simpl.
  split; [split; [unfold follow_removed; by do 2 apply sets_typed_removed|by apply follows_mirror_remove]|].
  rewrite follow_row_delete, !Z.eqb_refl. apply andb_false_r.
Qed.

(** Demo: user 1 follows user 2, in the table and in both sets. *)
Definition demo_follow_cache : redis :=
  set_key (follows_key 1) (RSet {[Itoa 2]}) (set_key (fans_key 2) (RSet {[Itoa 1]}) redis_empty).

Definition demo_follow_db : db := set_follows [UserFollow.mk 1 1 2 0] db_empty.

Definition demo_follow_world (fs : list fault) : World :=
  mkWorld demo_follow_cache demo_follow_db None [] 0 [] fs.

Lemma sets_typed_empty : sets_typed redis_empty.
Proof. intros a. split; right; done. Qed.

Lemma set_at_empty k : set_at redis_empty k = ∅.
Proof. done. Qed.

Lemma follow_row_demo a b : follow_row demo_follow_db a b = (1 =? a) && (2 =? b).
Proof. unfold follow_row. cbn -[Z.eqb]. apply orb_false_r. Qed.

Lemma demo_follow_inv : follow_inv demo_follow_cache demo_follow_db.
Proof.
  split; [unfold demo_follow_cache; auto using sets_typed_empty with hcl|].
  intros a b. rewrite follow_row_demo. unfold demo_follow_cache.
  rewrite !set_at_set_key. repeat case_decide; follow_keys;
    rewrite ?set_at_empty, ?elem_of_singleton, ?Itoa_eq_iff, andb_true_iff, !Z.eqb_eq;
    set_solver.
Qed.

Lemma AddFollows_keeps_mirror_witness :
  ∃ w', US.AddFollows (UserFollow.mk 2 2 1 0) (demo_follow_world []) = (Ok tt, w') ∧
        follow_inv (cache w') (store_db w') ∧ follow_row (store_db w') 2 1 = true.
Proof. exact (AddFollows_keeps_mirror (demo_follow_world []) _ eq_refl demo_follow_inv). Defined.

Lemma RemoveFollows_keeps_mirror_witness :
  ∃ w', US.RemoveFollows 1 2 (demo_follow_world []) = (Ok tt, w') ∧
        follow_inv (cache w') (store_db w') ∧ follow_row (store_db w') 1 2 = false.
Proof. exact (RemoveFollows_keeps_mirror (demo_follow_world []) 1 2 eq_refl demo_follow_inv). Defined.

Lemma AddFollows_fans_lost_run w f :
  faults w = [NoFault; NoFault; NoFault; FailBefore] -> sets_typed (cache w) ->
  US.AddFollows f w
  = (Err (ErrRedis NetError),
     set_tx None (set_faults [] (set_cache
       (set_key (follows_key (UserFollow.UserID f))
          (RSet ({[Itoa (UserFollow.FollowID f)]} ∪ set_at (cache w) (follows_key (UserFollow.UserID f))))
          (cache w)) w))).
Proof.
  intros Hf Ht. destruct (Ht (UserFollow.UserID f)) as [Hfo _].
  unfold US.AddFollows. mstep (tx_begin_cons w _ Hf).
  set (w1 := set_tx (Some (store_db w)) (set_faults [NoFault; NoFault; FailBefore] w)).
  assert (H1 := sql_tx_cons (total (fun d => (tt, sql_create_follow f d))) w1 _ _ _ _
                  eq_refl eq_refl eq_refl).
  mstep (catch_ok _ (fun e => tx_rollback ;; throw e) _ _ _ H1).
  set (w2 := set_tx (Some (sql_create_follow f (store_db w))) (set_faults [NoFault; FailBefore] w1)).
  assert (H2 := rcall_cons_ok _ w2 _ _ _ eq_refl (SADD_is _ _ _ (Itoa (UserFollow.FollowID f)) Hfo)).
  mstep (catch_ok _ (fun e => tx_rollback ;; throw e) _ _ _ H2).
  assert (H3 := rcall_cons_lost (SADD (fans_key (UserFollow.FollowID f)) (Itoa (UserFollow.UserID f)))
                  (set_cache (set_key (follows_key (UserFollow.UserID f))
                     (RSet ({[Itoa (UserFollow.FollowID f)]} ∪ set_at (cache w) (follows_key (UserFollow.UserID f))))
                     (cache w)) (set_faults [FailBefore] w2)) _ eq_refl).
  rewrite (bind_err _ _ _ _ _ (catch_err _ (fun e => tx_rollback ;; throw e) _ _ _ H3)).
  reflexivity.
Qed.

(** [AddFollows] rolls back the MySQL transaction when a cache write
    fails, but not the cache: when [SADD] to the fan set is lost after
    the follow set was written, the call fails, the table is unchanged,
    and [a]'s follow set lists [b] with no row [a -> b]; the mirror is
    broken. *)
Theorem AddFollows_fans_lost_breaks_mirror w f :
  faults w = [NoFault; NoFault; NoFault; FailBefore] -> follow_inv (cache w) (store_db w) ->
  follow_row (store_db w) (UserFollow.UserID f) (UserFollow.FollowID f) = false ->
  ∃ w', US.AddFollows f w = (Err (ErrRedis NetError), w') ∧
        store_db w' = store_db w ∧ tx w' = None ∧
        Itoa (UserFollow.FollowID f) ∈ set_at (cache w') (follows_key (UserFollow.UserID f)) ∧
        ¬ follows_mirror (cache w') (store_db w').
Proof.
  intros Hf [Ht _] Hrow. rewrite (AddFollows_fans_lost_run w f Hf Ht).
  eexists. split; [done|]. simpl. rewrite set_at_set_key, decide_True by done.
  split_and!; [done|done|set_solver|].
  intros Hm. destruct (Hm (UserFollow.UserID f) (UserFollow.FollowID f)) as [H1 _].
  rewrite set_at_set_key, decide_True, Hrow in H1 by done.
  assert (false = true) as [=] by (apply H1; set_solver).
Qed.

Lemma AddFollows_fans_lost_breaks_mirror_witness :
  ∃ w', US.AddFollows (UserFollow.mk 2 2 1 0) (demo_follow_world [NoFault; NoFault; NoFault; FailBefore])
        = (Err (ErrRedis NetError), w') ∧
        store_db w' = demo_follow_db ∧ tx w' = None ∧
        Itoa 1 ∈ set_at (cache w') (follows_key 2) ∧ ¬ follows_mirror (cache w') (store_db w').
Proof.
  exact (AddFollows_fans_lost_breaks_mirror (demo_follow_world [NoFault; NoFault; NoFault; FailBefore])
           (UserFollow.mk 2 2 1 0) eq_refl demo_follow_inv eq_refl).
Defined.

(** ** [GetCommonFollows] *)

Lemma parse_members_run ms w :
  UCR.parse_members ms w =
  match mapM Atoi ms with
  | Some ids => (Ok ids, w)
  | None => (Err (ErrApp (ParseFailed "member")), w)
  end.
Proof.
  induction ms as [|m ms IH]; [done|]. simpl. unfold parse_int.
  destruct (Atoi m) as [x|]; simpl; [|reflexivity]. rewrite bind_ret_l.
  unfold bind at 1. rewrite IH. by destruct (mapM Atoi ms).
Qed.

Lemma GetUserByUserID_nf w id :
  no_faults w -> UR.GetUserByUserID id w = (Ok (user_t (store_db w) !! id), w).
Proof. intros Hw. unfold UR.GetUserByUserID. rewrite (sql_direct_nf _ w (user_t (store_db w) !! id) (store_db w) Hw); [|done]. by rewrite set_db_id. Qed.

(** The loop over ids, without faults: every user read, or [UserMissing]
    at the first absent one. *)
Lemma users_of_nf ids w :
  no_faults w ->
  US.users_of ids w =
  (if forallb (fun x => bool_decide (is_Some (user_t (store_db w) !! x))) ids
   then Ok (omap (fun x => user_t (store_db w) !! x) ids) else Err (ErrApp UserMissing), w).
Proof.
  intros Hw. induction ids as [|x ids IH]; [done|]. simpl.
  mstep (GetUserByUserID_nf w x Hw).
  destruct (user_t (store_db w) !! x) as [v|] eqn:E; simpl; [|done].
  unfold bind at 1. rewrite IH. by destruct forallb.
Qed.

Lemma Itoa_elem_fmap (ids : list Z) x : Itoa x ∈ Itoa <$> ids <-> x ∈ ids.
Proof. rewrite list_elem_of_fmap. split; [intros (y & ->%Itoa_inj & ?); done|eauto]. Qed.

Lemma common_members (A B : gset Z) ids x :
  elements (set_map Itoa A ∩ set_map Itoa B : gset string) = Itoa <$> ids ->
  x ∈ ids <-> x ∈ A ∧ x ∈ B.
Proof.
  intros E. rewrite <- Itoa_elem_fmap, <- E, elem_of_elements, elem_of_intersection.
  by rewrite !Itoa_in_set_map.
Qed.

(** ** [GetCommonFollows]: claim *)

(** Without faults, with the follow set of [u] holding the ids [A]
    and the fan set of [o] the ids [B], [GetCommonFollows u o] returns
    the users of [A ∩ B]: the users [u] follows who follow [o] (not the
    users both follow). *)
Theorem GetCommonFollows_follows_fans w u o (A B : gset Z) :
  no_faults w ->
  set_is (cache w) (follows_key u) (set_map Itoa A) ->
  set_is (cache w) (fans_key o) (set_map Itoa B) ->
  (∀ x, x ∈ A -> int64_min <= x <= int64_max) ->
  (∀ x, x ∈ A -> x ∈ B -> is_Some (user_t (store_db w) !! x)) ->
  ∃ us, US.GetCommonFollows u o w = (Ok us, w) ∧
        ∀ v, v ∈ us <-> ∃ x, x ∈ A ∧ x ∈ B ∧ user_t (store_db w) !! x = Some v.
Proof.
  intros Hw HA HB Hint Husers. unfold US.GetCommonFollows, UCR.GetCommonFollows.
  rewrite bind_assoc.
  mstep (rcall_nf_ok _ w _ _ Hw (SINTER_is _ _ _ _ _ HA HB)). rewrite set_cache_cache.
  destruct (mapM_Atoi_canon (elements (set_map Itoa A ∩ set_map Itoa B : gset string))) as (ids & E & Hids).
  { intros m (Hm & _)%elem_of_elements%elem_of_intersection.
    apply elem_of_map in Hm as (x & -> & Hx). eauto. }
  assert (Hp : UCR.parse_members (elements (set_map Itoa A ∩ set_map Itoa B : gset string)) w
              = (Ok ids, w)) by (by rewrite parse_members_run, E).
  rewrite (bind_ok _ _ _ _ _ Hp).
  simpl. rewrite (users_of_nf ids w Hw).
  replace (forallb _ ids) with true.
  2:{ symmetry. apply forallb_forall. intros x Hx%list_elem_of_In. apply bool_decide_eq_true.
      apply (common_members A B ids x Hids) in Hx. naive_solver. }
  eexists. split; [done|]. intros v. rewrite list_elem_of_omap. split.
  - intros (x & Hx & Hv). apply (common_members A B ids x Hids) in Hx. naive_solver.
  - intros (x & HxA & HxB & Hv). exists x. split; [|done].
    by apply (common_members A B ids x Hids).
Qed.

(** Demo: 1 follows 2 and 3, 4 follows 2, 3 follows 4.  Users 1 and 4
    both follow 2; [GetCommonFollows 1 4] returns user 3. *)
Definition demo_user (i : Z) : User.t := User.mk i "u" "" 0 0 "" "" 0.

Definition demo_common_world : World :=
  mkWorld (set_key (follows_key 1) (RSet (set_map Itoa ({[2; 3]} : gset Z)))
             (set_key (fans_key 4) (RSet (set_map Itoa ({[3]} : gset Z))) redis_empty))
          (set_users {[1 := demo_user 1; 2 := demo_user 2; 3 := demo_user 3; 4 := demo_user 4]} db_empty)
          None [] 0 [] [].

Lemma GetCommonFollows_demo : fst (US.GetCommonFollows 1 4 demo_common_world) = Ok [demo_user 3].
Proof. vm_compute. reflexivity. Qed.

Lemma GetCommonFollows_follows_fans_witness :
  ∃ us, US.GetCommonFollows 1 4 demo_common_world = (Ok us, demo_common_world) ∧
        ∀ v, v ∈ us <-> ∃ x, x ∈ ({[2; 3]} : gset Z) ∧ x ∈ ({[3]} : gset Z) ∧
                            user_t (store_db demo_common_world) !! x = Some v.
Proof.
  apply (GetCommonFollows_follows_fans demo_common_world 1 4 {[2; 3]} {[3]}).
  - reflexivity.
  - left. reflexivity.
  - left. reflexivity.
  - intros x. unfold int64_min, int64_max. set_unfold. lia.
  - intros x. set_unfold. intros _ ->. eexists. reflexivity.
Defined.

(** ** A user's likes *)

(** The [likes] column of a user, when the row exists. *)
Definition user_likes (d : db) (u : Z) : option Z := User.Likes <$> user_t d !! u.

Lemma user_likes_inc d u : user_likes (sql_inc_user_likes u d) u = Z.add 1 <$> user_likes d u.
Proof.
  unfold user_likes, sql_inc_user_likes. destruct (user_t d !! u) as [v|] eqn:E; simpl.
  - by rewrite lookup_insert_eq; simpl; f_equal; lia.
  - by rewrite E.
Qed.

Lemma AddLikes_nf w u z :
  no_faults w -> zset_is (cache w) likes_key z ->
  US.AddLikes u w
  = (Ok tt, set_tx None (set_db (sql_inc_user_likes u (store_db w))
              (set_cache (set_key likes_key (RZSet (<[Itoa u := default 0 (z !! Itoa u) + 1]> z))
                           (cache w)) w))).
Proof.
  intros Hw Hz. unfold US.AddLikes. mstep (tx_begin_nf w Hw).
  set (w1 := set_tx (Some (store_db w)) w).
  assert (H1 : UCR.AddLikes u 1 w1
               = (Ok tt, set_cache (set_key likes_key (RZSet (<[Itoa u := default 0 (z !! Itoa u) + 1]> z))
                                    (cache w)) w1)).
  { unfold UCR.AddLikes. by rewrite (bind_ok _ _ _ _ _ (rcall_nf_ok _ w1 _ _ Hw (ZINCRBY_is _ _ _ 1 (Itoa u) Hz))). }
  mstep (catch_ok _ (fun e => tx_rollback ;; throw e) _ _ _ H1).
  assert (H2 := sql_tx_nf (total (fun d => (tt, sql_inc_user_likes u d)))
                  (set_cache (set_key likes_key (RZSet (<[Itoa u := default 0 (z !! Itoa u) + 1]> z))
                                (cache w)) w1) (store_db w) _ _ Hw eq_refl eq_refl).
  mstep (catch_ok _ (fun e => tx_rollback ;; throw e) _ _ _ H2).
  rewrite (tx_commit_nf _ (sql_inc_user_likes u (store_db w))); done.
Qed.

(** ** A user's likes: claims *)

(** [UserService.AddLikes] has no record of who liked: two calls for
    the same user, without faults, add 2 to the cached count and to the
    [likes] column (spec §3 promises at most one like per user). *)
Theorem UserAddLikes_twice_counts_twice w u z :
  no_faults w -> zset_is (cache w) likes_key z ->
  ∃ w', (US.AddLikes u ;; US.AddLikes u) w = (Ok tt, w') ∧
        zset_is (cache w') likes_key (<[Itoa u := default 0 (z !! Itoa u) + 2]> z) ∧
        user_likes (store_db w') u = Z.add 2 <$> user_likes (store_db w) u.
Proof.
  intros Hw Hz. rewrite (bind_ok _ _ _ _ _ (AddLikes_nf w u z Hw Hz)).
  erewrite AddLikes_nf; [|exact Hw|apply zset_is_set_key]. eexists. split; [done|]. simpl.
  rewrite lookup_insert_eq, insert_insert_eq, !user_likes_inc. simpl. split.
  - replace (default 0 (z !! Itoa u) + 1 + 1) with (default 0 (z !! Itoa u) + 2) by lia.
    apply zset_is_set_key.
  - destruct (user_likes (store_db w) u); simpl; [f_equal; lia|done].
Qed.

Lemma UserAddLikes_twice_counts_twice_witness :
  ∃ w', (US.AddLikes 3 ;; US.AddLikes 3) demo_common_world = (Ok tt, w') ∧
        zset_is (cache w') likes_key (<[Itoa 3 := default 0 ((∅ : gmap string Z) !! Itoa 3) + 2]> ∅) ∧
        user_likes (store_db w') 3 = Z.add 2 <$> user_likes (store_db demo_common_world) 3.
Proof.
  apply (UserAddLikes_twice_counts_twice demo_common_world 3 ∅); [reflexivity|].
  right. split; reflexivity.
Defined.

(** [UserService.AddLikes] writes the cache before MySQL and does
    not undo it: when the [UPDATE] is lost, the call fails and the
    transaction is rolled back, but the cached count keeps the extra
    like; the cache and the [likes] column diverge. *)
Theorem UserAddLikes_db_lost_keeps_cache w u z :
  faults w = [NoFault; NoFault; FailBefore] -> zset_is (cache w) likes_key z ->
  ∃ w', US.AddLikes u w = (Err (ErrDb DbNetError), w') ∧
        store_db w' = store_db w ∧ tx w' = None ∧
        zset_is (cache w') likes_key (<[Itoa u := default 0 (z !! Itoa u) + 1]> z).
Proof.
  intros Hf Hz. unfold US.AddLikes. mstep (tx_begin_cons w _ Hf).
  set (w1 := set_tx (Some (store_db w)) (set_faults [NoFault; FailBefore] w)).
  assert (H1 : UCR.AddLikes u 1 w1
               = (Ok tt, set_cache (set_key likes_key (RZSet (<[Itoa u := default 0 (z !! Itoa u) + 1]> z))
                                    (cache w)) (set_faults [FailBefore] w1))).
  { unfold UCR.AddLikes.
    by rewrite (bind_ok _ _ _ _ _ (rcall_cons_ok _ w1 _ _ _ eq_refl (ZINCRBY_is _ _ _ 1 (Itoa u) Hz))). }
  mstep (catch_ok _ (fun e => tx_rollback ;; throw e) _ _ _ H1).
  assert (H2 := sql_tx_cons_lost (total (fun d => (tt, sql_inc_user_likes u d)))
                  (set_cache (set_key likes_key (RZSet (<[Itoa u := default 0 (z !! Itoa u) + 1]> z))
                                (cache w)) (set_faults [FailBefore] w1)) [] eq_refl).
  rewrite (bind_err _ _ _ _ _ (catch_err _ (fun e => tx_rollback ;; throw e) _ _ _ H2)).
  eexists. split; [reflexivity|]. simpl. split_and!; [done|done|apply zset_is_set_key].
Qed.

Lemma UserAddLikes_db_lost_keeps_cache_witness :
  ∃ w', US.AddLikes 3 (set_faults [NoFault; NoFault; FailBefore] demo_common_world)
        = (Err (ErrDb DbNetError), w') ∧
        store_db w' = store_db demo_common_world ∧ tx w' = None ∧
        zset_is (cache w') likes_key (<[Itoa 3 := default 0 ((∅ : gmap string Z) !! Itoa 3) + 1]> ∅).
Proof.
  apply (UserAddLikes_db_lost_keeps_cache (set_faults [NoFault; NoFault; FailBefore] demo_common_world)
           3 ∅); [reflexivity|].
  right. split; reflexivity.
Defined.
