(* ===== verification/Reservation.v ===== *)
(** * The Inventory Reservation Engine (spec §4.3)

    The code: [UserCacheRepository.ChooseItem] (user_cache_repository.go)
    runs a Lua script inside Redis that checks membership, reads
    [remain], decrements it and records the user, as one unit; its Go
    side maps the script's reply to an error.  [UserCacheRepository.AddItem]
    writes the item's hash.  [UserService.AddItem] creates the row and
    caches it; [UserService.ChooseItemPublisher] reserves in the cache and
    publishes ["userID,itemID"] to RabbitMQ; [UserService.ChooseItem] is
    the durable transaction the consumer applies.

    The script is a [cmd] of the Redis model: Redis runs a script without
    interleaving any other command, so a run of scripts from any number
    of clients is a sequence of script runs, each seeing the state the
    previous one left.  The theorems: the script refines the abstract
    check-and-decrement of spec §4.3 ([try_reserve]); stock is conserved
    ([remain] plus the members is the initial stock) and never negative
    over any sequence of calls; the Go side's reply mapping; and the
    durable transaction. *)

From S2P Require Import Prelude Strconv Redis Models Durable World.
Open Scope hcl_scope.
Open Scope Z_scope.

(** [UserCachePrefix] (user_cache_repository.go) *)
Definition UserCachePrefix : string := "hcl:user".

Definition item_users_key (itemID : Z) : string :=
  UserCachePrefix +:+ ":item:" +:+ Itoa itemID +:+ ":users".

Definition item_info_key (itemID : Z) : string :=
  UserCachePrefix +:+ ":item:" +:+ Itoa itemID +:+ ":info".

(** ** The Lua script *)

(** What a script returns to the client: a Lua number becomes an integer
    reply, [nil] becomes a nil reply. *)
Inductive lua_reply : Type :=
| LuaInt (z : Z)
| LuaNil.

#[global] Instance lua_reply_eq_dec : EqDecision lua_reply.
Proof. solve_decision. Defined.

(** Lua's [tonumber] on a hash value, on the decimal integers the code
    writes ([AddItem] and the script's own [HINCRBY]); Lua also reads
    floats, hexadecimal and surrounding spaces, which no writer of these
    hashes produces.  [redis.call('HGET', ...)] gives [false] for an
    absent field and [tonumber(false)] is [nil]. *)
Definition lua_tonumber (v : option string) : option Z := v ≫= Atoz.

(** [redis.call('HGET', k, f)] inside a script: a wrong type raises. *)
Definition lua_HGET (k f : string) : cmd (option string) :=
  h <- get_hash k ;; ret (h !! f).

Module UserCacheRepository.

(** The script of [ChooseItem]: KEYS[1] is the users set, KEYS[2] the
    item hash, ARGV[1] the user. *)
Definition choose_item_script (usersKey itemKey user : string) : cmd lua_reply :=
  userExists <- SISMEMBER usersKey user ;;
  if userExists then ret (LuaInt 0) else
  v <- lua_HGET itemKey "remain" ;;
  match lua_tonumber v with
  | None => ret LuaNil
  | Some remain =>
      if remain <=? 0 then ret (LuaInt remain) else
      HINCRBY itemKey "remain" (-1) ;;
      SADD usersKey user ;;
      ret (LuaInt 1)
  end.

(** The Go side of [ChooseItem]: the switch on the script's reply.  A
    nil reply is the error [redis.Nil] of go-redis. *)
Definition choose_item_switch (reply : lua_reply) : M unit :=
  match reply with
  | LuaNil => throw (ErrRedis NilReply)
  | LuaInt 1 => ret tt
  | LuaInt 0 => throw (ErrApp AlreadyChosen)
  | LuaInt (-1) => throw (ErrApp OutOfStock)
  | LuaInt z => throw (ErrApp (UnknownReply z))
  end.

(** [ChooseItem]: the script through the network, then the switch. *)
Definition ChooseItem (userID itemID : Z) : M unit :=
  reply <- rcall (choose_item_script (item_users_key itemID) (item_info_key itemID)
                                      (Itoa userID)) ;;
  choose_item_switch reply.

Section WithTime.
Context `{TimeCodec}.

(** [AddItem]: [HSET] of the six fields of the item. *)
Definition AddItem (item : CommunityItem.t) : M unit :=
  rcall (HSET (item_info_key (CommunityItem.ID item))
              [("id", Itoa (CommunityItem.ID item));
               ("name", CommunityItem.Name item);
               ("price", Itoa (CommunityItem.Price item));
               ("capacity", Itoa (CommunityItem.Capacity item));
               ("remain", Itoa (CommunityItem.Remain item));
               ("begin", format_time (CommunityItem.Begin item))]).
End WithTime.

End UserCacheRepository.

(** [UserRepository] (user_repository.go): the statements on items. *)
Module UserRepository.

(** [AddItem]: [DB.Create(&item)], which writes the key back. *)
Definition AddItem (item : CommunityItem.t) : M CommunityItem.t :=
  sql_direct (sql_create_item item).

(** [GetItemByID]: [First]; no row is an error. *)
Definition GetItemByID (id : Z) : M CommunityItem.t :=
  sql_direct (fun d => match item_t d !! id with
                       | Some it => Ok (it, d)
                       | None => Err DbRecordNotFound
                       end).

(** [ChooseItem]: [tx.Create(userItem)]. *)
Definition ChooseItem (userItem : UserItem.t) : M UserItem.t :=
  sql_tx (total (sql_create_user_item userItem)).

(** [UpdateItemInfo]: [remain = remain-1] in the transaction. *)
Definition UpdateItemInfo (id : Z) : M unit :=
  sql_tx (total (fun d => (tt, sql_dec_remain id d))).

End UserRepository.

(** The body of the message [ChooseItemPublisher] publishes:
    [fmt.Sprintf("%d,%d", userID, itemID)]. *)
Definition choose_item_msg (userID itemID : Z) : string :=
  Itoa userID +:+ String ","%char (Itoa itemID).

(** [UserService] (user_service.go): the item operations. *)
Module UserService.
Section WithTime.
Context `{TimeCodec}.

(** [AddItem]: the stock starts full, the row is created, read back
    and cached. *)
Definition AddItem (item : CommunityItem.t) : M unit :=
  let item := CommunityItem.mk (CommunityItem.ID item) (CommunityItem.Name item)
                (CommunityItem.Capacity item) (CommunityItem.Capacity item)
                (CommunityItem.Price item) (CommunityItem.Begin item) in
  created <- UserRepository.AddItem item ;;
  newItem <- UserRepository.GetItemByID (CommunityItem.ID created) ;;
  UserCacheRepository.AddItem newItem.
End WithTime.

(** [ChooseItem]: the durable reservation, one transaction that inserts
    a [user_item] row and decrements [remain]; every failure rolls
    back. *)
Definition ChooseItem (userID itemID : Z) : M unit :=
  tx_begin ;;
  now <- time_now ;;
  catch (UserRepository.ChooseItem (UserItem.mk 0 userID itemID now) ;; ret tt)
        (fun e => tx_rollback ;; throw e) ;;
  catch (UserRepository.UpdateItemInfo itemID) (fun e => tx_rollback ;; throw e) ;;
  catch tx_commit (fun e => tx_rollback ;; throw e).

(** [ChooseItemPublisher]: the cache reservation, then dial, channel,
    queue declaration and publish; a failure after the reservation
    returns the error and leaves the reservation in place. *)
Definition ChooseItemPublisher (userID itemID : Z) : M unit :=
  UserCacheRepository.ChooseItem userID itemID ;;
  mq_call ;;
  mq_call ;;
  mq_call ;;
  mq_publish (choose_item_msg userID itemID).
End UserService.

(** ** The abstract reservation of spec §4.3

    Per item: the stock left and the set of users who reserved. *)
Record item_state : Type := mkItemState {
  st_remain : Z;
  st_members : gset string
}.

Inductive reserve_outcome : Type :=
| Reserved
| AlreadyReserved
| NoStock.

Definition try_reserve (s : item_state) (actor : string) : reserve_outcome * item_state :=
  if decide (actor ∈ st_members s) then (AlreadyReserved, s)
  else if decide (st_remain s <= 0) then (NoStock, s)
  else (Reserved, mkItemState (st_remain s - 1) ({[actor]} ∪ st_members s)).

(** The item as Redis holds it: the users set and the [remain] field of
    the hash, a canonical 64-bit integer. *)
Definition holds_item (r : redis) (itemID : Z) (s : item_state) : Prop :=
  set_is r (item_users_key itemID) (st_members s) ∧
  ∃ h, kv r !! item_info_key itemID = Some (RHash h) ∧
       h !! "remain" = Some (Itoa (st_remain s)) ∧ in_int64 (st_remain s) = true.

(** The reply the script gives for an outcome. *)
Definition reply_of (o : reserve_outcome) (s : item_state) : lua_reply :=
  match o with
  | Reserved => LuaInt 1
  | AlreadyReserved => LuaInt 0
  | NoStock => LuaInt (st_remain s)
  end.

(** ** The script refines [try_reserve] *)

Lemma item_keys_ne i : item_users_key i ≠ item_info_key i.
Proof.
  unfold item_users_key, item_info_key. intros H.
  apply (inj (String.append _)), (inj (String.append _)), (inj (String.append _)) in H.
  discriminate H.
Qed.

(** The script touches the two keys of its item and nothing else. *)
Definition frame_item (i : Z) (r r' : redis) : Prop :=
  volatile r' = volatile r ∧
  ∀ k, k ≠ item_users_key i -> k ≠ item_info_key i -> kv r' !! k = kv r !! k.

Lemma frame_item_refl i r : frame_item i r r.
Proof. done. Qed.

Lemma frame_item_trans i r1 r2 r3 :
  frame_item i r1 r2 -> frame_item i r2 r3 -> frame_item i r1 r3.
Proof.
  intros [V1 K1] [V2 K2]. split; [congruence|].
  intros k H1 H2. by rewrite K2, K1.
Qed.

Lemma holds_item_hint r i s :
  holds_item r i s -> hint r (item_info_key i) "remain" = Some (st_remain s).
Proof.
  intros [_ (h & Hh & Hrem & Hin)]. unfold hint, hash_at. rewrite Hh. simpl.
  rewrite Hrem. simpl. apply redis_int_Itoa, in_int64_spec, Hin.
Qed.

Lemma lua_tonumber_Itoa z : lua_tonumber (Some (Itoa z)) = Some z.
Proof. apply Atoz_Itoa. Qed.

Lemma script_refines r i s actor :
  holds_item r i s ->
  ∃ r', UserCacheRepository.choose_item_script (item_users_key i) (item_info_key i) actor r
          = (Ok (reply_of (try_reserve s actor).1 s), r')
      ∧ holds_item r' i (try_reserve s actor).2 ∧ frame_item i r r'.
Proof.
  intros [Hm (h & Hh & Hrem & Hin)].
  unfold UserCacheRepository.choose_item_script, try_reserve.
  mstep (SISMEMBER_is _ _ _ actor Hm).
  destruct (decide (actor ∈ st_members s)) as [Hmem|Hmem].
  { rewrite bool_decide_true by done. eexists. split; [reflexivity|].
    split; [split; eauto|]. apply frame_item_refl. }
  rewrite bool_decide_false by done. unfold lua_HGET.
  rewrite bind_assoc. mstep (get_hash_some _ _ _ Hh). rewrite bind_ret_l.
  rewrite Hrem, lua_tonumber_Itoa.
  destruct (decide (st_remain s <= 0)) as [Hle|Hgt].
  { rewrite (proj2 (Z.leb_le _ _) Hle). eexists. split; [reflexivity|].
    split; [split; eauto|]. apply frame_item_refl. }
  rewrite (proj2 (Z.leb_gt _ _)) by lia.
  apply in_int64_spec in Hin.
  assert (in_int64 (st_remain s + -1) = true) as Hin' by (apply in_int64_spec;
    unfold int64_min, int64_max in *; lia).
  mstep (HINCRBY_ok r (item_info_key i) "remain" h (st_remain s) (-1) (or_introl Hh)
          (or_intror (ex_intro _ _ (conj Hrem (redis_int_Itoa _ Hin)))) Hin').
  pose proof (item_keys_ne i) as Hne.
  mstep (SADD_is _ _ _ actor (set_is_set_key_ne _ _ _
          (RHash (<[("remain" : string) := Itoa (st_remain s + -1)]> h)) _ (not_eq_sym Hne) Hm)).
  eexists. split; [reflexivity|]. split.
  - split; [apply set_is_set_key|]. eexists. simpl.
    rewrite lookup_insert_ne by done. rewrite lookup_insert_eq.
    split; [reflexivity|]. rewrite lookup_insert_eq.
    replace (st_remain s - 1) with (st_remain s + -1) by lia. done.
  - split; [done|]. intros k H1 H2. simpl. by rewrite !lookup_insert_ne.
Qed.

(** ** Any sequence of reservations *)

(** Redis runs one script at a time: concurrent calls of [ChooseItem] on
    an item take effect as a sequence of script runs. *)
Fixpoint run_scripts (i : Z) (actors : list string) : cmd (list lua_reply) :=
  match actors with
  | [] => ret []
  | a :: rest =>
      x <- UserCacheRepository.choose_item_script (item_users_key i) (item_info_key i) a ;;
      xs <- run_scripts i rest ;;
      ret (x :: xs)
  end.

Fixpoint reserve_seq (s : item_state) (actors : list string) : list lua_reply * item_state :=
  match actors with
  | [] => ([], s)
  | a :: rest =>
      let p := try_reserve s a in
      let q := reserve_seq p.2 rest in
      (reply_of p.1 s :: q.1, q.2)
  end.

(** The users whose call succeeded (reply 1). *)
Definition winners (actors : list string) (replies : list lua_reply) : list string :=
  map fst (filter (fun p => p.2 = LuaInt 1) (zip actors replies)).

Lemma run_scripts_spec i actors : ∀ r s,
  holds_item r i s ->
  ∃ r', run_scripts i actors r = (Ok (reserve_seq s actors).1, r')
      ∧ holds_item r' i (reserve_seq s actors).2 ∧ frame_item i r r'.
Proof.
  induction actors as [|a rest IH]; intros r s Hs; simpl.
  { eexists. split; [reflexivity|]. split; [done|]. apply frame_item_refl. }
  destruct (script_refines r i s a Hs) as (r1 & E1 & H1 & F1).
  mstep E1. destruct (IH r1 _ H1) as (r2 & E2 & H2 & F2).
  mstep E2. eexists. split; [reflexivity|]. split; [done|].
  by eapply frame_item_trans.
Qed.

Lemma reply_of_one o s :
  (o = NoStock -> st_remain s <= 0) -> reply_of o s = LuaInt 1 -> o = Reserved.
Proof. destruct o; simpl; [done|done|]. intros H [= E]. specialize (H eq_refl). lia. Qed.

Lemma try_reserve_cases s a :
  (try_reserve s a = (AlreadyReserved, s) ∧ a ∈ st_members s) ∨
  (try_reserve s a = (NoStock, s) ∧ a ∉ st_members s ∧ st_remain s <= 0) ∨
  (try_reserve s a = (Reserved, mkItemState (st_remain s - 1) ({[a]} ∪ st_members s))
   ∧ a ∉ st_members s ∧ 0 < st_remain s).
Proof.
  unfold try_reserve. destruct (decide (a ∈ st_members s)); [by left|].
  destruct (decide (st_remain s <= 0)); right; [left|right]; split_and!; auto with lia.
Qed.

(** Conservation: over any sequence of calls, the stock left plus the
    winners is the stock at the start, the stock never goes negative,
    and every winner is a new member, recorded once. *)
Lemma reserve_seq_conserves actors : ∀ s,
  0 <= st_remain s ->
  let q := reserve_seq s actors in
  let w := winners actors q.1 in
  0 <= st_remain q.2 ∧ st_remain q.2 + Z.of_nat (length w) = st_remain s ∧
  st_members q.2 = list_to_set w ∪ st_members s ∧ NoDup w ∧
  Forall (fun a => a ∉ st_members s) w.
Proof.
  unfold winners.
  induction actors as [|a rest IH]; intros s Hs; simpl.
  { split_and!; [done|lia|set_solver|constructor|constructor]. }
  destruct (try_reserve_cases s a) as [[E Ha]|[[E [Ha Hr]]|[E [Ha Hr]]]]; rewrite E; simpl.
  - destruct (IH s Hs) as (H1 & H2 & H3 & H4 & H5). by split_and!.
  - rewrite filter_cons_False by (simpl; intros [= E']; lia).
    destruct (IH s Hs) as (H1 & H2 & H3 & H4 & H5). by split_and!.
  - destruct (IH (mkItemState (st_remain s - 1) ({[a]} ∪ st_members s)) ltac:(simpl; lia))
      as (H1 & H2 & H3 & H4 & H5); simpl in *.
    split_and!; [done|lia|set_solver| |].
    + constructor; [|done]. intros Hin.
      eapply Forall_forall in H5; [|exact Hin]. set_solver.
    + constructor; [done|]. eapply Forall_impl; [exact H5|]. set_solver.
Qed.

(** C1: (spec §8) Any sequence of [ChooseItem] calls on an item that starts
    with stock [N] and no members: at most [N] calls succeed, each
    winner is a member exactly once, and [remain] ends at [N] minus the
    winners. *)
Theorem choose_item_sequence_bounded r i N actors :
  holds_item r i (mkItemState N ∅) -> 0 <= N ->
  ∃ replies r', run_scripts i actors r = (Ok replies, r') ∧
    Z.of_nat (length (winners actors replies)) <= N ∧
    NoDup (winners actors replies) ∧
    set_is r' (item_users_key i) (list_to_set (winners actors replies)) ∧
    hint r' (item_info_key i) "remain" = Some (N - Z.of_nat (length (winners actors replies))) ∧
    frame_item i r r'.
Proof.
  intros Hs HN.
  destruct (run_scripts_spec i actors r _ Hs) as (r' & E & H' & F).
  destruct (reserve_seq_conserves actors (mkItemState N ∅) HN) as (H1 & H2 & H3 & H4 & _).
  simpl in *. exists (reserve_seq (mkItemState N ∅) actors).1, r'.
  split_and!; [done|lia|done| | |done].
  - destruct H' as [Hm _]. rewrite H3, (right_id_L ∅ union) in Hm. done.
  - rewrite (holds_item_hint _ _ _ H'). f_equal. lia.
Qed.

(** ** The Go side of [ChooseItem] *)

Lemma ChooseItem_run w w0 u i s :
  next_fault w = (NoFault, w0) -> holds_item (cache w) i s ->
  ∃ r', UserCacheRepository.ChooseItem u i w
          = UserCacheRepository.choose_item_switch
              (reply_of (try_reserve s (Itoa u)).1 s) (set_cache r' w0)
      ∧ holds_item r' i (try_reserve s (Itoa u)).2 ∧ frame_item i (cache w) r'.
Proof.
  intros Hnf Hs.
  destruct (script_refines (cache w) i s (Itoa u) Hs) as (r' & E & H' & F).
  exists r'. split; [|done]. unfold UserCacheRepository.ChooseItem.
  by mstep (rcall_ok _ w w0 _ _ Hnf E).
Qed.

Lemma ChooseItem_reserve_run w u i s :
  no_faults w -> holds_item (cache w) i s ->
  Itoa u ∉ st_members s -> 0 < st_remain s ->
  ∃ r', UserCacheRepository.ChooseItem u i w = (Ok tt, set_cache r' w) ∧
        holds_item r' i (mkItemState (st_remain s - 1) ({[Itoa u]} ∪ st_members s)) ∧
        frame_item i (cache w) r'.
Proof.
  intros Hnf Hs Hu Hr.
  destruct (ChooseItem_run w w u i s (next_fault_nf w Hnf) Hs) as (r' & E & H' & F).
  unfold try_reserve in *. rewrite decide_False in E, H' by done.
  rewrite decide_False in E, H' by lia. simpl in *. rewrite E.
  eauto.
Qed.

(** A user already recorded for the item is refused with "用户已选择此商品"
    (already chosen), and nothing changes. *)
Theorem ChooseItem_already_member w u i s :
  no_faults w -> holds_item (cache w) i s -> Itoa u ∈ st_members s ->
  ∃ r', UserCacheRepository.ChooseItem u i w = (Err (ErrApp AlreadyChosen), set_cache r' w) ∧
        holds_item r' i s.
Proof.
  intros Hnf Hs Hu.
  destruct (ChooseItem_run w w u i s (next_fault_nf w Hnf) Hs) as (r' & E & H' & F).
  unfold try_reserve in *. rewrite decide_True in E, H' by done. simpl in *.
  rewrite E. eauto.
Qed.

(** C3: The item is sold out ([remain] is 0) and the user is new: the script
    returns [remain], that is 0, and the Go switch reads 0 as "用户已选择此商品"
    (already chosen).  The out-of-stock error "库存不足" is only given for a
    [remain] of -1, which the cache never reaches from a non-negative
    stock: a sold-out item is reported as already chosen. *)
Theorem ChooseItem_sold_out_reports_already_chosen w u i s :
  no_faults w -> holds_item (cache w) i s ->
  Itoa u ∉ st_members s -> st_remain s = 0 ->
  ∃ r', UserCacheRepository.ChooseItem u i w = (Err (ErrApp AlreadyChosen), set_cache r' w) ∧
        holds_item r' i s.
Proof.
  intros Hnf Hs Hu Hr.
  destruct (ChooseItem_run w w u i s (next_fault_nf w Hnf) Hs) as (r' & E & H' & F).
  unfold try_reserve in *. rewrite decide_False in E, H' by done.
  rewrite decide_True in E, H' by lia. simpl in *. rewrite Hr in E. rewrite E. eauto.
Qed.

(** An item that was never cached (no hash, the user not in the empty
    users set): the script returns [nil] and the call fails with the
    go-redis error [redis.Nil], not with "库存不足" (out of stock). *)
Theorem ChooseItem_unknown_item w u i :
  no_faults w -> kv (cache w) !! item_users_key i = None ->
  kv (cache w) !! item_info_key i = None ->
  UserCacheRepository.ChooseItem u i w = (Err (ErrRedis NilReply), w).
Proof.
  intros Hnf Hm Hi.
  assert (UserCacheRepository.choose_item_script (item_users_key i) (item_info_key i)
            (Itoa u) (cache w) = (Ok LuaNil, cache w)) as E.
  { unfold UserCacheRepository.choose_item_script.
    mstep (SISMEMBER_is (cache w) _ ∅ (Itoa u) (or_intror (conj Hm eq_refl))).
    rewrite bool_decide_false by set_solver. unfold lua_HGET. rewrite bind_assoc.
    mstep (get_hash_is (cache w) _ ∅ (or_intror (conj Hi eq_refl))).
    by rewrite bind_ret_l, lookup_empty. }
  unfold UserCacheRepository.ChooseItem. mstep (rcall_nf _ w _ _ Hnf E).
  simpl. by destruct w.
Qed.

(** ** The durable reservation the consumer applies *)

(** The row after [remain = remain-1]. *)
Definition dec_item (i : Z) (it : CommunityItem.t) : CommunityItem.t :=
  CommunityItem.mk i (CommunityItem.Name it) (CommunityItem.Capacity it)
    (CommunityItem.Remain it - 1) (CommunityItem.Price it) (CommunityItem.Begin it).

Lemma time_now_run w : time_now w = (Ok (clock w), w).
Proof. reflexivity. Qed.

Lemma catch_seq_ok {A} (m : M A) h w a w' :
  m w = (Ok a, w') -> catch (m ;; ret tt) h w = (Ok tt, w').
Proof. intros E. unfold catch. by rewrite (bind_ok _ _ _ _ _ E). Qed.

Lemma durable_choose_item_run w u i it :
  no_faults w -> item_t (store_db w) !! i = Some it ->
  ∃ w', UserService.ChooseItem u i w = (Ok tt, w') ∧
    user_items_of (store_db w') u i
      = user_items_of (store_db w) u i
        ++ [UserItem.mk (user_item_seq (store_db w)) u i (clock w)] ∧
    item_t (store_db w') !! i = Some (dec_item i it) ∧
    no_faults w' ∧ clock w' = clock w.
Proof.
  intros Hnf Hit. unfold UserService.ChooseItem.
  mstep (tx_begin_nf w Hnf). mstep (time_now_run (set_tx (Some (store_db w)) w)).
  set (w1 := set_tx (Some (store_db w)) w).
  set (ui := UserItem.mk 0 u i (clock w1)).
  destruct (sql_create_user_item ui (store_db w)) as [ui' d1] eqn:E1.
  mstep (catch_seq_ok (UserRepository.ChooseItem ui) (fun e => tx_rollback ;; throw e) w1 ui'
           (set_tx (Some d1) w1)
           (sql_tx_nf (total (sql_create_user_item ui)) w1 (store_db w) ui' d1 Hnf eq_refl
              ltac:(by rewrite <- E1))).
  set (w2 := set_tx (Some d1) w1).
  mstep (catch_ok (UserRepository.UpdateItemInfo i) (fun e => tx_rollback ;; throw e) w2 tt
           (set_tx (Some (sql_dec_remain i d1)) w2)
           (sql_tx_nf _ w2 d1 tt (sql_dec_remain i d1) Hnf eq_refl eq_refl)).
  set (w3 := set_tx (Some (sql_dec_remain i d1)) w2).
  rewrite (catch_ok _ _ _ _ _ (tx_commit_nf w3 _ Hnf eq_refl)).
  eexists. split; [reflexivity|]. simpl.
  unfold sql_create_user_item in E1. injection E1 as <- <-. simpl.
  unfold sql_dec_remain, user_items_of. simpl. rewrite Hit. simpl.
  split_and!; [|by rewrite lookup_insert_eq|done|done].
  rewrite filter_app, filter_cons_True by done. done.
Qed.

(** C33: Redelivery is not idempotent: the same message applied twice inserts
    two rows for the pair and takes two from [remain]; from a [remain]
    of 0 the durable stock becomes negative. *)
Theorem UserService_ChooseItem_twice w u i it :
  no_faults w -> item_t (store_db w) !! i = Some it ->
  ∃ w', (UserService.ChooseItem u i ;; UserService.ChooseItem u i) w = (Ok tt, w') ∧
    length (user_items_of (store_db w') u i) = (length (user_items_of (store_db w) u i) + 2)%nat ∧
    option_map CommunityItem.Remain (item_t (store_db w') !! i) = Some (CommunityItem.Remain it - 2).
Proof.
  intros Hnf Hit.
  destruct (durable_choose_item_run w u i it Hnf Hit) as (w1 & E1 & R1 & I1 & N1 & _).
  destruct (durable_choose_item_run w1 u i _ N1 I1) as (w2 & E2 & R2 & I2 & _).
  exists w2. mstep E1. split; [done|]. split.
  - rewrite R2, R1, !length_app. simpl. lia.
  - rewrite I2. simpl. f_equal. lia.
Qed.

(** ** Publishing the reservation *)

(** Without failures, a successful reservation is followed by exactly
    one message ["userID,itemID"] at the tail of the queue. *)
Theorem ChooseItemPublisher_publishes w u i s :
  no_faults w -> holds_item (cache w) i s ->
  Itoa u ∉ st_members s -> 0 < st_remain s ->
  ∃ r', UserService.ChooseItemPublisher u i w
          = (Ok tt, set_queue (queue w ++ [choose_item_msg u i]) (set_cache r' w)) ∧
        holds_item r' i (mkItemState (st_remain s - 1) ({[Itoa u]} ∪ st_members s)).
Proof.
  intros Hnf Hs Hu Hr.
  destruct (ChooseItem_reserve_run w u i s Hnf Hs Hu Hr) as (r' & E & H' & _).
  exists r'. split; [|done]. unfold UserService.ChooseItemPublisher.
  mstep E. assert (Hnf' : no_faults (set_cache r' w)) by done.
  do 3 mstep (mq_call_nf _ Hnf'). by rewrite (mq_publish_nf _ _ Hnf').
Qed.

(** The durability gap of spec §4.3: when the publish request is lost
    after the cache reservation, the caller gets an error, the
    reservation stays in the cache, and no message is queued: the durable
    store will never see this reservation. *)
Theorem ChooseItemPublisher_publish_lost w u i s :
  faults w = [NoFault; NoFault; NoFault; NoFault; FailBefore] ->
  holds_item (cache w) i s -> Itoa u ∉ st_members s -> 0 < st_remain s ->
  ∃ w', UserService.ChooseItemPublisher u i w = (Err ErrMq, w') ∧
        holds_item (cache w') i (mkItemState (st_remain s - 1) ({[Itoa u]} ∪ st_members s)) ∧
        queue w' = queue w.
Proof.
  intros Hf Hs Hu Hr.
  destruct (ChooseItem_run w _ u i s (next_fault_cons w _ _ Hf) Hs) as (r' & E & H' & _).
  unfold try_reserve in *. rewrite decide_False in E, H' by done.
  rewrite decide_False in E, H' by lia. simpl in E, H'.
  unfold UserService.ChooseItemPublisher. mstep E.
  unfold bind, mq_call, mq_publish, next_fault. simpl.
  eexists. split; [reflexivity|]. done.
Qed.

(** ** Creating an item starts its reservation state *)
Section AddItem.
Context `{TimeCodec}.

(** [AddItem] with a fresh key: the row has [remain] equal to the
    capacity, and the cache holds the item with stock equal to the
    capacity and no members, the initial state of
    [choose_item_sequence_bounded]. *)
Theorem UserService_AddItem_stocks w item h0 :
  no_faults w -> CommunityItem.ID item = 0 ->
  item_t (store_db w) !! item_seq (store_db w) = None ->
  hash_is (cache w) (item_info_key (item_seq (store_db w))) h0 ->
  set_is (cache w) (item_users_key (item_seq (store_db w))) ∅ ->
  in_int64 (CommunityItem.Capacity item) = true ->
  ∃ w', UserService.AddItem item w = (Ok tt, w') ∧
    holds_item (cache w') (item_seq (store_db w))
               (mkItemState (CommunityItem.Capacity item) ∅) ∧
    option_map CommunityItem.Remain (item_t (store_db w') !! item_seq (store_db w))
      = Some (CommunityItem.Capacity item).
Proof.
  intros Hnf Hid Hfree Hh Hm Hcap.
  set (key := item_seq (store_db w)).
  set (it := CommunityItem.mk key (CommunityItem.Name item) (CommunityItem.Capacity item)
               (CommunityItem.Capacity item) (CommunityItem.Price item)
               (CommunityItem.Begin item)).
  set (d1 := set_items (<[key := it]> (item_t (store_db w))) (Z.max key (key + 1)) (store_db w)).
  unfold UserService.AddItem.
  assert (E1 : UserRepository.AddItem
                 (CommunityItem.mk (CommunityItem.ID item) (CommunityItem.Name item)
                    (CommunityItem.Capacity item) (CommunityItem.Capacity item)
                    (CommunityItem.Price item) (CommunityItem.Begin item)) w
               = (Ok it, set_db d1 w)).
  { apply sql_direct_nf; [done|]. unfold sql_create_item. simpl.
    rewrite decide_True by done. unfold key. by rewrite Hfree. }
  mstep E1.
  assert (E2 : UserRepository.GetItemByID key (set_db d1 w) = (Ok it, set_db d1 (set_db d1 w))).
  { apply sql_direct_nf; [done|]. simpl. by simplify_map_eq. }
  mstep E2.
  set (w2 := set_db d1 (set_db d1 w)).
  unfold UserCacheRepository.AddItem.
  rewrite (rcall_nf _ w2 _ _ Hnf (HSET_is (cache w2) _ h0 _ _ Hh)). simpl lift_redis.
  eexists. split; [reflexivity|]. split.
  - split.
    + apply set_is_set_key_ne; [|done]. apply not_eq_sym, item_keys_ne.
    + eexists. split; [simpl; apply lookup_insert_eq|]. simpl.
      split; [|done]. by simplify_map_eq.
  - simpl. by simplify_map_eq.
Qed.
End AddItem.


(** ** The properties of the reservation engine *)

(** C2: The ChooseItem Lua script refines the abstract check-and-decrement
    of spec §4.3: its reply and its effect on the users set and on
    [remain] are those of [try_reserve], and it touches no other key. *)
Theorem choose_item_script_spec r i s actor :
  holds_item r i s ->
  ∃ r', UserCacheRepository.choose_item_script (item_users_key i) (item_info_key i) actor r
          = (Ok (reply_of (try_reserve s actor).1 s), r')
      ∧ holds_item r' i (try_reserve s actor).2 ∧ frame_item i r r'.
Proof. apply script_refines. Qed.

(** C4: A user who is not a member, on an item with stock, reserves: the
    call succeeds, the stock drops by one, the user is recorded, and no
    other key changes. *)
Theorem ChooseItem_reserves w u i s :
  no_faults w -> holds_item (cache w) i s ->
  Itoa u ∉ st_members s -> 0 < st_remain s ->
  ∃ r', UserCacheRepository.ChooseItem u i w = (Ok tt, set_cache r' w) ∧
        holds_item r' i (mkItemState (st_remain s - 1) ({[Itoa u]} ∪ st_members s)) ∧
        frame_item i (cache w) r'.
Proof. apply ChooseItem_reserve_run. Qed.

(** Without failures the durable transaction commits: one new
    [user_item] row for the pair, and [remain] one lower, whatever it
    was: the code checks neither an existing row for the pair nor a
    lower bound. *)
Theorem UserService_ChooseItem_commits w u i it :
  no_faults w -> item_t (store_db w) !! i = Some it ->
  ∃ w', UserService.ChooseItem u i w = (Ok tt, w') ∧
    user_items_of (store_db w') u i
      = user_items_of (store_db w) u i
        ++ [UserItem.mk (user_item_seq (store_db w)) u i (clock w)] ∧
    item_t (store_db w') !! i = Some (dec_item i it).
Proof.
  intros Hnf Hit. destruct (durable_choose_item_run w u i it Hnf Hit) as (w' & E & R & I & _).
  eauto.
Qed.

(** ** The theorems on concrete inputs

    Item 7 with a stock of 2 and no members; users 1, 2 and 3. *)
Definition demo_cache (remain : Z) (members : gset string) : redis :=
  mkRedis (<[item_info_key 7 := RHash {["remain" := Itoa remain]}]>
           (if decide (members = ∅) then ∅ else {[item_users_key 7 := RSet members]})) ∅.

Definition demo_world (c : redis) (d : db) (fs : list fault) : World :=
  mkWorld c d None [] 0 [] fs.

Definition demo_db : db :=
  set_items {[7 := CommunityItem.mk 7 "yoga class" 2 0 10 0]} 8 db_empty.

Lemma choose_item_sequence_bounded_witness :
  ∃ replies r', run_scripts 7 ["1"; "2"; "3"] (demo_cache 2 ∅) = (Ok replies, r') ∧
    Z.of_nat (length (winners ["1"; "2"; "3"] replies)) <= 2 ∧
    hint r' (item_info_key 7) "remain"
      = Some (2 - Z.of_nat (length (winners ["1"; "2"; "3"] replies))).
Proof.
  destruct (choose_item_sequence_bounded (demo_cache 2 ∅) 7 2 ["1"; "2"; "3"])
    as (rs & r' & E & L & _ & _ & R & _).
  - split; [right; split; reflexivity|]. eexists. split_and!; reflexivity.
  - lia.
  - exists rs, r'. split_and!; assumption.
Defined.

Lemma ChooseItem_reserves_witness :
  ∃ r', UserCacheRepository.ChooseItem 1 7 (demo_world (demo_cache 2 ∅) db_empty [])
          = (Ok tt, set_cache r' (demo_world (demo_cache 2 ∅) db_empty [])) ∧
        holds_item r' 7 (mkItemState 1 {["1"]}).
Proof.
  destruct (ChooseItem_reserves (demo_world (demo_cache 2 ∅) db_empty []) 1 7 (mkItemState 2 ∅))
    as (r' & E & H & _).
  - reflexivity.
  - split; [right; split; reflexivity|]. eexists. split_and!; reflexivity.
  - simpl. set_solver.
  - simpl. lia.
  - exists r'. split; [exact E|]. simpl in H. by rewrite (right_id_L ∅ union) in H.
Defined.

Lemma ChooseItem_already_member_witness :
  ∃ r', UserCacheRepository.ChooseItem 1 7 (demo_world (demo_cache 1 {["1"]}) db_empty [])
          = (Err (ErrApp AlreadyChosen), set_cache r' (demo_world (demo_cache 1 {["1"]}) db_empty [])).
Proof.
  destruct (ChooseItem_already_member (demo_world (demo_cache 1 {["1"]}) db_empty []) 1 7
              (mkItemState 1 {["1"]})) as (r' & E & _).
  - reflexivity.
  - split; [left; reflexivity|]. eexists. split_and!; reflexivity.
  - simpl. set_solver.
  - exists r'. exact E.
Defined.

Lemma ChooseItem_sold_out_reports_already_chosen_witness :
  ∃ r', UserCacheRepository.ChooseItem 3 7 (demo_world (demo_cache 0 {["1"; "2"]}) db_empty [])
          = (Err (ErrApp AlreadyChosen),
             set_cache r' (demo_world (demo_cache 0 {["1"; "2"]}) db_empty [])).
Proof.
  destruct (ChooseItem_sold_out_reports_already_chosen
              (demo_world (demo_cache 0 {["1"; "2"]}) db_empty []) 3 7
              (mkItemState 0 {["1"; "2"]})) as (r' & E & _).
  - reflexivity.
  - split; [left; reflexivity|]. eexists. split_and!; reflexivity.
  - simpl. set_solver.
  - reflexivity.
  - exists r'. exact E.
Defined.

Lemma ChooseItem_unknown_item_witness :
  UserCacheRepository.ChooseItem 1 9 (demo_world (demo_cache 2 ∅) db_empty [])
  = (Err (ErrRedis NilReply), demo_world (demo_cache 2 ∅) db_empty []).
Proof. apply ChooseItem_unknown_item; reflexivity. Defined.

Lemma UserService_ChooseItem_commits_witness :
  ∃ w', UserService.ChooseItem 1 7 (demo_world redis_empty demo_db []) = (Ok tt, w') ∧
    item_t (store_db w') !! 7 = Some (dec_item 7 (CommunityItem.mk 7 "yoga class" 2 0 10 0)).
Proof.
  destruct (UserService_ChooseItem_commits (demo_world redis_empty demo_db []) 1 7
              (CommunityItem.mk 7 "yoga class" 2 0 10 0)) as (w' & E & _ & I).
  - reflexivity.
  - reflexivity.
  - exists w'. split; assumption.
Defined.

(** From a durable [remain] of 0, a redelivered message makes it -2. *)
Lemma UserService_ChooseItem_twice_witness :
  ∃ w', (UserService.ChooseItem 1 7 ;; UserService.ChooseItem 1 7)
          (demo_world redis_empty demo_db []) = (Ok tt, w') ∧
    option_map CommunityItem.Remain (item_t (store_db w') !! 7) = Some (-2).
Proof.
  destruct (UserService_ChooseItem_twice (demo_world redis_empty demo_db []) 1 7
              (CommunityItem.mk 7 "yoga class" 2 0 10 0)) as (w' & E & _ & R).
  - reflexivity.
  - reflexivity.
  - exists w'. split; [exact E|]. exact R.
Defined.

Lemma ChooseItemPublisher_publishes_witness :
  ∃ r', UserService.ChooseItemPublisher 1 7 (demo_world (demo_cache 2 ∅) db_empty [])
          = (Ok tt, set_queue ["1,7"] (set_cache r' (demo_world (demo_cache 2 ∅) db_empty []))).
Proof.
  destruct (ChooseItemPublisher_publishes (demo_world (demo_cache 2 ∅) db_empty []) 1 7
              (mkItemState 2 ∅)) as (r' & E & _).
  - reflexivity.
  - split; [right; split; reflexivity|]. eexists. split_and!; reflexivity.
  - simpl. set_solver.
  - simpl. lia.
  - exists r'. exact E.
Defined.

Lemma ChooseItemPublisher_publish_lost_witness :
  ∃ w', UserService.ChooseItemPublisher 1 7
          (demo_world (demo_cache 2 ∅) db_empty [NoFault; NoFault; NoFault; NoFault; FailBefore])
        = (Err ErrMq, w') ∧ queue w' = [] ∧ hint (cache w') (item_info_key 7) "remain" = Some 1.
Proof.
  destruct (ChooseItemPublisher_publish_lost
              (demo_world (demo_cache 2 ∅) db_empty [NoFault; NoFault; NoFault; NoFault; FailBefore])
              1 7 (mkItemState 2 ∅)) as (w' & E & H & Q).
  - reflexivity.
  - split; [right; split; reflexivity|]. eexists. split_and!; reflexivity.
  - simpl. set_solver.
  - simpl. lia.
  - exists w'. split_and!; [exact E|exact Q|]. apply (holds_item_hint _ _ _ H).
Defined.

Lemma UserService_AddItem_stocks_witness :
  ∃ w', UserService.AddItem (CommunityItem.mk 0 "yoga class" 2 0 10 0)
          (demo_world redis_empty db_empty []) = (Ok tt, w') ∧
        holds_item (cache w') 1 (mkItemState 2 ∅).
Proof.
  destruct (UserService_AddItem_stocks (demo_world redis_empty db_empty [])
              (CommunityItem.mk 0 "yoga class" 2 0 10 0) ∅) as (w' & E & H & _).
  - reflexivity.
  - reflexivity.
  - reflexivity.
  - right. split; reflexivity.
  - right. split; reflexivity.
  - reflexivity.
  - exists w'. split; [exact E|exact H].
Defined.

Lemma choose_item_script_spec_witness :
  ∃ r', UserCacheRepository.choose_item_script (item_users_key 7) (item_info_key 7) "1"
          (demo_cache 2 ∅) = (Ok (LuaInt 1), r').
Proof.
  destruct (choose_item_script_spec (demo_cache 2 ∅) 7 (mkItemState 2 ∅) "1") as (r' & E & _).
  - split; [right; split; reflexivity|]. eexists. split_and!; reflexivity.
  - exists r'. rewrite E. vm_compute. reflexivity.
Defined.
