(* ===== verification/Items.v ===== *)
(** * The item listing: [GetAllItems]

    [UserCacheRepository.GetAllItems] (user_cache_repository.go) scans
    the keys [hcl:user:item:*:info] (the cursor loop as one SCAN that
    returns every matching key) and parses
    each hash back into a [CommunityItem] (four [Atoi] and an RFC 3339
    time); the repository and [UserService.GetAllItems] wrap its error.
    [UserRepository.GetAllItems], a [Find] on the table that no caller
    uses, is here too.  The theorems show that the listing reads back
    what [AddItem] writes, and that it follows the stock the reservation
    script decrements. *)

From S2P Require Import Prelude Strconv Redis Models Durable World Scan Articles Reservation.
Open Scope hcl_scope.
Open Scope Z_scope.

Definition item_prefix : string := UserCachePrefix +:+ ":item:".
Definition item_suffix : string := ":info".

Module UserCacheRepository.
Section WithTime.
Context `{TimeCodec}.

(** The fields of one item hash, in the order the code reads them; an
    error names the field that does not parse. *)
Definition parse_item (itemMap : gmap string string) : res string CommunityItem.t :=
  match Atoi (field itemMap "id") with
  | None => Err "id"
  | Some id =>
  match Atoi (field itemMap "price") with
  | None => Err "price"
  | Some price =>
  match Atoi (field itemMap "capacity") with
  | None => Err "capacity"
  | Some capacity =>
  match Atoi (field itemMap "remain") with
  | None => Err "remain"
  | Some remain =>
  match parse_time (field itemMap "begin") with
  | None => Err "begin"
  | Some begin => Ok (CommunityItem.mk id (field itemMap "name") capacity remain price begin)
  end end end end end.

(** The loop over the scanned keys. *)
Fixpoint collect_items (keys : list string) : M (list CommunityItem.t) :=
  match keys with
  | [] => ret []
  | key :: rest =>
      itemMap <- rcall (HGETALL key) ;;
      match parse_item itemMap with
      | Err f => throw (ErrApp (ParseFailed f))
      | Ok item => items <- collect_items rest ;; ret (item :: items)
      end
  end.

Definition GetAllItems : M (list CommunityItem.t) :=
  catch (keys <- rcall (SCAN_glob item_prefix item_suffix) ;;
         collect_items keys)
        (fun e => throw (ErrWrap "UserCacheRepository.GetAllItems err:" e)).

(** The same function with its [for] over the cursor as the code writes
    it: one [SCAN] per page, the loop over the page's keys, the next
    cursor. *)
Definition GetAllItems_scan (fuel : nat) : M (list CommunityItem.t) :=
  catch (scan_loop (glob_match item_prefix item_suffix) collect_items fuel 0)
        (fun e => throw (ErrWrap "UserCacheRepository.GetAllItems err:" e)).

End WithTime.
End UserCacheRepository.

Module UserRepository.
Definition GetAllItems : M (list CommunityItem.t) :=
  sql_direct (fun d => Ok (sql_all_items d, d)).
End UserRepository.

Module UserService.
Definition GetAllItems `{TimeCodec} : M (list CommunityItem.t) :=
  catch UserCacheRepository.GetAllItems (fun e => throw (ErrWrap "UserService.GetAllItems err:" e)).
End UserService.

Module UCR := UserCacheRepository.

(** ** The cached items *)

(** The item a cache key holds, when its hash parses. *)
Definition cached_item `{TimeCodec} (r : redis) (k : string) : option CommunityItem.t :=
  match kv r !! k with
  | Some (RHash h) => match UCR.parse_item h with Ok it => Some it | Err _ => None end
  | _ => None
  end.

(** The items of [I] are exactly what the keys [hcl:user:item:*:info]
    hold: every such key is the info key of an item of [I] and parses to
    it. *)
Definition items_cached `{TimeCodec} (r : redis) (I : gmap Z CommunityItem.t) : Prop :=
  (∀ k, k ∈ dom (kv r) -> glob_match item_prefix item_suffix k = true ->
        ∃ id it, k = item_info_key id ∧ I !! id = Some it ∧ cached_item r k = Some it) ∧
  (∀ id it, I !! id = Some it -> cached_item r (item_info_key id) = Some it).

(** The fields in range of the integers the code parses back. *)
Definition item_in_range (it : CommunityItem.t) : Prop :=
  Forall (fun z => int64_min <= z <= int64_max)
    [CommunityItem.ID it; CommunityItem.Price it; CommunityItem.Capacity it; CommunityItem.Remain it].

(** ** Lemmas *)

Lemma item_info_key_inj a b : item_info_key a = item_info_key b -> a = b.
Proof.
  unfold item_info_key. intros Hk.
  apply (inj (String.append _)), (inj (String.append _)) in Hk.
  apply (app_sep_inj _ _ "info" "info" (Itoa_no_colon a) (Itoa_no_colon b)) in Hk as [Hk _].
  by apply Itoa_inj.
Qed.

Lemma substring_suffix (a b : string) :
  String.substring (String.length (a +:+ b) - String.length b) (String.length b) (a +:+ b) = b.
Proof.
  induction a as [|c a IH]; simpl.
  - rewrite Nat.sub_diag. apply substring_full.
  - rewrite string_length_app in *. replace (S (String.length a + String.length b) - String.length b)%nat
      with (S (String.length a + String.length b - String.length b)) by lia. exact IH.
Qed.

Lemma item_info_key_glob id : glob_match item_prefix item_suffix (item_info_key id) = true.
Proof.
  unfold glob_match, item_info_key, item_prefix, item_suffix.
  rewrite !andb_true_iff. split_and!.
  - rewrite <- string_app_assoc. apply prefix_app.
  - apply String.eqb_eq.
    rewrite <- (string_app_assoc (":item:") (Itoa id) ":info"), <- string_app_assoc.
    apply substring_suffix.
  - apply Nat.leb_le. rewrite !string_length_app. simpl. lia.
Qed.

Section Parse.
Context `{TimeCodec}.

(** The six fields [AddItem] writes parse back to the item. *)
Lemma parse_item_fields (h : gmap string string) it :
  item_in_range it ->
  h !! "id" = Some (Itoa (CommunityItem.ID it)) -> h !! "name" = Some (CommunityItem.Name it) ->
  h !! "price" = Some (Itoa (CommunityItem.Price it)) ->
  h !! "capacity" = Some (Itoa (CommunityItem.Capacity it)) ->
  h !! "remain" = Some (Itoa (CommunityItem.Remain it)) ->
  h !! "begin" = Some (format_time (CommunityItem.Begin it)) ->
  UCR.parse_item h = Ok it.
Proof.
  intros Hr Hi Hn Hp Hc Hm Hb. unfold UCR.parse_item, field.
  inversion Hr as [|? ? Hid Hr1]; inversion Hr1 as [|? ? Hpr Hr2];
    inversion Hr2 as [|? ? Hca Hr3]; inversion Hr3 as [|? ? Hre _]; subst.
  rewrite Hi, Hp, Hc, Hm, Hb, Hn. simpl.
  rewrite !Atoi_Itoa by done. rewrite parse_format. by destruct it.
Qed.

(** The hash [HSET] leaves after [AddItem], over any previous hash. *)
Definition item_hash (h0 : gmap string string) (it : CommunityItem.t) : gmap string string :=
  foldl (fun acc fv => <[fv.1 := fv.2]> acc) h0
    [("id", Itoa (CommunityItem.ID it)); ("name", CommunityItem.Name it);
     ("price", Itoa (CommunityItem.Price it)); ("capacity", Itoa (CommunityItem.Capacity it));
     ("remain", Itoa (CommunityItem.Remain it)); ("begin", format_time (CommunityItem.Begin it))].

Lemma parse_item_hash h0 it : item_in_range it -> UCR.parse_item (item_hash h0 it) = Ok it.
Proof. intros Hr. apply parse_item_fields; [done|..]; unfold item_hash; simpl; by simplify_map_eq. Qed.

Lemma AddItem_nf w it h0 :
  no_faults w -> hash_is (cache w) (item_info_key (CommunityItem.ID it)) h0 ->
  Reservation.UserCacheRepository.AddItem it w
  = (Ok tt, set_cache (set_key (item_info_key (CommunityItem.ID it)) (RHash (item_hash h0 it)) (cache w)) w).
Proof.
  intros Hw Hh. unfold Reservation.UserCacheRepository.AddItem.
  apply (rcall_nf_ok _ w _ _ Hw). by apply HSET_is.
Qed.

End Parse.

Section Invariant.
Context `{TimeCodec}.

Lemma cached_item_set_key_eq r k h it :
  UCR.parse_item h = Ok it -> cached_item (set_key k (RHash h) r) k = Some it.
Proof. intros Hp. unfold cached_item. simpl. rewrite lookup_insert_eq. by rewrite Hp. Qed.

Lemma cached_item_set_key_ne r k k' v :
  k' ≠ k -> cached_item (set_key k v r) k' = cached_item r k'.
Proof. intros Hne. unfold cached_item. simpl. by rewrite lookup_insert_ne by congruence. Qed.

Lemma cached_item_dom r k it : cached_item r k = Some it -> k ∈ dom (kv r).
Proof.
  unfold cached_item. intros Hc. apply elem_of_dom.
  destruct (kv r !! k); [done|discriminate].
Qed.

(** Writing a hash that parses at an item's key keeps the invariant,
    with that item replaced. *)
Lemma items_cached_set_info r I i h it :
  items_cached r I -> UCR.parse_item h = Ok it ->
  items_cached (set_key (item_info_key i) (RHash h) r) (<[i := it]> I).
Proof.
  intros [Hkeys Hitems] Hp. split.
  - intros k Hk Hg. simpl in Hk. rewrite dom_insert_L in Hk.
    destruct (decide (k = item_info_key i)) as [->|Hne].
    + exists i, it. split_and!; [done|apply lookup_insert_eq|by apply cached_item_set_key_eq].
    + apply elem_of_union in Hk as [Hk|Hk]; [by apply elem_of_singleton in Hk|].
      destruct (Hkeys k Hk Hg) as (id & it' & -> & Hi & Hc).
      exists id, it'. split_and!; [done| |by rewrite cached_item_set_key_ne].
      rewrite lookup_insert_ne; [done|]. intros <-. by apply Hne.
  - intros id it'. destruct (decide (id = i)) as [->|Hne].
    + rewrite lookup_insert_eq. intros [= <-]. by apply cached_item_set_key_eq.
    + rewrite lookup_insert_ne by congruence. intros Hi.
      rewrite cached_item_set_key_ne; [by apply Hitems|].
      intros Hk. by apply Hne, item_info_key_inj.
Qed.

(** A key outside the pattern does not change the listing. *)
Lemma items_cached_set_other r I k v :
  items_cached r I -> glob_match item_prefix item_suffix k = false ->
  items_cached (set_key k v r) I.
Proof.
  intros [Hkeys Hitems] Hg. split.
  - intros k' Hk' Hg'. simpl in Hk'. rewrite dom_insert_L in Hk'.
    assert (k' ≠ k) by congruence.
    apply elem_of_union in Hk' as [Hk'|Hk']; [by apply elem_of_singleton in Hk'|].
    destruct (Hkeys k' Hk' Hg') as (id & it & -> & Hi & Hc).
    exists id, it. split_and!; [done|done|by rewrite cached_item_set_key_ne].
  - intros id it Hi. rewrite cached_item_set_key_ne; [by apply Hitems|].
    intros <-. by rewrite item_info_key_glob in Hg.
Qed.

Lemma collect_items_nf keys : ∀ w,
  no_faults w -> (∀ k, k ∈ keys -> is_Some (cached_item (cache w) k)) ->
  UCR.collect_items keys w = (Ok (omap (cached_item (cache w)) keys), w).
Proof.
  induction keys as [|k keys IH]; intros w Hw Hall; [done|].
  destruct (Hall k (list_elem_of_here _ _)) as [it Hit].
  pose proof Hit as Hc. unfold cached_item in Hc.
  destruct (kv (cache w) !! k) as [[?|h|?|?|?]|] eqn:Ek; try discriminate.
  destruct (UCR.parse_item h) as [it'|] eqn:Ep; [|discriminate]. injection Hc as <-.
  cbn [UCR.collect_items].
  rewrite (bind_ok _ _ _ _ _ (rcall_nf_ok (HGETALL k) w h (cache w) Hw ltac:(unfold HGETALL, get_hash; by rewrite Ek))).
  rewrite set_cache_cache, Ep.
  rewrite (bind_ok _ _ _ _ _ (IH w Hw (fun k' Hk' => Hall k' (list_elem_of_further _ _ _ Hk')))).
  simpl. by rewrite Hit.
Qed.

(** Without faults [GetAllItems] returns, in the server's key order,
    exactly the items of [I]. *)
Lemma GetAllItems_nf w I :
  no_faults w -> items_cached (cache w) I ->
  ∃ l, UCR.GetAllItems w = (Ok l, w) ∧ ∀ it, it ∈ l ↔ ∃ id, I !! id = Some it.
Proof.
  intros Hw [Hkeys Hitems]. unfold UCR.GetAllItems.
  set (keys := filter (fun k => glob_match item_prefix item_suffix k = true) (elements (dom (kv (cache w))))).
  assert (Hin : ∀ k, k ∈ keys ↔ k ∈ dom (kv (cache w)) ∧ glob_match item_prefix item_suffix k = true).
  { intros k. unfold keys. rewrite list_elem_of_filter, elem_of_elements. tauto. }
  erewrite catch_ok.
  2:{ rewrite (bind_ok _ _ _ _ _ (rcall_nf_ok (SCAN_glob item_prefix item_suffix) w keys (cache w) Hw eq_refl)),
        set_cache_cache, (collect_items_nf keys w Hw); [reflexivity|].
      intros k [Hk Hg]%Hin. destruct (Hkeys k Hk Hg) as (id & it & _ & _ & Hc). by rewrite Hc. }
  eexists. split; [done|]. intros it. rewrite list_elem_of_omap. split.
  - intros (k & [Hk Hg]%Hin & Hc). destruct (Hkeys k Hk Hg) as (id & it' & -> & Hi & Hc').
    exists id. congruence.
  - intros (id & Hi). exists (item_info_key id). split; [|by apply Hitems].
    apply Hin. split; [apply (cached_item_dom _ _ it); by apply Hitems|apply item_info_key_glob].
Qed.

(** ** The cursor loop *)

Lemma HGETALL_read k r : snd (HGETALL k r) = r.
Proof. unfold HGETALL, get_hash. by repeat case_match. Qed.

Lemma collect_items_reads keys : reads_cache (UCR.collect_items keys).
Proof.
  induction keys as [|k keys IH]; simpl; [auto with hcl|].
  apply reads_cache_bind; [apply rcall_reads, HGETALL_read|intros h; case_match; auto with hcl].
Qed.

Lemma collect_items_no_faults keys : preserves no_faults (UCR.collect_items keys).
Proof. induction keys; simpl; [auto with hcl|]. apply preserves_bind; [auto with hcl|intros h; case_match; auto with hcl]. Qed.

(** The loop over keys runs over a concatenation as over its parts. *)
Lemma collect_items_app l1 l2 w :
  UCR.collect_items (l1 ++ l2) w
  = (x <- UCR.collect_items l1 ;; y <- UCR.collect_items l2 ;; ret (x ++ y)) w.
Proof.
  revert w. induction l1 as [|k l1 IH]; intros w; simpl in *; unfold bind, ret, throw in *.
  - by destruct (UCR.collect_items l2 w) as [[]].
  - destruct (rcall (HGETALL k) w) as [[h|e] w1]; [|done].
    destruct (UCR.parse_item h); [|done]. rewrite IH.
    destruct (UCR.collect_items l1 w1) as [[x|e] w2]; [|done].
    by destruct (UCR.collect_items l2 w2) as [[y|e] w3].
Qed.

End Invariant.

(** ** The listing after a reservation *)

Definition with_remain (it : CommunityItem.t) (remain : Z) : CommunityItem.t :=
  CommunityItem.mk (CommunityItem.ID it) (CommunityItem.Name it) (CommunityItem.Capacity it)
                   remain (CommunityItem.Price it) (CommunityItem.Begin it).

Lemma item_users_key_not_glob i : glob_match item_prefix item_suffix (item_users_key i) = false.
Proof.
  unfold glob_match, item_users_key. apply andb_false_iff. left. apply andb_false_iff. right.
  apply String.eqb_neq.
  change (UserCachePrefix +:+ ":item:" +:+ Itoa i +:+ ":users")
    with (UserCachePrefix +:+ ":item:" +:+ Itoa i +:+ (":" +:+ "users")).
  rewrite <- (string_app_assoc (Itoa i) ":" "users"), <- (string_app_assoc ":item:"),
    <- string_app_assoc.
  generalize (UserCachePrefix +:+ ":item:" +:+ Itoa i +:+ ":"). intros a.
  assert (Hlen : (String.length (a +:+ "users") - String.length item_suffix = String.length a)%nat)
    by (rewrite string_length_app; simpl; lia).
  assert (Hlen' : (String.length item_suffix = String.length (a +:+ "users") - String.length a)%nat)
    by (rewrite string_length_app; simpl; lia).
  rewrite Hlen, Hlen', substring_after_prefix. discriminate.
Qed.

Section Reserve.
Context `{TimeCodec}.

Lemma parse_item_Ok_inv h it :
  UCR.parse_item h = Ok it ->
  Atoi (field h "id") = Some (CommunityItem.ID it) ∧ Atoi (field h "price") = Some (CommunityItem.Price it) ∧
  Atoi (field h "capacity") = Some (CommunityItem.Capacity it) ∧
  Atoi (field h "remain") = Some (CommunityItem.Remain it) ∧
  parse_time (field h "begin") = Some (CommunityItem.Begin it) ∧ field h "name" = CommunityItem.Name it.
Proof. unfold UCR.parse_item. repeat case_match; intros Heq; simplify_eq; simpl; split_and!; congruence. Qed.

(** The script's decrement leaves the other fields: the hash parses to
    the item with one less in stock. *)
Lemma parse_item_remain h it z :
  UCR.parse_item h = Ok it -> int64_min <= z <= int64_max ->
  UCR.parse_item (<["remain" := Itoa z]> h) = Ok (with_remain it z).
Proof.
  intros Hp Hz. destruct (parse_item_Ok_inv h it Hp) as (Hi & Hpr & Hc & _ & Hb & Hn).
  unfold UCR.parse_item, field in *. rewrite lookup_insert_eq, !lookup_insert_ne by done.
  simpl. rewrite Hi, Hpr, Hc, Atoi_Itoa, Hb by done. by rewrite Hn.
Qed.

Lemma script_reserve_exact r i h m actor remain :
  set_is r (item_users_key i) m -> actor ∉ m ->
  kv r !! item_info_key i = Some (RHash h) -> h !! "remain" = Some (Itoa remain) ->
  0 < remain -> in_int64 remain = true ->
  Reservation.UserCacheRepository.choose_item_script (item_users_key i) (item_info_key i) actor r
  = (Ok (LuaInt 1), set_key (item_users_key i) (RSet ({[actor]} ∪ m))
                      (set_key (item_info_key i) (RHash (<["remain" := Itoa (remain + -1)]> h)) r)).
Proof.
  intros Hm Ha Hh Hr Hpos Hin. unfold Reservation.UserCacheRepository.choose_item_script.
  mstep (SISMEMBER_is _ _ _ actor Hm). rewrite bool_decide_false by done.
  unfold lua_HGET. rewrite bind_assoc. mstep (get_hash_some _ _ _ Hh). rewrite bind_ret_l.
  rewrite Hr, lua_tonumber_Itoa, (proj2 (Z.leb_gt _ _)) by lia.
  apply in_int64_spec in Hin.
  assert (in_int64 (remain + -1) = true) as Hin'
    by (apply in_int64_spec; unfold int64_min, int64_max in *; lia).
  mstep (HINCRBY_ok r (item_info_key i) "remain" h remain (-1) (or_introl Hh)
          (or_intror (ex_intro _ _ (conj Hr (redis_int_Itoa _ Hin)))) Hin').
  mstep (SADD_is _ _ _ actor (set_is_set_key_ne _ _ _
          (RHash (<[("remain" : string) := Itoa (remain + -1)]> h)) _ (not_eq_sym (item_keys_ne i)) Hm)).
  reflexivity.
Qed.

End Reserve.

Section ListingRuns.
Context `{TimeCodec}.

Lemma items_cached_empty : items_cached redis_empty ∅.
Proof. split; [intros k Hk; simpl in Hk; by rewrite dom_empty_L in Hk|done]. Qed.

(** A reservation through the script, seen from the listing. *)
Lemma ChooseItem_listing_run w I i it s u :
  no_faults w -> items_cached (cache w) I -> I !! i = Some it -> holds_item (cache w) i s ->
  Itoa u ∉ st_members s -> 0 < st_remain s ->
  CommunityItem.Remain it = st_remain s ∧
  ∃ r', Reservation.UserCacheRepository.ChooseItem u i w = (Ok tt, set_cache r' w) ∧
        items_cached r' (<[i := with_remain it (st_remain s - 1)]> I).
Proof.
  intros Hw [Hkeys Hitems] Hi [Hm (h & Hh & Hr & Hin)] Hu Hpos.
  pose proof (Hitems i it Hi) as Hc. unfold cached_item in Hc. rewrite Hh in Hc.
  destruct (UCR.parse_item h) as [it'|] eqn:Ep; [|discriminate]. injection Hc as ->.
  destruct (parse_item_Ok_inv h it Ep) as (_ & _ & _ & Hrem & _).
  unfold field in Hrem. rewrite Hr in Hrem. simpl in Hrem. rewrite Atoi_Itoa in Hrem by (by apply in_int64_spec).
  injection Hrem as Hrem. split; [done|].
  eexists. split.
  - unfold Reservation.UserCacheRepository.ChooseItem.
    rewrite (bind_ok _ _ _ _ _ (rcall_nf_ok _ w _ _ Hw
               (script_reserve_exact _ i h _ (Itoa u) (st_remain s) Hm Hu Hh Hr Hpos Hin))).
    reflexivity.
  - apply items_cached_set_other; [|apply item_users_key_not_glob].
    apply items_cached_set_info; [done|].
    rewrite Hrem in Hin, Hpos |- *. replace (CommunityItem.Remain it - 1) with (CommunityItem.Remain it + -1) by lia.
    apply parse_item_remain; [done|].
    apply in_int64_spec in Hin. unfold int64_min, int64_max in *. lia.
Qed.

End ListingRuns.

(** ** Claims *)

Section ListingClaims.
Context `{TimeCodec}.

(** C35: Round trip of the item cache: on a cache whose item keys hold
    the items [I], [AddItem] of an item with its integers in 64-bit
    range writes a hash that [GetAllItems] parses back to the same item;
    the listing is then exactly [I] with the item added or replaced. *)
Theorem AddItem_then_GetAllItems w I it h0 :
  no_faults w -> items_cached (cache w) I -> item_in_range it ->
  hash_is (cache w) (item_info_key (CommunityItem.ID it)) h0 ->
  ∃ w', Reservation.UserCacheRepository.AddItem it w = (Ok tt, w') ∧
    ∃ l, UCR.GetAllItems w' = (Ok l, w') ∧ it ∈ l ∧
         ∀ x, x ∈ l ↔ ∃ id, (<[CommunityItem.ID it := it]> I) !! id = Some x.
Proof.
  intros Hw Hc Hr Hh. eexists. split; [by apply AddItem_nf|].
  destruct (GetAllItems_nf (set_cache (set_key (item_info_key (CommunityItem.ID it))
                                               (RHash (item_hash h0 it)) (cache w)) w)
              (<[CommunityItem.ID it := it]> I) ltac:(by apply no_faults_set_cache)
              (items_cached_set_info _ _ _ _ _ Hc (parse_item_hash h0 it Hr))) as (l & Hl & Hin).
  exists l. split_and!; [done| |done].
  apply Hin. exists (CommunityItem.ID it). apply lookup_insert_eq.
Qed.

(** C34: The listing follows the reservations: when the reservation
    script of [ChooseItem] succeeds for a new user on an item with
    stock, [GetAllItems] afterwards lists that item with [remain] one
    lower, and every other item as before. *)
Theorem GetAllItems_after_reservation w I i it s u :
  no_faults w -> items_cached (cache w) I -> I !! i = Some it -> holds_item (cache w) i s ->
  Itoa u ∉ st_members s -> 0 < st_remain s ->
  ∃ w', Reservation.UserCacheRepository.ChooseItem u i w = (Ok tt, w') ∧
    ∃ l, UCR.GetAllItems w' = (Ok l, w') ∧
         with_remain it (CommunityItem.Remain it - 1) ∈ l ∧
         ∀ x, x ∈ l ↔ ∃ id, (<[i := with_remain it (CommunityItem.Remain it - 1)]> I) !! id = Some x.
Proof.
  intros Hw Hc Hi Hs Hu Hpos.
  destruct (ChooseItem_listing_run w I i it s u Hw Hc Hi Hs Hu Hpos) as (Hrem & r' & Hrun & Hc').
  rewrite Hrem. eexists. split; [exact Hrun|].
  destruct (GetAllItems_nf (set_cache r' w) _ ltac:(by apply no_faults_set_cache) Hc') as (l & Hl & Hin).
  exists l. split_and!; [done| |done].
  apply Hin. exists i. apply lookup_insert_eq.
Qed.

(** C19: The listing as the code writes it, one [SCAN] of 10 keys per
    page with the page's items parsed before the next [SCAN], is the
    listing by one [SCAN] of every matching key: on a world without
    faults and with fuel for every page it returns the same items and
    leaves the same state, so the theorems about the listing hold of
    the cursor loop. *)
Theorem GetAllItems_scan_refines w fuel :
  no_faults w -> (length (keys_of w) <= scan_default_count * fuel)%nat -> (0 < fuel)%nat ->
  UCR.GetAllItems_scan fuel w = UCR.GetAllItems w.
Proof.
  intros Hw Hn Hf. unfold UCR.GetAllItems_scan, UCR.GetAllItems, catch. change 0 with (Z.of_nat 0).
  rewrite (scan_loop_all _ _ collect_items_reads fuel 0 w (fun l1 l2 w _ => collect_items_app l1 l2 w)
             collect_items_no_faults Hw)
    by lia.
  by rewrite (bind_ok _ _ _ _ _ (rcall_nf_ok (SCAN_glob item_prefix item_suffix) w _ (cache w) Hw eq_refl)),
    set_cache_cache.
Qed.

End ListingClaims.

Definition demo_item : CommunityItem.t := CommunityItem.mk 1 "rice" 10 10 5 0.
Definition demo_item_cache : redis :=
  set_key (item_info_key 1) (RHash (item_hash (H:=decimal_time) ∅ demo_item)) redis_empty.
Definition demo_item_world (r : redis) : World := mkWorld r db_empty None [] 0 [] [].

Lemma demo_item_in_range : item_in_range demo_item.
Proof.
  unfold item_in_range. repeat (apply List.Forall_cons; [cbv beta; unfold int64_min, int64_max; simpl; lia|]).
  apply List.Forall_nil.
Qed.

Lemma demo_item_cached : items_cached (H:=decimal_time) demo_item_cache (<[1 := demo_item]> ∅).
Proof. apply items_cached_set_info; [apply items_cached_empty|by apply parse_item_hash, demo_item_in_range]. Qed.

Lemma AddItem_then_GetAllItems_witness :
  ∃ w', Reservation.UserCacheRepository.AddItem (H:=decimal_time) demo_item (demo_item_world redis_empty) = (Ok tt, w') ∧
    ∃ l, UCR.GetAllItems (H:=decimal_time) w' = (Ok l, w') ∧ demo_item ∈ l ∧
         ∀ x, x ∈ l ↔ ∃ id, (<[CommunityItem.ID demo_item := demo_item]> (∅ : gmap Z CommunityItem.t)) !! id = Some x.
Proof.
  apply (AddItem_then_GetAllItems (H:=decimal_time) (demo_item_world redis_empty) ∅ demo_item ∅);
    [reflexivity|apply items_cached_empty|apply demo_item_in_range|right; split; reflexivity].
Defined.

Definition demo_reserved_cache : redis := set_key (item_users_key 1) (RSet {["7"]}) demo_item_cache.

Lemma GetAllItems_scan_refines_witness :
  UCR.GetAllItems_scan (H:=decimal_time) 1 (demo_item_world demo_reserved_cache)
  = UCR.GetAllItems (H:=decimal_time) (demo_item_world demo_reserved_cache).
Proof. apply (GetAllItems_scan_refines (H:=decimal_time)); [reflexivity|vm_compute; lia|lia]. Defined.

Lemma GetAllItems_after_reservation_witness :
  ∃ w', Reservation.UserCacheRepository.ChooseItem 7 1 (demo_item_world demo_item_cache) = (Ok tt, w') ∧
    ∃ l, UCR.GetAllItems (H:=decimal_time) w' = (Ok l, w') ∧
         with_remain demo_item (CommunityItem.Remain demo_item - 1) ∈ l ∧
         ∀ x, x ∈ l ↔ ∃ id, (<[1 := with_remain demo_item (CommunityItem.Remain demo_item - 1)]>
                                (<[1 := demo_item]> (∅ : gmap Z CommunityItem.t))) !! id = Some x.
Proof.
  apply (GetAllItems_after_reservation (H:=decimal_time) (demo_item_world demo_item_cache)
           (<[1 := demo_item]> ∅) 1 demo_item (mkItemState 10 ∅) 7);
    [reflexivity|apply demo_item_cached|reflexivity| |set_solver|simpl; lia].
  split; [right; split; reflexivity|]. eexists. split_and!; reflexivity.
Defined.
