(* ===== verification/Consumer.v ===== *)
(** * The Reservation Consumer Scheduler (spec §4.4)

    [UserService.AddChooseItemConsumer] (user_service.go) checks the
    window and starts a goroutine that sleeps until [begin], connects to
    RabbitMQ, starts a receive loop in a second goroutine, sleeps until
    [end] and closes the loop.  The loop parses each message
    ["userID,itemID"] and applies the durable [UserService.ChooseItem]
    of [Reservation]; malformed messages and failed transactions are
    logged and dropped (auto-ack).

    The goroutines run against the world and against other requests in
    any interleaving, so the consumer is a step relation [cstep] on the
    world and the consumer's state: the clock advancing, a producer
    publishing, the connection, one delivery (the broker pushes a message
    and forgets it), the loop processing one buffered message, and the
    stop.  The timers are taken as precise: the clock does not pass a
    deadline ([begin] while sleeping, [end] while listening) before the
    goroutine waiting for it has run.  Ghost logs record when each
    message was published, delivered and processed. *)

From S2P Require Import Prelude Strconv Redis Models Durable World Reservation.
Open Scope hcl_scope.
Open Scope Z_scope.

(** ** Computations that keep the clock and the queue *)
Class KeepsClockQueue {A} (m : M A) : Prop :=
  keeps_clock_queue : ∀ w, clock (snd (m w)) = clock w ∧ queue (snd (m w)) = queue w.

Section KeepsInstances.
Context {A B : Type}.

#[export] Instance ret_keeps (a : A) : KeepsClockQueue (ret (S:=World) (E:=err) a).
Proof. done. Qed.
#[export] Instance throw_keeps e : KeepsClockQueue (throw (S:=World) (A:=A) e).
Proof. done. Qed.
#[export] Instance bind_keeps (m : M A) (k : A -> M B) :
  KeepsClockQueue m -> (∀ a, KeepsClockQueue (k a)) -> KeepsClockQueue (bind m k).
Proof.
  intros Hm Hk w. unfold bind. destruct (m w) as [[a|e] w1] eqn:E;
    destruct (Hm w) as [Hc Hq]; rewrite E in Hc, Hq; simpl in *; [|done].
  destruct (Hk a w1). split; congruence.
Qed.
#[export] Instance catch_keeps (m : M A) (h : err -> M A) :
  KeepsClockQueue m -> (∀ e, KeepsClockQueue (h e)) -> KeepsClockQueue (catch m h).
Proof.
  intros Hm Hh w. unfold catch. destruct (m w) as [[a|e] w1] eqn:E;
    destruct (Hm w) as [Hc Hq]; rewrite E in Hc, Hq; simpl in *; [done|].
  destruct (Hh e w1). split; congruence.
Qed.
#[export] Instance attempt_keeps (m : M A) : KeepsClockQueue m -> KeepsClockQueue (attempt m).
Proof. intros Hm w. unfold attempt. destruct (m w) eqn:E. pose proof (Hm w) as H. by rewrite E in H. Qed.
#[export] Instance sql_tx_keeps (s : db -> res dberr (A * db)) : KeepsClockQueue (sql_tx s).
Proof. intros w. unfold sql_tx, next_fault. by repeat case_match; simplify_eq. Qed.
End KeepsInstances.

#[export] Instance tx_begin_keeps : KeepsClockQueue tx_begin.
Proof. intros w. unfold tx_begin, next_fault. by repeat case_match; simplify_eq. Qed.
#[export] Instance tx_commit_keeps : KeepsClockQueue tx_commit.
Proof. intros w. unfold tx_commit, next_fault. by repeat case_match; simplify_eq. Qed.
#[export] Instance tx_rollback_keeps : KeepsClockQueue tx_rollback.
Proof. done. Qed.
#[export] Instance time_now_keeps : KeepsClockQueue time_now.
Proof. done. Qed.
#[export] Instance mq_call_keeps : KeepsClockQueue mq_call.
Proof. intros w. unfold mq_call, next_fault. by repeat case_match; simplify_eq. Qed.

#[export] Hint Extern 1 (KeepsClockQueue (match ?x with _ => _ end)) =>
  destruct x : typeclass_instances.

Module Consumer.

(** [AddChooseItemConsumer]: [time.Now().After(end)] and [begin == end]
    are refused; otherwise the goroutine is started. *)
Definition AddChooseItemConsumer (begin end_ : Z) : M unit :=
  now <- time_now ;;
  if bool_decide (end_ < now) then throw (ErrApp EndBeforeNow)
  else if bool_decide (begin = end_) then throw (ErrApp BeginEqualsEnd)
  else go (TaskConsumer begin end_).

(** The parse of the loop: [strings.Split(body, ",")], at least two
    parts, both [strconv.Atoi]; further parts are ignored. *)
Definition parse_choose_msg (body : string) : option (Z * Z) :=
  match Split ","%char body with
  | p0 :: p1 :: _ => u ← Atoi p0; i ← Atoi p1; Some (u, i)
  | _ => None
  end.

(** One message: a malformed one is logged and skipped; the error of
    [ChooseItem] is logged. *)
Definition handle_message (body : string) : M unit :=
  match parse_choose_msg body with
  | Some (u, i) => attempt (UserService.ChooseItem u i) ;; ret tt
  | None => ret tt
  end.

(** The connection: [amqp.Dial], [conn.Channel()], [QueueDeclare],
    [Consume].  Their errors are only logged: after a failed [Dial] or
    [Channel] the next call is a method on a nil pointer, a panic in a
    goroutine, which ends the process ([ErrPanic]); after a failed
    [QueueDeclare] or [Consume] the delivery channel is nil and the loop
    receives nothing ([false]). *)
Definition consumer_connect : M bool :=
  conn <- attempt mq_call ;;
  match conn with
  | Err _ => throw ErrPanic
  | Ok _ =>
      ch <- attempt mq_call ;;
      match ch with
      | Err _ => throw ErrPanic
      | Ok _ =>
          q <- attempt mq_call ;;
          msgs <- attempt mq_call ;;
          ret (is_ok q && is_ok msgs)
      end
  end.

(** ** The goroutines as a step relation *)

Inductive phase : Type :=
| Sleeping
| Listening (receiving : bool)
| Stopped
| Crashed.

(** The world, the consumer's phase, the messages pushed to it and not
    yet processed (with their publish time), and the ghost logs: the
    publish time of each queued message, each delivery (time, publish
    time, body) and each processed body. *)
Record cstate : Type := mkC {
  c_world : World;
  c_phase : phase;
  c_buf : list (Z * string);
  c_stamps : list Z;
  c_delivered : list (Z * Z * string);
  c_processed : list string
}.

Definition consumer_init (w : World) (stamps : list Z) : cstate :=
  mkC w Sleeping [] stamps [] [].

Section Steps.
Variables begin end_ : Z.

Inductive cstep : cstate -> cstate -> Prop :=
(** The clock advances, not past a deadline a goroutine sleeps on. *)
| cs_tick w ph b st dl pr t :
    clock w < t -> (ph = Sleeping -> t <= begin) -> (∀ r, ph = Listening r -> t <= end_) ->
    cstep (mkC w ph b st dl pr) (mkC (set_clock t w) ph b st dl pr)
(** A producer ([ChooseItemPublisher]) publishes. *)
| cs_publish w ph b st dl pr m :
    cstep (mkC w ph b st dl pr)
          (mkC (set_queue (queue w ++ [m]) w) ph b (st ++ [clock w]) dl pr)
(** Other requests change the stores, not the queue or the clock. *)
| cs_other w w' ph b st dl pr :
    clock w' = clock w -> queue w' = queue w ->
    cstep (mkC w ph b st dl pr) (mkC w' ph b st dl pr)
(** The sleep until [begin] is over: the connection. *)
| cs_connect w w' b st dl pr r :
    begin <= clock w -> consumer_connect w = (Ok r, w') ->
    cstep (mkC w Sleeping b st dl pr) (mkC w' (Listening r) b st dl pr)
| cs_crash w w' b st dl pr e :
    begin <= clock w -> consumer_connect w = (Err e, w') ->
    cstep (mkC w Sleeping b st dl pr) (mkC w' Crashed b st dl pr)
(** The broker pushes the head of the queue (auto-ack: it is gone from
    the queue). *)
| cs_deliver w b st dl pr m q p ps :
    queue w = m :: q -> st = p :: ps ->
    cstep (mkC w (Listening true) b st dl pr)
          (mkC (set_queue q w) (Listening true) (b ++ [(p, m)]) ps (dl ++ [(clock w, p, m)]) pr)
(** The loop takes one pushed message and handles it. *)
| cs_process w w' r b st dl pr p m res :
    handle_message m w = (res, w') ->
    cstep (mkC w (Listening r) ((p, m) :: b) st dl pr) (mkC w' (Listening r) b st dl (pr ++ [m]))
(** [end] has come: [close(stopCh)]; the loop returns and the messages
    pushed to it and not processed are dropped. *)
| cs_stop w r b st dl pr :
    end_ <= clock w ->
    cstep (mkC w (Listening r) b st dl pr) (mkC w Stopped [] st dl pr).

End Steps.

End Consumer.

(** ** The handlers of the consumer keep the clock and the queue *)

#[export] Instance handle_message_keeps m : KeepsClockQueue (Consumer.handle_message m).
Proof.
  unfold Consumer.handle_message, UserService.ChooseItem, UserRepository.ChooseItem,
    UserRepository.UpdateItemInfo. apply _.
Qed.

#[export] Instance consumer_connect_keeps : KeepsClockQueue Consumer.consumer_connect.
Proof. unfold Consumer.consumer_connect. apply _. Qed.

Lemma keeps_run {A} (m : M A) `{!KeepsClockQueue m} w r w' :
  m w = (r, w') -> clock w' = clock w ∧ queue w' = queue w.
Proof. intros E. pose proof (keeps_clock_queue (m:=m) w) as H. by rewrite E in H. Qed.

Import Consumer.

(** ** The window: what the consumer keeps true

    With [begin <= end]: every queued message carries a publish time
    not in the future; each delivery happened no earlier than the
    message's publication, and within [begin, end]; while the consumer
    sleeps or listens the clock has not passed [end], and while it
    listens it has reached [begin]. *)
Definition cinv (begin end_ : Z) (s : cstate) : Prop :=
  length (c_stamps s) = length (queue (c_world s)) ∧
  Forall (fun p => p <= clock (c_world s)) (c_stamps s) ∧
  (∀ t p m, (t, p, m) ∈ c_delivered s -> p <= t ∧ begin <= t ∧ t <= end_) ∧
  ((c_phase s = Sleeping ∨ ∃ r, c_phase s = Listening r) -> clock (c_world s) <= end_) ∧
  (∀ r, c_phase s = Listening r -> begin <= clock (c_world s)).

Lemma Forall_le_mono (l : list Z) c c' :
  c <= c' -> Forall (fun p => p <= c) l -> Forall (fun p => p <= c') l.
Proof. intros Hc Hl. eapply Forall_impl; [exact Hl|]. simpl. lia. Qed.

Section Window.
Variables begin end_ : Z.
Hypothesis Hwin : begin <= end_.

Lemma cinv_step s s' : cinv begin end_ s -> cstep begin end_ s s' -> cinv begin end_ s'.
Proof.
  intros (Hlen & Hst & Hdl & Hend & Hbeg) Hs.
  destruct Hs as [w ph b st dl pr t Ht Hsl Hli|w ph b st dl pr m|w w' ph b st dl pr Hc Hq
                 |w w' b st dl pr r Hb Hr|w w' b st dl pr e Hb Hr
                 |w b st dl pr m q p ps Hq ->|w w' r b st dl pr p m res Hr|w r b st dl pr Hc];
    unfold cinv; simpl in *.
  - split_and!; [done|by apply (Forall_le_mono _ (clock w)); [lia|]|done| |].
    + intros [->|[r ->]]; [specialize (Hsl eq_refl)|specialize (Hli r eq_refl)]; lia.
    + intros r ->. specialize (Hbeg r eq_refl). lia.
  - rewrite !length_app. split_and!; [simpl; lia|apply Forall_app; split; [done|by constructor]|done..].
  - rewrite Hc, Hq. done.
  - destruct (keeps_run _ _ _ _ Hr) as [Hc Hq]. rewrite Hc, Hq.
    split_and!; [done|done|done| |by intros ? [= ->]].
    intros _. apply Hend. by left.
  - destruct (keeps_run _ _ _ _ Hr) as [Hc Hq]. rewrite Hc, Hq.
    split_and!; [done|done|done|by intros [?|[? ?]]|done].
  - rewrite Hq in Hlen. simpl in Hlen. apply Forall_cons in Hst as [Hp Hst].
    split_and!; [lia|done| |done|done].
    intros t' p' m' [Hin|[= -> -> ->]%list_elem_of_singleton]%elem_of_app; [by eapply Hdl|].
    split_and!; [done|by apply (Hbeg true)|apply Hend; eauto].
  - destruct (keeps_run _ _ _ _ Hr) as [Hc Hq]. rewrite Hc, Hq. done.
  - split_and!; [done|done|done|by intros [?|[? ?]]|done].
Qed.

Lemma cinv_rtc s s' : cinv begin end_ s -> rtc (cstep begin end_) s s' -> cinv begin end_ s'.
Proof. intros Hs Hr. induction Hr; eauto using cinv_step. Qed.

End Window.

Lemma AddChooseItemConsumer_run begin end_ w :
  AddChooseItemConsumer begin end_ w =
  (if bool_decide (end_ < clock w) then (Err (ErrApp EndBeforeNow), w)
   else if bool_decide (begin = end_) then (Err (ErrApp BeginEqualsEnd), w)
   else (Ok tt, set_spawned (spawned w ++ [TaskConsumer begin end_]) w)).
Proof. unfold AddChooseItemConsumer. rewrite (bind_ok _ _ _ _ _ (time_now_run w)). by repeat case_bool_decide. Qed.

Lemma AddChooseItemConsumer_Ok begin end_ w w1 :
  AddChooseItemConsumer begin end_ w = (Ok tt, w1) ->
  clock w <= end_ ∧ begin ≠ end_ ∧ w1 = set_spawned (spawned w ++ [TaskConsumer begin end_]) w.
Proof.
  rewrite AddChooseItemConsumer_run.
  repeat case_bool_decide; intros [=]; subst; split_and!; done || lia.
Qed.

(** The consumer as started by an accepted [AddChooseItemConsumer]
    keeps [cinv], whatever the queue held with publish times not in the
    future. *)
Lemma consumer_init_inv begin end_ w w1 stamps :
  AddChooseItemConsumer begin end_ w = (Ok tt, w1) ->
  length stamps = length (queue w1) -> Forall (fun p => p <= clock w1) stamps ->
  cinv begin end_ (consumer_init w1 stamps).
Proof.
  intros (Hc & _ & ->)%AddChooseItemConsumer_Ok Hlen Hst.
  unfold cinv; simpl. split_and!; [done|done|by intros ??? ?%elem_of_nil|done|by intros ? [=]].
Qed.

(** ** The consumer: claims *)

(** C26: Spec §4.4 and §8: once [AddChooseItemConsumer begin end] is
    accepted with [begin <= end], in every interleaving of the consumer
    with the clock, producers and other requests, each message the
    consumer drains is drained no earlier than it was published and at a
    time in [begin, end]: nothing published before [begin] is drained
    before [begin], and nothing published after [end] is drained. *)
Theorem consumer_drains_within_window w w1 begin end_ stamps s :
  AddChooseItemConsumer begin end_ w = (Ok tt, w1) -> begin <= end_ ->
  length stamps = length (queue w1) -> Forall (fun p => p <= clock w1) stamps ->
  rtc (cstep begin end_) (consumer_init w1 stamps) s ->
  ∀ t p m, (t, p, m) ∈ c_delivered s -> p <= t ∧ begin <= t ∧ t <= end_.
Proof.
  intros Hrun Hwin Hlen Hst Hr.
  destruct (cinv_rtc begin end_ Hwin _ _ (consumer_init_inv _ _ _ _ _ Hrun Hlen Hst) Hr)
    as (_ & _ & Hdl & _). exact Hdl.
Qed.

(** Demo (spec §8, times in ms): now = 0, window [1000, 3000]; "7,1"
    is published at 500, drained at 1000; "8,1" is published at 3500. *)
Definition demo_consumer_world : World := mkWorld redis_empty db_empty None [] 0 [] [].

Definition demo_consumer_started : World :=
  set_spawned [TaskConsumer 1000 3000] demo_consumer_world.

Lemma demo_consumer_trace :
  ∃ s, rtc (cstep 1000 3000) (consumer_init demo_consumer_started []) s ∧
       c_delivered s = [(1000, 500, "7,1")] ∧ c_phase s = Stopped ∧
       queue (c_world s) = ["8,1"].
Proof.
  eexists. split.
  eapply rtc_l; [apply (cs_tick _ _ _ _ _ _ _ _ 500); [done|done|by intros ? [=]]|].
  eapply rtc_l; [apply (cs_publish _ _ _ _ _ _ _ _ "7,1")|].
  eapply rtc_l; [apply (cs_tick _ _ _ _ _ _ _ _ 1000); [done|done|by intros ? [=]]|].
  eapply rtc_l; [eapply cs_connect; [done|reflexivity]|].
  eapply rtc_l; [eapply cs_deliver; reflexivity|].
  eapply rtc_l; [eapply cs_process; reflexivity|].
  eapply rtc_l; [apply (cs_tick _ _ _ _ _ _ _ _ 3000); [done|by intros [=]|done]|].
  eapply rtc_l; [eapply cs_stop; done|].
  eapply rtc_l; [apply (cs_tick _ _ _ _ _ _ _ _ 3500); [done|by intros [=]|by intros ? [=]]|].
  eapply rtc_l; [apply (cs_publish _ _ _ _ _ _ _ _ "8,1")|].
  - apply rtc_refl.
  - split_and!; reflexivity.
Qed.

Lemma consumer_drains_within_window_witness :
  ∃ s, rtc (cstep 1000 3000) (consumer_init demo_consumer_started []) s ∧
       ∀ t p m, (t, p, m) ∈ c_delivered s -> p <= t ∧ 1000 <= t ∧ t <= 3000.
Proof.
  destruct demo_consumer_trace as (s & Hr & _). exists s. split; [exact Hr|].
  apply (consumer_drains_within_window demo_consumer_world demo_consumer_started 1000 3000 [] s);
    [reflexivity|lia|reflexivity|constructor|exact Hr].
Defined.

(** ** Traces *)

Lemma set_clock_same w : set_clock (clock w) w = w.
Proof. by destruct w. Qed.

(** The clock can be moved to any time up to the deadline of the phase. *)
Lemma rtc_tick_to bg en w ph b st dl pr t :
  clock w <= t -> (ph = Sleeping -> t <= bg) -> (∀ r, ph = Listening r -> t <= en) ->
  rtc (cstep bg en) (mkC w ph b st dl pr) (mkC (set_clock t w) ph b st dl pr).
Proof.
  intros Ht Hs Hl. destruct (decide (clock w = t)) as [<-|Hne].
  - rewrite set_clock_same. apply rtc_refl.
  - apply rtc_once. constructor; [lia|done|done].
Qed.

Lemma consumer_connect_nf w : no_faults w -> consumer_connect w = (Ok true, w).
Proof. intros Hw. unfold consumer_connect, attempt, bind. rewrite !(mq_call_nf w Hw). done. Qed.

(** Once stopped, the consumer stays stopped and processes nothing. *)
Lemma stopped_absorbing bg en s s' :
  rtc (cstep bg en) s s' -> c_phase s = Stopped ->
  c_phase s' = Stopped ∧ c_processed s' = c_processed s.
Proof.
  induction 1 as [s|s s1 s' Hs _ IH]; [done|]. intros Hp.
  inversion Hs; subst; simpl in *; try discriminate; destruct IH as [-> ->]; done.
Qed.

(** [AddChooseItemConsumer] does not refuse [begin > end] (spec
    §4.4 does not either): with an empty queue and no faults, a message
    published at [begin] is drained at [begin], after [end], since the
    goroutine connects at [begin] and the loop runs until the stop that
    follows. *)
Theorem consumer_late_begin_drains_after_end w w1 begin end_ m :
  AddChooseItemConsumer begin end_ w = (Ok tt, w1) -> end_ < begin ->
  no_faults w -> queue w = [] ->
  ∃ s, rtc (cstep begin end_) (consumer_init w1 []) s ∧ (begin, begin, m) ∈ c_delivered s.
Proof.
  intros (Hc & _ & ->)%AddChooseItemConsumer_Ok Hlate Hw Hq. unfold consumer_init.
  set (w1 := set_spawned (spawned w ++ [TaskConsumer begin end_]) w).
  set (w2 := set_queue (queue (set_clock begin w1) ++ [m]) (set_clock begin w1)).
  eexists. split.
  - etrans; [apply (rtc_tick_to _ _ _ _ _ _ _ _ begin); [simpl; lia|done|by intros ? [=]]|].
    eapply rtc_l; [apply (cs_publish _ _ _ _ _ _ _ _ m)|].
    eapply rtc_l; [apply (cs_connect _ _ w2 w2); [simpl; lia|by apply consumer_connect_nf]|].
    eapply rtc_l; [apply (cs_deliver _ _ w2 _ _ _ _ m [] begin []); [simpl; by rewrite Hq|done]|].
    apply rtc_refl.
  - simpl. by left.
Qed.

Lemma consumer_late_begin_drains_after_end_witness :
  ∃ s, rtc (cstep 5000 3000) (consumer_init (set_spawned [TaskConsumer 5000 3000] demo_consumer_world) []) s ∧
       (5000, 5000, "7,1") ∈ c_delivered s.
Proof.
  exact (consumer_late_begin_drains_after_end demo_consumer_world _ 5000 3000 "7,1"
           eq_refl ltac:(lia) eq_refl eq_refl).
Defined.

(** Messages are acknowledged when the broker pushes them, and the
    loop drops what it has not handled when [end] comes: with no faults,
    a message published at [begin] and pushed to the consumer can be
    left unprocessed at the stop; it is gone from the queue and no later
    step processes it (spec §4.4 has in-flight messages completed). *)
Theorem consumer_stop_drops_pushed w w1 begin end_ m :
  AddChooseItemConsumer begin end_ w = (Ok tt, w1) -> begin <= end_ -> clock w <= begin ->
  no_faults w -> queue w = [] ->
  ∃ s, rtc (cstep begin end_) (consumer_init w1 []) s ∧ c_phase s = Stopped ∧
       (begin, begin, m) ∈ c_delivered s ∧ queue (c_world s) = [] ∧
       ∀ s', rtc (cstep begin end_) s s' -> m ∉ c_processed s'.
Proof.
  intros (Hc & _ & ->)%AddChooseItemConsumer_Ok Hwin Hb Hw Hq. unfold consumer_init.
  set (w1 := set_spawned (spawned w ++ [TaskConsumer begin end_]) w).
  set (w2 := set_queue (queue (set_clock begin w1) ++ [m]) (set_clock begin w1)).
  eexists. split; [|split_and!].
  - etrans; [apply (rtc_tick_to _ _ _ _ _ _ _ _ begin); [simpl; lia|done|by intros ? [=]]|].
    eapply rtc_l; [apply (cs_publish _ _ _ _ _ _ _ _ m)|].
    eapply rtc_l; [apply (cs_connect _ _ w2 w2); [simpl; lia|by apply consumer_connect_nf]|].
    eapply rtc_l; [apply (cs_deliver _ _ w2 _ _ _ _ m [] begin []); [simpl; by rewrite Hq|done]|].
    etrans; [apply (rtc_tick_to _ _ _ _ _ _ _ _ end_); [simpl; lia|done|done]|].
    eapply rtc_l; [apply cs_stop; simpl; lia|].
    apply rtc_refl.
  - done.
  - simpl. by left.
  - done.
  - intros s' Hs'. destruct (stopped_absorbing _ _ _ _ Hs' eq_refl) as [_ ->].
    apply not_elem_of_nil.
Qed.

Lemma consumer_stop_drops_pushed_witness :
  ∃ s, rtc (cstep 1000 3000) (consumer_init demo_consumer_started []) s ∧ c_phase s = Stopped ∧
       (1000, 1000, "7,1") ∈ c_delivered s ∧ queue (c_world s) = [] ∧
       ∀ s', rtc (cstep 1000 3000) s s' -> "7,1" ∉ c_processed s'.
Proof.
  exact (consumer_stop_drops_pushed demo_consumer_world demo_consumer_started 1000 3000 "7,1"
           eq_refl ltac:(lia) ltac:(simpl; lia) eq_refl eq_refl).
Defined.

(** ** The message format *)

Lemma Itoa_no_comma z : str_forall (fun c => negb (bool_decide (c = ","%char))) (Itoa z) = true.
Proof.
  apply Itoa_chars; [|done]. intros d. apply negb_true_iff, bool_decide_eq_false.
  unfold pretty_N_char. by repeat case_match.
Qed.

(** What [ChooseItemPublisher] publishes parses back to its pair. *)
Lemma parse_choose_msg_inv u i :
  int64_min <= u <= int64_max -> int64_min <= i <= int64_max ->
  parse_choose_msg (choose_item_msg u i) = Some (u, i).
Proof.
  intros Hu Hi. unfold parse_choose_msg, choose_item_msg.
  rewrite Split_app, (Split_none _ (Itoa i)) by apply Itoa_no_comma.
  by rewrite !Atoi_Itoa.
Qed.

(** The consumer handles the message [ChooseItemPublisher] sends for
    [(u, i)] by running the durable [ChooseItem] for that pair: without
    faults and with the item's row present, it commits one [user_item]
    row stamped with the clock and decrements the row's [remain]. *)
Theorem consume_published_message w u i it :
  int64_min <= u <= int64_max -> int64_min <= i <= int64_max ->
  no_faults w -> item_t (store_db w) !! i = Some it ->
  ∃ w', handle_message (choose_item_msg u i) w = (Ok tt, w') ∧
        user_items_of (store_db w') u i
          = user_items_of (store_db w) u i ++ [UserItem.mk (user_item_seq (store_db w)) u i (clock w)] ∧
        item_t (store_db w') !! i = Some (dec_item i it).
Proof.
  intros Hu Hi Hw Hit. unfold handle_message. rewrite parse_choose_msg_inv by done.
  destruct (durable_choose_item_run w u i it Hw Hit) as (w' & Hrun & Hrows & Hitem & _).
  exists w'. split_and!; [|done|done].
  by rewrite (bind_ok _ _ _ _ _ (attempt_run _ _ _ _ Hrun)).
Qed.

Lemma consume_published_message_witness :
  ∃ w', handle_message (choose_item_msg 1 7) (demo_world redis_empty demo_db []) = (Ok tt, w') ∧
        user_items_of (store_db w') 1 7
          = user_items_of demo_db 1 7 ++ [UserItem.mk (user_item_seq demo_db) 1 7 0] ∧
        item_t (store_db w') !! 7 = Some (dec_item 7 (CommunityItem.mk 7 "yoga class" 2 0 10 0)).
Proof.
  apply (consume_published_message (demo_world redis_empty demo_db []) 1 7);
    [unfold int64_min, int64_max; lia..|reflexivity|reflexivity].
Defined.

(** ** Progress of the listening consumer *)

(** The loop handles its pushed messages one by one, in order, without
    touching the clock or the queue. *)
Lemma process_all bg en w r b st dl pr :
  ∃ w', clock w' = clock w ∧ queue w' = queue w ∧
    rtc (cstep bg en) (mkC w (Listening r) b st dl pr) (mkC w' (Listening r) [] st dl (pr ++ b.*2)).
Proof.
  revert w pr. induction b as [|[p m] b IH]; intros w pr.
  - exists w. rewrite app_nil_r. split_and!; [done|done|apply rtc_refl].
  - destruct (handle_message m w) as [res w1] eqn:Hm. destruct (keeps_run _ _ _ _ Hm) as [Hc Hq].
    destruct (IH w1 (pr ++ [m])) as (w' & Hc' & Hq' & Hr). exists w'. split_and!; [congruence|congruence|].
    eapply rtc_l; [by apply cs_process with (res := res)|]. by rewrite <-app_assoc in Hr.
Qed.

(** The broker pushes every queued message, each with its publish time. *)
Lemma deliver_all bg en w b st dl pr :
  length st = length (queue w) ->
  ∃ dl', rtc (cstep bg en) (mkC w (Listening true) b st dl pr)
             (mkC (set_queue [] w) (Listening true) (b ++ zip st (queue w)) [] dl' pr).
Proof.
  remember (queue w) as q eqn:Hq. revert w b st dl Hq. induction q as [|m q IH]; intros w b st dl Hq Hlen.
  - destruct st; [|done]. exists dl. rewrite app_nil_r, Hq. destruct w. apply rtc_refl.
  - destruct st as [|p ps]; [done|]. simpl in Hlen.
    destruct (IH (set_queue q w) (b ++ [(p, m)]) ps (dl ++ [(clock w, p, m)]) eq_refl ltac:(lia)) as (dl' & Hr).
    exists dl'. eapply rtc_l; [by apply cs_deliver with (q := q)|]. simpl. by rewrite <-app_assoc in Hr.
Qed.

(** C27: Liveness of the listening consumer: in every state an accepted
    consumer reaches while it listens, there is a continuation, taking
    no time, in which the broker pushes every queued message and the
    loop handles all of them, the pushed ones first and then the queue,
    each once and in order, before any stop. *)
Theorem consumer_catches_up w w1 begin end_ stamps s :
  AddChooseItemConsumer begin end_ w = (Ok tt, w1) -> begin <= end_ ->
  length stamps = length (queue w1) -> Forall (fun p => p <= clock w1) stamps ->
  rtc (cstep begin end_) (consumer_init w1 stamps) s -> c_phase s = Listening true ->
  ∃ s', rtc (cstep begin end_) s s' ∧ c_phase s' = Listening true ∧ c_buf s' = [] ∧
        queue (c_world s') = [] ∧ clock (c_world s') = clock (c_world s) ∧
        c_processed s' = c_processed s ++ (c_buf s).*2 ++ queue (c_world s).
Proof.
  intros Hrun Hwin Hlen Hst Hr Hph.
  destruct (cinv_rtc begin end_ Hwin _ _ (consumer_init_inv _ _ _ _ _ Hrun Hlen Hst) Hr) as (Hl & _).
  destruct s as [ws ph b st dl pr]; simpl in *; subst ph.
  destruct (deliver_all begin end_ ws b st dl pr Hl) as (dl' & Hd).
  destruct (process_all begin end_ (set_queue [] ws) true (b ++ zip st (queue ws)) [] dl' pr)
    as (w' & Hc & Hq & Hp).
  exists (mkC w' (Listening true) [] [] dl' (pr ++ (b ++ zip st (queue ws)).*2)). simpl.
  split_and!; [by etrans|done|done|done|done|].
  by rewrite fmap_app, snd_zip by lia.
Qed.

Definition demo_listening : cstate :=
  mkC (set_clock 1000 (set_queue ["7,1"] (set_clock 500 demo_consumer_started)))
      (Listening true) [] [500] [] [].

Lemma demo_listening_trace : rtc (cstep 1000 3000) (consumer_init demo_consumer_started []) demo_listening.
Proof.
  eapply rtc_l; [apply (cs_tick _ _ _ _ _ _ _ _ 500); [done|done|by intros ? [=]]|].
  eapply rtc_l; [apply (cs_publish _ _ _ _ _ _ _ _ "7,1")|].
  eapply rtc_l; [apply (cs_tick _ _ _ _ _ _ _ _ 1000); [done|done|by intros ? [=]]|].
  eapply rtc_l; [eapply cs_connect; [done|reflexivity]|].
  apply rtc_refl.
Qed.

Lemma consumer_catches_up_witness :
  ∃ s', rtc (cstep 1000 3000) demo_listening s' ∧ c_phase s' = Listening true ∧ c_buf s' = [] ∧
        queue (c_world s') = [] ∧ clock (c_world s') = clock (c_world demo_listening) ∧
        c_processed s' = c_processed demo_listening ++ (c_buf demo_listening).*2 ++ queue (c_world demo_listening).
Proof.
  apply (consumer_catches_up demo_consumer_world demo_consumer_started 1000 3000 [] demo_listening);
    [reflexivity|lia|reflexivity|constructor|exact demo_listening_trace|reflexivity].
Defined.
