(* ===== verification/CodeStore.v ===== *)
(** * The verification-code store (user_memorydb_repository.go)

    [UserMemoryDBRepository] keeps two Go maps keyed by phone number:
    the code last sent ([codeMap]) and the timer that deletes it
    ([timerMap]).  [AddCode] stops the phone's timer if there is one,
    stores the code and arms a [time.AfterFunc] whose callback deletes
    both entries for the phone; [ValidateCode] accepts the stored code
    once and deletes both entries, without stopping the timer.

    The timers are explicit: each has an id and a state ([Armed] with
    its deadline, [Fired] once the deadline has passed and the callback
    goroutine is pending, [Cancelled] by [Stop], [Ran] once the callback
    has run).  [Timer.Stop] returns true only for an armed timer, as in
    Go.  The system ([code_step]) interleaves the handlers, the clock,
    timers firing and callbacks running; the clock does not pass the
    deadline of an armed timer.  A list of events runs with [code_run]
    as an execution of [code_step], so a bug is shown on an explicit
    trace. *)

From S2P Require Import Prelude Strconv Models World.
Open Scope hcl_scope.
Open Scope Z_scope.

Inductive timer_state : Type :=
| Armed (deadline : Z) (phone : string)
| Fired (phone : string)
| Cancelled
| Ran.

Record mdb : Type := mkMdb {
  codeMap : gmap string UserCode.t;
  timerMap : gmap string Z;
  timers : gmap Z timer_state;
  next_timer : Z
}.

Definition mdb_empty : mdb := mkMdb ∅ ∅ ∅ 0.

Definition set_codeMap (c : gmap string UserCode.t) (m : mdb) : mdb :=
  mkMdb c (timerMap m) (timers m) (next_timer m).
Definition set_timerMap (t : gmap string Z) (m : mdb) : mdb :=
  mkMdb (codeMap m) t (timers m) (next_timer m).
Definition set_timer (id : Z) (s : timer_state) (m : mdb) : mdb :=
  mkMdb (codeMap m) (timerMap m) (<[id := s]> (timers m)) (next_timer m).

Module UserMemoryDBRepository.

(** [timer.Stop()]: true, and the timer cancelled, when it was armed;
    false when it has fired (its callback may still be pending) or was
    stopped. *)
Definition Stop (id : Z) (m : mdb) : bool * mdb :=
  match timers m !! id with
  | Some (Armed _ _) => (true, set_timer id Cancelled m)
  | _ => (false, m)
  end.

(** [time.AfterFunc(interval, f)]: a new armed timer. *)
Definition AfterFunc (deadline : Z) (phone : string) (m : mdb) : Z * mdb :=
  let id := next_timer m in
  (id, mkMdb (codeMap m) (timerMap m) (<[id := Armed deadline phone]> (timers m)) (id + 1)).

(** [AddCode] at time [now]. *)
Definition AddCode (userCode : UserCode.t) (interval now : Z) (m : mdb) : mdb :=
  let p := UserCode.PhoneNumber userCode in
  let m1 := match timerMap m !! p with
            | Some t =>
                let '(stopped, m') := Stop t m in
                if stopped then set_timerMap (delete p (timerMap m')) m' else m'
            | None => m
            end in
  let m2 := set_codeMap (<[p := userCode]> (codeMap m1)) m1 in
  let '(timer, m3) := AfterFunc (now + interval) p m2 in
  set_timerMap (<[p := timer]> (timerMap m3)) m3.

(** The callback of the timer: both entries of the phone go. *)
Definition expire (phone : string) (m : mdb) : mdb :=
  set_timerMap (delete phone (timerMap m)) (set_codeMap (delete phone (codeMap m)) m).

Definition ValidateCode (code phone : string) (m : mdb) : res err unit * mdb :=
  match codeMap m !! phone with
  | Some userCode =>
      if String.eqb (UserCode.Code userCode) code
      then (Ok tt, expire phone m)
      else (Err (ErrApp CodeWrong), m)
  | None => (Err (ErrApp CodeMissing), m)
  end.

End UserMemoryDBRepository.

Module UMR := UserMemoryDBRepository.

(** ** The store with its timers, as a step relation

    [cs_issued] is a ghost map: the code last sent to each phone. *)
Record cstore : Type := mkCS {
  cs_mdb : mdb;
  cs_clock : Z;
  cs_issued : gmap string UserCode.t
}.

Section CodeSteps.
Variable interval : Z.

Inductive code_step : cstore -> cstore -> Prop :=
| code_tick m c iss t :
    c < t -> (∀ id d p, timers m !! id = Some (Armed d p) -> t <= d) ->
    code_step (mkCS m c iss) (mkCS m t iss)
| code_add m c iss uc :
    code_step (mkCS m c iss)
              (mkCS (UMR.AddCode uc interval c m) c (<[UserCode.PhoneNumber uc := uc]> iss))
| code_validate m c iss code p r m' :
    UMR.ValidateCode code p m = (r, m') ->
    code_step (mkCS m c iss) (mkCS m' c iss)
| code_fire m c iss id d p :
    timers m !! id = Some (Armed d p) -> d <= c ->
    code_step (mkCS m c iss) (mkCS (set_timer id (Fired p) m) c iss)
| code_callback m c iss id p :
    timers m !! id = Some (Fired p) ->
    code_step (mkCS m c iss) (mkCS (UMR.expire p (set_timer id Ran m)) c iss).

End CodeSteps.

(** ** Traces of the store

    A trace is the list of events the store goes through: a handler
    call, the clock advancing, a timer firing, a callback running.
    [code_run] runs one; it is [None] when an event is not enabled
    (the clock would pass an armed deadline, a timer that is not armed
    fires, a callback that is not pending runs), so a trace it runs is
    an execution of [code_step] (lemma [code_run_steps]). *)
Inductive code_event : Type :=
| EvAdd (uc : UserCode.t)
| EvValidate (code phone : string)
| EvTick (t : Z)
| EvFire (id : Z)
| EvCallback (id : Z).

(** The clock may move to [t]: forward, and not past an armed deadline. *)
Definition tick_ok (m : mdb) (c t : Z) : bool :=
  bool_decide (c < t) &&
  forallb (λ '(_, s), match s with Armed d _ => bool_decide (t <= d) | _ => true end)
          (map_to_list (timers m)).

Definition code_run_event (interval : Z) (e : code_event) (s : cstore) : option cstore :=
  let '(mkCS m c iss) := s in
  match e with
  | EvAdd uc => Some (mkCS (UMR.AddCode uc interval c m) c (<[UserCode.PhoneNumber uc := uc]> iss))
  | EvValidate code p => Some (mkCS (snd (UMR.ValidateCode code p m)) c iss)
  | EvTick t => if tick_ok m c t then Some (mkCS m t iss) else None
  | EvFire id =>
      match timers m !! id with
      | Some (Armed d p) => if d <=? c then Some (mkCS (set_timer id (Fired p) m) c iss) else None
      | _ => None
      end
  | EvCallback id =>
      match timers m !! id with
      | Some (Fired p) => Some (mkCS (UMR.expire p (set_timer id Ran m)) c iss)
      | _ => None
      end
  end.

Fixpoint code_run (interval : Z) (es : list code_event) (s : cstore) : option cstore :=
  match es with
  | [] => Some s
  | e :: es' =>
      match code_run_event interval e s with
      | Some s' => code_run interval es' s'
      | None => None
      end
  end.

(** Two codes for one phone: [c1] sent at 0 and used to log in, [c2]
    sent at [t2], the clock advanced to [interval], and the timer armed
    by the first [AddCode] (timer 0) fires and its callback runs.  [c2]
    is not validated in it. *)
Definition reuse_trace (p c1 c2 : string) (t2 interval : Z) : list code_event :=
  [EvAdd (UserCode.mk c1 p); EvValidate c1 p; EvTick t2; EvAdd (UserCode.mk c2 p);
   EvTick interval; EvFire 0; EvCallback 0].

(** ** Lemmas on the handlers *)

Lemma AddCode_fresh uc interval now m :
  timerMap m !! UserCode.PhoneNumber uc = None ->
  UMR.AddCode uc interval now m
  = mkMdb (<[UserCode.PhoneNumber uc := uc]> (codeMap m))
          (<[UserCode.PhoneNumber uc := next_timer m]> (timerMap m))
          (<[next_timer m := Armed (now + interval) (UserCode.PhoneNumber uc)]> (timers m))
          (next_timer m + 1).
Proof. intros H. unfold UMR.AddCode. by rewrite H. Qed.

(** [AddCode] replaces the phone's code and changes no other code. *)
Lemma AddCode_codeMap uc interval now m :
  codeMap (UMR.AddCode uc interval now m) = <[UserCode.PhoneNumber uc := uc]> (codeMap m).
Proof.
  unfold UMR.AddCode, UMR.Stop, UMR.AfterFunc.
  destruct (timerMap m !! _) as [t|]; [|done].
  destruct (timers m !! t) as [[]|]; done.
Qed.

Lemma ValidateCode_codeMap code p m r m' :
  UMR.ValidateCode code p m = (r, m') -> codeMap m' ⊆ codeMap m.
Proof.
  unfold UMR.ValidateCode, UMR.expire. destruct (codeMap m !! p) as [uc|] eqn:E.
  - destruct (String.eqb _ _); intros [= <- <-]; simpl; [apply delete_subseteq|done].
  - intros [= <- <-]. done.
Qed.

Lemma ValidateCode_ok code p m m' :
  UMR.ValidateCode code p m = (Ok tt, m') ->
  ∃ uc, codeMap m !! p = Some uc ∧ UserCode.Code uc = code ∧ m' = UMR.expire p m.
Proof.
  unfold UMR.ValidateCode. destruct (codeMap m !! p) as [uc|]; [|by intros [=]].
  destruct (String.eqb_spec (UserCode.Code uc) code); intros [=]; eauto.
Qed.

(** ** Lemmas on traces *)

Lemma tick_ok_spec m c t :
  tick_ok m c t = true <-> c < t ∧ ∀ id d p, timers m !! id = Some (Armed d p) -> t <= d.
Proof.
  unfold tick_ok. rewrite andb_true_iff, bool_decide_eq_true, forallb_forall. split.
  - intros [Hc Hf]. split; [done|]. intros id d p Hid.
    apply (bool_decide_eq_true_1 _ (Hf (id, Armed d p) (proj1 (list_elem_of_In _ _)
             (proj2 (elem_of_map_to_list _ _ _) Hid)))).
  - intros [Hc Hf]. split; [done|]. intros [id [d p| | |]] Hin; [|done..].
    apply list_elem_of_In, elem_of_map_to_list in Hin. apply bool_decide_eq_true_2. by eapply Hf.
Qed.

Lemma code_run_event_step interval e s s' :
  code_run_event interval e s = Some s' -> code_step interval s s'.
Proof.
  destruct s as [m c iss]. destruct e as [uc|code p|t|id|id]; simpl.
  - intros [= <-]. constructor.
  - destruct (UMR.ValidateCode code p m) as [r m'] eqn:E. intros [= <-]. by eapply code_validate.
  - destruct (tick_ok m c t) eqn:E; [|done]. apply tick_ok_spec in E as [Hc Hf].
    intros [= <-]. by constructor.
  - destruct (timers m !! id) as [[d p| | |]|] eqn:E; try done.
    destruct (Z.leb_spec d c); [|done]. intros [= <-]. by eapply code_fire.
  - destruct (timers m !! id) as [[|p| |]|] eqn:E; try done. intros [= <-]. by eapply code_callback.
Qed.

(** A trace [code_run] runs is an execution of the store. *)
Lemma code_run_steps interval es s s' :
  code_run interval es s = Some s' -> rtc (code_step interval) s s'.
Proof.
  revert s. induction es as [|e es IH]; intros s; simpl; [by intros [= <-]|].
  destruct (code_run_event interval e s) as [s1|] eqn:E; [|done].
  intros Hr. eapply rtc_l; [exact (code_run_event_step _ e _ _ E)|by apply IH].
Qed.

(** ** Only the last code sent can be valid *)

Definition code_inv (s : cstore) : Prop := codeMap (cs_mdb s) ⊆ cs_issued s.

Lemma code_inv_step interval s s' : code_inv s -> code_step interval s s' -> code_inv s'.
Proof.
  unfold code_inv. intros Hs Hst. destruct Hst as [| |m c iss code p r m' Hv| |]; cbn [cs_mdb cs_issued] in *.
  - done.
  - rewrite AddCode_codeMap. by apply insert_mono.
  - etrans; [by apply (ValidateCode_codeMap code p m r)|done].
  - done.
  - etrans; [apply delete_subseteq|done].
Qed.

Lemma code_inv_rtc interval s s' : code_inv s -> rtc (code_step interval) s s' -> code_inv s'.
Proof. intros Hs Hr. induction Hr; eauto using code_inv_step. Qed.

(** ** Claims *)

(** C28: From an empty store, in every interleaving of [AddCode],
    [ValidateCode], the clock and the timers, a [ValidateCode] that
    succeeds for a phone accepts exactly the code last sent to it: a
    code replaced by a newer one is never accepted. *)
Theorem ValidateCode_only_latest interval s code p m' :
  rtc (code_step interval) (mkCS mdb_empty 0 ∅) s ->
  UMR.ValidateCode code p (cs_mdb s) = (Ok tt, m') ->
  ∃ uc, cs_issued s !! p = Some uc ∧ UserCode.Code uc = code.
Proof.
  intros Hr Hv. assert (Hinv : code_inv s).
  { apply (code_inv_rtc interval _ _ (map_empty_subseteq _) Hr). }
  destruct (ValidateCode_ok _ _ _ _ Hv) as (uc & Huc & Hc & _).
  exists uc. split; [|done]. by apply (lookup_weaken _ _ _ _ Huc Hinv).
Qed.

Definition demo_phone : string := "13800000000".

Lemma ValidateCode_only_latest_witness :
  rtc (code_step 300)
      (mkCS mdb_empty 0 ∅)
      (mkCS (UMR.AddCode (UserCode.mk "222222" demo_phone) 300 0
               (UMR.AddCode (UserCode.mk "111111" demo_phone) 300 0 mdb_empty)) 0
            (<[demo_phone := UserCode.mk "222222" demo_phone]>
               (<[demo_phone := UserCode.mk "111111" demo_phone]> ∅))) ∧
  ∃ uc, (<[demo_phone := UserCode.mk "222222" demo_phone]>
           (<[demo_phone := UserCode.mk "111111" demo_phone]> ∅) : gmap string UserCode.t)
          !! demo_phone = Some uc ∧ UserCode.Code uc = "222222".
Proof.
  assert (Hr : rtc (code_step 300) (mkCS mdb_empty 0 ∅)
      (mkCS (UMR.AddCode (UserCode.mk "222222" demo_phone) 300 0
               (UMR.AddCode (UserCode.mk "111111" demo_phone) 300 0 mdb_empty)) 0
            (<[demo_phone := UserCode.mk "222222" demo_phone]>
               (<[demo_phone := UserCode.mk "111111" demo_phone]> ∅)))).
  { eapply rtc_l; [apply (code_add 300 mdb_empty 0 ∅ (UserCode.mk "111111" demo_phone))|].
    apply rtc_once. apply (code_add 300 _ 0 _ (UserCode.mk "222222" demo_phone)). }
  split; [exact Hr|].
  exact (ValidateCode_only_latest 300 _ "222222" demo_phone _ Hr ltac:(vm_compute; reflexivity)).
Defined.

(** C29: [ValidateCode] deletes the phone's timer entry without stopping
    the timer, so [AddCode] no longer finds the timer of a code already
    used, and that timer's callback deletes whatever code the phone has
    then.  From an empty store, the trace [reuse_trace]: [c1] is sent at
    0 and accepted at login; [c2] is sent at [t2]; at [interval] timer 0,
    armed for [c1], fires and its callback runs.  The trace is an
    execution of the store, and in its last state [c2] is the code last
    sent, was never validated, its own timer (1) is still armed with
    deadline [t2 + interval], later than the clock, and yet
    [ValidateCode c2] answers that no code exists. *)
Theorem old_timer_deletes_new_code interval (p c1 c2 : string) t2 :
  0 < t2 < interval ->
  ∃ s1 s, code_run interval (take 1 (reuse_trace p c1 c2 t2 interval)) (mkCS mdb_empty 0 ∅) = Some s1 ∧
       fst (UMR.ValidateCode c1 p (cs_mdb s1)) = Ok tt ∧
       code_run interval (reuse_trace p c1 c2 t2 interval) (mkCS mdb_empty 0 ∅) = Some s ∧
       rtc (code_step interval) (mkCS mdb_empty 0 ∅) s ∧
       timers (cs_mdb s) !! 0 = Some Ran ∧
       timers (cs_mdb s) !! 1 = Some (Armed (t2 + interval) p) ∧
       cs_clock s = interval ∧ cs_clock s < t2 + interval ∧
       cs_issued s !! p = Some (UserCode.mk c2 p) ∧
       UMR.ValidateCode c2 p (cs_mdb s) = (Err (ErrApp CodeMissing), cs_mdb s).
Proof.
  intros Ht.
  set (uc1 := UserCode.mk c1 p). set (uc2 := UserCode.mk c2 p).
  set (m1 := UMR.AddCode uc1 interval 0 mdb_empty).
  set (m2 := UMR.expire p m1).
  set (m3 := UMR.AddCode uc2 interval t2 m2).
  assert (Hm1 : m1 = mkMdb {[p := uc1]} {[p := 0]} {[0 := Armed (0 + interval) p]} 1)
    by (apply (AddCode_fresh uc1); done).
  assert (Hm3 : m3 = mkMdb (<[p := uc2]> ∅) (<[p := 1]> ∅)
                           (<[1 := Armed (t2 + interval) p]> {[0 := Armed (0 + interval) p]}) 2).
  { unfold m3, m2. rewrite Hm1, AddCode_fresh; unfold UMR.expire; simpl;
      [|by rewrite lookup_delete_eq]. by rewrite !delete_singleton_eq. }
  assert (Hv : UMR.ValidateCode c1 p m1 = (Ok tt, m2)).
  { rewrite Hm1. unfold UMR.ValidateCode. simpl. by rewrite lookup_singleton_eq, String.eqb_refl. }
  assert (Ht2 : tick_ok m2 0 t2 = true).
  { apply tick_ok_spec. split; [lia|]. unfold m2. rewrite Hm1. simpl.
    intros id d q (<- & [= <- _])%lookup_singleton_Some. lia. }
  assert (Hti : tick_ok m3 t2 interval = true).
  { apply tick_ok_spec. split; [lia|]. rewrite Hm3. simpl.
    intros id d q [[<- [= <- _]]|[_ (<- & [= <- _])%lookup_singleton_Some]]%lookup_insert_Some; lia. }
  assert (Hf : timers m3 !! 0 = Some (Armed (0 + interval) p)).
  { rewrite Hm3. simpl. by rewrite lookup_insert_ne, lookup_singleton_eq by lia. }
  set (s := mkCS (UMR.expire p (set_timer 0 Ran (set_timer 0 (Fired p) m3))) interval
                 (<[p := uc2]> (<[p := uc1]> ∅))).
  assert (Hrun : code_run interval (reuse_trace p c1 c2 t2 interval) (mkCS mdb_empty 0 ∅) = Some s).
  { unfold reuse_trace. cbn [code_run code_run_event]. fold uc1 m1. rewrite Hv. cbn [snd].
    rewrite Ht2. cbn [code_run code_run_event]. fold uc2 m3. rewrite Hti. cbn [code_run code_run_event].
    rewrite Hf, (proj2 (Z.leb_le _ _)) by lia. cbn [code_run code_run_event timers set_timer].
    by rewrite lookup_insert_eq. }
  exists (mkCS m1 0 {[p := uc1]}), s. split_and!.
  - done.
  - cbn [cs_mdb]. by rewrite Hv.
  - exact Hrun.
  - exact (code_run_steps _ _ _ _ Hrun).
  - simpl. by rewrite lookup_insert_eq.
  - unfold s, UMR.expire, set_timerMap, set_codeMap, set_timer. cbn [cs_mdb timers]. rewrite Hm3.
    cbn [timers]. by rewrite !lookup_insert_ne, lookup_insert_eq by lia.
  - done.
  - simpl. lia.
  - simpl. by rewrite lookup_insert_eq.
  - unfold UMR.ValidateCode. simpl. by rewrite lookup_delete_eq.
Qed.

Lemma old_timer_deletes_new_code_witness :
  0 < 100 < 300 ∧
  ∃ s1 s, code_run 300 (take 1 (reuse_trace demo_phone "111111" "222222" 100 300)) (mkCS mdb_empty 0 ∅)
            = Some s1 ∧
       fst (UMR.ValidateCode "111111" demo_phone (cs_mdb s1)) = Ok tt ∧
       code_run 300 (reuse_trace demo_phone "111111" "222222" 100 300) (mkCS mdb_empty 0 ∅) = Some s ∧
       rtc (code_step 300) (mkCS mdb_empty 0 ∅) s ∧
       timers (cs_mdb s) !! 0 = Some Ran ∧
       timers (cs_mdb s) !! 1 = Some (Armed (100 + 300) demo_phone) ∧
       cs_clock s = 300 ∧ cs_clock s < 100 + 300 ∧
       cs_issued s !! demo_phone = Some (UserCode.mk "222222" demo_phone) ∧
       UMR.ValidateCode "222222" demo_phone (cs_mdb s) = (Err (ErrApp CodeMissing), cs_mdb s).
Proof.
  split; [lia|]. exact (old_timer_deletes_new_code 300 demo_phone "111111" "222222" 100 ltac:(lia)).
Defined.
