(* ===== verification/Login.v ===== *)
(** * SendCode and Login (user_service.go, user_repository.go)

    [SendCode] draws a six-digit code, masks the phone number for the
    log ([MaskPhoneNumber], which panics on fewer than 7 bytes) and
    stores the code with [AddCode].  [Login] checks the code
    ([ValidateCode]), looks the user up by phone number, opens a
    transaction and either commits and returns the existing user, or
    registers a new one: up to five generated user names, retrying on a
    duplicate name, then [AddLikes(id, 0)] on the rank's sorted set.
    The registration path returns before its commit, which a deferred
    function runs with its error ignored.

    The random draws are inputs: the code for [SendCode], the list of
    generated names for [Login] ([GenerateRandomUsername(20)] is "user_"
    and 15 random characters).  The code store is the in-memory state of
    [CodeStore]; the rest runs in the monad [M] of [World]. *)

From S2P Require Import Prelude Strconv Utils Redis Models Durable World Rank CodeStore.
Open Scope hcl_scope.
Open Scope Z_scope.

Module UserRepository.

(** [GetUserByPhoneNumber]: [Take]; no row is [nil, nil]. *)
Definition GetUserByPhoneNumber (phoneNumber : string) : M (option User.t) :=
  sql_direct (fun d => Ok (sql_user_by_phone phoneNumber d, d)).

(** [AddUser]: [tx.Create], which reads the clock for [CreatedAt]. *)
Definition AddUser (user : User.t) : M User.t :=
  now <- time_now ;; sql_tx (sql_create_user now user).

End UserRepository.

Module UserService.

(** [SendCode] with the drawn [code] at time [now]; the goroutine only
    logs.  [None] of [MaskPhoneNumber] is the panic. *)
Definition SendCode (phoneNumber code : string) (interval now : Z) (m : mdb) : res err unit * mdb :=
  match MaskPhoneNumber phoneNumber with
  | None => (Err ErrPanic, m)
  | Some _ => (Ok tt, UMR.AddCode (UserCode.mk code phoneNumber) interval now m)
  end.

Definition Biography0 : string := "添加个人简介，让大家更好地认识你~".

(** The row [Login] inserts, with the generated name. *)
Definition new_user (phoneNumber name : string) : User.t :=
  User.mk 0 ("user_" +:+ name) phoneNumber 0 0 "" Biography0 0.

(** The deferred [tx.Commit()] of the registration path; its error is
    not looked at. *)
Definition deferred_commit : M unit := _ <- attempt tx_commit ;; ret tt.

(** The retry loop over the generated names. *)
Fixpoint register (phoneNumber : string) (names : list string) : M User.t :=
  match names with
  | [] => tx_rollback ;; throw (ErrApp UsernameRetries)
  | name :: rest =>
      r <- attempt (UserRepository.AddUser (new_user phoneNumber name)) ;;
      match r with
      | Err (ErrDb DbDuplicateKey) => register phoneNumber rest
      | Err e => tx_rollback ;; throw (ErrWrap "UserService.Login err: 500:添加用户错误:" e)
      | Ok user =>
          catch (UserCacheRepository.AddLikes (User.ID user) 0) (fun e => tx_rollback ;; throw e) ;;
          deferred_commit ;;
          ret user
      end
  end.

(** [Login] after the code check.  A failed [Begin] returns an error
    wrapping the earlier, nil, error. *)
Definition login_db (phoneNumber : string) (names : list string) : M User.t :=
  exists_ <- catch (UserRepository.GetUserByPhoneNumber phoneNumber)
               (fun e => throw (ErrWrap "UserService.Login err: 500: 通过手机号查找用户错误: " e)) ;;
  catch tx_begin (fun _ => throw (ErrApp LoginTxBegin)) ;;
  match exists_ with
  | None => register phoneNumber (take 5 names)
  | Some user =>
      catch tx_commit (fun e => throw (ErrWrap "UserService.Login err:" e)) ;;
      ret user
  end.

(** [Login]: the code store's new state and the rest of the handler. *)
Definition Login (userCode : UserCode.t) (names : list string) (m : mdb) : mdb * M User.t :=
  let '(r, m') := UMR.ValidateCode (UserCode.Code userCode) (UserCode.PhoneNumber userCode) m in
  (m', match r with
       | Err e => throw (ErrWrap "UserService.Login err: 401: 验证码验证失败: " e)
       | Ok _ => login_db (UserCode.PhoneNumber userCode) names
       end).

End UserService.

Module UR := UserRepository.
Module US := UserService.
Module UCR := UserCacheRepository.

(** ** Runs of the registration path *)

Lemma UCR_AddLikes_cons w fs id score z :
  faults w = NoFault :: fs -> zset_is (cache w) likes_key z ->
  UCR.AddLikes id score w
  = (Ok tt, set_cache (set_key likes_key (RZSet (<[Itoa id := default 0 (z !! Itoa id) + score]> z))
                        (cache w)) (set_faults fs w)).
Proof.
  intros Hf Hz. unfold UCR.AddLikes.
  by rewrite (bind_ok _ _ _ _ _ (rcall_cons_ok _ w _ _ _ Hf (ZINCRBY_is _ _ _ score (Itoa id) Hz))).
Qed.

(** The first name is free: the row is added, the user's count is set
    in the sorted set; what remains is the deferred commit. *)
Lemma register_first_free w fs d z phone n ns u' d' :
  faults w = NoFault :: NoFault :: fs -> tx w = Some d -> zset_is (cache w) likes_key z ->
  sql_create_user (clock w) (US.new_user phone n) d = Ok (u', d') ->
  US.register phone (n :: ns) w
  = (US.deferred_commit ;; ret u')
      (set_cache (set_key likes_key (RZSet (<[Itoa (User.ID u') := default 0 (z !! Itoa (User.ID u')) + 0]> z))
                            (cache w))
                 (set_faults fs (set_tx (Some d') (set_faults (NoFault :: fs) w)))).
Proof.
  intros Hf Ht Hz Hc. simpl.
  rewrite (bind_ok _ _ _ _ _ (attempt_run _ _ _ _ (sql_tx_cons _ w _ d _ _ Hf Ht Hc : UR.AddUser _ w = _))).
  rewrite (bind_ok _ _ _ _ _ (catch_ok _ _ _ _ _
            (UCR_AddLikes_cons (set_tx (Some d') (set_faults (NoFault :: fs) w)) fs _ 0 z eq_refl Hz))).
  reflexivity.
Qed.

(** [login_db] for a phone with no user: the lookup and [Begin], then
    the loop. *)
Lemma login_db_new w fs phone names :
  faults w = NoFault :: NoFault :: fs -> sql_user_by_phone phone (store_db w) = None ->
  US.login_db phone names w
  = US.register phone (take 5 names) (set_tx (Some (store_db w)) (set_faults fs w)).
Proof.
  intros Hf Hp. unfold US.login_db.
  rewrite (bind_ok _ _ _ _ _ (catch_ok _ _ _ _ _ (sql_direct_cons (fun d => Ok (sql_user_by_phone phone d, d)) w _ None (store_db w) Hf
                                ltac:(cbv beta; by rewrite Hp)))).
  rewrite (bind_ok _ _ _ _ _ (catch_ok _ _ _ _ _ (tx_begin_cons (set_db (store_db w) (set_faults (NoFault :: fs) w)) fs eq_refl))). done.
Qed.

(** The path of a known phone number up to the commit. *)
Lemma login_db_existing w fs phone names u :
  faults w = NoFault :: NoFault :: fs -> sql_user_by_phone phone (store_db w) = Some u ->
  US.login_db phone names w
  = (catch tx_commit (fun e => throw (ErrWrap "UserService.Login err:" e)) ;; ret u)
      (set_tx (Some (store_db w)) (set_faults fs w)).
Proof.
  intros Hf Hp. unfold US.login_db.
  rewrite (bind_ok _ _ _ _ _ (catch_ok _ _ _ _ _ (sql_direct_cons (fun d => Ok (sql_user_by_phone phone d, d)) w _ (Some u) (store_db w) Hf
                                ltac:(cbv beta; by rewrite Hp)))).
  rewrite (bind_ok _ _ _ _ _ (catch_ok _ _ _ _ _ (tx_begin_cons (set_db (store_db w) (set_faults (NoFault :: fs) w)) fs eq_refl))). done.
Qed.

(** ** The lookup by phone number *)

(** A new row with a phone number no row had is what the lookup finds. *)
Lemma user_by_phone_insert p d u s :
  sql_user_by_phone p d = None -> user_t d !! User.ID u = None -> User.PhoneNumber u = p ->
  sql_user_by_phone p (set_users_seq (<[User.ID u := u]> (user_t d)) s d) = Some u.
Proof.
  unfold sql_user_by_phone; simpl. intros Hn Hid Hp.
  assert (Hnil : filter (fun v => User.PhoneNumber v = p) (map snd (map_to_list (user_t d))) = [])
    by (by destruct (filter _ _)).
  assert (Hperm : filter (fun v => User.PhoneNumber v = p)
                    (map snd (map_to_list (<[User.ID u := u]> (user_t d)))) ≡ₚ [u]).
  { rewrite (map_to_list_insert _ _ _ Hid). simpl. rewrite filter_cons_True by done.
    by rewrite Hnil. }
  apply Permutation_singleton_r in Hperm. by rewrite Hperm.
Qed.

(** The row [sql_create_user] adds for a name no row has. *)
Lemma create_new_user now d phone n :
  existsb (fun kv => String.eqb (User.UserName kv.2) ("user_" +:+ n)) (map_to_list (user_t d)) = false ->
  sql_create_user now (US.new_user phone n) d
  = Ok (User.mk (user_seq d) ("user_" +:+ n) phone 0 now "" US.Biography0 0,
        set_users_seq (<[user_seq d := User.mk (user_seq d) ("user_" +:+ n) phone 0 now "" US.Biography0 0]>
                        (user_t d)) (user_seq d + 1) d).
Proof. intros H. unfold sql_create_user. simpl. by rewrite H. Qed.

(** [Login] of a new phone with the right code, when the lookup, [Begin],
    the insert and [ZINCRBY] meet no fault: the code is used up and what
    remains is the deferred commit of the new row. *)
Lemma Login_new_prefix w fs f m uc n ns z :
  faults w = NoFault :: NoFault :: NoFault :: NoFault :: f :: fs ->
  codeMap m !! UserCode.PhoneNumber uc = Some uc ->
  sql_user_by_phone (UserCode.PhoneNumber uc) (store_db w) = None ->
  existsb (fun kv => String.eqb (User.UserName kv.2) ("user_" +:+ n)) (map_to_list (user_t (store_db w))) = false ->
  zset_is (cache w) likes_key z ->
  let p := UserCode.PhoneNumber uc in
  let id := user_seq (store_db w) in
  let u := User.mk id ("user_" +:+ n) p 0 (clock w) "" US.Biography0 0 in
  fst (US.Login uc (n :: ns) m) = UMR.expire p m ∧
  snd (US.Login uc (n :: ns) m) w
  = (US.deferred_commit ;; ret u)
      (set_cache (set_key likes_key (RZSet (<[Itoa id := default 0 (z !! Itoa id) + 0]> z)) (cache w))
        (set_faults (f :: fs)
          (set_tx (Some (set_users_seq (<[id := u]> (user_t (store_db w))) (id + 1) (store_db w)))
            (set_faults (NoFault :: NoFault :: f :: fs)
              (set_tx (Some (store_db w)) (set_faults (NoFault :: NoFault :: f :: fs) w)))))).
Proof.
  intros Hf Hm Hp Hn Hz. unfold US.Login, UMR.ValidateCode. rewrite Hm, String.eqb_refl.
  split; [done|]. simpl.
  rewrite (login_db_new w _ _ _ Hf Hp). simpl.
  exact (register_first_free (set_tx (Some (store_db w)) (set_faults (NoFault :: NoFault :: f :: fs) w)) (f :: fs) (store_db w) z _ n _ _ _ eq_refl eq_refl Hz
           (create_new_user _ _ _ _ Hn)).
Qed.

(** ** Claims *)

(** C30: [Login] of a phone with no account, with the code last sent to
    it and a free generated name, when the five calls of the path meet
    no fault: the code is used up, a user with that phone, the next id
    and the name "user_" ^ name is created and committed, its like count
    0 is put in the rank's sorted set, and from then on the lookup by
    phone number finds this user (registration then lookup round trip). *)
Theorem Login_registers_new_user w fs m uc n ns z :
  faults w = [NoFault; NoFault; NoFault; NoFault; NoFault] ++ fs ->
  codeMap m !! UserCode.PhoneNumber uc = Some uc ->
  sql_user_by_phone (UserCode.PhoneNumber uc) (store_db w) = None ->
  user_t (store_db w) !! user_seq (store_db w) = None ->
  existsb (fun kv => String.eqb (User.UserName kv.2) ("user_" +:+ n)) (map_to_list (user_t (store_db w))) = false ->
  zset_is (cache w) likes_key z ->
  codeMap (fst (US.Login uc (n :: ns) m)) !! UserCode.PhoneNumber uc = None ∧
  ∃ u w', snd (US.Login uc (n :: ns) m) w = (Ok u, w') ∧
    User.PhoneNumber u = UserCode.PhoneNumber uc ∧ User.ID u = user_seq (store_db w) ∧
    sql_user_by_phone (UserCode.PhoneNumber uc) (store_db w') = Some u ∧
    zset_is (cache w') likes_key (<[Itoa (User.ID u) := default 0 (z !! Itoa (User.ID u)) + 0]> z).
Proof.
  intros Hf Hm Hp Hid Hn Hz.
  destruct (Login_new_prefix w fs NoFault m uc n ns z Hf Hm Hp Hn Hz) as [-> ->].
  split; [unfold UMR.expire; simpl; apply lookup_delete_eq|].
  unfold US.deferred_commit. rewrite bind_assoc.
  erewrite bind_ok; [|apply attempt_run, tx_commit_cons with (fs := fs); reflexivity].
  eexists _, _. split; [reflexivity|]. simpl. split_and!; [done|done| |apply zset_is_set_key].
  by apply user_by_phone_insert.
Qed.

(** C31: The registration path returns the new user before the deferred
    [tx.Commit()], whose error is ignored: when the commit is lost,
    [Login] still succeeds with the new user, the user is in no table
    (the lookup by phone finds nothing), and the rank's sorted set
    counts likes for its id. *)
Theorem Login_commit_lost_returns_unsaved_user w fs m uc n ns z :
  faults w = [NoFault; NoFault; NoFault; NoFault; FailBefore] ++ fs ->
  codeMap m !! UserCode.PhoneNumber uc = Some uc ->
  sql_user_by_phone (UserCode.PhoneNumber uc) (store_db w) = None ->
  existsb (fun kv => String.eqb (User.UserName kv.2) ("user_" +:+ n)) (map_to_list (user_t (store_db w))) = false ->
  zset_is (cache w) likes_key z ->
  ∃ u w', snd (US.Login uc (n :: ns) m) w = (Ok u, w') ∧
    User.PhoneNumber u = UserCode.PhoneNumber uc ∧
    store_db w' = store_db w ∧
    sql_user_by_phone (UserCode.PhoneNumber uc) (store_db w') = None ∧
    zset_is (cache w') likes_key (<[Itoa (User.ID u) := default 0 (z !! Itoa (User.ID u)) + 0]> z).
Proof.
  intros Hf Hm Hp Hn Hz.
  destruct (Login_new_prefix w fs FailBefore m uc n ns z Hf Hm Hp Hn Hz) as [_ ->].
  unfold US.deferred_commit. rewrite bind_assoc.
  erewrite bind_ok; [|apply attempt_run; eapply tx_commit_cons_lost with (fs := fs); reflexivity].
  eexists _, _. split; [reflexivity|]. simpl. split_and!; [done|done|done|apply zset_is_set_key].
Qed.

Definition demo_login_code : UserCode.t := UserCode.mk "123456" demo_phone.
Definition demo_login_mdb : mdb := set_codeMap {[demo_phone := demo_login_code]} mdb_empty.
Definition demo_login_world (fs : list fault) : World :=
  mkWorld redis_empty db_empty None [] 0 [] fs.

Lemma Login_registers_new_user_witness :
  codeMap (fst (US.Login demo_login_code ["a"] demo_login_mdb)) !! demo_phone = None ∧
  ∃ u w', snd (US.Login demo_login_code ["a"] demo_login_mdb)
             (demo_login_world [NoFault; NoFault; NoFault; NoFault; NoFault]) = (Ok u, w') ∧
    User.PhoneNumber u = demo_phone ∧ User.ID u = 1 ∧
    sql_user_by_phone demo_phone (store_db w') = Some u ∧
    zset_is (cache w') likes_key (<[Itoa (User.ID u) := default 0 ((∅ : gmap string Z) !! Itoa (User.ID u)) + 0]> ∅).
Proof.
  apply (Login_registers_new_user (demo_login_world [NoFault; NoFault; NoFault; NoFault; NoFault]) []
           demo_login_mdb demo_login_code "a" [] ∅);
    [reflexivity|reflexivity|reflexivity|reflexivity|vm_compute; reflexivity|right; split; reflexivity].
Defined.

Lemma Login_commit_lost_returns_unsaved_user_witness :
  ∃ u w', snd (US.Login demo_login_code ["a"] demo_login_mdb)
             (demo_login_world [NoFault; NoFault; NoFault; NoFault; FailBefore]) = (Ok u, w') ∧
    User.PhoneNumber u = demo_phone ∧ store_db w' = db_empty ∧
    sql_user_by_phone demo_phone (store_db w') = None ∧
    zset_is (cache w') likes_key (<[Itoa (User.ID u) := default 0 ((∅ : gmap string Z) !! Itoa (User.ID u)) + 0]> ∅).
Proof.
  apply (Login_commit_lost_returns_unsaved_user (demo_login_world [NoFault; NoFault; NoFault; NoFault; FailBefore]) []
           demo_login_mdb demo_login_code "a" [] ∅);
    [reflexivity|reflexivity|reflexivity|vm_compute; reflexivity|right; split; reflexivity].
Defined.
