(* ===== verification/Profile.v ===== *)
(** * User profile and administrators

    [UserService.GetUserByID], [AddAdminByPhoneNumber] and
    [UpdateUserInfo] (user_service.go) with the repository calls they
    make (user_repository.go): a read by id, the promotion of every row
    with a phone number to [is_manager = 1], and GORM's [Updates] of the
    non-zero fields of a JSON body.  The wraps that carry a status code
    are kept as [ErrWrap]; [user.IsManager] on the [nil] user of an
    unknown phone number is the panic [ErrPanic]. *)

From S2P Require Import Prelude Strconv Redis Models Durable World Rank CodeStore Login.
Open Scope hcl_scope.
Open Scope Z_scope.

Module UserRepository.

Definition AddAdminByPhoneNumber (phoneNumber : string) : M unit :=
  sql_direct (total (fun d => (tt, sql_set_manager_by_phone phoneNumber d))).

Definition UpdateUserInfo (id : Z) (user : User.t) : M unit :=
  sql_direct (fun d => match sql_update_user_info id user d with
                       | Ok d' => Ok (tt, d')
                       | Err e => Err e
                       end).

End UserRepository.

Module UserService.

Definition GetUserByID (userID : Z) : M (option User.t) :=
  catch (Rank.UserRepository.GetUserByUserID userID)
        (fun e => throw (ErrWrap "UserService.GetUserByID err: 500:通过ID查找用户错误:" e)).

Definition AddAdminByPhoneNumber (phoneNumber : string) : M unit :=
  user <- catch (Login.UserRepository.GetUserByPhoneNumber phoneNumber)
                (fun e => throw (ErrWrap "UserService.AddAdminByPhoneNumber err: 500:通过手机号查找用户错误:" e)) ;;
  match user with
  | None => throw ErrPanic
  | Some u =>
      if Z.eqb (User.IsManager u) 1 then throw (ErrApp AlreadyManager)
      else catch (UserRepository.AddAdminByPhoneNumber phoneNumber)
                 (fun e => throw (ErrWrap "UserService.AddAdminByPhoneNumber err: 500:更新管理员出错:" e))
  end.

Definition UpdateUserInfo (userID : Z) (user : User.t) : M unit :=
  catch (UserRepository.UpdateUserInfo userID user)
        (fun e => throw (ErrWrap "UserService.UpdateUserInfo err: 500:更新用户信息出错:" e)).

End UserService.

(** ** Lemmas *)

Lemma user_by_phone_Some p d u :
  sql_user_by_phone p d = Some u -> User.PhoneNumber u = p ∧ ∃ i, user_t d !! i = Some u.
Proof.
  unfold sql_user_by_phone. intros H.
  assert (Hin : u ∈ filter (fun u => User.PhoneNumber u = p) (map snd (map_to_list (user_t d)))).
  { destruct (filter _ _) as [|x l]; simplify_eq/=. by left. }
  apply list_elem_of_filter in Hin as [Hp Hin]. split; [done|].
  apply list_elem_of_fmap in Hin as ([i v] & -> & Hin).
  exists i. by apply elem_of_map_to_list in Hin.
Qed.

Lemma GetUserByPhoneNumber_cons w fs p :
  faults w = NoFault :: fs ->
  Login.UserRepository.GetUserByPhoneNumber p w
  = (Ok (sql_user_by_phone p (store_db w)), set_faults fs w).
Proof.
  intros Hf. unfold Login.UserRepository.GetUserByPhoneNumber.
  rewrite (sql_direct_cons _ w fs (sql_user_by_phone p (store_db w)) (store_db w) Hf); [|done].
  by destruct w.
Qed.

Lemma set_manager_lookup p d i :
  user_t (sql_set_manager_by_phone p d) !! i
  = (fun u => if String.eqb (User.PhoneNumber u) p then set_manager u else u) <$> user_t d !! i.
Proof. apply lookup_fmap. Qed.

Lemma AddAdminByPhoneNumber_run w fs p u :
  faults w = NoFault :: NoFault :: fs -> sql_user_by_phone p (store_db w) = Some u ->
  User.IsManager u ≠ 1 ->
  UserService.AddAdminByPhoneNumber p w
  = (Ok tt, set_db (sql_set_manager_by_phone p (store_db w)) (set_faults fs w)).
Proof.
  intros Hf Hp Hm. unfold UserService.AddAdminByPhoneNumber.
  rewrite (bind_ok _ _ _ _ _ (catch_ok _ _ _ _ _ (GetUserByPhoneNumber_cons w _ p Hf))), Hp.
  cbv beta iota. rewrite (proj2 (Z.eqb_neq _ _) Hm).
  unfold UserRepository.AddAdminByPhoneNumber.
  rewrite (catch_ok _ _ _ _ _ (sql_direct_cons _ (set_faults (NoFault :: fs) w) fs tt _ eq_refl eq_refl)).
  reflexivity.
Qed.

Lemma UpdateUserInfo_run w fs id cur body :
  faults w = NoFault :: fs -> user_t (store_db w) !! id = Some cur ->
  User.ID body = 0 -> User.UserName body = "" ->
  UserService.UpdateUserInfo id body w
  = (Ok tt, set_db (set_users (<[id := gorm_updates_user body cur]> (user_t (store_db w))) (store_db w))
                   (set_faults fs w)).
Proof.
  intros Hf Hc Hid Hn. unfold UserService.UpdateUserInfo, UserRepository.UpdateUserInfo.
  assert (Hs : sql_update_user_info id body (store_db w)
               = Ok (set_users (<[id := gorm_updates_user body cur]> (user_t (store_db w))) (store_db w))).
  { unfold sql_update_user_info. by rewrite Hid, Hc, Hn. }
  erewrite catch_ok; [reflexivity|].
  apply sql_direct_cons; [exact Hf|]. cbv beta. by rewrite Hs.
Qed.

(** ** Claims *)

(** C24: [AddAdminByPhoneNumber] only refuses a user whose [IsManager]
    is 1: for a super administrator (2) the update runs and sets every
    row with that phone number to 1, so the super administrator is
    demoted to an ordinary administrator. *)
Theorem AddAdminByPhoneNumber_demotes_super_admin w fs p u :
  faults w = NoFault :: NoFault :: fs -> sql_user_by_phone p (store_db w) = Some u ->
  User.IsManager u = 2 ->
  ∃ w', UserService.AddAdminByPhoneNumber p w = (Ok tt, w') ∧
    ∃ i, user_t (store_db w) !! i = Some u ∧
         user_t (store_db w') !! i = Some (set_manager u) ∧ User.IsManager (set_manager u) = 1.
Proof.
  intros Hf Hp Hm. eexists. split; [apply (AddAdminByPhoneNumber_run w fs p u); [done|done|lia]|].
  destruct (user_by_phone_Some _ _ _ Hp) as [Hph [i Hi]].
  exists i. split_and!; [done| |done]. cbn [store_db set_db set_faults].
  rewrite set_manager_lookup, Hi. simpl. by rewrite Hph, String.eqb_refl.
Qed.

(** [AddAdminByPhoneNumber] of a phone number no user has reads
    [user.IsManager] on the [nil] user the repository returns: the
    handler panics, and nothing is written. *)
Theorem AddAdminByPhoneNumber_unknown_phone_panics w fs p :
  faults w = NoFault :: fs -> sql_user_by_phone p (store_db w) = None ->
  UserService.AddAdminByPhoneNumber p w = (Err ErrPanic, set_faults fs w).
Proof.
  intros Hf Hp. unfold UserService.AddAdminByPhoneNumber.
  rewrite (bind_ok _ _ _ _ _ (catch_ok _ _ _ _ _ (GetUserByPhoneNumber_cons w _ p Hf))), Hp.
  reflexivity.
Qed.

(** [UpdateUserInfo] writes every non-zero field of the JSON body
    into the caller's row, [is_manager] included: a body with only
    [is_manager] set to 2 turns the caller into a super administrator,
    and a field sent empty ([biography = ""]) cannot be cleared. *)
Theorem UpdateUserInfo_writes_nonzero_fields w fs id cur body :
  faults w = NoFault :: fs -> user_t (store_db w) !! id = Some cur ->
  User.ID body = 0 -> User.UserName body = "" ->
  ∃ w', UserService.UpdateUserInfo id body w = (Ok tt, w') ∧
    user_t (store_db w') !! id = Some (gorm_updates_user body cur) ∧
    (User.IsManager body ≠ 0 -> User.IsManager (gorm_updates_user body cur) = User.IsManager body) ∧
    (User.Biography body = "" -> User.Biography (gorm_updates_user body cur) = User.Biography cur).
Proof.
  intros Hf Hc Hid Hn. eexists. split; [by apply UpdateUserInfo_run|].
  simpl. rewrite lookup_insert_eq. split_and!; [done| |].
  - intros Hm. unfold nz_int. by rewrite (proj2 (Z.eqb_neq _ _) Hm).
  - intros ->. reflexivity.
Qed.

Definition demo_admin : User.t := User.mk 1 "user_root" demo_phone 2 0 "" US.Biography0 0.
Definition demo_profile_db : db := set_users {[1 := demo_admin]} db_empty.
Definition demo_profile_world (fs : list fault) : World :=
  mkWorld redis_empty demo_profile_db None [] 0 [] fs.

Lemma AddAdminByPhoneNumber_demotes_super_admin_witness :
  ∃ w', UserService.AddAdminByPhoneNumber demo_phone (demo_profile_world [NoFault; NoFault]) = (Ok tt, w') ∧
    ∃ i, user_t demo_profile_db !! i = Some demo_admin ∧
         user_t (store_db w') !! i = Some (set_manager demo_admin) ∧ User.IsManager (set_manager demo_admin) = 1.
Proof.
  apply (AddAdminByPhoneNumber_demotes_super_admin (demo_profile_world [NoFault; NoFault]) [] demo_phone demo_admin);
    reflexivity.
Defined.

Lemma AddAdminByPhoneNumber_unknown_phone_panics_witness :
  UserService.AddAdminByPhoneNumber "13900000000" (demo_profile_world [NoFault])
  = (Err ErrPanic, set_faults [] (demo_profile_world [NoFault])).
Proof.
  apply (AddAdminByPhoneNumber_unknown_phone_panics (demo_profile_world [NoFault]) [] "13900000000");
    reflexivity.
Defined.

Definition demo_escalate_body : User.t := User.mk 0 "" "" 2 0 "" "" 0.

Lemma UpdateUserInfo_writes_nonzero_fields_witness :
  ∃ w', UserService.UpdateUserInfo 1 demo_escalate_body (demo_profile_world [NoFault]) = (Ok tt, w') ∧
    user_t (store_db w') !! 1 = Some (gorm_updates_user demo_escalate_body demo_admin) ∧
    (User.IsManager demo_escalate_body ≠ 0 ->
     User.IsManager (gorm_updates_user demo_escalate_body demo_admin) = User.IsManager demo_escalate_body) ∧
    (User.Biography demo_escalate_body = "" ->
     User.Biography (gorm_updates_user demo_escalate_body demo_admin) = User.Biography demo_admin).
Proof.
  apply (UpdateUserInfo_writes_nonzero_fields (demo_profile_world [NoFault]) [] 1 demo_admin demo_escalate_body);
    reflexivity.
Defined.
