(* ===== verification/Records.v ===== *)
(** * Score and phone records, the follow listing

    [UserService.AddScore], [AddPhoneRecord], [GetPhoneRecordByPhone]
    and [GetFollows] (user_service.go) with the repository calls they
    make (user_repository.go).  [AddPhoneRecord] reads the manager's
    latest score record straight from the database, the rated user, and
    files a phone record with the score as its satisfaction.  The
    messages of the wraps are kept as [ErrWrap].  The lemmas: the fold
    [sql_latest_score] picks a row that no other row of the manager
    comes before, and a score record filed after the others decides the
    next phone record (the claim built on it is in Controllers.v). *)

From S2P Require Import Prelude Strconv Redis Models Durable World Rank.
Open Scope hcl_scope.
Open Scope Z_scope.

Module UserRepository.

(** GORM sets a zero [CreatedAt] to the current time on [Create]. *)
Definition stamp (now t : Z) : Z := if Z.eqb t 0 then now else t.

Definition AddScore (scoreRecord : ScoreRecord.t) : M unit :=
  now <- time_now ;;
  let sr := ScoreRecord.mk (ScoreRecord.ID scoreRecord) (ScoreRecord.UserID scoreRecord)
              (ScoreRecord.ManagerID scoreRecord) (ScoreRecord.Score scoreRecord)
              (stamp now (ScoreRecord.CreatedAt scoreRecord)) in
  catch (sql_direct (fun d => match sql_create_score sr d with
                              | Ok (_, d') => Ok (tt, d')
                              | Err e => Err e
                              end))
        (fun e => throw (ErrWrap "UserRepository.AddScore err:" e)).

Definition AddPhoneRecord (phoneRecord : PhoneRecord.t) : M unit :=
  catch (sql_direct (total (fun d => (tt, (sql_create_phone phoneRecord d).2))))
        (fun e => throw (ErrWrap "UserRepository.AddPhoneRecord err:" e)).

Definition GetPhoneRecordByPhone (phoneNumber : string) : M (list PhoneRecord.t) :=
  catch (sql_direct (fun d => Ok (sql_phones_by_phone phoneNumber d, d)))
        (fun e => throw (ErrWrap "UserRepository.GetPhoneRecordByPhone err:" e)).

Definition GetFollows (userID : Z) : M (list User.t) :=
  catch (sql_direct (fun d => Ok (sql_follows_of userID d, d)))
        (fun e => throw (ErrWrap "UserRepository.GetFollows err:" e)).

(** The query of [AddPhoneRecord], on [DB] directly. *)
Definition LatestScore (managerID : Z) : M ScoreRecord.t :=
  sql_direct (fun d => match sql_latest_score managerID d with
                       | Some r => Ok (r, d)
                       | None => Err DbRecordNotFound
                       end).

End UserRepository.

Module UserService.

Definition AddScore (scoreRecord : ScoreRecord.t) : M unit :=
  catch (UserRepository.AddScore scoreRecord)
        (fun e => throw (ErrWrap "UserService.AddScore 数据库操作错误:添加积分记录错误:" e)).

Definition AddPhoneRecord (managerID : Z) (content : string) : M unit :=
  latest <- catch (UserRepository.LatestScore managerID)
                  (fun e => match e with
                            | ErrDb DbRecordNotFound => throw (ErrApp NoScoreRecord)
                            | _ => throw (ErrWrap "UserService.AddPhoneRecord 数据库操作错误:查找评分记录错误:" e)
                            end) ;;
  user <- catch (Rank.UserRepository.GetUserByUserID (ScoreRecord.UserID latest))
                (fun e => throw (ErrWrap "UserService.AddPhoneRecord 数据库操作错误:查找用户错误:" e)) ;;
  match user with
  | None => throw (ErrApp NoSuchUser)
  | Some u =>
      now <- time_now ;;
      let phoneRecord := PhoneRecord.mk 0 (ScoreRecord.UserID latest) (ScoreRecord.ManagerID latest)
                           content now (ScoreRecord.Score latest) (User.PhoneNumber u) in
      catch (UserRepository.AddPhoneRecord phoneRecord)
            (fun e => throw (ErrWrap "UserService.AddPhoneRecord 数据库操作错误:添加电话记录错误:" e))
  end.

Definition GetPhoneRecordByPhone (phoneNumber : string) : M (list PhoneRecord.t) :=
  catch (UserRepository.GetPhoneRecordByPhone phoneNumber)
        (fun e => throw (ErrWrap "UserService.GetPhoneRecordByPhone err:" e)).

Definition GetFollows (userID : Z) : M (list User.t) :=
  catch (UserRepository.GetFollows userID)
        (fun e => throw (ErrWrap "UserService.GetFollows err:" e)).

End UserService.

Module UR := UserRepository.
Module US := UserService.

(** ** The score table *)

(** [later a b]: [a] comes before [b] in [ORDER BY created_at desc, id]. *)
Definition order_key_lt (a b : ScoreRecord.t) : Prop :=
  ScoreRecord.CreatedAt b < ScoreRecord.CreatedAt a ∨
  (ScoreRecord.CreatedAt a = ScoreRecord.CreatedAt b ∧ ScoreRecord.ID a < ScoreRecord.ID b).

(** ** Lemmas *)

Lemma later_true a b : later a b = true ↔ order_key_lt a b.
Proof.
  unfold later, order_key_lt. rewrite orb_true_iff, andb_true_iff, Z.ltb_lt, Z.eqb_eq, Z.ltb_lt. lia.
Qed.

Lemma later_false a b : later a b = false ↔ ¬ order_key_lt a b.
Proof. rewrite <-later_true. destruct (later a b); intuition congruence. Qed.

(** Turn every [later] of the context and goal into its arithmetic. *)
Ltac later_arith :=
  repeat match goal with
         | H : later _ _ = true |- _ => apply later_true in H
         | H : later _ _ = false |- _ => apply later_false in H
         | |- later _ _ = true => apply later_true
         | |- later _ _ = false => apply later_false
         end; unfold order_key_lt in *; lia.

Lemma latest_of_in b rs : latest_of b rs ∈ b :: rs.
Proof.
  revert b. induction rs as [|r rs IH]; intros b; simpl; [set_solver|].
  pose proof (IH (if later r b then r else b)) as H. destruct (later r b); set_solver.
Qed.

(** No record of the list comes before the one [latest_of] picks. *)
Lemma latest_of_first b rs x : x ∈ b :: rs -> later x (latest_of b rs) = false.
Proof.
  revert b x. induction rs as [|r rs IH]; intros b x Hx; simpl.
  - apply list_elem_of_singleton in Hx as ->. later_arith.
  - destruct (later r b) eqn:Hrb;
      [pose proof (IH r r (list_elem_of_here _ _)) as Hr|pose proof (IH b b (list_elem_of_here _ _)) as Hr];
      rewrite !elem_of_cons in Hx; destruct Hx as [->|[->|Hx]];
      try (apply IH; by apply list_elem_of_further); later_arith.
Qed.

Lemma sql_latest_score_some m d r :
  sql_latest_score m d = Some r ->
  r ∈ score_t d ∧ ScoreRecord.ManagerID r = m ∧
  ∀ x, x ∈ score_t d -> ScoreRecord.ManagerID x = m -> later x r = false.
Proof.
  unfold sql_latest_score. destruct (List.filter _ _) as [|f rest] eqn:Hf; [done|intros [= <-]].
  assert (Hmem : ∀ y, y ∈ f :: rest ↔ y ∈ score_t d ∧ ScoreRecord.ManagerID y = m).
  { intros y. rewrite <-Hf, !list_elem_of_In, filter_In, Z.eqb_eq. tauto. }
  split_and!; [apply Hmem, latest_of_in..|].
  intros x Hx Hm. apply latest_of_first, Hmem. done.
Qed.

Lemma latest_of_app b rs x :
  latest_of b (rs ++ [x]) = if later x (latest_of b rs) then x else latest_of b rs.
Proof. revert b. induction rs as [|r rs IH]; intros b; simpl; [done|apply IH]. Qed.

(** A record of the manager filed after all the others becomes the
    latest one. *)
Lemma sql_latest_score_snoc m d x seq :
  ScoreRecord.ManagerID x = m ->
  (∀ r, r ∈ score_t d -> ScoreRecord.ManagerID r = m -> later x r = true) ->
  sql_latest_score m (set_scores (score_t d ++ [x]) seq d) = Some x.
Proof.
  intros Hm Hlater. unfold sql_latest_score. simpl. rewrite List.filter_app. simpl. rewrite Hm, Z.eqb_refl.
  pose proof (sql_latest_score_some m d) as Hsome. unfold sql_latest_score in Hsome.
  destruct (List.filter _ (score_t d)) as [|f rest]; [done|].
  simpl. rewrite latest_of_app. destruct (Hsome _ eq_refl) as (Hin & Hrm & _). by rewrite Hlater.
Qed.

Lemma AddScore_run w sr :
  no_faults w -> ScoreRecord.ID sr = 0 ->
  US.AddScore sr w =
    (Ok tt, set_db (set_scores (score_t (store_db w) ++
                                [ScoreRecord.mk (score_seq (store_db w)) (ScoreRecord.UserID sr)
                                   (ScoreRecord.ManagerID sr) (ScoreRecord.Score sr)
                                   (UR.stamp (clock w) (ScoreRecord.CreatedAt sr))])
                               (score_seq (store_db w) + 1) (store_db w)) w).
Proof.
  intros Hw H0. unfold US.AddScore, UR.AddScore. apply catch_ok. rewrite (bind_ok _ _ _ (clock w) w) by done.
  apply catch_ok. apply sql_direct_nf; [done|]. unfold sql_create_score. simpl. by rewrite H0.
Qed.

Lemma AddPhoneRecord_run w m content r u :
  no_faults w -> sql_latest_score m (store_db w) = Some r ->
  user_t (store_db w) !! ScoreRecord.UserID r = Some u ->
  US.AddPhoneRecord m content w =
    (Ok tt, set_db (set_phones (phone_t (store_db w) ++
                                [PhoneRecord.mk (phone_seq (store_db w)) (ScoreRecord.UserID r)
                                   (ScoreRecord.ManagerID r) content (clock w) (ScoreRecord.Score r)
                                   (User.PhoneNumber u)])
                               (phone_seq (store_db w) + 1) (store_db w)) w).
Proof.
  intros Hw Hl Hu. unfold US.AddPhoneRecord.
  rewrite (bind_ok _ _ _ r w); [|apply catch_ok, sql_direct_read_nf; [done|by rewrite Hl]].
  rewrite (bind_ok _ _ _ (Some u) w); [|apply catch_ok, sql_direct_read_nf; [done|by rewrite Hu]].
  rewrite (bind_ok _ _ _ (clock w) w) by done. apply catch_ok, catch_ok, sql_direct_nf; done.
Qed.

(** Whoever files a score record decides the manager's next phone
    record: after [AddScore] of a record for manager [m] whose time (its
    [created_at], or now when it is zero) is later than every other
    record of [m], the phone record that [AddPhoneRecord m] files carries
    the score of that record as its satisfaction and the phone number of
    the user it names. *)
Lemma AddScore_then_AddPhoneRecord w sr content u :
  no_faults w -> ScoreRecord.ID sr = 0 ->
  user_t (store_db w) !! ScoreRecord.UserID sr = Some u ->
  (∀ r, r ∈ score_t (store_db w) -> ScoreRecord.ManagerID r = ScoreRecord.ManagerID sr ->
        ScoreRecord.CreatedAt r < UR.stamp (clock w) (ScoreRecord.CreatedAt sr)) ->
  ∃ w1 w2 pr, US.AddScore sr w = (Ok tt, w1) ∧
    US.AddPhoneRecord (ScoreRecord.ManagerID sr) content w1 = (Ok tt, w2) ∧
    last (phone_t (store_db w2)) = Some pr ∧
    PhoneRecord.UserID pr = ScoreRecord.UserID sr ∧
    PhoneRecord.ManagerID pr = ScoreRecord.ManagerID sr ∧
    PhoneRecord.Satisfaction pr = ScoreRecord.Score sr ∧
    PhoneRecord.UserPhone pr = User.PhoneNumber u.
Proof.
  intros Hw H0 Hu Hold. do 3 eexists. split; [exact (AddScore_run w sr Hw H0)|].
  set (x := ScoreRecord.mk _ _ _ _ _).
  rewrite (AddPhoneRecord_run _ _ content x u); [|by apply no_faults_set_db|..].
  - split; [reflexivity|]. simpl. rewrite last_snoc. split_and!; reflexivity.
  - apply sql_latest_score_snoc; [done|]. intros r Hr Hm. apply later_true. left. by apply Hold.
  - done.
Qed.

(** ** Demo data *)

Definition demo_member : User.t := User.mk 3 "user_a" "13800000003" 0 0 "" "" 0.
Definition demo_old_score : ScoreRecord.t := ScoreRecord.mk 1 3 2 5 100.
Definition demo_records_db : db := set_scores [demo_old_score] 2 (set_users {[3 := demo_member]} db_empty).
Definition demo_records_world : World := mkWorld redis_empty demo_records_db None [] 200 [] [].
(** A score record as a plain user can post it: no id, no time. *)
Definition demo_forged : ScoreRecord.t := ScoreRecord.mk 0 3 2 1 0.


