(* ===== verification/Middleware.v ===== *)
(** * The HTTP edge: error-to-status mapping and the JWT guards

    [HandleUserError] (common/error_handler/user_err_handler.go) turns an
    error message into the response status: it ranges over the Go map
    [errorMapping] and takes the first code that occurs in the message.
    Go's map iteration order is unspecified, so the order is an argument
    [iter] here, a permutation of the map's entries.  [validateToken] and
    the three middlewares of common/utils/user_utils.go read the
    [accessToken] header, parse the JWT and check the role; the JWT
    library ([jwt.ParseWithClaims] with the HMAC key function) is the
    Section variable [jwt_parse], so every theorem holds for every
    behaviour of the library.  The route table of routers/router.go
    attaches a guard to every handler. *)

From Stdlib Require Import Sorting.Permutation.
From S2P Require Import Prelude Strconv.
Open Scope hcl_scope.
Open Scope Z_scope.

(** [strings.Contains s sub]: [sub] occurs in [s] at some byte offset. *)
Fixpoint Contains (s sub : string) : bool :=
  String.prefix sub s || match s with
                         | EmptyString => false
                         | String _ s' => Contains s' sub
                         end.

Module ErrorHandler.

Record ErrorType : Type := mkET { Code : Z; Message : string }.

Definition ErrUnknown : ErrorType := mkET 9999 "Unknown".
Definition ErrBadRequest : ErrorType := mkET 400 "Bad Request".
Definition ErrInternalServer : ErrorType := mkET 500 "Internal Error".
Definition ErrUnauthorized : ErrorType := mkET 401 "Unauthorized".
Definition ErrForbidden : ErrorType := mkET 403 "Forbidden".

(** The entries of [errorMapping] in source order. *)
Definition errorMapping : list (string * ErrorType) :=
  [("401", ErrUnauthorized); ("500", ErrInternalServer);
   ("400", ErrBadRequest); ("403", ErrForbidden)].

(** [HandleUserError], with [iter] the order in which [range] visits the
    map: the first key contained in the message wins ([break]); the zero
    [ErrorType] (no key found) becomes [ErrUnknown]. *)
Definition HandleUserError (iter : list (string * ErrorType)) (errMsg : string) : ErrorType :=
  let errType := match find (fun kv => Contains errMsg kv.1) iter with
                 | Some kv => kv.2
                 | None => mkET 0 ""
                 end in
  if bool_decide (Code errType = 0) then ErrUnknown else errType.

End ErrorHandler.
Import ErrorHandler.

Module Jwt.

(** The outcome of [jwt.ParseWithClaims]: a token with its claims and the
    library's [token.Valid], or the library's error message. *)
Inductive jwt_result : Type :=
| JwtParsed (ID IsManager : string) (valid : bool)
| JwtError (msg : string).

(** The outcome of a middleware: the request is aborted with the status
    written by [HandleUserError], or it goes on ([c.Next()]) with
    [userID] set in the context. *)
Inductive mw_result : Type :=
| Aborted (e : ErrorType)
| Passed (userID : Z).

Section Guards.
Variable secret : string.
Variable jwt_parse : string -> string -> jwt_result.
Variable iter : list (string * ErrorType).

(** [ValidateEmptyToken], with [hdr] the request's [Header.Get]. *)
Definition ValidateEmptyToken (hdr : string -> string) (tokenKind : string) : res string string :=
  if String.eqb tokenKind "accessToken" then
    let accessToken := hdr "accessToken" in
    if String.eqb accessToken "" then Err "401:请求头中accessToken为空" else Ok accessToken
  else if String.eqb tokenKind "refreshToken" then
    let refreshToken := hdr "refreshToken" in
    if String.eqb refreshToken "" then Err "401:请求头中refreshToken为空" else Ok refreshToken
  else Err ("500:tokenKind参数错误: " +:+ tokenKind).

(** [ParseToken]: the user id, the role and the error message, with the
    empty strings Go returns on every error. *)
Definition ParseToken (tokenString : string) : string * string * option string :=
  match jwt_parse tokenString secret with
  | JwtError e => ("", "", Some ("401:PraseToken err: " +:+ e))
  | JwtParsed id isManager true => (id, isManager, None)
  | JwtParsed _ _ false => ("", "", Some "401:ParseToken err: token expired")
  end.

(** The role check and id conversion, written twice in [validateToken]
    (after a clean parse and after an error mentioning [expired]). *)
Definition check_role_and_id (roleCheck : string -> bool) (userIDStr isManagerStr : string) : mw_result :=
  if negb (roleCheck isManagerStr) then Aborted (HandleUserError iter "403:权限不足")
  else match Atoi userIDStr with
       | None => Aborted (HandleUserError iter "401:用户ID转换失败")
       | Some userID => Passed userID
       end.

Definition validateToken (roleCheck : string -> bool) (hdr : string -> string) : mw_result :=
  match ValidateEmptyToken hdr "accessToken" with
  | Err e => Aborted (HandleUserError iter e)
  | Ok accessToken =>
      let '(userIDStr, isManagerStr, err) := ParseToken accessToken in
      match err with
      | None => check_role_and_id roleCheck userIDStr isManagerStr
      | Some e =>
          if negb (Contains e "expired") then Aborted (HandleUserError iter e)
          else check_role_and_id roleCheck userIDStr isManagerStr
      end
  end.

Definition JwtInterceptor : (string -> string) -> mw_result :=
  validateToken (fun _ => true).
Definition AdminOnlyMiddleware : (string -> string) -> mw_result :=
  validateToken (fun isManagerStr => String.eqb isManagerStr "1" || String.eqb isManagerStr "2").
Definition SuperAdminOnlyMiddleware : (string -> string) -> mw_result :=
  validateToken (fun isManagerStr => String.eqb isManagerStr "2").

End Guards.
End Jwt.
Import Jwt.

(** ** Lemmas *)

Lemma Contains_app_l (p s sub : string) :
  Contains s sub = true -> Contains (p +:+ s) sub = true.
Proof.
  induction p as [|c p IH]; intros H; [done|].
  simpl. rewrite IH by done. apply orb_true_r.
Qed.

Lemma HandleUserError_perm iter msg :
  iter ≡ₚ errorMapping ->
  (length (List.filter (fun kv => Contains msg kv.1) errorMapping) <= 1)%nat ->
  HandleUserError iter msg = HandleUserError errorMapping msg.
Proof.
  intros Hp Hl. unfold HandleUserError.
  by rewrite (find_perm_at_most_one _ errorMapping iter) by done.
Qed.

(** The fixed messages of [validateToken] name one code each. *)
Lemma HandleUserError_403 iter :
  iter ≡ₚ errorMapping -> HandleUserError iter "403:权限不足" = ErrForbidden.
Proof. intros Hp. rewrite HandleUserError_perm by (done || vm_compute; lia). reflexivity. Qed.

Lemma HandleUserError_401_id iter :
  iter ≡ₚ errorMapping -> HandleUserError iter "401:用户ID转换失败" = ErrUnauthorized.
Proof. intros Hp. rewrite HandleUserError_perm by (done || vm_compute; lia). reflexivity. Qed.

(** A message that names none of the codes gets [ErrUnknown], in every
    order. *)
Lemma HandleUserError_no_code iter msg :
  iter ≡ₚ errorMapping ->
  List.filter (fun kv => Contains msg kv.1) errorMapping = [] ->
  HandleUserError iter msg = ErrUnknown.
Proof.
  intros Hp Hn. rewrite HandleUserError_perm by (done || rewrite Hn; simpl; lia).
  unfold HandleUserError. by rewrite find_head_filter, Hn.
Qed.

Lemma Atoi_empty : Atoi "" = None.
Proof. reflexivity. Qed.

Section GuardLemmas.
Context (secret : string) (jwt_parse : string -> string -> jwt_result).
Context (iter : list (string * ErrorType)).

Lemma check_role_and_id_Passed rc uid ism id :
  check_role_and_id iter rc uid ism = Passed id -> rc ism = true ∧ Atoi uid = Some id.
Proof.
  unfold check_role_and_id. destruct (rc ism); simpl; [|done].
  destruct (Atoi uid); intros H; simplify_eq; auto.
Qed.

Lemma validateToken_Passed rc hdr id :
  validateToken secret jwt_parse iter rc hdr = Passed id ->
  ∃ uid ism, hdr "accessToken" ≠ "" ∧
    jwt_parse (hdr "accessToken") secret = JwtParsed uid ism true ∧
    rc ism = true ∧ Atoi uid = Some id.
Proof.
  unfold validateToken, ValidateEmptyToken, ParseToken. simpl.
  destruct (String.eqb_spec (hdr "accessToken") "") as [|Hne]; [done|].
  destruct (jwt_parse (hdr "accessToken") secret) as [uid ism []|e];
    [|destruct (Contains _ "expired"); simpl; [|done]..];
    intros H; apply check_role_and_id_Passed in H as [Hr Ha];
    [by exists uid, ism|by rewrite Atoi_empty in Ha..].
Qed.

(** An error whose message mentions [expired] falls through to the role
    check with the empty role and the empty id. *)
Lemma validateToken_expired rc hdr e :
  hdr "accessToken" ≠ "" ->
  jwt_parse (hdr "accessToken") secret = JwtError e -> Contains e "expired" = true ->
  validateToken secret jwt_parse iter rc hdr = check_role_and_id iter rc "" "".
Proof.
  intros Hne Hj Hc. unfold validateToken, ValidateEmptyToken, ParseToken. simpl.
  destruct (String.eqb_spec (hdr "accessToken") "") as [|_]; [done|].
  rewrite Hj. simpl. by rewrite Contains_app_l.
Qed.

Lemma validateToken_valid rc hdr uid ism :
  hdr "accessToken" ≠ "" -> jwt_parse (hdr "accessToken") secret = JwtParsed uid ism true ->
  validateToken secret jwt_parse iter rc hdr = check_role_and_id iter rc uid ism.
Proof.
  intros Hne Hj. unfold validateToken, ValidateEmptyToken, ParseToken. simpl.
  destruct (String.eqb_spec (hdr "accessToken") "") as [|_]; [done|]. by rewrite Hj.
Qed.

End GuardLemmas.

(** ** Claims *)

(** C11: [AdminOnlyMiddleware] lets a request through with user id [id]
    only when the [accessToken] header is not empty, the JWT library
    parses it as a valid token whose [IsManager] claim is "1" or "2",
    and whose [ID] claim converts to [id]; this holds for every
    behaviour of the JWT library and every map iteration order. *)
Theorem AdminOnlyMiddleware_admits_only_admins secret jwt_parse iter hdr id :
  AdminOnlyMiddleware secret jwt_parse iter hdr = Passed id ->
  ∃ uid ism, hdr "accessToken" ≠ "" ∧
    jwt_parse (hdr "accessToken") secret = JwtParsed uid ism true ∧
    (ism = "1" ∨ ism = "2") ∧ Atoi uid = Some id.
Proof.
  intros H. apply validateToken_Passed in H as (uid & ism & Hne & Hj & Hr & Ha).
  exists uid, ism. split_and!; [done|done| |done].
  apply orb_true_iff in Hr as [Hr|Hr]; apply String.eqb_eq in Hr; auto.
Qed.

(** A token the JWT library rejects as expired is not sent back as
    401: the expired branch of [validateToken] goes on with the empty
    role and id that [ParseToken] returns on an error, so the admin and
    super-admin routes answer 403 (forbidden) and the user routes 401
    only because the empty id does not convert. *)
Theorem expired_token_answers_forbidden secret jwt_parse iter hdr e :
  iter ≡ₚ errorMapping -> hdr "accessToken" ≠ "" ->
  jwt_parse (hdr "accessToken") secret = JwtError e -> Contains e "expired" = true ->
  AdminOnlyMiddleware secret jwt_parse iter hdr = Aborted ErrForbidden ∧
  SuperAdminOnlyMiddleware secret jwt_parse iter hdr = Aborted ErrForbidden ∧
  JwtInterceptor secret jwt_parse iter hdr = Aborted ErrUnauthorized.
Proof.
  intros Hp Hne Hj Hc. unfold AdminOnlyMiddleware, SuperAdminOnlyMiddleware, JwtInterceptor.
  rewrite !(validateToken_expired _ _ _ _ _ e) by done.
  unfold check_role_and_id. simpl.
  by rewrite HandleUserError_403, HandleUserError_401_id.
Qed.

Definition demo_hdr (k : string) : string := if String.eqb k "accessToken" then "tok" else "".
Definition demo_iter : list (string * ErrorType) :=
  [("403", ErrForbidden); ("400", ErrBadRequest); ("500", ErrInternalServer); ("401", ErrUnauthorized)].
Definition demo_admin_parse (t k : string) : jwt_result := JwtParsed "7" "2" true.
Definition demo_expired_parse (t k : string) : jwt_result :=
  JwtError "token has invalid claims: token is expired".

Lemma demo_iter_perm : demo_iter ≡ₚ errorMapping.
Proof. unfold demo_iter, errorMapping. solve_Permutation. Qed.

Lemma AdminOnlyMiddleware_admits_only_admins_witness :
  ∃ uid ism, demo_hdr "accessToken" ≠ "" ∧
    demo_admin_parse (demo_hdr "accessToken") "s" = JwtParsed uid ism true ∧
    (ism = "1" ∨ ism = "2") ∧ Atoi uid = Some 7.
Proof.
  apply (AdminOnlyMiddleware_admits_only_admins "s" demo_admin_parse demo_iter demo_hdr 7).
  reflexivity.
Defined.

Lemma expired_token_answers_forbidden_witness :
  AdminOnlyMiddleware "s" demo_expired_parse demo_iter demo_hdr = Aborted ErrForbidden ∧
  SuperAdminOnlyMiddleware "s" demo_expired_parse demo_iter demo_hdr = Aborted ErrForbidden ∧
  JwtInterceptor "s" demo_expired_parse demo_iter demo_hdr = Aborted ErrUnauthorized.
Proof.
  apply (expired_token_answers_forbidden "s" demo_expired_parse demo_iter demo_hdr
           "token has invalid claims: token is expired");
    [apply demo_iter_perm|vm_compute; congruence|reflexivity|reflexivity].
Defined.
