(* ===== verification/Controllers.v ===== *)
(** * The user handlers (user_controller.go) and the route table (router.go)

    A handler reads its path parameter, query or JSON body, calls one
    service and writes JSON.  An error becomes [HandleUserError] of the
    handler's message: the handler's prefix, then the service's error
    text.  [err_text] renders the texts the code builds (the [ErrWrap]
    prefixes, the fixed messages of the user flows); the text of a
    driver's error ([ErrRedis], [ErrDb], [ErrMq]) is the Section
    variable [driver_text], strconv's error text for a bad number is
    [num_err], and the services of Rank.v and Reservation.v, which wrap
    every error with the same [UserService.<name> err:], get that wrap
    at the call.  A panic inside a handler is caught by gin's Recovery
    middleware and answered with status 500 ([RespPanic]).  The state of
    a handler is the verification-code store and the world. *)

From S2P Require Import Prelude Strconv Utils Redis Models Durable World Articles Reservation Rank Items Consumer CodeStore Login Profile Records Middleware.
Open Scope hcl_scope.
Open Scope Z_scope.

Import ErrorHandler Jwt.

Inductive payload : Type :=
| PNone
| PToken (accessToken : string)
| PUser (u : option User.t)
| PUsers (l : list User.t)
| PRank (l : list UserLikeRank.t)
| PArticles (l : list BasicArticle.t)
| PArticle (a : Article.t)
| PPhones (l : list PhoneRecord.t)
| PItems (l : list CommunityItem.t).

(** One [c.JSON] write: [response.Success] with status 200, the
    [ErrorType] of [HandleUserError], or gin's recovery answer. *)
Inductive response : Type :=
| RespOk (data : payload)
| RespErr (e : ErrorType)
| RespPanic.

Definition hstate : Type := mdb * World.
Definition Handler : Type := hstate -> list response * hstate.

Section Handlers.
Context `{TimeCodec}.
Variable iter : list (string * ErrorType).
Variable driver_text : err -> string.
Variable num_err : string -> string.

(** The [Error()] text of an error. *)
Fixpoint err_text (e : err) : string :=
  match e with
  | ErrWrap m e' => m +:+ err_text e'
  | ErrApp CodeWrong => "验证码错误"
  | ErrApp CodeMissing => "验证码不存在或已过期"
  | ErrApp UsernameRetries => "UserService.Login err: 500:达到最大重试次数，无法插入唯一用户名"
  | ErrApp LoginTxBegin => "UserService.Login err: 500:%!w(<nil>)"
  | ErrApp AlreadyManager => "UserService.AddAdminByPhoneNumber err: 400:该用户已经是管理员"
  | ErrApp NoScoreRecord => "UserService.AddPhoneRecord 错误请求:未找到评分记录"
  | ErrApp NoSuchUser => "UserService.AddPhoneRecord 错误请求:用户不存在"
  | ErrApp EndBeforeNow => "UserService.AddChooseItemConsumer err: 400: 结束时间不能小于当前时间"
  | ErrApp BeginEqualsEnd => "UserService.AddChooseItemConsumer err: 400: 开始时间不能等于结束时间"
  | ErrApp UserMissing => "未找到用户"
  | ErrApp AlreadyChosen => "用户已选择此商品"
  | ErrApp OutOfStock => "库存不足"
  | ErrApp (UnknownReply z) => "未知返回值: " +:+ Itoa z
  | ErrApp ArticleMissing => "文章不存在"
  | ErrApp BasicArticleMissing => "基本文章类型在缓存不存在"
  | ErrApp BadLikeOption => "option参数错误"
  | _ => driver_text e
  end.

(** [fmt.Errorf("UserService.<name> err:%w", err)] *)
Definition wrap_service {A} (name : string) (m : M A) : M A :=
  catch m (fun e => throw (ErrWrap ("UserService." +:+ name +:+ " err:") e)).

Definition fail (msg : string) : response := RespErr (HandleUserError iter msg).

(** The service call and the handler's two answers, with [text] the
    [Error()] of the service's errors. *)
Definition finish_with {A} (text : err -> string) (prefix : string) (m : M A) (ok : A -> payload)
  : M (list response) :=
  catch (a <- m ;; ret [RespOk (ok a)])
        (fun e => match e with
                  | ErrPanic => ret [RespPanic]
                  | _ => ret [fail (prefix +:+ text e)]
                  end).

Definition finish {A} : string -> M A -> (A -> payload) -> M (list response) :=
  finish_with err_text.

Definition lift (m : M (list response)) : Handler := fun '(md, w) =>
  let '(r, w') := m w in
  (match r with Ok l => l | Err _ => [RespPanic] end, (md, w')).

Definition answer (l : list response) : Handler := fun s => (l, s).

(** Go's [strconv.Atoi] value: 0 on a syntax error, the nearest bound of
    [int] when out of range. *)
Definition atoi_value (s : string) : Z :=
  match Atoz s with
  | Some z => Z.max int64_min (Z.min int64_max z)
  | None => 0
  end.

End Handlers.

Module UserController.
Section UserController.
Context `{TimeCodec}.
Variable iter : list (string * ErrorType).
Variable driver_text : err -> string.
Variable num_err : string -> string.
(** [utils.GenAccessToken] with the configured duration and secret. *)
Variable GenAccessToken : Z -> Z -> res string string.
(** [time.ParseInLocation("2006-01-02 15:04:05", s, Local)] and its error text. *)
Variable ParseInLocation : string -> option Z.
Variable time_err : string -> string.
(** [config.Code.ExpireDuration] *)
Variable interval : Z.

Abbreviation fail := (fail iter).
Abbreviation finish := (finish iter driver_text).
Abbreviation err_text := (err_text driver_text).

Definition SendCode (phoneNumber code : string) : Handler := fun '(md, w) =>
  if negb (ValidatePhoneNumber phoneNumber)
  then ([fail "UserController.SendCode err: 400:手机号格式错误"], (md, w))
  else let '(r, md') := Login.US.SendCode phoneNumber code interval (clock w) md in
       (match r with
        | Ok _ => [RespOk PNone]
        | Err ErrPanic => [RespPanic]
        | Err e => [fail ("UserController.SendCode err: " +:+ err_text e)]
        end, (md', w)).

Definition Login (body : res string UserCode.t) (names : list string) : Handler := fun '(md, w) =>
  match body with
  | Err t => ([fail ("UserController.Login err: 400:将json数据绑定到结构体失败:" +:+ t)], (md, w))
  | Ok userCode =>
      if negb (ValidatePhoneNumber (UserCode.PhoneNumber userCode))
      then ([fail "UserController.Login err: 400:错误请求:手机号格式错误"], (md, w))
      else let '(md', m) := Login.US.Login userCode names md in
           lift (r <- attempt m ;;
                 match r with
                 | Err ErrPanic => ret [RespPanic]
                 | Err e => ret [fail ("UserController.Login err: " +:+ err_text e)]
                 | Ok user =>
                     match GenAccessToken (User.ID user) (User.IsManager user) with
                     | Err t => ret [fail ("UserController.Login err: 500:生成accessToken失败:" +:+ t)]
                     | Ok accessToken => ret [RespOk (PToken accessToken)]
                     end
                 end) (md', w)
  end.

Definition GetUserInfo (userID : Z) : Handler :=
  lift (finish "UserController.GetUserInfo err: " (Profile.UserService.GetUserByID userID) PUser).

Definition AddAdministrator (phoneNumber : string) : Handler :=
  if negb (ValidatePhoneNumber phoneNumber)
  then answer [fail "UserController.SendCode err: 400:错误请求:手机号格式错误"]
  else lift (finish "UserController.AddAdministrator err: "
               (Profile.UserService.AddAdminByPhoneNumber phoneNumber) (fun _ => PNone)).

Definition UpdateUserInfo (userID : Z) (body : res string User.t) : Handler :=
  match body with
  | Err t => answer [fail ("UserController.UpdateUserInfo err: 400:将json数据绑定到结构体失败:" +:+ t)]
  | Ok user => lift (finish "UserController.UpdateUserInfo err: "
                       (Profile.UserService.UpdateUserInfo userID user) (fun _ => PNone))
  end.

Definition AddScore (body : res string ScoreRecord.t) : Handler :=
  match body with
  | Err t => answer [fail ("UserController.AddScore 错误请求:将json数据绑定到结构体失败:" +:+ t)]
  | Ok scoreRecord => lift (finish "UserController.AddScore err:"
                              (Records.UserService.AddScore scoreRecord) (fun _ => PNone))
  end.

(** [c.PostForm("userID")] and [c.PostForm("content")]: the manager is
    the form's [userID], not the token's. *)
Definition AddPhoneRecord (form : string -> string) : Handler :=
  match Atoi (form "userID") with
  | None => answer [fail ("UserController.AddPhoneRecord err:无法将userID转换为int:" +:+ num_err (form "userID"))]
  | Some managerID => lift (finish "UserController.AddPhoneRecord err:"
                              (Records.UserService.AddPhoneRecord managerID (form "content")) (fun _ => PNone))
  end.

Definition GetPhoneRecordByPhone (phoneNumber : string) : Handler :=
  if negb (ValidatePhoneNumber phoneNumber)
  then answer [fail "UserController.GetPhoneRecordByPhone err:错误请求:手机号格式错误"]
  else lift (finish "UserController.GetPhoneRecordByPhone err:"
               (Records.UserService.GetPhoneRecordByPhone phoneNumber) PPhones).

Definition GetFollows (userID : Z) : Handler :=
  lift (finish "UserController.GetFollows err: 500: " (Records.UserService.GetFollows userID) PUsers).

Definition AddFollows (userID : Z) (followerIDStr : string) : Handler :=
  match Atoi followerIDStr with
  | None => answer [fail ("UserController.AddFollows err: 400: 无法将followerID转换为int:" +:+ num_err followerIDStr)]
  | Some followerID =>
      lift (now <- time_now ;;
            finish "UserController.AddFollows err: 500: "
              (wrap_service "AddFollows" (Rank.US.AddFollows (UserFollow.mk 0 userID followerID now)))
              (fun _ => PNone))
  end.

Definition GetOtherUserInfo (userIDStr : string) : Handler :=
  match Atoi userIDStr with
  | None => answer [fail ("UserController.GetOtherUserInfo err: 400: 无法将userID转换为int:" +:+ num_err userIDStr)]
  | Some userID => lift (finish "UserController.GetOtherUserInfo err: 500: "
                           (Profile.UserService.GetUserByID userID) PUser)
  end.

Definition RemoveFollows (userID : Z) (followIDStr : string) : Handler :=
  match Atoi followIDStr with
  | None => answer [fail ("UserController.RemoveFollows err: 400: 无法将followerID转换为int:" +:+ num_err followIDStr)]
  | Some followID => lift (finish "UserController.RemoveFollows err: 500: "
                             (wrap_service "RemoveFollows" (Rank.US.RemoveFollows userID followID)) (fun _ => PNone))
  end.

Definition GetCommonFollows (userID : Z) (otherStr : string) : Handler :=
  match Atoi otherStr with
  | None => answer [fail ("UserController.CommonFollows err: 400: 获取用户ID失败:" +:+ num_err otherStr)]
  | Some other => lift (finish "UserController.CommonFollows err: 500: "
                          (wrap_service "GetCommonFollows" (Rank.US.GetCommonFollows userID other)) PUsers)
  end.

Definition AddLikes (userIDStr : string) : Handler :=
  match Atoi userIDStr with
  | None => answer [fail ("UserController.AddLikes err: 400: 无法将userID转换为int:" +:+ num_err userIDStr)]
  | Some userID => lift (finish "UserController.AddLikes err: 500: "
                           (wrap_service "AddLikes" (Rank.US.AddLikes userID)) (fun _ => PNone))
  end.

Definition GetLikesRank (userID : Z) : Handler :=
  lift (finish "UserController.GetLikesRank err: 500: "
          (wrap_service "GetLikesRank" (Rank.US.GetLikesRank userID)) PRank).

Definition AddItem (body : res string CommunityItem.t) : Handler :=
  match body with
  | Err t => answer [fail ("UserController.AddItem err: 400: 将json数据绑定到结构体失败:" +:+ t)]
  | Ok item => lift (finish "UserController.AddItem err: 500: "
                       (wrap_service "AddItem" (Reservation.UserService.AddItem item)) (fun _ => PNone))
  end.

(** [ChooseItem]: a bad [itemID] writes the 400 answer but does not
    return; the publisher runs with Go's value of the failed [Atoi]. *)
Definition ChooseItem (userID : Z) (itemIDStr : string) : Handler :=
  let first := match Atoi itemIDStr with
               | None => [fail ("UserController.ChooseItem err: 400: 无法将itemID转换为int:" +:+ num_err itemIDStr)]
               | Some _ => []
               end in
  lift (rest <- finish "UserController.ChooseItem err: 500: "
                  (wrap_service "ChooseItemPublisher"
                     (Reservation.UserService.ChooseItemPublisher userID (atoi_value itemIDStr)))
                  (fun _ => PNone) ;;
        ret (first ++ rest)).

Definition GetAllItems : Handler :=
  lift (finish "UserController.GetAllItems err: 500: " Items.UserService.GetAllItems PItems).

Definition AddChooseItemConsumer (beginStr endStr : string) : Handler :=
  match ParseInLocation beginStr with
  | None => answer [fail ("UserController.AddChooseItemConsumer err: 400: 无法将begin转换为time.Time:" +:+ time_err beginStr)]
  | Some begin =>
      match ParseInLocation endStr with
      | None => answer [fail ("UserController.AddChooseItemConsumer err: 400: 无法将end转换为time.Time:" +:+ time_err endStr)]
      | Some end_ => lift (finish "UserController.AddChooseItemConsumer err: 500: "
                             (Consumer.AddChooseItemConsumer begin end_) (fun _ => PNone))
      end
  end.

End UserController.
End UserController.

Module ArticleController.
Section ArticleController.
Context `{TimeCodec}.
Variable iter : list (string * ErrorType).
Variable driver_text : err -> string.
Variable num_err : string -> string.
(** [configs.GetConfig().Article.KindMap], read by [utils.ValidateArticleKind]. *)
Variable KindMap : string -> bool.

Abbreviation fail := (fail iter).
Abbreviation finish := (finish iter driver_text).

(** [fmt.Errorf("ArticleService.<name> err: %w", err)] *)
Definition wrap_article {A} (name : string) (m : M A) : M A :=
  catch m (fun e => throw (ErrWrap ("ArticleService." +:+ name +:+ " err: ") e)).

(** The errors of [ArticleService.AddLikes] and [RemoveLikes]: the
    repeated-like errors of article_cache_repository.go name the
    article and the user of the call. *)
Definition like_text (name : string) (articleID userID : Z) (e : err) : string :=
  "ArticleService." +:+ name +:+ " err: " +:+
  match e with
  | ErrApp AlreadyLiked =>
      "用户已经点赞，无法重复点赞，文章 ID: " +:+ Itoa articleID +:+ ", 用户 ID: " +:+ Itoa userID
  | ErrApp NotLiked =>
      "无法重复取消点赞，文章 ID: " +:+ Itoa articleID +:+ ", 用户 ID: " +:+ Itoa userID
  | _ => err_text driver_text e
  end.

Definition AddArticle (managerID : Z) (body : res string Article.t) : Handler :=
  match body with
  | Err t => answer [fail ("ArticleController.AddArticle err: 400:将json数据绑定到结构体失败:" +:+ t)]
  | Ok article =>
      if negb (KindMap (Article.Kind article))
      then answer [fail "ArticleController.AddArticle err: 400:文章类型错误"]
      else lift (finish "ArticleController.AddArticle err: 500: "
                   (wrap_article "AddArticle" (ArticleService.AddArticle article managerID)) (fun _ => PNone))
  end.

Definition GetAllArticle (kind : string) : Handler :=
  lift (finish "ArticleController.GetAllArticle err: 500: "
          (wrap_article "GetAllArticleByKind" (ArticleService.GetAllArticleByKind kind)) PArticles).

Definition GetArticle (articleIDStr : string) : Handler :=
  match Atoi articleIDStr with
  | None => answer [fail ("ArticleController.GetArticle err: 400: 将articleID转换为int失败:" +:+ num_err articleIDStr)]
  | Some articleID => lift (finish "ArticleController.GetArticle err: 500: "
                              (wrap_article "GetArticle" (ArticleService.GetArticle articleID)) PArticle)
  end.

Definition AddLikes (userID : Z) (articleIDStr : string) : Handler :=
  match Atoi articleIDStr with
  | None => answer [fail ("ArticleController.AddLikes err: 400: 将articleID转换为int失败:" +:+ num_err articleIDStr)]
  | Some articleID =>
      lift (finish_with iter (like_text "AddLikes" articleID userID) "ArticleController.AddLikes err: 500: "
              (ArticleService.AddLikes articleID userID) (fun _ => PNone))
  end.

Definition RemoveLikes (userID : Z) (articleIDStr : string) : Handler :=
  match Atoi articleIDStr with
  | None => answer [fail ("ArticleController.RemoveLikes err: 400: 将articleID转换为int失败:" +:+ num_err articleIDStr)]
  | Some articleID =>
      lift (finish_with iter (like_text "RemoveLikes" articleID userID) "ArticleController.RemoveLikes err: 500: "
              (ArticleService.RemoveLikes articleID userID) (fun _ => PNone))
  end.

Definition UpdateArticle (body : res string Article.t) : Handler :=
  match body with
  | Err t => answer [fail ("ArticleController.UpdateArticle err: 400:将json数据绑定到结构体失败:" +:+ t)]
  | Ok article => lift (finish "ArticleController.UpdateArticle err: 500: "
                          (wrap_article "UpdateArticle" (ArticleService.UpdateArticle article)) (fun _ => PNone))
  end.

End ArticleController.
End ArticleController.

(** ** The configuration (configs/config.go) the handlers read; times in
    seconds. *)

Module Config.
Definition SecretKey : string := "huancuilou".
Definition AccessTokenExpireDuration : Z := 7 * 24 * 3600.
Definition CodeExpireDuration : Z := 2 * 60.
Definition UpdateLikesInterval : Z := 3600.
Definition Kinds : list string := ["生活服务"; "医疗救助"; "法律咨询"; "心理咨询"; "教育求助"; "其他"].
(** [KindMap[kind]]: [false] for a kind not in the map. *)
Definition KindMap (kind : string) : bool := existsb (String.eqb kind) Kinds.
End Config.

(** ** The route table of routers/router.go *)

Module Router.

Inductive guard : Type := GPublic | GJwt | GAdmin | GSuper.

Inductive handler_name : Type :=
| HSendCode | HLogin | HAddAdministrator | HGetUserInfo | HUpdateUserInfo | HAddScore
| HAddPhoneRecord | HGetPhoneRecordByPhone | HAddFollows | HGetFollows | HGetOtherUserInfo
| HRemoveFollows | HGetCommonFollows | HUserAddLikes | HGetLikesRank | HAddItem | HGetAllItems
| HChooseItem | HAddChooseItemConsumer
| HAddArticle | HGetAllArticle | HGetArticle | HArticleAddLikes | HArticleRemoveLikes | HUpdateArticle.

(** [SetUpRouters]: method, path pattern, middleware, handler. *)
Definition routes : list (string * string * guard * handler_name) :=
  [("GET", "/user/send-code/:phoneNumber", GPublic, HSendCode);
   ("POST", "/user/login", GPublic, HLogin);
   ("PUT", "/user/add-administrator/:phoneNumber", GSuper, HAddAdministrator);
   ("GET", "/user", GJwt, HGetUserInfo);
   ("PUT", "/user", GJwt, HUpdateUserInfo);
   ("POST", "/user/add-score", GJwt, HAddScore);
   ("POST", "/user/add-phone-record", GAdmin, HAddPhoneRecord);
   ("GET", "/user/get-phone-record/:phoneNumber", GAdmin, HGetPhoneRecordByPhone);
   ("GET", "/user/add-follows/:followerID", GJwt, HAddFollows);
   ("GET", "/user/get-follows", GJwt, HGetFollows);
   ("GET", "/user/get-other-user-info/:userID", GJwt, HGetOtherUserInfo);
   ("DELETE", "/user/remove-follows/:followID", GJwt, HRemoveFollows);
   ("GET", "/user/get-common-follows/:otherUserID", GJwt, HGetCommonFollows);
   ("GET", "/user/add-likes/:userID", GJwt, HUserAddLikes);
   ("GET", "/user/get-likes-rank", GJwt, HGetLikesRank);
   ("POST", "/user/add-item", GAdmin, HAddItem);
   ("GET", "/user/get-all-items", GJwt, HGetAllItems);
   ("GET", "/user/choose-item/:itemID", GJwt, HChooseItem);
   ("GET", "/user/add-item-consumer", GAdmin, HAddChooseItemConsumer);
   ("POST", "/article", GAdmin, HAddArticle);
   ("GET", "/article/get-all-article", GJwt, HGetAllArticle);
   ("GET", "/article/:articleID", GJwt, HGetArticle);
   ("GET", "/article/add-likes/:articleID", GJwt, HArticleAddLikes);
   ("DELETE", "/article/remove-likes/:articleID", GJwt, HArticleRemoveLikes);
   ("PUT", "/article", GAdmin, HUpdateArticle)].

(** A request after gin's routing: its headers, path parameters, query,
    the outcome of [c.BindJSON] into each body type a handler binds, and
    the random draws of the handlers (the code, the user names). *)
Record request : Type := mkReq {
  req_header : string -> string;
  req_param : string -> string;
  req_query : string -> string;
  req_code_body : res string UserCode.t;
  req_user_body : res string User.t;
  req_item_body : res string CommunityItem.t;
  req_score_body : res string ScoreRecord.t;
  req_form : string -> string;
  req_article_body : res string Article.t;
  req_code : string;
  req_names : list string
}.

(** What the server does with a request: the handler's answers and the
    new state, or gin's 404 when no route matches. *)
Inductive outcome : Type :=
| Served (l : list response) (s : hstate)
| NotFound.

Section Serve.
Context `{TimeCodec}.
Variable secret : string.
Variable jwt_parse : string -> string -> jwt_result.
Variable iter : list (string * ErrorType).
Variable driver_text : err -> string.
Variable num_err : string -> string.
Variable GenAccessToken : Z -> Z -> res string string.
Variable ParseInLocation : string -> option Z.
Variable time_err : string -> string.
Variable interval : Z.
Variable KindMap : string -> bool.

Definition middleware (g : guard) (hdr : string -> string) : mw_result :=
  match g with
  | GPublic => Passed 0
  | GJwt => JwtInterceptor secret jwt_parse iter hdr
  | GAdmin => AdminOnlyMiddleware secret jwt_parse iter hdr
  | GSuper => SuperAdminOnlyMiddleware secret jwt_parse iter hdr
  end.

Definition dispatch (h : handler_name) (userID : Z) (rq : request) : Handler :=
  let p := req_param rq in
  match h with
  | HSendCode => UserController.SendCode iter driver_text interval (p "phoneNumber") (req_code rq)
  | HLogin => UserController.Login iter driver_text GenAccessToken (req_code_body rq) (req_names rq)
  | HAddAdministrator => UserController.AddAdministrator iter driver_text (p "phoneNumber")
  | HGetUserInfo => UserController.GetUserInfo iter driver_text userID
  | HUpdateUserInfo => UserController.UpdateUserInfo iter driver_text userID (req_user_body rq)
  | HAddFollows => UserController.AddFollows iter driver_text num_err userID (p "followerID")
  | HGetOtherUserInfo => UserController.GetOtherUserInfo iter driver_text num_err (p "userID")
  | HRemoveFollows => UserController.RemoveFollows iter driver_text num_err userID (p "followID")
  | HGetCommonFollows => UserController.GetCommonFollows iter driver_text num_err userID (p "otherUserID")
  | HUserAddLikes => UserController.AddLikes iter driver_text num_err (p "userID")
  | HGetLikesRank => UserController.GetLikesRank iter driver_text userID
  | HAddItem => UserController.AddItem iter driver_text (req_item_body rq)
  | HChooseItem => UserController.ChooseItem iter driver_text num_err userID (p "itemID")
  | HAddChooseItemConsumer =>
      UserController.AddChooseItemConsumer iter driver_text ParseInLocation time_err
        (req_query rq "begin") (req_query rq "end")
  | HAddArticle => ArticleController.AddArticle iter driver_text KindMap userID (req_article_body rq)
  | HGetAllArticle => ArticleController.GetAllArticle iter driver_text (req_query rq "kind")
  | HGetArticle => ArticleController.GetArticle iter driver_text num_err (p "articleID")
  | HArticleAddLikes => ArticleController.AddLikes iter driver_text num_err userID (p "articleID")
  | HArticleRemoveLikes => ArticleController.RemoveLikes iter driver_text num_err userID (p "articleID")
  | HUpdateArticle => ArticleController.UpdateArticle iter driver_text (req_article_body rq)
  | HAddScore => UserController.AddScore iter driver_text (req_score_body rq)
  | HAddPhoneRecord => UserController.AddPhoneRecord iter driver_text num_err (req_form rq)
  | HGetPhoneRecordByPhone => UserController.GetPhoneRecordByPhone iter driver_text (p "phoneNumber")
  | HGetFollows => UserController.GetFollows iter driver_text userID
  | HGetAllItems => UserController.GetAllItems iter driver_text
  end.

Definition find_route (method path : string) : option (guard * handler_name) :=
  (fun r => (r.1.2, r.2)) <$> List.find (fun r => String.eqb r.1.1.1 method && String.eqb r.1.1.2 path) routes.

(** The middleware runs first; an abort answers without running the
    handler. *)
Definition serve (method path : string) (rq : request) (s : hstate) : outcome :=
  match find_route method path with
  | None => NotFound
  | Some (g, h) =>
      match middleware g (req_header rq) with
      | Aborted e => Served [RespErr e] s
      | Passed userID => let '(l, s') := dispatch h userID rq s in Served l s'
      end
  end.

End Serve.
End Router.

(** ** Lemmas *)

Import UserController ArticleController Router.

Section RunLemmas.
Variable iter : list (string * ErrorType).

(** The one answer of a service call. *)
Definition answer_of {A} (text : err -> string) (prefix : string) (ok : A -> payload) (r : res err A) : response :=
  match r with
  | Ok a => RespOk (ok a)
  | Err ErrPanic => RespPanic
  | Err e => fail iter (prefix +:+ text e)
  end.

Lemma finish_with_run {A} text prefix (m : M A) ok w :
  finish_with iter text prefix m ok w = (Ok [answer_of text prefix ok (fst (m w))], snd (m w)).
Proof.
  unfold finish_with, catch, bind, ret. destruct (m w) as [[a|[]] w']; reflexivity.
Qed.

Lemma wrap_service_run {A} name (m : M A) w :
  wrap_service name m w
  = (match fst (m w) with Ok a => Ok a | Err e => Err (ErrWrap ("UserService." +:+ name +:+ " err:") e) end,
     snd (m w)).
Proof. unfold wrap_service, catch, throw. by destruct (m w) as [[a|e] w']. Qed.

Lemma lift_finish_run {A} text prefix (m : M A) ok md w :
  lift (finish_with iter text prefix m ok) (md, w)
  = ([answer_of text prefix ok (fst (m w))], (md, snd (m w))).
Proof. unfold lift. by rewrite finish_with_run. Qed.

End RunLemmas.

Lemma atoi_value_bad s : Atoz s = None -> atoi_value s = 0.
Proof. unfold atoi_value. by intros ->. Qed.

Lemma Atoi_None_of_Atoz s : Atoz s = None -> Atoi s = None.
Proof. unfold Atoi. by intros ->. Qed.

(** ** Claims *)

(** [UserController.ChooseItem] does not return after a bad
    [itemID]: it writes the 400 answer, then runs the publisher with
    item 0 (Go's [strconv.Atoi] value on a syntax error), reserving
    item 0 for the user when it can, and writes a second answer. *)
Theorem ChooseItem_bad_item_id_runs_publisher iter driver_text num_err userID s md w :
  Atoz s = None ->
  let '(l, (md', w')) := UserController.ChooseItem iter driver_text num_err userID s (md, w) in
  md' = md ∧ w' = snd (Reservation.UserService.ChooseItemPublisher userID 0 w) ∧
  length l = 2%nat ∧
  head l = Some (RespErr (HandleUserError iter
                   ("UserController.ChooseItem err: 400: 无法将itemID转换为int:" +:+ num_err s))).
Proof.
  intros Hs. unfold UserController.ChooseItem.
  rewrite (Atoi_None_of_Atoz _ Hs), (atoi_value_bad _ Hs).
  unfold lift, finish. rewrite (bind_ok _ _ _ _ _ (finish_with_run _ _ _ _ _ _)).
  rewrite wrap_service_run. simpl. auto.
Qed.

(** An order of [range errorMapping] that visits "400" first. *)
Definition iter_400_first : list (string * ErrorType) :=
  [("400", ErrBadRequest); ("401", ErrUnauthorized); ("500", ErrInternalServer); ("403", ErrForbidden)].

Lemma iter_400_first_perm : iter_400_first ≡ₚ errorMapping.
Proof. unfold iter_400_first, errorMapping. solve_Permutation. Qed.

Lemma AddChooseItemConsumer_handler_run iter driver_text PIL time_err bs es b e md w :
  PIL bs = Some b -> PIL es = Some e ->
  UserController.AddChooseItemConsumer iter driver_text PIL time_err bs es (md, w)
  = ([answer_of iter (err_text driver_text)
        "UserController.AddChooseItemConsumer err: 500: " (fun _ => PNone)
        (fst (Consumer.AddChooseItemConsumer b e w))],
     (md, snd (Consumer.AddChooseItemConsumer b e w))).
Proof.
  intros Hb He. unfold UserController.AddChooseItemConsumer. rewrite Hb, He.
  apply lift_finish_run.
Qed.

(** C25: An [AddChooseItemConsumer] request whose end lies before the
    current time is answered with a status that depends on the order in
    which Go ranges over [errorMapping]: the message
    "UserController.AddChooseItemConsumer err: 500: UserService...
    err: 400: ..." names both 500 and 400, so one order answers 500
    (internal error) and another 400 (bad request), for the same
    request and state. *)
Theorem AddChooseItemConsumer_status_depends_on_order driver_text PIL time_err bs es b e md w :
  PIL bs = Some b -> PIL es = Some e -> e < clock w ->
  fst (UserController.AddChooseItemConsumer errorMapping driver_text PIL time_err bs es (md, w))
    = [RespErr ErrInternalServer] ∧
  fst (UserController.AddChooseItemConsumer iter_400_first driver_text PIL time_err bs es (md, w))
    = [RespErr ErrBadRequest] ∧
  iter_400_first ≡ₚ errorMapping.
Proof.
  intros Hb He Hlt.
  rewrite !(AddChooseItemConsumer_handler_run _ _ _ _ _ _ b e) by done.
  rewrite AddChooseItemConsumer_run, bool_decide_eq_true_2 by done.
  split_and!; [reflexivity|reflexivity|apply iter_400_first_perm].
Qed.

Section ServeClaims.
Context `{TimeCodec} (secret : string) (jwt_parse : string -> string -> jwt_result).
Context (iter : list (string * ErrorType)) (driver_text : err -> string) (num_err : string -> string).
Context (GenAccessToken : Z -> Z -> res string string) (ParseInLocation : string -> option Z).
Context (time_err : string -> string) (interval : Z) (KindMap : string -> bool).

Local Abbreviation serve :=
  (serve secret jwt_parse iter driver_text num_err GenAccessToken ParseInLocation time_err interval KindMap).

Lemma role_check_admin_false ism :
  ism ≠ "1" -> ism ≠ "2" -> (String.eqb ism "1" || String.eqb ism "2") = false.
Proof. intros H1 H2. by apply orb_false_iff; split; apply String.eqb_neq. Qed.

(** C12: A route behind [AdminOnlyMiddleware] or [SuperAdminOnlyMiddleware]
    never runs its handler for a valid token whose role is neither "1"
    nor "2": the server answers 403 and the state is unchanged. *)
Theorem admin_routes_reject_other_roles method path g h rq s uid ism :
  find_route method path = Some (g, h) -> g = GAdmin ∨ g = GSuper ->
  iter ≡ₚ errorMapping ->
  req_header rq "accessToken" ≠ "" ->
  jwt_parse (req_header rq "accessToken") secret = JwtParsed uid ism true ->
  ism ≠ "1" -> ism ≠ "2" ->
  serve method path rq s = Served [RespErr ErrForbidden] s.
Proof.
  intros Hr Hg Hp Hne Hj H1 H2. unfold Router.serve. rewrite Hr.
  destruct Hg as [->| ->]; simpl;
    unfold AdminOnlyMiddleware, SuperAdminOnlyMiddleware;
    rewrite (validateToken_valid _ _ _ _ _ uid ism Hne Hj); unfold check_role_and_id;
    [rewrite role_check_admin_false by done|rewrite (proj2 (String.eqb_neq _ _) H2)];
    simpl; by rewrite HandleUserError_403.
Qed.

(** C13: [PUT /user] is behind [JwtInterceptor] only, and [UpdateUserInfo]
    writes the body's [is_manager]: a user with a valid token of any
    role who sends [{"is_manager": 2}] is answered 200 and becomes a
    super administrator in the [user] table. *)
Theorem update_user_info_route_grants_super_admin rq md w fs uid ism id cur body :
  req_header rq "accessToken" ≠ "" ->
  jwt_parse (req_header rq "accessToken") secret = JwtParsed uid ism true ->
  Atoi uid = Some id ->
  req_user_body rq = Ok body -> User.ID body = 0 -> User.UserName body = "" -> User.IsManager body = 2 ->
  faults w = NoFault :: fs -> user_t (store_db w) !! id = Some cur ->
  ∃ s', serve "PUT" "/user" rq (md, w) = Served [RespOk PNone] s' ∧
    user_t (store_db s'.2) !! id = Some (gorm_updates_user body cur) ∧
    User.IsManager (gorm_updates_user body cur) = 2.
Proof.
  intros Hne Hj Ha Hb Hid Hn Hm Hf Hc. unfold Router.serve. simpl.
  unfold JwtInterceptor. rewrite (validateToken_valid _ _ _ _ _ uid ism Hne Hj).
  unfold check_role_and_id. simpl. rewrite Ha. simpl. rewrite Hb.
  unfold UserController.UpdateUserInfo, finish. rewrite lift_finish_run.
  rewrite (Profile.UpdateUserInfo_run w fs id cur body Hf Hc Hid Hn).
  eexists. split; [reflexivity|]. simpl. rewrite lookup_insert_eq. split; [done|].
  unfold nz_int. by rewrite Hm.
Qed.

(** C14: [POST /user/add-score] is behind [JwtInterceptor] only and binds
    the whole score record from the body: a user with a valid token of
    any role who posts a record for manager [m], dated after the
    manager's other records, decides the phone record that an
    administrator then files for [m] through [POST
    /user/add-phone-record]: its satisfaction is the posted score and
    its phone number that of the user the record names. *)
Theorem add_score_route_decides_phone_record rq1 rq2 md w sr u uid1 ism1 id1 uid2 id2 :
  no_faults w ->
  req_header rq1 "accessToken" ≠ "" ->
  jwt_parse (req_header rq1 "accessToken") secret = JwtParsed uid1 ism1 true -> Atoi uid1 = Some id1 ->
  req_score_body rq1 = Ok sr -> ScoreRecord.ID sr = 0 ->
  user_t (store_db w) !! ScoreRecord.UserID sr = Some u ->
  (∀ r, r ∈ score_t (store_db w) -> ScoreRecord.ManagerID r = ScoreRecord.ManagerID sr ->
        ScoreRecord.CreatedAt r < Records.UR.stamp (clock w) (ScoreRecord.CreatedAt sr)) ->
  req_header rq2 "accessToken" ≠ "" ->
  jwt_parse (req_header rq2 "accessToken") secret = JwtParsed uid2 "1" true -> Atoi uid2 = Some id2 ->
  Atoi (req_form rq2 "userID") = Some (ScoreRecord.ManagerID sr) ->
  ∃ s1 s2 pr, serve "POST" "/user/add-score" rq1 (md, w) = Served [RespOk PNone] s1 ∧
    serve "POST" "/user/add-phone-record" rq2 s1 = Served [RespOk PNone] s2 ∧
    last (phone_t (store_db s2.2)) = Some pr ∧
    PhoneRecord.Satisfaction pr = ScoreRecord.Score sr ∧
    PhoneRecord.UserPhone pr = User.PhoneNumber u.
Proof.
  intros Hw Hne1 Hj1 Ha1 Hb H0 Hu Hold Hne2 Hj2 Ha2 Hf.
  destruct (Records.AddScore_then_AddPhoneRecord w sr (req_form rq2 "content") u Hw H0 Hu Hold)
    as (w1 & w2 & pr & Hrun1 & Hrun2 & Hlast & _ & _ & Hsat & Hph).
  exists (md, w1), (md, w2), pr. split_and!; [..|done|done|done]; unfold Router.serve; simpl.
  - unfold JwtInterceptor. rewrite (validateToken_valid _ _ _ _ _ uid1 ism1 Hne1 Hj1).
    unfold check_role_and_id. simpl. rewrite Ha1. simpl. rewrite Hb.
    unfold UserController.AddScore, finish. by rewrite lift_finish_run, Hrun1.
  - unfold AdminOnlyMiddleware. rewrite (validateToken_valid _ _ _ _ _ uid2 "1" Hne2 Hj2).
    unfold check_role_and_id. simpl. rewrite Ha2. simpl.
    unfold UserController.AddPhoneRecord. rewrite Hf. unfold finish. by rewrite lift_finish_run, Hrun2.
Qed.

End ServeClaims.

(** When the commit of a known user's login fails, the error
    "UserService.Login err:%w" carries no status code, and neither does
    the handler's prefix: unless the driver's text happens to contain
    one, [HandleUserError] answers [ErrUnknown], status 9999, which is
    not an HTTP status.  The code sent to the phone is used up all the
    same. *)
Theorem Login_commit_error_answers_unknown_status iter driver_text gen uc names md w fs u :
  iter ≡ₚ errorMapping ->
  ValidatePhoneNumber (UserCode.PhoneNumber uc) = true ->
  codeMap md !! UserCode.PhoneNumber uc = Some uc ->
  faults w = NoFault :: NoFault :: FailBefore :: fs ->
  sql_user_by_phone (UserCode.PhoneNumber uc) (store_db w) = Some u ->
  List.filter (fun kv => Contains ("UserController.Login err: UserService.Login err:"
                                    +:+ driver_text (ErrDb DbNetError)) kv.1) errorMapping = [] ->
  let '(l, (md', w')) := UserController.Login iter driver_text gen (Ok uc) names (md, w) in
  l = [RespErr ErrUnknown] ∧ codeMap md' !! UserCode.PhoneNumber uc = None.
Proof.
  intros Hp Hv Hm Hf Hu Hn. unfold UserController.Login. rewrite Hv. simpl negb. cbv iota.
  unfold Login.US.Login, UMR.ValidateCode. rewrite Hm, String.eqb_refl. cbv iota beta.
  unfold lift. cbv beta iota zeta.
  rewrite (bind_ok _ _ _ _ _ (attempt_run _ _ _ _ (login_db_existing w _ _ names u Hf Hu))).
  simpl. split; [|apply lookup_delete_eq].
  unfold fail. do 2 f_equal. by apply HandleUserError_no_code.
Qed.

(** An administrator who files a phone record for a manager with
    no score record is answered [ErrUnknown], status 9999: the message
    "UserService.AddPhoneRecord 错误请求:未找到评分记录" says the request
    is bad but carries no status code, whatever order [HandleUserError]
    visits its codes in.  Nothing is written. *)
Theorem AddPhoneRecord_without_score_answers_unknown iter driver_text num_err form md w m :
  iter ≡ₚ errorMapping -> no_faults w ->
  Atoi (form "userID") = Some m -> sql_latest_score m (store_db w) = None ->
  UserController.AddPhoneRecord iter driver_text num_err form (md, w) = ([RespErr ErrUnknown], (md, w)).
Proof.
  intros Hp Hw Ha Hl. unfold UserController.AddPhoneRecord. rewrite Ha. unfold finish.
  rewrite lift_finish_run. unfold Records.UserService.AddPhoneRecord.
  rewrite (bind_err _ _ _ (ErrApp NoScoreRecord) w).
  - simpl. unfold fail. rewrite HandleUserError_no_code; [done|done|vm_compute; reflexivity].
  - rewrite (catch_err _ _ _ (ErrDb DbRecordNotFound) w); [done|].
    apply sql_direct_err_nf; [done|by rewrite Hl].
Qed.

(** ** Witnesses *)

Definition demo_driver_text (e : err) : string := "invalid connection".
Definition demo_num_err (s : string) : string := "strconv.Atoi: parsing " +:+ s +:+ ": invalid syntax".
Definition demo_ctl_world (t : Z) (fs : list fault) (d : db) : World := mkWorld redis_empty d None [] t [] fs.

Lemma ChooseItem_bad_item_id_runs_publisher_witness :
  let '(l, (md', w')) := UserController.ChooseItem errorMapping demo_driver_text demo_num_err 7 "abc"
                           (mdb_empty, demo_ctl_world 0 [] db_empty) in
  md' = mdb_empty ∧ w' = snd (Reservation.UserService.ChooseItemPublisher 7 0 (demo_ctl_world 0 [] db_empty)) ∧
  length l = 2%nat ∧
  head l = Some (RespErr (HandleUserError errorMapping
                   ("UserController.ChooseItem err: 400: 无法将itemID转换为int:" +:+ demo_num_err "abc"))).
Proof.
  apply (ChooseItem_bad_item_id_runs_publisher errorMapping demo_driver_text demo_num_err 7 "abc"
           mdb_empty (demo_ctl_world 0 [] db_empty)).
  reflexivity.
Defined.

Definition demo_parse_local (s : string) : option Z :=
  if String.eqb s "2024-01-01 10:00:00" then Some 100
  else if String.eqb s "2024-01-01 11:00:00" then Some 200 else None.

Lemma AddChooseItemConsumer_status_depends_on_order_witness :
  fst (UserController.AddChooseItemConsumer errorMapping demo_driver_text demo_parse_local demo_num_err
         "2024-01-01 10:00:00" "2024-01-01 11:00:00" (mdb_empty, demo_ctl_world 1000 [] db_empty))
    = [RespErr ErrInternalServer] ∧
  fst (UserController.AddChooseItemConsumer iter_400_first demo_driver_text demo_parse_local demo_num_err
         "2024-01-01 10:00:00" "2024-01-01 11:00:00" (mdb_empty, demo_ctl_world 1000 [] db_empty))
    = [RespErr ErrBadRequest] ∧
  iter_400_first ≡ₚ errorMapping.
Proof.
  apply (AddChooseItemConsumer_status_depends_on_order demo_driver_text demo_parse_local demo_num_err
           "2024-01-01 10:00:00" "2024-01-01 11:00:00" 100 200 mdb_empty (demo_ctl_world 1000 [] db_empty));
    [reflexivity|reflexivity|simpl; lia].
Defined.

Definition demo_header (k : string) : string := if String.eqb k "accessToken" then "tok" else "".
Definition demo_user_parse (t k : string) : jwt_result := JwtParsed "1" "0" true.
Definition demo_request (body : res string User.t) : request :=
  mkReq demo_header (fun _ => "") (fun _ => "") (Err "EOF") body (Err "EOF") (Err "EOF") (fun _ => "") (Err "EOF") "123456" [].
Definition demo_plain_user : User.t := User.mk 1 "user_a" demo_phone 0 0 "" US.Biography0 0.
Definition demo_users_db : db := set_users {[1 := demo_plain_user]} db_empty.

Lemma admin_routes_reject_other_roles_witness :
  Router.serve Config.SecretKey demo_user_parse errorMapping demo_driver_text demo_num_err (fun _ _ => Ok "t")
    demo_parse_local demo_num_err Config.CodeExpireDuration Config.KindMap "POST" "/user/add-item" (demo_request (Err "EOF"))
    (mdb_empty, demo_ctl_world 0 [] demo_users_db)
  = Served [RespErr ErrForbidden] (mdb_empty, demo_ctl_world 0 [] demo_users_db).
Proof.
  apply (admin_routes_reject_other_roles Config.SecretKey demo_user_parse errorMapping demo_driver_text demo_num_err
           (fun _ _ => Ok "t") demo_parse_local demo_num_err Config.CodeExpireDuration Config.KindMap
           "POST" "/user/add-item" GAdmin HAddItem (demo_request (Err "EOF"))
           (mdb_empty, demo_ctl_world 0 [] demo_users_db) "1" "0");
    [reflexivity|left; reflexivity|reflexivity|vm_compute; congruence|reflexivity
    |vm_compute; congruence|vm_compute; congruence].
Defined.

Lemma update_user_info_route_grants_super_admin_witness :
  ∃ s', Router.serve Config.SecretKey demo_user_parse errorMapping demo_driver_text demo_num_err (fun _ _ => Ok "t")
          demo_parse_local demo_num_err Config.CodeExpireDuration Config.KindMap "PUT" "/user" (demo_request (Ok demo_escalate_body))
          (mdb_empty, demo_ctl_world 0 [NoFault] demo_users_db) = Served [RespOk PNone] s' ∧
    user_t (store_db s'.2) !! 1 = Some (gorm_updates_user demo_escalate_body demo_plain_user) ∧
    User.IsManager (gorm_updates_user demo_escalate_body demo_plain_user) = 2.
Proof.
  apply (update_user_info_route_grants_super_admin Config.SecretKey demo_user_parse errorMapping demo_driver_text demo_num_err
           (fun _ _ => Ok "t") demo_parse_local demo_num_err Config.CodeExpireDuration Config.KindMap
           (demo_request (Ok demo_escalate_body)) mdb_empty (demo_ctl_world 0 [NoFault] demo_users_db) []
           "1" "0" 1 demo_plain_user demo_escalate_body);
    [vm_compute; congruence|reflexivity..].
Defined.

Definition demo_code : UserCode.t := UserCode.mk "123456" demo_phone.

Lemma Login_commit_error_answers_unknown_status_witness :
  let '(l, (md', w')) := UserController.Login errorMapping demo_driver_text (fun _ _ => Ok "t") (Ok demo_code) []
                           (set_codeMap {[demo_phone := demo_code]} mdb_empty,
                            demo_ctl_world 0 [NoFault; NoFault; FailBefore] demo_users_db) in
  l = [RespErr ErrUnknown] ∧ codeMap md' !! demo_phone = None.
Proof.
  apply (Login_commit_error_answers_unknown_status errorMapping demo_driver_text (fun _ _ => Ok "t") demo_code []
           (set_codeMap {[demo_phone := demo_code]} mdb_empty)
           (demo_ctl_world 0 [NoFault; NoFault; FailBefore] demo_users_db) [] demo_plain_user);
    [reflexivity|reflexivity|reflexivity|reflexivity|vm_compute; reflexivity|vm_compute; reflexivity].
Defined.

Definition demo_role_parse (t k : string) : jwt_result :=
  if String.eqb t "admin" then JwtParsed "2" "1" true else JwtParsed "3" "0" true.
Definition demo_token (t : string) (k : string) : string := if String.eqb k "accessToken" then t else "".
Definition demo_form (k : string) : string := if String.eqb k "userID" then "2" else "call".
Definition demo_score_request : request :=
  mkReq (demo_token "tok") (fun _ => "") (fun _ => "") (Err "EOF") (Err "EOF") (Err "EOF")
    (Ok Records.demo_forged) (fun _ => "") (Err "EOF") "" [].
Definition demo_phone_request : request :=
  mkReq (demo_token "admin") (fun _ => "") (fun _ => "") (Err "EOF") (Err "EOF") (Err "EOF")
    (Err "EOF") demo_form (Err "EOF") "" [].

Lemma add_score_route_decides_phone_record_witness :
  ∃ s1 s2 pr,
    Router.serve Config.SecretKey demo_role_parse errorMapping demo_driver_text demo_num_err (fun _ _ => Ok "t")
      demo_parse_local demo_num_err Config.CodeExpireDuration Config.KindMap "POST" "/user/add-score"
      demo_score_request (mdb_empty, Records.demo_records_world) = Served [RespOk PNone] s1 ∧
    Router.serve Config.SecretKey demo_role_parse errorMapping demo_driver_text demo_num_err (fun _ _ => Ok "t")
      demo_parse_local demo_num_err Config.CodeExpireDuration Config.KindMap "POST" "/user/add-phone-record"
      demo_phone_request s1 = Served [RespOk PNone] s2 ∧
    last (phone_t (store_db s2.2)) = Some pr ∧
    PhoneRecord.Satisfaction pr = 1 ∧ PhoneRecord.UserPhone pr = "13800000003".
Proof.
  apply (add_score_route_decides_phone_record Config.SecretKey demo_role_parse errorMapping demo_driver_text
           demo_num_err (fun _ _ => Ok "t") demo_parse_local demo_num_err Config.CodeExpireDuration Config.KindMap
           demo_score_request demo_phone_request mdb_empty Records.demo_records_world Records.demo_forged
           Records.demo_member "3" "0" 3 "2" 2);
    [reflexivity|vm_compute; congruence|reflexivity|reflexivity|reflexivity|reflexivity|reflexivity| |vm_compute; congruence|reflexivity|reflexivity|reflexivity].
  intros r Hr _. simpl in Hr. apply list_elem_of_singleton in Hr as ->. vm_compute. reflexivity.
Defined.

Lemma AddPhoneRecord_without_score_answers_unknown_witness :
  UserController.AddPhoneRecord errorMapping demo_driver_text demo_num_err demo_form
    (mdb_empty, demo_ctl_world 0 [] demo_users_db)
  = ([RespErr ErrUnknown], (mdb_empty, demo_ctl_world 0 [] demo_users_db)).
Proof.
  apply (AddPhoneRecord_without_score_answers_unknown errorMapping demo_driver_text demo_num_err demo_form
           mdb_empty (demo_ctl_world 0 [] demo_users_db) 2); reflexivity.
Defined.

