(* ===== verification/TxTyping.v ===== *)
(** * The transaction discipline: every [Begin] is closed

    A service that calls [DB.Begin()] holds a connection of the pool
    until it calls [tx.Commit()] or [tx.Rollback()]; a path that returns
    without either leaks it.  [TxTyped pre ok err m] is a typing
    judgement for the transaction state of the world ([txo]: is a
    transaction open): started with the state [pre], [m] ends with [ok]
    when it returns a value and with [err] when it returns an error,
    whatever the faults.  The rules are type-class instances: one per
    primitive ([tx_begin] opens, [tx_commit] and [tx_rollback] close,
    [sql_tx] needs an open transaction and keeps it, the other effects
    keep the state) and one per combinator ([bind], [catch],
    [attempt]); the services get their types by search, the loops by
    induction.

    The theorems: every service the handlers, the goroutines and the
    consumer run has type [TxTyped false false false] (it leaves no
    transaction open, on every path and under every fault), and so
    does every request [Router.serve] answers. *)

From S2P Require Import Prelude Strconv Utils Redis Models Durable World Articles Reservation Rank Items Consumer CodeStore Login Profile Records Middleware Controllers.
Open Scope hcl_scope.
Open Scope Z_scope.

Import ErrorHandler Jwt UserController ArticleController Router.

(** Is a transaction open. *)
Definition txo (w : World) : bool := match tx w with Some _ => true | None => false end.

(** The typing judgement: from [pre], [ok] after a value, [err] after an
    error. *)
Class TxTyped {A} (pre ok err : bool) (m : M A) : Prop :=
  tx_typed : ∀ w, txo w = pre ->
    txo (snd (m w)) = match fst (m w) with Ok _ => ok | Err _ => err end.

(** A handler closes what it opens: from a world without an open
    transaction it answers with none. *)
Definition handler_tx (h : Handler) : Prop :=
  ∀ md w, txo w = false -> txo (snd (h (md, w))).2 = false.

(** ** Lemmas: the rules *)

(** A computation that does not touch the transaction state has every
    type [p p p]. *)
Lemma tx_same {A} (m : M A) p : (∀ w, tx (snd (m w)) = tx w) -> TxTyped p p p m.
Proof. intros Hm w Hw. unfold txo in *. rewrite Hm. by destruct (fst (m w)). Qed.

Lemma next_fault_tx w f w0 : next_fault w = (f, w0) -> tx w0 = tx w.
Proof. unfold next_fault. destruct (faults w); by intros [= <- <-]. Qed.

Section Rules.
Context {A B : Type}.

#[export] Instance ret_tx (a : A) p q : TxTyped p p q (ret (S:=World) (E:=err) a).
Proof. by intros w. Qed.
#[export] Instance throw_tx e p q : TxTyped p q p (throw (S:=World) (A:=A) e).
Proof. by intros w. Qed.
#[export] Instance bind_tx (m : M A) (k : A -> M B) p q r s :
  TxTyped p q r m -> (∀ a, TxTyped q s r (k a)) -> TxTyped p s r (bind m k).
Proof.
  intros Hm Hk w Hw. specialize (Hm w Hw). unfold bind.
  destruct (m w) as [[a|e] w1]; simpl in *; [by apply Hk|done].
Qed.
#[export] Instance catch_tx (m : M A) (h : err -> M A) p q r s :
  TxTyped p q r m -> (∀ e, TxTyped r q s (h e)) -> TxTyped p q s (catch m h).
Proof.
  intros Hm Hh w Hw. specialize (Hm w Hw). unfold catch.
  destruct (m w) as [[a|e] w1]; simpl in *; [done|by apply Hh].
Qed.
#[export] Instance attempt_tx (m : M A) p q r : TxTyped p q q m -> TxTyped p q r (attempt m).
Proof. intros Hm w Hw. specialize (Hm w Hw). unfold attempt. by destruct (m w) as [[]]. Qed.

#[export] Instance rcall_tx (c : cmd A) p : TxTyped p p p (rcall c).
Proof.
  apply tx_same. intros w. unfold rcall. destruct (next_fault w) as [f w0] eqn:E.
  rewrite <- (next_fault_tx _ _ _ E). destruct (c (cache w0)). by destruct f.
Qed.
#[export] Instance sql_direct_tx (s : db -> res dberr (A * db)) p : TxTyped p p p (sql_direct s).
Proof. apply tx_same. intros w. unfold sql_direct. prim_cases; done. Qed.
#[export] Instance sql_tx_open (s : db -> res dberr (A * db)) : TxTyped true true true (sql_tx s).
Proof. intros w. unfold sql_tx, txo. prim_cases; done. Qed.
#[export] Instance sql_tx_closed (s : db -> res dberr (A * db)) : TxTyped false false false (sql_tx s).
Proof. intros w. unfold sql_tx, txo. prim_cases; done. Qed.
End Rules.

#[export] Instance tx_begin_tx : TxTyped false true false tx_begin.
Proof. intros w. unfold tx_begin, txo. prim_cases; done. Qed.
#[export] Instance tx_commit_tx : TxTyped true false false tx_commit.
Proof. intros w. unfold tx_commit, txo. prim_cases; done. Qed.
#[export] Instance tx_rollback_tx p q : TxTyped p false q tx_rollback.
Proof. by intros w. Qed.
#[export] Instance mq_call_tx p : TxTyped p p p mq_call.
Proof. apply tx_same. intros w. unfold mq_call. prim_cases; done. Qed.
#[export] Instance mq_publish_tx b p : TxTyped p p p (mq_publish b).
Proof. apply tx_same. intros w. unfold mq_publish. prim_cases; done. Qed.
#[export] Instance time_now_tx p q : TxTyped p p q time_now.
Proof. by intros w. Qed.
#[export] Instance go_tx t p q : TxTyped p p q (go t).
Proof. by intros w. Qed.
#[export] Instance parse_int_tx n s p : TxTyped p p p (parse_int n s).
Proof. unfold parse_int. destruct (Atoi s); apply _. Qed.

#[export] Hint Extern 1 (TxTyped _ _ _ (match ?x with _ => _ end)) =>
  destruct x : typeclass_instances.

(** ** Lemmas: the services *)

Section Services.
Context `{TimeCodec}.

#[export] Instance write_likes_tx rs : TxTyped true true false (ArticleService.write_likes rs).
Proof. induction rs; simpl; apply _. Qed.

#[export] Instance updateLikesInTransaction_tx rs :
  TxTyped false false false (ArticleService.updateLikesInTransaction rs).
Proof. unfold ArticleService.updateLikesInTransaction. apply _. Qed.

#[export] Instance art_AddArticle_tx a m : TxTyped false false false (ArticleService.AddArticle a m).
Proof. unfold ArticleService.AddArticle. apply _. Qed.

#[export] Instance rank_AddFollows_tx f : TxTyped false false false (Rank.UserService.AddFollows f).
Proof. unfold Rank.UserService.AddFollows. apply _. Qed.

#[export] Instance rank_RemoveFollows_tx u f : TxTyped false false false (Rank.UserService.RemoveFollows u f).
Proof. unfold Rank.UserService.RemoveFollows. apply _. Qed.

#[export] Instance res_ChooseItem_tx u i : TxTyped false false false (Reservation.UserService.ChooseItem u i).
Proof. unfold Reservation.UserService.ChooseItem. apply _. Qed.

#[export] Instance register_tx p names : TxTyped true false false (Login.UserService.register p names).
Proof.
  revert p. induction names as [|n ns IH]; intros p; simpl; [apply _|].
  apply (bind_tx _ _ _ true); [apply _|intros [u|[]]]; try apply _. all: try (destruct d); apply _.
Qed.

#[export] Instance login_db_tx p names : TxTyped false false false (Login.UserService.login_db p names).
Proof. unfold Login.UserService.login_db. apply _. Qed.

End Services.

(** The loops that read or write the cache only, and the reply switch
    of the reservation script. *)
Section Loops.
Context `{TimeCodec}.

#[export] Instance choose_item_switch_tx r p : TxTyped p p p (Reservation.UserCacheRepository.choose_item_switch r).
Proof. unfold Reservation.UserCacheRepository.choose_item_switch. repeat case_match; apply _. Qed.

#[export] Instance collect_basic_tx ids p : TxTyped p p p (ArticleCacheRepository.collect_basic ids).
Proof. induction ids; simpl; apply _. Qed.
#[export] Instance collect_likes_tx keys p : TxTyped p p p (ArticleCacheRepository.collect_likes keys).
Proof. induction keys; simpl; apply _. Qed.
#[export] Instance collect_items_tx keys p : TxTyped p p p (Items.UserCacheRepository.collect_items keys).
Proof. induction keys; simpl; apply _. Qed.
#[export] Instance parse_members_tx ms p : TxTyped p p p (Rank.UserCacheRepository.parse_members ms).
Proof. induction ms; simpl; apply _. Qed.
#[export] Instance rank_entries_tx r l p : TxTyped p p p (Rank.UserCacheRepository.rank_entries r l).
Proof. revert r. induction l; intros r; simpl; apply _. Qed.
#[export] Instance users_of_tx ids p : TxTyped p p p (Rank.UserService.users_of ids).
Proof. induction ids; simpl; apply _. Qed.
#[export] Instance PeriodicUpdateLikes_tx n : TxTyped false false false (ArticleService.PeriodicUpdateLikes n).
Proof. induction n; simpl; unfold ArticleService.PeriodicUpdateLikes_tick; apply _. Qed.

End Loops.

(** ** Lemmas: the handlers *)

Lemma lift_tx m : TxTyped false false false m -> handler_tx (lift m).
Proof. intros Hm md w Hw. specialize (Hm w Hw). unfold lift. destruct (m w) as [[]]; done. Qed.

Lemma answer_tx l : handler_tx (answer l).
Proof. by intros md w. Qed.

Lemma Login_service_tx uc names md : TxTyped false false false (Login.US.Login uc names md).2.
Proof. unfold Login.US.Login. destruct (UMR.ValidateCode _ _ md) as [[]]; simpl; apply _. Qed.

(** Split a handler on its parameters and close each branch with its
    service's type. *)
Ltac handler_tx_tac :=
  repeat match goal with
         | |- handler_tx (lift _) => apply lift_tx; apply _
         | |- handler_tx (answer _) => apply answer_tx
         | |- handler_tx (match ?x with _ => _ end) => destruct x
         end.

Section Handlers.
Context `{TimeCodec} (secret : string) (jwt_parse : string -> string -> jwt_result).
Context (iter : list (string * ErrorType)) (driver_text : err -> string) (num_err : string -> string).
Context (GenAccessToken : Z -> Z -> res string string) (ParseInLocation : string -> option Z).
Context (time_err : string -> string) (interval : Z) (KindMap : string -> bool).

Lemma dispatch_tx h uid rq :
  handler_tx (dispatch iter driver_text num_err GenAccessToken ParseInLocation time_err interval KindMap h uid rq).
Proof.
  destruct h; simpl;
    unfold UserController.SendCode, UserController.Login, UserController.GetUserInfo,
      UserController.AddAdministrator, UserController.UpdateUserInfo, UserController.AddScore,
      UserController.AddPhoneRecord, UserController.GetPhoneRecordByPhone, UserController.AddFollows,
      UserController.GetFollows, UserController.GetOtherUserInfo, UserController.RemoveFollows,
      UserController.GetCommonFollows, UserController.AddLikes, UserController.GetLikesRank,
      UserController.AddItem, UserController.GetAllItems, UserController.ChooseItem,
      UserController.AddChooseItemConsumer, ArticleController.AddArticle, ArticleController.GetAllArticle,
      ArticleController.GetArticle, ArticleController.AddLikes, ArticleController.RemoveLikes,
      ArticleController.UpdateArticle; handler_tx_tac.
  - intros md w Hw. simpl. case_match; [done|]. by destruct (US.SendCode _ _ _ _ _).
  - intros md w Hw. simpl. destruct (req_code_body rq) as [uc|]; [|done]. case_match; [done|].
    pose proof (Login_service_tx uc (req_names rq) md) as Hl.
    destruct (US.Login uc (req_names rq) md) as [md' m]. simpl in Hl.
    apply (lift_tx _); [apply _|done].
Qed.

Local Abbreviation serve :=
  (serve secret jwt_parse iter driver_text num_err GenAccessToken ParseInLocation time_err interval KindMap).

(** Every request the server answers, on any route and under any
    faults, leaves no transaction open. *)
Lemma serve_closes_tx method path rq md w l s' :
  txo w = false -> serve method path rq (md, w) = Served l s' -> txo s'.2 = false.
Proof.
  intros Hw. unfold Router.serve. destruct (find_route method path) as [[g h]|]; [|done].
  destruct (middleware _ _ _ g _) as [e|uid]; [by intros [= _ <-]|].
  pose proof (dispatch_tx h uid rq md w Hw) as Hd.
  destruct (dispatch _ _ _ _ _ _ _ _ h uid rq (md, w)) as [l' s1]. by intros [= _ <-].
Qed.

End Handlers.

(** ** Lemmas: the goroutines *)

Section Goroutines.
Context `{TimeCodec}.

#[export] Instance PeriodicUpdateLikes_tick_tx : TxTyped false false false ArticleService.PeriodicUpdateLikes_tick.
Proof. unfold ArticleService.PeriodicUpdateLikes_tick. apply _. Qed.

Lemma run_article_task_tx t m : ArticleService.run_article_task t = Some m -> TxTyped false false false m.
Proof. destruct t; simpl; intros [= <-]; apply _. Qed.

#[export] Instance handle_message_tx msg : TxTyped false false false (Consumer.handle_message msg).
Proof. unfold Consumer.handle_message. apply _. Qed.

End Goroutines.
