(* ===== verification/Tokens.v ===== *)
(** * Access tokens: [GenAccessToken] and the JWT library

    [GenAccessToken] (common/utils/user_utils.go) signs the claims
    [JwtClaims] (the user id and role as decimal strings, an expiry
    [AccessTokenExpireDuration] after now, the issuer) with HS256 and
    the configured secret; [ParseToken] parses them back with
    [jwt.ParseWithClaims].  The library is the interface
    [JwtLibrary]: signing, parsing at a given time, and the three
    behaviours of golang-jwt v5 the guards rely on (a token signed with
    the key parses back to its claims before it expires; after, the
    error says [expired]; under another key the signature check fails
    first).  The theorems are proved against the interface; the toy
    library [toy_jwt] at the end is an instance, used by the witnesses.
    [GenerateRandomUsername] draws its characters from a charset given
    as a parameter ([configs.CHARACTER_SET] is not in the repository). *)

From S2P Require Import Prelude Strconv Middleware Controllers.
Open Scope hcl_scope.
Open Scope Z_scope.

Import ErrorHandler Jwt.

(** [JwtClaims]: [ID], [IsManager] and the registered claims the code
    sets. *)
Record JwtClaims : Type := mkClaims {
  ID : string;
  IsManager : string;
  ExpiresAt : Z;
  Issuer : string
}.

(** What the code needs from golang-jwt v5. *)
Class JwtLibrary : Type := {
  SignedString : JwtClaims -> string -> res string string;
  ParseWithClaims : Z -> string -> string -> jwt_result;
  signed_nonempty : ∀ c k tok, SignedString c k = Ok tok -> tok ≠ "";
  parse_valid : ∀ c k tok now, SignedString c k = Ok tok -> now < ExpiresAt c ->
    ParseWithClaims now tok k = JwtParsed (ID c) (IsManager c) true;
  parse_expired : ∀ c k tok now, SignedString c k = Ok tok -> ExpiresAt c <= now ->
    ∃ msg, ParseWithClaims now tok k = JwtError msg ∧ Contains msg "expired" = true;
  parse_forged : ∀ c k k' tok now, SignedString c k = Ok tok -> k' ≠ k ->
    ∃ msg, ParseWithClaims now tok k' = JwtError msg ∧ Contains msg "expired" = false
}.

Section Gen.
Context `{JwtLibrary}.

(** [GenAccessToken(id, isManager, accessTokenExpireDuration, secret)]
    at time [now]. *)
Definition GenAccessToken (id isManager accessTokenExpireDuration : Z) (secret : string) (now : Z)
  : res string string :=
  let claims := mkClaims (Itoa id) (Itoa isManager) (now + accessTokenExpireDuration) "huancuilou" in
  SignedString claims secret.

End Gen.

(** The loop [for i := 0; i < (length - 5); i++] of
    [GenerateRandomUsername]: the [i]-th byte is
    [charset[rand.Intn(len(charset))]], the [i]-th call of [rand.Intn]
    returning [draw i] modulo [len(charset)]. *)
Fixpoint random_chars (charset : string) (draw : nat -> nat) (i k : nat) : string :=
  match k with
  | O => ""
  | S k' => String (default "000"%char (String.get (draw i mod String.length charset) charset))
                   (random_chars charset draw (S i) k')
  end.

(** [GenerateRandomUsername(length)]: ["user_"] and the [length - 5]
    random bytes; [rand.Intn(0)] panics, so an empty charset with
    [length > 5] gives [None]. *)
Definition GenerateRandomUsername (charset : string) (length : Z) (draw : nat -> nat) : option string :=
  let count := Z.to_nat (length - 5) in
  if (String.length charset =? 0)%nat && (0 <? count)%nat then None
  else Some ("user_" +:+ random_chars charset draw 0 count).

(** ** Lemmas *)

Lemma random_chars_length charset draw i k : String.length (random_chars charset draw i k) = k.
Proof. revert i. induction k; intros i; simpl; [done|by rewrite IHk]. Qed.

Lemma string_get_lt (s : string) j : (j < String.length s)%nat -> is_Some (String.get j s).
Proof. revert j. induction s as [|c s IH]; intros [|j] Hj; simpl in *; [lia|lia|eauto|apply IH; lia]. Qed.

(** The [j]-th random byte is the charset's byte at the [(i+j)]-th draw. *)
Lemma random_chars_get charset draw i k j :
  charset ≠ "" -> (j < k)%nat ->
  String.get j (random_chars charset draw i k) = String.get (draw (i + j)%nat mod String.length charset)%nat charset.
Proof.
  intros Hc. revert i j. induction k as [|k IH]; intros i [|j] Hj; simpl; try lia.
  - rewrite Nat.add_0_r.
    destruct (string_get_lt charset (draw i mod String.length charset)) as [c ->]; [|done].
    apply Nat.mod_upper_bound. by destruct charset.
  - rewrite IH by lia. do 3 f_equal. lia.
Qed.

Lemma get_after_prefix (p s : string) j : String.get (String.length p + j) (p +:+ s) = String.get j s.
Proof. induction p; simpl; [done|exact IHp]. Qed.

(** A role compared with a literal is the number that literal prints. *)
Lemma Itoa_eqb_lit m n s : Itoa n = s -> String.eqb (Itoa m) s = true <-> m = n.
Proof. intros <-. rewrite String.eqb_eq. split; [apply Itoa_inj|by intros ->]. Qed.

Section Guards.
Context `{JwtLibrary} (iter : list (string * ErrorType)).

(** The guards on a header carrying a token the library accepts. *)
Lemma validateToken_signed rc c k tok t hdr :
  SignedString c k = Ok tok -> t < ExpiresAt c -> hdr "accessToken" = tok ->
  validateToken k (ParseWithClaims t) iter rc hdr = check_role_and_id iter rc (ID c) (IsManager c).
Proof.
  intros Hs Ht Hh. apply validateToken_valid; rewrite Hh; [exact (signed_nonempty _ _ _ Hs)|].
  exact (parse_valid _ _ _ _ Hs Ht).
Qed.

Lemma check_role_Itoa rc id m :
  int64_min <= id <= int64_max ->
  check_role_and_id iter rc (Itoa id) (Itoa m) =
  if rc (Itoa m) then Passed id else Aborted (HandleUserError iter "403:权限不足").
Proof. intros Hid. unfold check_role_and_id. rewrite Atoi_Itoa by done. by destruct (rc (Itoa m)). Qed.

End Guards.

(** ** Claims *)

Section TokenClaims.
Context `{JwtLibrary} (iter : list (string * ErrorType)).

(** C16: Round trip of the access token: a token [GenAccessToken] makes
    at [now] for user [id] with role [m] (the token [Login] returns) is
    accepted by [JwtInterceptor] with that user id at any time before
    [now + duration]; [AdminOnlyMiddleware] accepts it exactly when the
    role is 1 or 2, [SuperAdminOnlyMiddleware] exactly when it is 2. *)
Theorem GenAccessToken_admitted id m dur k now tok t hdr :
  GenAccessToken id m dur k now = Ok tok -> int64_min <= id <= int64_max ->
  t < now + dur -> hdr "accessToken" = tok ->
  JwtInterceptor k (ParseWithClaims t) iter hdr = Passed id ∧
  (AdminOnlyMiddleware k (ParseWithClaims t) iter hdr = Passed id <-> m = 1 ∨ m = 2) ∧
  (SuperAdminOnlyMiddleware k (ParseWithClaims t) iter hdr = Passed id <-> m = 2).
Proof.
  intros Hg Hid Ht Hh. unfold JwtInterceptor, AdminOnlyMiddleware, SuperAdminOnlyMiddleware.
  rewrite !(validateToken_signed iter _ _ _ _ _ hdr Hg Ht Hh). simpl. rewrite !check_role_Itoa by done.
  pose proof (Itoa_eqb_lit m 1 "1" eq_refl) as H1. pose proof (Itoa_eqb_lit m 2 "2" eq_refl) as H2.
  split_and!; [done| |];
    destruct (String.eqb (Itoa m) "1"), (String.eqb (Itoa m) "2"); simpl;
    (split; [intros [=]|]); intuition (try discriminate); lia.
Qed.

End TokenClaims.

(** C22: [GenerateRandomUsername(length)] with a non-empty charset and
    [length >= 5] returns a name of [length] bytes: ["user_"], then at
    position [5 + j] the charset's byte chosen by the [j]-th draw; with
    an empty charset and [length > 5], [rand.Intn(0)] panics. *)
Theorem GenerateRandomUsername_shape charset length draw :
  5 <= length ->
  (charset ≠ "" -> ∃ u, GenerateRandomUsername charset length draw = Some u ∧
     String.length u = Z.to_nat length ∧ String.prefix "user_" u = true ∧
     ∀ j, (j < Z.to_nat (length - 5))%nat ->
          String.get (5 + j) u = String.get (draw j mod String.length charset)%nat charset) ∧
  (charset = "" -> 5 < length -> GenerateRandomUsername charset length draw = None).
Proof.
  intros Hl. split.
  - intros Hc. unfold GenerateRandomUsername.
    replace ((String.length charset =? 0)%nat) with false by (destruct charset; done). simpl.
    eexists. split_and!; [done| |apply prefix_app|].
    + rewrite string_length_app, random_chars_length. simpl. lia.
    + intros j Hj. exact (eq_trans (get_after_prefix "user_" _ j) (random_chars_get _ _ 0 _ j Hc Hj)).
  - intros -> Hl'. unfold GenerateRandomUsername. simpl.
    by rewrite (proj2 (Nat.ltb_lt 0 (Z.to_nat (length - 5)))) by lia.
Qed.

(** ** A library: [toy_jwt]

    Tokens are the escaped fields [ID], [IsManager], [ExpiresAt],
    [Issuer] and the key, each character prefixed by ["a"] and each
    field ended by ["b"]; parsing decodes them, compares the key (the
    signature check) and then the expiry, in golang-jwt's order. *)
Module ToyJwt.

Fixpoint esc (s : string) : string :=
  match s with
  | EmptyString => "b"
  | String c r => String "a" (String c (esc r))
  end.

Fixpoint unesc (s : string) : option (string * string) :=
  match s with
  | String "a" (String c r) => '(f, rest) ← unesc r; Some (String c f, rest)
  | String "b" r => Some (EmptyString, r)
  | _ => None
  end.

Definition encode (c : JwtClaims) (k : string) : string :=
  esc (ID c) +:+ esc (IsManager c) +:+ esc (Itoa (ExpiresAt c)) +:+ esc (Issuer c) +:+ esc k.

Definition decode (tok : string) : option (JwtClaims * string) :=
  '(id, r1) ← unesc tok; '(ism, r2) ← unesc r1; '(e, r3) ← unesc r2;
  '(iss, r4) ← unesc r3; '(k, r5) ← unesc r4;
  exp ← Atoz e;
  match r5 with EmptyString => Some (mkClaims id ism exp iss, k) | _ => None end.

Definition parse (now : Z) (tok k : string) : jwt_result :=
  match decode tok with
  | None => JwtError "token is malformed"
  | Some (c, k0) =>
      if negb (String.eqb k0 k) then JwtError "token signature is invalid"
      else if now <? ExpiresAt c then JwtParsed (ID c) (IsManager c) true
      else JwtError "token has invalid claims: token is expired"
  end.

Lemma unesc_esc s r : unesc (esc s +:+ r) = Some (s, r).
Proof. induction s as [|c s IH]; [done|]. simpl. by rewrite IH. Qed.

Lemma unesc_esc_end s : unesc (esc s) = Some (s, "").
Proof. induction s as [|c s IH]; [done|]. simpl. by rewrite IH. Qed.

Lemma decode_encode c k : decode (encode c k) = Some (c, k).
Proof.
  unfold decode, encode. rewrite !unesc_esc; simpl. rewrite unesc_esc; simpl.
  rewrite unesc_esc; simpl. rewrite unesc_esc; simpl. rewrite unesc_esc_end, Atoz_Itoa. by destruct c.
Qed.

Lemma esc_nonempty s r : esc s +:+ r ≠ "".
Proof. by destruct s. Qed.

Definition sign (c : JwtClaims) (k : string) : res string string := Ok (encode c k).

Lemma sign_nonempty c k tok : sign c k = Ok tok -> tok ≠ "".
Proof. intros [= <-]. apply esc_nonempty. Qed.

Lemma parse_sign c k tok now :
  sign c k = Ok tok ->
  parse now tok k = if now <? ExpiresAt c then JwtParsed (ID c) (IsManager c) true
                    else JwtError "token has invalid claims: token is expired".
Proof. intros [= <-]. unfold parse. by rewrite decode_encode, String.eqb_refl. Qed.

Lemma parse_sign_valid c k tok now :
  sign c k = Ok tok -> now < ExpiresAt c -> parse now tok k = JwtParsed (ID c) (IsManager c) true.
Proof. intros Hs Hn. rewrite (parse_sign _ _ _ _ Hs). by rewrite (proj2 (Z.ltb_lt _ _) Hn). Qed.

Lemma parse_sign_expired c k tok now :
  sign c k = Ok tok -> ExpiresAt c <= now ->
  ∃ msg, parse now tok k = JwtError msg ∧ Contains msg "expired" = true.
Proof. intros Hs Hn. rewrite (parse_sign _ _ _ _ Hs), (proj2 (Z.ltb_ge _ _) Hn). by eexists. Qed.

Lemma parse_sign_forged c k k' tok now :
  sign c k = Ok tok -> k' ≠ k ->
  ∃ msg, parse now tok k' = JwtError msg ∧ Contains msg "expired" = false.
Proof.
  intros [= <-] Hk. unfold parse. rewrite decode_encode.
  rewrite (proj2 (String.eqb_neq _ _) (not_eq_sym Hk)). by eexists.
Qed.

#[export] Instance toy_jwt : JwtLibrary := {|
  SignedString := sign;
  ParseWithClaims := parse;
  signed_nonempty := sign_nonempty;
  parse_valid := parse_sign_valid;
  parse_expired := parse_sign_expired;
  parse_forged := parse_sign_forged |}.

End ToyJwt.

(** ** Witnesses *)

Definition demo_access_token : string :=
  ToyJwt.encode (mkClaims (Itoa 7) (Itoa 2) (100 + 3600) "huancuilou") Config.SecretKey.

Lemma GenAccessToken_admitted_witness :
  JwtInterceptor Config.SecretKey (ParseWithClaims (JwtLibrary:=ToyJwt.toy_jwt) 200) errorMapping
    (fun _ => demo_access_token) = Passed 7 ∧
  (AdminOnlyMiddleware Config.SecretKey (ParseWithClaims (JwtLibrary:=ToyJwt.toy_jwt) 200) errorMapping
    (fun _ => demo_access_token) = Passed 7 <-> 2 = 1 ∨ 2 = 2) ∧
  (SuperAdminOnlyMiddleware Config.SecretKey (ParseWithClaims (JwtLibrary:=ToyJwt.toy_jwt) 200) errorMapping
    (fun _ => demo_access_token) = Passed 7 <-> 2 = 2).
Proof.
  apply (GenAccessToken_admitted (H:=ToyJwt.toy_jwt) errorMapping 7 2 3600 Config.SecretKey 100
           demo_access_token 200 (fun _ => demo_access_token));
    [reflexivity|apply in_int64_spec; reflexivity|lia|reflexivity].
Defined.

Lemma GenerateRandomUsername_shape_witness :
  ((∃ u, GenerateRandomUsername "ab" 8 (fun i => i) = Some u ∧
     String.length u = Z.to_nat 8 ∧ String.prefix "user_" u = true ∧
     ∀ j, (j < Z.to_nat (8 - 5))%nat ->
          String.get (5 + j) u = String.get (j mod String.length "ab")%nat "ab") ∧
   GenerateRandomUsername "" 8 (fun i => i) = None).
Proof.
  split.
  - apply (GenerateRandomUsername_shape "ab" 8 (fun i => i)); [lia|discriminate].
  - apply (GenerateRandomUsername_shape "" 8 (fun i => i)); [lia|reflexivity|lia].
Defined.
