(* ===== verification/App.v ===== *)
(** * The configuration and [main]

    [configs.GetConfig] (configs/config.go) builds the configuration
    every component reads: the MySQL and RabbitMQ DSNs (from constants
    that are not in the repository, here the record [Consts]), the JWT
    secret and lifetimes, the code lifetime, the Redis address, the
    article kinds and the reconciliation interval.  Durations are in
    seconds, as everywhere in the development.

    [main] (main.go) opens MySQL ([log.Fatalf] on an error), creates the
    Redis client, wires repositories, services and controllers to the
    configuration, starts [PeriodicUpdateLikes] in a goroutine and runs
    the router.  [server] is the router so wired: the JWT secret of the
    middleware and of [GenAccessToken], the code lifetime of [SendCode]
    and the kinds of [ValidateArticleKind] all come from [GetConfig].
    The running process is the step relation [app_step]: a request
    served, a tick of the ticker goroutine, a goroutine of the article
    service run, a message handled by a consumer goroutine, the clock
    advancing; any interleaving is allowed.  Any consumer goroutine
    that was started may handle the head of the queue: this
    over-approximates the consumer, whose phases and window are the
    step relation of Consumer.v, so invariants of [app_step] hold of
    the process.

    The theorems: the configuration agrees with the constants the
    handlers are modelled with; no state the process reaches holds an
    open MySQL transaction; and with the secret of [GetConfig],
    which is in the repository, anyone can forge a super administrator
    token for the deployed server. *)

From S2P Require Import Prelude Strconv Utils Redis Models Durable World Articles CodeStore Reservation Consumer Profile Middleware Controllers TxTyping Tokens.
Open Scope hcl_scope.
Open Scope Z_scope.

Import ErrorHandler Jwt UserController Router.

Module Configs.

Record MySQLConfig : Type := mkMySQLConfig { MySQL_DSN : string }.

Record JwtConfig : Type := mkJwtConfig {
  SecretKey : string;
  AccessTokenExpireDuration : Z;
  RefreshTokenExpireDuration : Z
}.

Record ArticleConfig : Type := mkArticleConfig {
  KindMap : gmap string bool;
  UpdateLikesInterval : Z
}.

Record CodeConfig : Type := mkCodeConfig { ExpireDuration : Z }.

Record RedisConfig : Type := mkRedisConfig { Addr : string; Password : string; DB : Z }.

Record RabbitMQConfig : Type := mkRabbitMQConfig { MQ_DSN : string; Durable : bool }.

Record Config : Type := mkConfig {
  MySQL : MySQLConfig;
  Jwt : JwtConfig;
  Code : CodeConfig;
  Redis : RedisConfig;
  Article : ArticleConfig;
  RabbitMQ : RabbitMQConfig
}.

(** The constants [GetConfig] reads from a file of the package that is
    not in the repository. *)
Record Consts : Type := mkConsts {
  MYSQL_USER : string; MYSQL_PASSWORD : string; MYSQL_HOST : string; MYSQL_PORT : string;
  MYSQL_DB_NAME : string; MQ_USER : string; MQ_PASSWORD : string; MQ_HOST : string; MQ_PORT : string
}.

Definition Minute : Z := 60.
Definition Hour : Z := 3600.

Definition GetConfig (c : Consts) : Config := {|
  MySQL := {| MySQL_DSN := MYSQL_USER c +:+ ":" +:+ MYSQL_PASSWORD c +:+ "@tcp(" +:+ MYSQL_HOST c +:+ ":"
                            +:+ MYSQL_PORT c +:+ ")/" +:+ MYSQL_DB_NAME c
                            +:+ "?charset=utf8mb4&parseTime=True&loc=Local" |};
  Jwt := {| SecretKey := "huancuilou";
            AccessTokenExpireDuration := Hour * 7 * 24;
            RefreshTokenExpireDuration := Hour * 7 * 24 |};
  Code := {| ExpireDuration := Minute * 2 |};
  Redis := {| Addr := "192.168.88.128:6379"; Password := "1234"; DB := 0 |};
  Article := {| KindMap := list_to_map [("生活服务", true); ("医疗救助", true); ("法律咨询", true);
                                         ("心理咨询", true); ("教育求助", true); ("其他", true)];
                UpdateLikesInterval := Hour |};
  RabbitMQ := {| MQ_DSN := "amqp://" +:+ MQ_USER c +:+ ":" +:+ MQ_PASSWORD c +:+ "@" +:+ MQ_HOST c
                           +:+ ":" +:+ MQ_PORT c +:+ "/";
                 Durable := true |}
|}.

(** [utils.ValidateArticleKind] (article_utils.go): a missing key reads
    as [false]. *)
Definition ValidateArticleKind (c : Consts) (kind : string) : bool :=
  default false (KindMap (Article (GetConfig c)) !! kind).

End Configs.

Import Configs.

(** [initial] (mysql_init.go, redis_init.go). *)
Module Initial.

(** The settings [InitMysql] gives the connection pool. *)
Record PoolSettings : Type := mkPool { MaxIdleConns : Z; MaxOpenConns : Z; ConnMaxLifetime : Z }.

Inductive mysql_result : Type :=
| MysqlOpened (pool : PoolSettings)
| MysqlError (e : string)
| MysqlPanic.

(** [InitMysql]: the error of [gorm.Open] is returned; the error of
    [db.DB()] is discarded, and on that path [sqlDB] is nil, so
    [sqlDB.SetMaxIdleConns] dereferences a nil pointer. *)
Definition InitMysql (open pool : res string unit) : mysql_result :=
  match open with
  | Err e => MysqlError e
  | Ok _ =>
      match pool with
      | Err _ => MysqlPanic
      | Ok _ => MysqlOpened (mkPool 10 100 (Hour * 1))
      end
  end.

(** [redis.Options] as [InitRedis] fills them; [redis.NewClient] does
    not connect. *)
Record RedisOptions : Type := mkRedisOptions { Opt_Addr : string; Opt_Password : string; Opt_DB : Z }.

Definition InitRedis (redisConfig : RedisConfig) : RedisOptions :=
  mkRedisOptions (Addr redisConfig) (Password redisConfig) (DB redisConfig).

End Initial.

Import Initial.

(** The dependencies [main] injects that carry data: the repositories
    hold the clients, which are the stores of [World]. *)
Module Wiring.

Record UserService : Type := mkUserService { config : Config }.

Definition NewUserService (config : Config) : UserService := mkUserService config.

Record UserController : Type := mkUserController { userService : UserService; jwtConfig : JwtConfig }.

Definition NewUserController (userService : UserService) (jwtConfig : JwtConfig) : UserController :=
  mkUserController userService jwtConfig.

End Wiring.

Section Main.
Context `{TimeCodec} `{JwtLibrary} (consts : Consts).
Context (driver_text : err -> string) (num_err : string -> string).
Context (ParseInLocation : string -> option Z) (time_err : string -> string).

Let cfg := GetConfig consts.

(** The router [main] runs, at time [now]: [NewUserController(userService,
    cfg.Jwt)] signs with [cfg.Jwt], the middleware parses with
    [GetConfig().Jwt.SecretKey], [NewUserService(..., &cfg, ...)] keeps
    codes for [cfg.Code.ExpireDuration]. *)
Definition server (now : Z) : string -> string -> request -> hstate -> outcome :=
  let uc := Wiring.NewUserController (Wiring.NewUserService cfg) (Jwt cfg) in
  Router.serve (SecretKey (Jwt (GetConfig consts))) (ParseWithClaims now) errorMapping driver_text num_err
    (fun id m => GenAccessToken id m (AccessTokenExpireDuration (Wiring.jwtConfig uc))
                   (SecretKey (Wiring.jwtConfig uc)) now)
    ParseInLocation time_err (ExpireDuration (Code (Wiring.config (Wiring.userService uc))))
    (ValidateArticleKind consts).

(** What [main] ends in: [log.Fatalf] with its message, a panic, or
    the router serving with the Redis client's options and the pool's
    settings. *)
Inductive main_result : Type :=
| MainFatal (msg : string) (w : World)
| MainPanic (w : World)
| MainServing (redis : RedisOptions) (pool : PoolSettings) (w : World).

(** [main]: [gorm.Open] of the configured DSN is [open], the pool
    lookup [db.DB()] is [pool] and [Router.Run] is [run].  [InitRedis]
    runs before the error of [InitMysql] is checked (it only builds the
    client); the goroutine of [PeriodicUpdateLikes] starts before
    [Router.Run], whose error is fatal too. *)
Definition main (open : string -> res string unit) (pool run : res string unit) (w : World) : main_result :=
  match InitMysql (open (MySQL_DSN (MySQL cfg))) pool with
  | MysqlPanic => MainPanic w
  | MysqlError e => MainFatal ("初始化数据库失败：" +:+ e) w
  | MysqlOpened p =>
      let RedisClient := InitRedis (Redis cfg) in
      let w1 := set_spawned (spawned w ++ [TaskPeriodicUpdateLikes (UpdateLikesInterval (Article cfg))]) w in
      match run with
      | Err e => MainFatal ("初始化路由失败：" +:+ e) w1
      | Ok _ => MainServing RedisClient p w1
      end
  end.

(** The running process, in any interleaving of its goroutines. *)
Inductive app_step : hstate -> hstate -> Prop :=
(** The router serves a request at the current time. *)
| AppRequest method path rq md w l s' :
    server (clock w) method path rq (md, w) = Served l s' -> app_step (md, w) s'
(** The ticker of [PeriodicUpdateLikes] fires. *)
| AppTick md w :
    TaskPeriodicUpdateLikes (UpdateLikesInterval (Article cfg)) ∈ spawned w ->
    app_step (md, w) (md, snd (ArticleService.PeriodicUpdateLikes_tick w))
(** A goroutine of the article service runs to its end. *)
| AppTask md w ts1 t ts2 m :
    spawned w = ts1 ++ t :: ts2 -> ArticleService.run_article_task t = Some m ->
    app_step (md, w) (md, snd (m (set_spawned (ts1 ++ ts2) w)))
(** A consumer goroutine handles the message at the head of the queue. *)
| AppConsume md w b e m q :
    TaskConsumer b e ∈ spawned w -> queue w = m :: q ->
    app_step (md, w) (md, snd (Consumer.handle_message m (set_queue q w)))
(** Time passes. *)
| AppClock md w t :
    clock w <= t -> app_step (md, w) (md, set_clock t w).

End Main.

(** ** Lemmas *)

(** The configuration is the constants the handlers are modelled with. *)
Lemma GetConfig_consts c :
  SecretKey (Jwt (GetConfig c)) = Config.SecretKey ∧
  AccessTokenExpireDuration (Jwt (GetConfig c)) = Config.AccessTokenExpireDuration ∧
  ExpireDuration (Code (GetConfig c)) = Config.CodeExpireDuration ∧
  UpdateLikesInterval (Article (GetConfig c)) = Config.UpdateLikesInterval.
Proof. done. Qed.

Lemma ValidateArticleKind_KindMap c kind : ValidateArticleKind c kind = Config.KindMap kind.
Proof.
  unfold ValidateArticleKind, Config.KindMap, Config.Kinds. simpl.
  rewrite !lookup_insert. repeat case_decide; subst; [done..|].
  rewrite lookup_empty. simpl. symmetry. rewrite !orb_false_iff.
  split_and!; try done; apply String.eqb_neq; congruence.
Qed.

Section AppLemmas.
Context `{TimeCodec} `{JwtLibrary} (consts : Consts).
Context (driver_text : err -> string) (num_err : string -> string).
Context (ParseInLocation : string -> option Z) (time_err : string -> string).

Lemma app_step_tx s s' :
  app_step consts driver_text num_err ParseInLocation time_err s s' ->
  txo s.2 = false -> txo s'.2 = false.
Proof.
  intros [method path rq md w l s1 E|md w _|md w ts1 t ts2 m _ Ht|md w b e m q _ _|md w t _]; simpl; intros Hw.
  - unfold server in E. by eapply serve_closes_tx.
  - pose proof (PeriodicUpdateLikes_tick_tx w Hw) as Hp. by case_match.
  - pose proof (run_article_task_tx t m Ht (set_spawned (ts1 ++ ts2) w) Hw) as Hp. by case_match.
  - pose proof (handle_message_tx m (set_queue q w) Hw) as Hp. by case_match.
  - done.
Qed.

End AppLemmas.

(** ** Claims *)

Section AppClaims.
Context `{TimeCodec} `{JwtLibrary} (consts : Consts).
Context (driver_text : err -> string) (num_err : string -> string).
Context (ParseInLocation : string -> option Z) (time_err : string -> string).

(** C23: Typing of the transaction state: in every state the running
    process reaches from one without an open MySQL transaction, no
    transaction is open: every [Begin] of a request, of the ticker, of
    an article goroutine or of the consumer is closed by a [Commit] or a
    [Rollback] on every path, under every pattern of infrastructure
    failures, and no step leaves a pooled connection held. *)
Theorem app_reachable_no_open_tx s s' :
  rtc (app_step consts driver_text num_err ParseInLocation time_err) s s' ->
  txo s.2 = false -> txo s'.2 = false.
Proof.
  apply (rtc_invariant _ (fun s => txo s.2 = false)). intros x y. apply app_step_tx.
Qed.

(** C15: The JWT secret of [GetConfig] is a constant of the repository:
    anyone who reads it can sign claims naming any user id with role 2,
    and with such a token the deployed server answers [PUT
    /user/add-administrator/:phoneNumber] with 200 and makes the owner
    of any phone number whose role is not 1 an administrator (a super
    administrator is demoted to 1 by the same request). *)
Theorem forged_token_promotes_any_phone rq md w fs victim exp iss tok p u :
  SignedString (mkClaims (Itoa victim) "2" exp iss) "huancuilou" = Ok tok -> clock w < exp ->
  int64_min <= victim <= int64_max ->
  req_header rq "accessToken" = tok -> req_param rq "phoneNumber" = p -> ValidatePhoneNumber p = true ->
  faults w = NoFault :: NoFault :: fs -> sql_user_by_phone p (store_db w) = Some u -> User.IsManager u ≠ 1 ->
  server consts driver_text num_err ParseInLocation time_err (clock w)
    "PUT" "/user/add-administrator/:phoneNumber" rq (md, w)
  = Served [RespOk PNone] (md, set_db (sql_set_manager_by_phone p (store_db w)) (set_faults fs w)).
Proof.
  intros Hs Ht Hv Hh Hp Hvp Hf Hu Hm. unfold server, Router.serve. simpl.
  unfold SuperAdminOnlyMiddleware.
  rewrite (validateToken_signed errorMapping _ (mkClaims (Itoa victim) "2" exp iss) _ _ _ _ Hs Ht Hh). simpl.
  rewrite (check_role_Itoa errorMapping _ victim 2 Hv). simpl. rewrite Hp.
  unfold UserController.AddAdministrator. rewrite Hvp. simpl. unfold finish.
  by rewrite finish_with_run, (AddAdminByPhoneNumber_run w fs p u Hf Hu Hm).
Qed.

End AppClaims.

(** ** Witnesses *)

Definition demo_consts : Consts := mkConsts "hcl" "pw" "127.0.0.1" "3306" "hcl" "guest" "guest" "127.0.0.1" "5672".

Definition demo_app_world : World :=
  match main demo_consts (fun _ => Ok tt) (Ok tt) (Ok tt) (demo_ctl_world 0 [] demo_users_db) with
  | MainServing _ _ w => w
  | MainFatal _ w | MainPanic w => w
  end.

Abbreviation demo_app_step :=
  (app_step (H:=decimal_time) (H0:=ToyJwt.toy_jwt) demo_consts demo_driver_text demo_num_err
     demo_parse_local demo_num_err).

Definition demo_tx_world : World :=
  set_queue ["7,1"] (set_spawned (TaskConsumer 0 10 :: spawned demo_app_world) demo_app_world).

Lemma app_reachable_no_open_tx_witness :
  rtc demo_app_step (mdb_empty, demo_tx_world)
    (mdb_empty, snd (Consumer.handle_message "7,1" (set_queue [] demo_tx_world))) ∧
  txo (snd (Consumer.handle_message "7,1" (set_queue [] demo_tx_world))) = false.
Proof.
  assert (Hr : rtc demo_app_step (mdb_empty, demo_tx_world)
    (mdb_empty, snd (Consumer.handle_message "7,1" (set_queue [] demo_tx_world)))).
  { apply rtc_once. eapply AppConsume; [apply list_elem_of_here|reflexivity]. }
  split; [exact Hr|].
  apply (app_reachable_no_open_tx (H:=decimal_time) (H0:=ToyJwt.toy_jwt) demo_consts demo_driver_text
           demo_num_err demo_parse_local demo_num_err _ _ Hr); reflexivity.
Defined.

Definition demo_forged_token : string :=
  ToyJwt.encode (mkClaims (Itoa 42) "2" 1000 "") "huancuilou".
Definition demo_forged_request : request :=
  mkReq (demo_token demo_forged_token) (fun _ => demo_phone) (fun _ => "") (Err "EOF") (Err "EOF") (Err "EOF")
    (Err "EOF") (fun _ => "") (Err "EOF") "" [].

Lemma forged_token_promotes_any_phone_witness :
  server (H:=decimal_time) (H0:=ToyJwt.toy_jwt) demo_consts demo_driver_text demo_num_err demo_parse_local
    demo_num_err 0 "PUT" "/user/add-administrator/:phoneNumber" demo_forged_request
    (mdb_empty, demo_ctl_world 0 [NoFault; NoFault] demo_users_db)
  = Served [RespOk PNone] (mdb_empty, set_db (sql_set_manager_by_phone demo_phone demo_users_db)
                                        (set_faults [] (demo_ctl_world 0 [NoFault; NoFault] demo_users_db))).
Proof.
  apply (forged_token_promotes_any_phone (H:=decimal_time) (H0:=ToyJwt.toy_jwt) demo_consts demo_driver_text
           demo_num_err demo_parse_local demo_num_err demo_forged_request mdb_empty
           (demo_ctl_world 0 [NoFault; NoFault] demo_users_db) [] 42 1000 "" demo_forged_token demo_phone
           demo_plain_user);
    [reflexivity|simpl; lia|apply in_int64_spec; reflexivity|reflexivity|reflexivity|reflexivity
    |reflexivity|reflexivity|discriminate].
Defined.
